(** * MetSim: the disaggregation routines of [metsim/disaggregate.py]

    A shallow embedding of [disaggregate] and of the routines it calls
    ([shortwave], [set_min_max_hour], [temp], [vapor_pressure],
    [relative_humidity], [longwave], [prec], [wind]).

    Conventions of the embedding.
    - numpy's float64 arithmetic is read as exact arithmetic over [Q]
      (with Stdlib's convention [x / 0 == 0] where IEEE gives inf or nan);
      rounding error is outside the model.
    - Python objects that the source updates in place, and the objects
      handed to [disaggregate] by its caller, live in a heap of objects
      and are addressed by location; an in-place statement of the source
      is a [store] on the heap.  Values that the source only ever rebinds
      (the results of numpy expressions) are plain values.
    - An exception is a [Raise]; the heap reached at that point is kept. *)

From Stdlib Require Import ZArith QArith Qround Qabs Lia Lqa.
From stdpp Require Import base option list list_numbers gmap strings.

Set Default Proof Using "Type".

(** ** Exceptions, results *)

Inductive exn : Type :=
| KeyError (key : string)
| ValueError
| IndexError
| TypeError
| ZeroDivisionError.

Inductive result (A : Type) : Type :=
| Ok (a : A)
| Raise (e : exn).
Arguments Ok {A} a.
Arguments Raise {A} e.

Definition is_ok {A} (r : result A) : bool :=
  match r with Ok _ => true | Raise _ => false end.

(** ** The heap of Python objects *)

Abbreviation loc := nat.

(** A cell of an output table: [None] is pandas' NaN (a value that is
    missing after a reindexing). *)
Abbreviation cell := (option Q).

Inductive obj : Type :=
| Ndarray (a : list Q)                       (* 1-d float array *)
| Ndarray2 (rows : list (list Q))            (* 2-d float array *)
| Series (index : list Z) (values : list Q)  (* integer-labelled pd.Series *)
| DataFrame (index : list Z) (columns : list (string * list cell)).

Abbreviation heap := (list obj).

(** ** The monad of heap-passing computations that may raise *)

Definition M (A : Type) : Type := heap -> result A * heap.

Definition ret {A} (a : A) : M A := fun h => (Ok a, h).

Definition bind {A B} (m : M A) (k : A -> M B) : M B :=
  fun h => match m h with
           | (Ok a, h') => k a h'
           | (Raise e, h') => (Raise e, h')
           end.

Definition raise {A} (e : exn) : M A := fun h => (Raise e, h).

Declare Scope py_scope.
Delimit Scope py_scope with py.
Notation "x <- m ;; k" := (bind m (fun x => k))
  (at level 100, m at next level, right associativity) : py_scope.
Notation "m ;;; k" := (bind m (fun _ => k))
  (at level 100, right associativity) : py_scope.
Local Open Scope py_scope.

(** A pure computation that may raise, run inside [M]. *)
Definition lift {A} (r : result A) : M A := fun h => (r, h).

(** [alloc o]: a fresh object; locations are handed out in order. *)
Definition alloc (o : obj) : M loc := fun h => (Ok (length h), h ++ [o]).

Definition load (l : loc) : M obj :=
  fun h => match h !! l with
           | Some o => (Ok o, h)
           | None => (Raise ValueError, h)
           end.

Definition store (l : loc) (o : obj) : M unit :=
  fun h => match h !! l with
           | Some _ => (Ok tt, <[l := o]> h)
           | None => (Raise ValueError, h)
           end.

Definition load_ndarray (l : loc) : M (list Q) :=
  o <- load l ;;
  match o with Ndarray a => ret a | _ => raise ValueError end.

Definition load_ndarray2 (l : loc) : M (list (list Q)) :=
  o <- load l ;;
  match o with Ndarray2 a => ret a | _ => raise ValueError end.

Definition load_series (l : loc) : M (list Z * list Q) :=
  o <- load l ;;
  match o with Series i v => ret (i, v) | _ => raise ValueError end.

(** [for x in xs: body]. *)
Fixpoint for_ {A} (xs : list A) (body : A -> M unit) : M unit :=
  match xs with
  | [] => ret tt
  | x :: xs' => body x ;;; for_ xs' body
  end.

(** ** Result monad for the routines that touch no object *)

Definition rbind {A B} (r : result A) (k : A -> result B) : result B :=
  match r with Ok a => k a | Raise e => Raise e end.

Declare Scope res_scope.
Delimit Scope res_scope with res.
Notation "x <-- m ;; k" := (rbind m (fun x => k))
  (at level 100, m at next level, right associativity) : res_scope.

(** ** numpy and Python helpers *)

Local Open Scope Q_scope.

Definition Z2Q (z : Z) : Q := inject_Z z.

(** [x < y] on floats. *)
Definition Qlt_bool (x y : Q) : bool := negb (Qle_bool y x).

(** [np.sum] and the builtin [sum] over floats. *)
Definition qsum (l : list Q) : Q := foldr Qplus 0 l.

(** [a[i]]: a negative position counts from the end; a position outside
    the sequence raises. *)
Definition getitem {A} (a : list A) (i : Z) : result A :=
  let i' := if (i <? 0)%Z then (Z.of_nat (length a) + i)%Z else i in
  if (i' <? 0)%Z then Raise IndexError
  else match a !! Z.to_nat i' with
       | Some x => Ok x
       | None => Raise IndexError
       end.

(** Bound of a Python slice: negative bounds count from the end, and a
    bound is clipped to the sequence. *)
Definition slice_bound (len i : Z) : nat :=
  Z.to_nat (Z.min len (if (i <? 0)%Z then Z.max 0 (len + i) else i)).

(** [a[i:j]], [a[i:]] and [a[:j]]. *)
Definition slice {A} (a : list A) (i j : Z) : list A :=
  let n := Z.of_nat (length a) in
  take (slice_bound n j - slice_bound n i) (drop (slice_bound n i) a).
Definition slice_from {A} (a : list A) (i : Z) : list A :=
  drop (slice_bound (Z.of_nat (length a)) i) a.
Definition slice_to {A} (a : list A) (j : Z) : list A :=
  take (slice_bound (Z.of_nat (length a)) j) a.

(** [np.ceil] and [np.floor] of a float, as integers. *)
Definition np_ceil (x : Q) : Z := Qceiling x.
Definition np_floor (x : Q) : Z := Qfloor x.

(** Python's [int(x)]: truncation towards zero. *)
Definition py_int (x : Q) : Z := Qnum x ÷ Zpos (Qden x).

(** ** metsim.constants *)

(** Modelled from the spec: [metsim/constants.py] is not among the source
    files.  The spec fixes the day at 1440 minutes and names seconds,
    percent, the Kelvin offset and the Stefan-Boltzmann constant; the
    values below are the ones those names denote. *)
Module cnst.
Definition MIN_PER_HOUR : Q := 60.
Definition HOURS_PER_DAY : Q := 24.
Definition SEC_PER_MIN : Q := 60.
Definition SEC_PER_HOUR : Q := 3600.
Definition SW_RAD_DT : Q := 30.
Definition DEG_PER_REV : Q := 360.
Definition KELVIN : Q := 27315 # 100.
Definition STEFAN_B : Q := 5669 # 100000000000.
Definition MAX_PERCENT : Q := 100.
Definition MBAR_PER_BAR : Q := 1000.
End cnst.

(** ** Precipitation, TRIANGLE strategy: [prec_TRIANGLE] *)

(** [kernels[month, step] = v]. *)
Definition setitem2 (kernels : loc) (month step : Z) (v : Q) : M unit :=
  rows <- load_ndarray2 kernels ;;
  row <- lift (getitem rows month) ;;
  _ <- lift (getitem row step) ;;
  store kernels
    (Ndarray2 (<[Z.to_nat month := <[Z.to_nat step := v]> row]> rows)).

(** Position of a label in an index. *)
Fixpoint index_of (idx : list Z) (label : Z) : option nat :=
  match idx with
  | [] => None
  | x :: idx' => if (x =? label)%Z then Some O
                 else S <$> index_of idx' label
  end.

(** [P_return[step] = v] on a pd.Series: the value at label [step] is
    set; a label that the index does not hold is appended (pandas' setting
    with enlargement). *)
Definition series_setitem (P_return : loc) (step : Z) (v : Q) : M unit :=
  s <- load_series P_return ;;
  match index_of s.1 step with
  | Some i => store P_return (Series s.1 (<[i := v]> s.2))
  | None => store P_return (Series (s.1 ++ [step]) (s.2 ++ [v]))
  end.

(** [P_return[i:j] += v] (a missing bound is [None]): the positions are
    those of the Python slice; the operands must have one length, or [v]
    one element. *)
Definition series_iadd (P_return : loc) (i j : option Z) (v : list Q)
  : M unit :=
  s <- load_series P_return ;;
  let n := Z.of_nat (length s.2) in
  let lo := from_option (slice_bound n) O i in
  let hi := from_option (slice_bound n) (length s.2) j in
  let cur := take (hi - lo) (drop lo s.2) in
  if (length cur =? length v)%nat then
    store P_return
      (Series s.1 (take lo s.2 ++ zip_with Qplus cur v
                   ++ drop (lo + length cur) s.2))
  else match v with
       | [x] => store P_return
                  (Series s.1 (take lo s.2 ++ map (fun c => c + x) cur
                               ++ drop (lo + length cur) s.2))
       | _ => raise ValueError
       end.

Section Kernel.
(** The time step in minutes, the offset of the day's first bin inside
    the two-day window, and the window's length in bins. *)
Variables (ts : Q) (offset : Z) (steps_per_two_days : Z).
(** The objects the loops write to. *)
Variables (kernels P_return : loc).
Variables (month : Z) (dur_m t_pk_m : Q).

Definition I_pk : Q := 2 * 1 / dur_m.
Definition m_slope : Q := I_pk / (dur_m / 2).
Definition t_start : Q := t_pk_m - dur_m / 2.
Definition t_end : Q := t_pk_m + dur_m / 2.
Definition i_start : Z := (np_floor (t_start / ts) + offset)%Z.
Definition i_end : Z := (np_floor (t_end / ts) + offset)%Z.
Definition i_t_pk : Z := (np_floor (t_pk_m / ts) + offset)%Z.

Definition t_step_start (step : Z) : Q := Z2Q (step - offset) * ts.
Definition t_step_end (step : Z) : Q := t_step_start step + ts.

(** Peak in the first bin of the pulse: [i_start == i_t_pk and
    i_end != i_start]. *)
Definition body_peak_first (step : Z) : M unit :=
  let m := m_slope in
  if (step =? i_start)%Z then
    let h1 := t_pk_m - t_start in
    let b1 := m * h1 in
    let A1 := b1 / 2 * h1 in
    let b2 := - m * (t_step_end step - t_end) in
    let a2 := b2 + (- m * (t_pk_m - t_step_end step)) in
    let A2 := (a2 + b2) / 2 * (t_step_end step - t_pk_m) in
    setitem2 kernels month step (A1 + A2)
  else if ((i_start <? step) && (step <? i_end))%Z then
    let b := - m * (t_step_end step - t_end) in
    let a := - m * (t_step_start step - t_step_end step) in
    setitem2 kernels month step ((a + b) / 2 * ts)
  else if (step =? i_end)%Z then
    let h := t_step_start step - t_end in
    let b := - m * h in
    setitem2 kernels month step (b / 2 * - h)
  else setitem2 kernels month step 0.

(** Peak in the last bin of the pulse: [i_t_pk == i_end and
    i_end != i_start]. *)
Definition body_peak_last (step : Z) : M unit :=
  let m := m_slope in
  if (step =? i_start)%Z then
    let h := t_step_end step - t_start in
    let b := m * h in
    setitem2 kernels month step (b / 2 * h)
  else if (step =? i_t_pk)%Z then
    let h2 := t_pk_m - t_end in
    let b2 := - m * h2 in
    let A2 := b2 / 2 * - h2 in
    let b1 := m * (t_step_start step - t_start) in
    let a1 := b1 + m * (t_pk_m - t_step_start step) in
    let A1 := (a1 + b1) / 2 * (t_pk_m - t_step_start step) in
    setitem2 kernels month step (A1 + A2)
  else setitem2 kernels month step 0.

(** The whole pulse in one bin: [i_start == i_end]. *)
Definition body_one_bin (step : Z) : M unit :=
  if (step =? i_start)%Z then setitem2 kernels month step 1
  else setitem2 kernels month step 0.

(** Start, peak and end in three different bins. *)
Definition body_general (step : Z) : M unit :=
  let m := m_slope in
  if (step =? i_start)%Z then
    let h := t_step_end step - t_start in
    let b := m * h in
    setitem2 kernels month step (b / 2 * h)
  else if ((i_start <? step) && (step <? i_t_pk))%Z then
    let a := m * (t_step_start step - t_start) in
    let b := a + m * ts in
    setitem2 kernels month step ((a + b) / 2 * ts)
  else if (i_t_pk =? step)%Z then
    let h1 := t_pk_m - t_step_start step in
    let a1 := m * (t_step_start step - t_start) in
    let b1 := a1 + m * h1 in
    let h2 := t_step_end step - t_pk_m in
    let b2 := - m * (t_step_end step - t_end) in
    let a2 := b2 + m * h2 in
    setitem2 kernels month step ((a1 + b1) / 2 * h1 + (a2 + b2) / 2 * h2)
  else if ((step <? i_end) && (i_t_pk <? step))%Z then
    let b := if negb (Qeq_bool (t_step_end step) t_end)
             then - m * (t_step_end step - t_end) else 0 in
    let a := b + m * ts in
    setitem2 kernels month step ((a + b) / 2 * ts)
  else if (step =? i_end)%Z then
    let h := t_step_start step - t_end in
    let b := if negb (Qeq_bool (t_step_start step) t_end)
             then - m * h else 0 in
    setitem2 kernels month step (b / 2 * - h)
  else series_setitem P_return step 0.

(** One turn of [for month in np.arange(12)]. *)
Definition kernel_month : M unit :=
  let steps := seqZ 0 steps_per_two_days in
  if ((i_start =? i_t_pk) && negb (i_end =? i_start))%Z then
    for_ steps body_peak_first
  else if ((i_t_pk =? i_end) && negb (i_end =? i_start))%Z then
    for_ steps body_peak_last
  else if (i_start =? i_end)%Z then
    for_ steps body_one_bin
  else
    for_ steps body_general.
End Kernel.

(** [for month in np.arange(12, dtype=int)]: one unit hyetograph per month;
    [dur] and [t_pk] are the caller's arrays. *)
Definition build_kernels (ts : Q) (offset steps_per_two_days : Z)
    (kernels P_return dur t_pk : loc) : M unit :=
  for_ (seqZ 0 12) (fun month =>
    dur_v <- load_ndarray dur ;;
    dur_m <- lift (getitem dur_v month) ;;
    t_pk_v <- load_ndarray t_pk ;;
    t_pk_m <- lift (getitem t_pk_v month) ;;
    kernel_month ts offset steps_per_two_days kernels P_return month dur_m t_pk_m).

(** [np.rint]: the nearest integer, a tie going to the even one. *)
Definition np_rint (y : Q) : Z :=
  let f := Qfloor y in
  match Qcompare (y - Z2Q f) (1 # 2) with
  | Lt => f
  | Gt => (f + 1)%Z
  | Eq => if Z.even f then f else (f + 1)%Z
  end.

(** [np.around(x, decimals=5)]. *)
Definition around5 (x : Q) : Q := Z2Q (np_rint (x * 100000)) / 100000.

(** [1 / sum(k)] with the builtin [sum]: over no element the sum is the
    integer 0 and the division raises. *)
Definition recip_sum (k : list Q) : result Q :=
  match k with
  | [] => Raise ZeroDivisionError
  | _ => Ok (1 / qsum k)
  end.

(** [int(cnst.MIN_PER_HOUR * cnst.HOURS_PER_DAY / int(ts))]. *)
Definition steps_per_day_of (time_step : Z) : result Z :=
  if (time_step =? 0)%Z then Raise ZeroDivisionError
  else Ok (py_int (cnst.MIN_PER_HOUR * cnst.HOURS_PER_DAY / Z2Q time_step)).

Section ApplyKernels.
Variables (kernels P_return prec : loc).
Variables (month_of_year : list Z) (steps_per_day n_days : Z).

(** One turn of [for d in np.arange(n_days)]. *)
Definition apply_day (d : Z) : M unit :=
  if (d =? 0)%Z then
    let i1 := py_int (Z2Q (np_ceil (Z2Q steps_per_day * (15 # 10)))) in
    rows <- load_ndarray2 kernels ;;
    mo <- lift (getitem month_of_year d) ;;
    row <- lift (getitem rows (mo - 1)) ;;
    let k := slice_from row (py_int (Z2Q (np_ceil (Z2Q steps_per_day / 2)))) in
    r <- lift (recip_sum k) ;;
    p <- load_ndarray prec ;;
    p_d <- lift (getitem p d) ;;
    series_iadd P_return None (Some i1) (map (fun x => r * p_d * x) k)
  else if (d =? n_days - 1)%Z then
    let i0 := py_int (Z2Q (np_floor ((Z2Q d - (1 # 2)) * Z2Q steps_per_day))) in
    rows <- load_ndarray2 kernels ;;
    mo <- lift (getitem month_of_year d) ;;
    row <- lift (getitem rows (mo - 1)) ;;
    let k := slice_to row (py_int (Z2Q (np_ceil (Z2Q steps_per_day * (15 # 10))))) in
    r <- lift (recip_sum k) ;;
    p <- load_ndarray prec ;;
    p_d <- lift (getitem p d) ;;
    series_iadd P_return (Some i0) None (map (fun x => r * p_d * x) k)
  else
    let i0 := py_int (Z2Q (np_floor ((Z2Q d - (1 # 2)) * Z2Q steps_per_day))) in
    let i1 := (i0 + 2 * steps_per_day)%Z in
    p <- load_ndarray prec ;;
    p_d <- lift (getitem p d) ;;
    rows <- load_ndarray2 kernels ;;
    mo <- lift (getitem month_of_year d) ;;
    row <- lift (getitem rows (mo - 1)) ;;
    series_iadd P_return (Some i0) (Some i1) (map (fun x => p_d * x) row).
End ApplyKernels.

(** [prec_TRIANGLE(prec, ts, dur=, t_pk=, day_of_year=, month_of_year=)];
    [prec], [dur] and [t_pk] are the caller's objects. *)
Definition prec_TRIANGLE (prec : loc) (time_step : Z) (dur t_pk : loc)
    (month_of_year : list Z) : M (list Q) :=
  let ts := Z2Q time_step in
  p <- load_ndarray prec ;;
  let n_days := Z.of_nat (length p) in
  steps_per_day <- lift (steps_per_day_of time_step) ;;
  let offset := np_ceil (Z2Q steps_per_day / 2) in
  let output_length := py_int (Z2Q (steps_per_day * n_days)) in
  let index := seqZ 0 output_length in
  let steps_per_two_days :=
    py_int (Z2Q (np_ceil (Z2Q steps_per_day / 2)) * 2 + Z2Q steps_per_day) in
  P_return <- alloc (Series index (replicate (Z.to_nat output_length) 0)) ;;
  kernels <- alloc (Ndarray2 (replicate 12 (replicate (Z.to_nat steps_per_two_days) 0))) ;;
  build_kernels ts offset steps_per_two_days kernels P_return dur t_pk ;;;
  for_ (seqZ 0 n_days)
    (apply_day kernels P_return prec month_of_year steps_per_day n_days) ;;;
  s <- load_series P_return ;;
  ret (map around5 s.2).

(** ** Configuration *)

(** The entries of the [params] dict that the routines read.  [theta_l]
    and [theta_s] are read with [params.get(.., 0)] and may be absent. *)
Record params : Type := {
  time_step : Z;
  prec_type : string;
  lw_type : string;
  lw_cloud : string;
  tmax_daylength_fraction : Q;
  theta_l : option Q;
  theta_s : option Q
}.

(** ** Shortwave radiation: [shortwave] *)

(** numpy's elementwise binary operation with broadcasting of a
    one-element operand. *)
Definition np_binop {A B C} (f : A -> B -> C) (a : list A) (b : list B)
  : result (list C) :=
  if (length a =? length b)%nat then Ok (zip_with f a b)
  else match a, b with
       | [x], _ => Ok (map (f x) b)
       | _, [y] => Ok (map (fun x => f x y) a)
       | _, _ => Raise ValueError
       end.

(** [a[lo:hi] = v] on an ndarray held at [l]. *)
Definition ndarray_setslice (l : loc) (i j : Z) (v : list Q) : M unit :=
  a <- load_ndarray l ;;
  let n := Z.of_nat (length a) in
  let lo := slice_bound n i in
  let hi := slice_bound n j in
  let len := (hi - lo)%nat in
  if (len =? length v)%nat then
    store l (Ndarray (take lo a ++ v ++ drop (lo + len) a))
  else match v with
       | [x] => store l (Ndarray (take lo a ++ replicate len x ++ drop (lo + len) a))
       | _ => raise ValueError
       end.

(** [a[inds] += c] where [inds] is the boolean mask [test a]. *)
Definition ndarray_iadd_where (l : loc) (test : Q -> bool) (c : Q) : M unit :=
  a <- load_ndarray l ;;
  store l (Ndarray (map (fun x => if test x then x + c else x) a)).

(** [x.reshape((int(len(x) / chunk_size), chunk_size))]. *)
Fixpoint chunks (rows : nat) (chunk_size : nat) (x : list Q) : list (list Q) :=
  match rows with
  | O => []
  | S rows' => take chunk_size x :: chunks rows' chunk_size (drop chunk_size x)
  end.

Definition np_reshape (x : list Q) (chunk_size : Z) : result (list (list Q)) :=
  if (chunk_size =? 0)%Z then Raise ZeroDivisionError
  else
    let rows := py_int (Z2Q (Z.of_nat (length x)) / Z2Q chunk_size) in
    if ((0 <=? rows) && (0 <=? chunk_size)
        && (rows * chunk_size =? Z.of_nat (length x)))%Z
    then Ok (chunks (Z.to_nat rows) (Z.to_nat chunk_size) x)
    else Raise ValueError.

(** [np.sum(x.reshape(..), axis=1)]. *)
Definition chunk_sum (chunk_size : Z) (x : list Q) : result (list Q) :=
  rbind (np_reshape x chunk_size) (fun m => Ok (map qsum m)).

(** [rad[tinystep]]: indexing by an integer array. *)
Fixpoint take_indices (rad : list Q) (tinystep : list Z) : result (list Q) :=
  match tinystep with
  | [] => Ok []
  | i :: rest =>
      rbind (getitem rad i) (fun x =>
      rbind (take_indices rad rest) (fun xs => Ok (x :: xs)))
  end.

Section Shortwave.
(** [sw_rad] and [daylength] are columns of the caller's daily table,
    [tiny_rad_fract] is the caller's solar-geometry table. *)
Variables (sw_rad daylength : loc) (day_of_year : list Z).
Variables (tiny_rad_fract : loc) (pr : params).

Definition tiny_step_per_hour : Q := cnst.SEC_PER_HOUR / cnst.SW_RAD_DT.

(** The number of fine steps of a day, [HOURS_PER_DAY * tiny_step_per_hour]. *)
Definition tiny_steps_per_day : Q := cnst.HOURS_PER_DAY * tiny_step_per_hour.

Definition tiny_offset : Q :=
  default 0 (theta_l pr)
  - default 0 (theta_s pr) / (cnst.HOURS_PER_DAY / cnst.DEG_PER_REV).

(** One turn of [for day in range(n_days)]. *)
Definition shortwave_day (disaggrad : loc) (tinystep : list Z)
    (tmp_rad : list Q) (ts_per_day : Q) (chunk_size : Z) (day : Z) : M unit :=
  table <- load_ndarray2 tiny_rad_fract ;;
  doy <- lift (getitem day_of_year day) ;;
  rad <- lift (getitem table (doy - 1)) ;;
  rad_chunk <- lift (take_indices rad tinystep) ;;
  sums <- lift (chunk_sum chunk_size rad_chunk) ;;
  t <- lift (getitem tmp_rad day) ;;
  ndarray_setslice disaggrad
    (py_int (Z2Q day * ts_per_day)) (py_int ((Z2Q day + 1) * ts_per_day))
    (map (fun x => x * t) sums).

(** [shortwave(sw_rad, daylength, day_of_year, tiny_rad_fract, params)];
    the result is the array [disaggrad], a new object. *)
Definition shortwave : M loc :=
  sw <- load_ndarray sw_rad ;;
  dl <- load_ndarray daylength ;;
  prod <- lift (np_binop Qmult sw dl) ;;
  let tmp_rad := map (fun x => x / cnst.SEC_PER_HOUR) prod in
  let n_days := Z.of_nat (length tmp_rad) in
  if (time_step pr =? 0)%Z then raise ZeroDivisionError else
  let ts_per_day :=
    cnst.HOURS_PER_DAY * cnst.MIN_PER_HOUR / Z2Q (time_step pr) in
  disaggrad <- alloc (Ndarray (replicate (Z.to_nat (py_int (Z2Q n_days * ts_per_day))) 0)) ;;
  tinystep <- alloc (Ndarray (map (fun k => Z2Q k - tiny_offset)
                                  (seqZ 0 (np_ceil tiny_steps_per_day)))) ;;
  ndarray_iadd_where tinystep (fun x => Qlt_bool x 0) tiny_steps_per_day ;;;
  ndarray_iadd_where tinystep
    (fun x => Qlt_bool (tiny_steps_per_day - 1) x) (- tiny_steps_per_day) ;;;
  tinystep_f <- load_ndarray tinystep ;;
  let tinystep_i := map py_int tinystep_f in
  let chunk_size :=
    py_int (Z2Q (time_step pr) * (cnst.SEC_PER_MIN / cnst.SW_RAD_DT)) in
  for_ (seqZ 0 n_days)
    (shortwave_day disaggrad tinystep_i tmp_rad ts_per_day chunk_size) ;;;
  ret disaggrad.
End Shortwave.

(** ** Times of the daily temperature extrema: [set_min_max_hour] *)

(** [1 * (disagg_rad > 0)]; a NaN compares false. *)
Definition rad_mask (disagg_rad : list cell) : list Z :=
  map (fun c => match c with
                | Some x => if Qlt_bool 0 x then 1%Z else 0%Z
                | None => 0%Z
                end) disagg_rad.

(** [np.diff]. *)
Definition np_diff (a : list Z) : list Z :=
  zip_with (fun x y => (y - x)%Z) a (tail a).

(** [np.where(cond)[0]]: the positions that satisfy the condition, in
    increasing order. *)
Fixpoint np_where_from (i : Z) (test : Z -> bool) (a : list Z) : list Z :=
  match a with
  | [] => []
  | x :: a' => if test x then i :: np_where_from (i + 1) test a'
               else np_where_from (i + 1) test a'
  end.
Definition np_where (test : Z -> bool) (a : list Z) : list Z :=
  np_where_from 0 test a.

Definition set_min_max_hour (disagg_rad : list cell) (n_days : Z) (ts : Q)
    (pr : params) : result (list Q * list Q) :=
  let diff_mask := np_diff (rad_mask disagg_rad) in
  let rise_times := map (fun i => Z2Q i * ts) (np_where (fun x => 0 <? x)%Z diff_mask) in
  let set_times := map (fun i => Z2Q i * ts) (np_where (fun x => x <? 0)%Z diff_mask) in
  rbind (np_binop Qminus set_times rise_times) (fun span =>
  rbind (np_binop Qplus (map (fun x => tmax_daylength_fraction pr * x) span)
           rise_times) (fun t_t_max =>
  let t_t_min := rise_times in
  Ok (t_t_min, t_t_max))).

(** ** scipy.interpolate *)

(** The two interpolators of scipy that the routines call, after scipy's
    documentation and algorithm: [PchipInterpolator] (piecewise cubic
    Hermite with the Fritsch-Butland derivatives, extrapolating with the
    end pieces) and [interp1d] (linear, [fill_value='extrapolate']). *)
Module scipy.

Definition sign (x : Q) : Z :=
  match Qcompare x 0 with Lt => (-1)%Z | Eq => 0%Z | Gt => 1%Z end.

Fixpoint strictly_increasing (x : list Q) : bool :=
  match x with
  | a :: t => match t with
              | b :: _ => Qlt_bool a b && strictly_increasing t
              | [] => true
              end
  | [] => true
  end.

(** [x[1:] - x[:-1]]. *)
Definition steps (x : list Q) : list Q := zip_with (fun a b => b - a) x (tail x).

(** One-sided three-point estimate of the derivative at an end. *)
Definition edge_case (h0 h1 m0 m1 : Q) : Q :=
  let d := ((2 * h0 + h1) * m0 - h0 * m1) / (h0 + h1) in
  if negb (sign d =? sign m0)%Z then 0
  else if negb (sign m0 =? sign m1)%Z && Qlt_bool (3 * Qabs m0) (Qabs d)
       then 3 * m0
       else d.

(** Derivative at an interior breakpoint: zero at a local extremum, else
    the weighted harmonic mean of the two slopes. *)
Definition interior_derivative (h0 h1 m0 m1 : Q) : Q :=
  if negb (sign m1 =? sign m0)%Z || Qeq_bool m1 0 || Qeq_bool m0 0 then 0
  else
    let w1 := 2 * h1 + h0 in
    let w2 := h1 + 2 * h0 in
    1 / ((w1 / m0 + w2 / m1) / (w1 + w2)).

Fixpoint interior_derivatives (hk mk : list Q) : list Q :=
  match hk, mk with
  | h0 :: hk', m0 :: mk' =>
      match hk', mk' with
      | h1 :: _, m1 :: _ =>
          interior_derivative h0 h1 m0 m1 :: interior_derivatives hk' mk'
      | _, _ => []
      end
  | _, _ => []
  end.

Definition find_derivatives (x y : list Q) : list Q :=
  let hk := steps x in
  let mk := zip_with Qdiv (steps y) hk in
  match hk, mk with
  | [_], [m0] => [m0; m0]
  | h0 :: h1 :: _, m0 :: m1 :: _ =>
      let rh := reverse hk in
      let rm := reverse mk in
      edge_case h0 h1 m0 m1 :: interior_derivatives hk mk
      ++ [edge_case (default 0 (rh !! 0%nat)) (default 0 (rh !! 1%nat))
                    (default 0 (rm !! 0%nat)) (default 0 (rm !! 1%nat))]
  | _, _ => []
  end.

(** The piece that evaluates [v]: the one whose half-open interval holds
    it, the first or the last piece outside the breakpoints. *)
Fixpoint find_interval (x : list Q) (v : Q) : nat :=
  match x with
  | _ :: t => match t with
              | b :: _ :: _ => if Qlt_bool v b then O else S (find_interval t v)
              | _ => O
              end
  | [] => O
  end.

(** The cubic of piece [i] in the local power basis. *)
Definition eval_piece (x y d : list Q) (i : nat) (v : Q) : Q :=
  let xi := default 0 (x !! i) in
  let h := default 0 (x !! S i) - xi in
  let yi := default 0 (y !! i) in
  let di := default 0 (d !! i) in
  let slope := (default 0 (y !! S i) - yi) / h in
  let t := (di + default 0 (d !! S i) - 2 * slope) / h in
  let c0 := t / h in
  let c1 := (slope - di) / h - t in
  let s := v - xi in
  ((c0 * s + c1) * s + di) * s + yi.

Definition PchipInterpolator (x y : list Q) : result (Q -> Q) :=
  if negb (length x =? length y)%nat then Raise ValueError
  else if (length x <? 2)%nat then Raise ValueError
  else if negb (strictly_increasing x) then Raise ValueError
  else Ok (fun v => eval_piece x y (find_derivatives x y) (find_interval x v) v).

(** Stable sort of the points by abscissa ([np.argsort(x, kind='mergesort')]). *)
Fixpoint insert_point (p : Q * Q) (l : list (Q * Q)) : list (Q * Q) :=
  match l with
  | [] => [p]
  | q :: l' => if Qlt_bool p.1 q.1 then p :: l else q :: insert_point p l'
  end.
Definition sort_points (l : list (Q * Q)) : list (Q * Q) :=
  foldr insert_point [] l.

(** [np.searchsorted(x, v)]: the number of abscissae below [v]. *)
Fixpoint searchsorted (x : list Q) (v : Q) : nat :=
  match x with
  | a :: x' => if Qlt_bool a v then S (searchsorted x' v) else O
  | [] => O
  end.

Definition interp1d (x y : list Q) : result (Q -> Q) :=
  if negb (length x =? length y)%nat then Raise ValueError
  else if (length x <? 2)%nat then Raise ValueError
  else
    let pts := sort_points (zip x y) in
    let xs := pts.*1 in
    let ys := pts.*2 in
    Ok (fun v =>
          let hi := Nat.min (Nat.max 1 (searchsorted xs v)) (length xs - 1) in
          let lo := (hi - 1)%nat in
          let x_lo := default 0 (xs !! lo) in
          let y_lo := default 0 (ys !! lo) in
          let slope := (default 0 (ys !! hi) - y_lo) / (default 0 (xs !! hi) - x_lo) in
          slope * (v - x_lo) + y_lo).

End scipy.

(** ** Temperature: [temp] *)

(** [list(next(it) for it in itertools.cycle([iter(a), iter(b)]))]: the two
    sequences in turn, until the one whose turn it is has no element left
    (the reading of the interpreters the module was written for, where a
    StopIteration ends the generator). *)
Fixpoint alternate (a b : list Q) : list Q :=
  match a with
  | [] => []
  | x :: a' => match b with
               | [] => [x]
               | y :: b' => x :: y :: alternate a' b'
               end
  end.

(** [a[-2:]]. *)
Definition last_two {A} (a : list A) : list A := slice_from a (-2).

(** The knots handed to the interpolator: abscissae and ordinates after the
    padding of both ends. *)
Definition temp_knots (t_min t_max t_t_min t_t_max : list Q)
    (t_begin t_end : option (list Q)) : list Q * list Q :=
  let time := alternate t_t_min t_t_max in
  let temp := alternate t_min t_max in
  let ts_ends := cnst.MIN_PER_HOUR * cnst.HOURS_PER_DAY in
  let time := map (fun x => x - ts_ends) (slice time 0 2) ++ time
              ++ map (fun x => x + ts_ends) (last_two time) in
  let t_begin := default (slice temp 0 2) t_begin in
  let t_end := default (last_two temp) t_end in
  (time, t_begin ++ temp ++ t_end).

(** The interpolant [interp] that [temp] fits. *)
Definition temp_interp (t_min t_max t_t_min t_t_max : list Q)
    (t_begin t_end : option (list Q)) : result (Q -> Q) :=
  let k := temp_knots t_min t_max t_t_min t_t_max t_begin t_end in
  scipy.PchipInterpolator k.1 k.2.

(** [temp(df_daily, df_disagg, t_t_min, t_t_max, ts, t_begin, t_end)], on
    the two columns of [df_daily] it reads and the length of
    [df_disagg.index]. *)
Definition temp (t_min t_max : list Q) (n_disagg : Z)
    (t_t_min t_t_max : list Q) (ts : Q)
    (t_begin t_end : option (list Q)) : result (list Q) :=
  rbind (temp_interp t_min t_max t_t_min t_t_max t_begin t_end) (fun interp =>
  Ok (map (fun k => interp (ts * Z2Q k)) (seqZ 0 n_disagg))).

(** ** The functions of [metsim.physics] and numpy that are not rational *)

(** [svp] (of [metsim/physics.py], which is not among the source files)
    and numpy's [exp], [sqrt] and [power] with a fractional exponent are
    parameters of the embedding. *)
Class Transcendental : Type := {
  svp : Q -> Q;
  np_exp : Q -> Q;
  np_sqrt : Q -> Q;
  np_power : Q -> Q -> Q
}.

(** ** Vapor pressure and relative humidity *)

Section Humidity.
Context `{Transcendental}.

(** [vapor_pressure(vp_daily, temp, t_t_min, n_out, ts)]; [temp] is a
    column of the output table. *)
Definition vapor_pressure (vp_daily : list Q) (temp : list cell)
    (t_t_min : list Q) (n_out : Z) (ts : Q) : result (list Q) :=
  rbind (scipy.interp1d t_t_min (map (fun v => v / cnst.MBAR_PER_BAR) vp_daily))
    (fun interp =>
  let vp_disagg := map (fun k => interp (ts * Z2Q k)) (seqZ 0 n_out) in
  let vp_sat := map (fmap (fun t => svp t / cnst.MBAR_PER_BAR)) temp in
  np_binop (fun (s : cell) (v : Q) =>
              match s with
              | Some s => if Qlt_bool s v then s else v
              | None => v
              end) vp_sat vp_disagg).

(** [relative_humidity(vapor_pressure, temp)], both columns of the output
    table; [rh.where(rh < 100, 100)] replaces every value that is not
    below 100, a NaN included. *)
Definition relative_humidity (vapor_pressure temp : list cell)
  : result (list cell) :=
  rbind (np_binop (fun (v t : cell) =>
                     match v, t with
                     | Some v, Some t =>
                         Some (cnst.MAX_PERCENT * cnst.MBAR_PER_BAR * (v / svp t))
                     | _, _ => None
                     end) vapor_pressure temp) (fun rh =>
  Ok (map (fun r : cell =>
             match r with
             | Some r => if Qlt_bool r cnst.MAX_PERCENT then Some r
                         else Some cnst.MAX_PERCENT
             | None => Some cnst.MAX_PERCENT
             end) rh)).
End Humidity.

(** ** Tables indexed by time *)

(** Time stamps are minutes since an epoch. *)

(** The value a time-indexed series holds at stamp [t]. *)
Fixpoint series_at {A} (idx : list Z) (vals : list A) (t : Z) : option A :=
  match idx, vals with
  | i :: idx', v :: vals' => if (i =? t)%Z then Some v else series_at idx' vals' t
  | _, _ => None
  end.

(** [s.reindex(idx)]: the values at the stamps of [idx], NaN where [s] has
    none. *)
Definition reindex (sidx : list Z) (svals : list cell) (idx : list Z)
  : list cell :=
  map (fun t => mjoin (series_at sidx svals t)) idx.

(** [fillna(method='ffill')] on one column. *)
Fixpoint ffill_from (prev : cell) (col : list cell) : list cell :=
  match col with
  | [] => []
  | c :: col' => match c with
                 | Some _ => c :: ffill_from c col'
                 | None => prev :: ffill_from prev col'
                 end
  end.
Definition ffill (col : list cell) : list cell := ffill_from None col.

(** Modelled from the spec: [metsim.datetime.date_range] is not among the
    source files.  The grid runs from its first stamp to its last one
    (included) at a spacing of [freq] minutes. *)
Definition date_range (start stop freq : Z) : result (list Z) :=
  if (freq <=? 0)%Z then Raise ValueError
  else Ok (map (fun k => start + k * freq)%Z
             (seqZ 0 ((stop - start) `div` freq + 1))).

(** [s.resample('<ts>T').fillna(method='ffill')] of a series stamped at the
    starts of days: a grid from the first to the last stamp, each value
    held until the next stamp. *)
Definition resample_ffill (idx : list Z) (vals : list Q) (freq : Z)
  : result (list Z * list cell) :=
  match idx with
  | [] => Ok ([], [])
  | first :: _ =>
      rbind (date_range first (List.last idx first) freq) (fun grid =>
      Ok (grid, ffill (reindex idx (map Some vals) grid)))
  end.

(** ** Strings: [str.upper] *)

Definition upper_ascii (c : Ascii.ascii) : Ascii.ascii :=
  let n := Ascii.nat_of_ascii c in
  if ((97 <=? n) && (n <=? 122))%nat then Ascii.ascii_of_nat (n - 32) else c.

Fixpoint upper (s : string) : string :=
  match s with
  | EmptyString => EmptyString
  | String c s' => String (upper_ascii c) (upper s')
  end.

(** ** Longwave radiation: [longwave] *)

Section Longwave.
Context `{Transcendental}.

(** The table [emissivity_calc], applied at one step: clear-sky emissivity
    from the vapor pressure [vp] (and the air temperature in Kelvin). *)
Definition emissivity_calc (name : string) : option (Q -> Q -> Q) :=
  if String.eqb name "DEFAULT" then Some (fun air_temp vp => vp)
  else if String.eqb name "TVA" then
    Some (fun air_temp vp => (74 # 100) + (49 # 10000) * vp)
  else if String.eqb name "ANDERSON" then
    Some (fun air_temp vp => (68 # 100) + (36 # 1000) * np_power vp (5 # 10))
  else if String.eqb name "BRUTSAERT" then
    Some (fun air_temp vp =>
            (124 # 100) * np_power (vp / air_temp) (14285714 # 100000000))
  else if String.eqb name "SATTERLUND" then
    Some (fun air_temp vp =>
            (108 # 100) * (1 - np_exp (- (1) * np_power vp (air_temp / 2016))))
  else if String.eqb name "IDSO" then
    Some (fun air_temp vp =>
            (7 # 10) + (595 # 10000000) * vp * np_exp (1500 / air_temp))
  else if String.eqb name "PRATA" then
    Some (fun air_temp vp =>
            1 - (1 + (465 # 10) * vp / air_temp)
                * np_exp (- np_sqrt ((12 # 10) + 3 * ((465 # 10) * vp / air_temp))))
  else None.

(** The table [cloud_calc], applied at one step. *)
Definition cloud_calc (name : string) : option (Q -> Q -> Q) :=
  if String.eqb name "DEFAULT" then
    Some (fun tskc emis => (1 + (17 # 100) * tskc ^ 2) * emis)
  else if String.eqb name "CLOUD_DEARDORFF" then
    Some (fun tskc emis => tskc + (1 - tskc) * emis)
  else None.

(** Look-up in one of the two tables: an absent key raises. *)
Definition lookup_method {A} (table : string -> option A) (name : string)
  : result A :=
  match table (upper name) with
  | Some f => Ok f
  | None => Raise (KeyError (upper name))
  end.

(** Elementwise operation on two columns of one table. *)
Definition cell2 (f : Q -> Q -> Q) (a b : cell) : cell :=
  match a, b with
  | Some x, Some y => Some (f x y)
  | _, _ => None
  end.

(** [longwave(air_temp, vapor_pressure, tskc, params)]: [air_temp] and
    [vapor_pressure] are columns of the output table, stamped [idx];
    [tskc] is the daily cloud fraction, stamped [tskc_idx]. *)
Definition longwave (idx : list Z) (air_temp vapor_pressure : list cell)
    (tskc_idx : list Z) (tskc : list Q) (pr : params)
  : result (list cell * list cell) :=
  let tskc := ffill (reindex tskc_idx (map Some tskc) idx) in
  let air_temp := map (fmap (fun t => t + cnst.KELVIN)) air_temp in
  let vapor_pressure := map (fmap (fun v => v * 10)) vapor_pressure in
  rbind (lookup_method emissivity_calc (lw_type pr)) (fun emiss_func =>
  rbind (np_binop (cell2 emiss_func) air_temp vapor_pressure)
    (fun emissivity_clear =>
  rbind (lookup_method cloud_calc (lw_cloud pr)) (fun emiss_func =>
  rbind (np_binop (cell2 emiss_func) tskc emissivity_clear) (fun emissivity =>
  rbind (np_binop (cell2 (fun e t => e * cnst.STEFAN_B * t ^ 4))
           emissivity air_temp) (fun lwrad =>
  Ok (lwrad, tskc)))))).
End Longwave.

(** ** Precipitation: [prec], and wind: [wind] *)

(** What a routine hands back for a column: a bare array, or a series
    with its own time stamps. *)
Inductive column : Type :=
| ColArray (values : list Q)
| ColSeries (index : list Z) (values : list cell).

(** The keyword arguments of [prec]. *)
Record prec_kwargs : Type := {
  kw_dur : option loc;
  kw_t_pk : option loc;
  kw_day_of_year : option (list Z);
  kw_month_of_year : option (list Z)
}.

Definition no_kwargs : prec_kwargs :=
  {| kw_dur := None; kw_t_pk := None;
     kw_day_of_year := None; kw_month_of_year := None |}.

Definition kwarg {A} (name : string) (v : option A) : M A :=
  match v with Some x => ret x | None => raise (KeyError name) end.

(** [prec_UNIFORM(prec, ts)]; [prec] is a column of the caller's daily
    table, stamped [prec_index]. *)
Definition prec_UNIFORM (prec : loc) (prec_index : list Z) (time_step : Z)
  : M column :=
  let scale := Z2Q time_step / (cnst.MIN_PER_HOUR * cnst.HOURS_PER_DAY) in
  p <- load_ndarray prec ;;
  r <- lift (resample_ffill prec_index (map (fun x => x * scale) p) time_step) ;;
  ret (ColSeries r.1 r.2).

(** [prec(prec, ts, params, **kwargs)]: the strategy is looked up by name
    in the table [prec_function]. *)
Definition prec (prec_col : loc) (prec_index : list Z) (pr : params)
    (kwargs : prec_kwargs) : M column :=
  let name := upper (prec_type pr) in
  if String.eqb name "UNIFORM" then
    match kwargs with
    | {| kw_dur := None; kw_t_pk := None;
         kw_day_of_year := None; kw_month_of_year := None |} =>
        prec_UNIFORM prec_col prec_index (time_step pr)
    | _ => raise TypeError
    end
  else if String.eqb name "TRIANGLE" then
    dur <- kwarg "dur" (kw_dur kwargs) ;;
    t_pk <- kwarg "t_pk" (kw_t_pk kwargs) ;;
    _ <- kwarg "day_of_year" (kw_day_of_year kwargs) ;;
    month_of_year <- kwarg "month_of_year" (kw_month_of_year kwargs) ;;
    v <- prec_TRIANGLE prec_col (time_step pr) dur t_pk month_of_year ;;
    ret (ColArray v)
  else raise (KeyError name).

(** [wind(wind, ts)]: the daily value held over the day. *)
Definition wind (wind_col : loc) (wind_index : list Z) (time_step : Z)
  : M column :=
  w <- load_ndarray wind_col ;;
  r <- lift (resample_ffill wind_index w time_step) ;;
  ret (ColSeries r.1 r.2).

(** ** The daily table and the output table *)

(** [df_daily]: its index (with the calendar fields pandas derives from
    it) and, for each column, the array that holds it. *)
Record DailyFrame : Type := {
  daily_index : list Z;
  daily_dayofyear : list Z;
  daily_month : list Z;
  daily_columns : gmap string loc
}.

(** [df_daily[name]]. *)
Definition daily_getitem (df : DailyFrame) (name : string) : M loc :=
  match daily_columns df !! name with
  | Some l => ret l
  | None => raise (KeyError name)
  end.

Fixpoint set_column (name : string) (v : list cell)
    (cols : list (string * list cell)) : list (string * list cell) :=
  match cols with
  | [] => [(name, v)]
  | (n, c) :: cols' => if String.eqb n name then (n, v) :: cols'
                       else (n, c) :: set_column name v cols'
  end.

Fixpoint get_column (name : string) (cols : list (string * list cell))
  : option (list cell) :=
  match cols with
  | [] => None
  | (n, c) :: cols' => if String.eqb n name then Some c
                       else get_column name cols'
  end.

Definition load_frame (df : loc) : M (list Z * list (string * list cell)) :=
  o <- load df ;;
  match o with DataFrame i c => ret (i, c) | _ => raise ValueError end.

(** [df[name] = value]: an array must have the length of the index, a
    series is aligned on the index. *)
Definition frame_setitem (df : loc) (name : string) (value : column)
  : M unit :=
  f <- load_frame df ;;
  match value with
  | ColArray v =>
      if (length v =? length f.1)%nat
      then store df (DataFrame f.1 (set_column name (map Some v) f.2))
      else raise ValueError
  | ColSeries sidx svals =>
      store df (DataFrame f.1 (set_column name (reindex sidx svals f.1) f.2))
  end.

(** [df[name]]. *)
Definition frame_getitem (df : loc) (name : string) : M (list cell) :=
  f <- load_frame df ;;
  match get_column name f.2 with
  | Some c => ret c
  | None => raise (KeyError name)
  end.

(** ** The driver: [disaggregate] *)

Section Disaggregate.
Context `{Transcendental}.

(** [disaggregate(df_daily, params, solar_geom, t_begin, t_end, **kwargs)].
    [solar_geom] and [kwargs] are dicts from names to the caller's arrays.
    The result is the location of a new table. *)
Definition disaggregate (df_daily : DailyFrame) (pr : params)
    (solar_geom : gmap string loc) (t_begin t_end : option (list Q))
    (kwargs : gmap string loc) : M loc :=
  last_day <- lift (getitem (daily_index df_daily) (-1)) ;;
  first_day <- lift (getitem (daily_index df_daily) 0) ;;
  let stop := (last_day + 1440 - time_step pr)%Z in
  dates_disagg <- lift (date_range first_day stop (time_step pr)) ;;
  df_disagg <- alloc (DataFrame dates_disagg []) ;;
  let n_days := Z.of_nat (length (daily_index df_daily)) in
  let n_disagg := Z.of_nat (length dates_disagg) in
  let ts := Z2Q (time_step pr) in
  sw_col <- daily_getitem df_daily "shortwave" ;;
  dayl_col <- daily_getitem df_daily "dayl" ;;
  tiny_rad_fract <- kwarg "tiny_rad_fract" (solar_geom !! "tiny_rad_fract") ;;
  disaggrad <- shortwave sw_col dayl_col (daily_dayofyear df_daily)
                 tiny_rad_fract pr ;;
  v <- load_ndarray disaggrad ;;
  frame_setitem df_disagg "shortwave" (ColArray v) ;;;

  sw <- frame_getitem df_disagg "shortwave" ;;
  times <- lift (set_min_max_hour sw n_days ts pr) ;;
  let t_Tmin := times.1 in
  let t_Tmax := times.2 in

  t_min_col <- daily_getitem df_daily "t_min" ;;
  t_min <- load_ndarray t_min_col ;;
  t_max_col <- daily_getitem df_daily "t_max" ;;
  t_max <- load_ndarray t_max_col ;;
  idx <- load_frame df_disagg ;;
  v <- lift (temp t_min t_max (Z.of_nat (length idx.1)) t_Tmin t_Tmax ts
               t_begin t_end) ;;
  frame_setitem df_disagg "temp" (ColArray v) ;;;

  vp_col <- daily_getitem df_daily "vapor_pressure" ;;
  tmp <- frame_getitem df_disagg "temp" ;;
  vp_daily <- load_ndarray vp_col ;;
  v <- lift (vapor_pressure vp_daily tmp t_Tmin n_disagg ts) ;;
  frame_setitem df_disagg "vapor_pressure" (ColArray v) ;;;

  vp <- frame_getitem df_disagg "vapor_pressure" ;;
  tmp <- frame_getitem df_disagg "temp" ;;
  rh <- lift (relative_humidity vp tmp) ;;
  frame_setitem df_disagg "rel_humid" (ColSeries dates_disagg rh) ;;;

  tmp <- frame_getitem df_disagg "temp" ;;
  vp <- frame_getitem df_disagg "vapor_pressure" ;;
  tskc_col <- daily_getitem df_daily "tskc" ;;
  tskc <- load_ndarray tskc_col ;;
  lw <- lift (longwave dates_disagg tmp vp (daily_index df_daily) tskc pr) ;;
  frame_setitem df_disagg "longwave" (ColSeries dates_disagg lw.1) ;;;
  frame_setitem df_disagg "tskc" (ColSeries dates_disagg lw.2) ;;;

  (if String.eqb (upper (prec_type pr)) "TRIANGLE" then
     dur <- kwarg "dur" (kwargs !! "dur") ;;
     t_pk <- kwarg "t_pk" (kwargs !! "t_pk") ;;
     prec_col <- daily_getitem df_daily "prec" ;;
     v <- prec prec_col (daily_index df_daily) pr
            {| kw_dur := Some dur; kw_t_pk := Some t_pk;
               kw_day_of_year := Some (daily_dayofyear df_daily);
               kw_month_of_year := Some (daily_month df_daily) |} ;;
     frame_setitem df_disagg "prec" v
   else
     prec_col <- daily_getitem df_daily "prec" ;;
     v <- prec prec_col (daily_index df_daily) pr no_kwargs ;;
     frame_setitem df_disagg "prec" v) ;;;

  match daily_columns df_daily !! "wind" with
  | Some wind_col =>
      v <- wind wind_col (daily_index df_daily) (time_step pr) ;;
      frame_setitem df_disagg "wind" v
  | None => ret tt
  end ;;;

  f <- load_frame df_disagg ;;
  alloc (DataFrame f.1 (map (fun c => (c.1, ffill c.2)) f.2)).
End Disaggregate.

(** * Vocabulary of the statements *)

(** ** The triangular pulse and its bins *)

Section PulseVocabulary.
Variables (ts : Q) (offset : Z) (dur_m t_pk_m : Q).

Local Abbreviation m := (m_slope dur_m).
Local Abbreviation t0 := (t_start dur_m t_pk_m).
Local Abbreviation t1 := (t_end dur_m t_pk_m).
Local Abbreviation i0 := (i_start ts offset dur_m t_pk_m).
Local Abbreviation i1 := (i_end ts offset dur_m t_pk_m).
Local Abbreviation ip := (i_t_pk ts offset t_pk_m).
Local Abbreviation s_ := (t_step_start ts offset).
Local Abbreviation e_ := (t_step_end ts offset).

(** The bin of a time: [np.floor(x / ts) + offset]. *)
Definition bin_of (x : Q) : Z := (np_floor (x / ts) + offset)%Z.

(** What each loop body assigns to [kernels[month, step]]; [None] where
    the body assigns to [P_return] instead. *)
Definition act_peak_first (step : Z) : option Q :=
  if (step =? i0)%Z then
    Some (m * (t_pk_m - t0) / 2 * (t_pk_m - t0)
          + ((- m * (e_ step - t1) + (- m * (t_pk_m - e_ step)))
             + (- m * (e_ step - t1))) / 2 * (e_ step - t_pk_m))
  else if ((i0 <? step) && (step <? i1))%Z then
    Some ((- m * (s_ step - e_ step) + (- m * (e_ step - t1))) / 2 * ts)
  else if (step =? i1)%Z then
    Some (- m * (s_ step - t1) / 2 * - (s_ step - t1))
  else Some 0.

Definition act_peak_last (step : Z) : option Q :=
  if (step =? i0)%Z then
    Some (m * (e_ step - t0) / 2 * (e_ step - t0))
  else if (step =? ip)%Z then
    Some (((m * (s_ step - t0) + m * (t_pk_m - s_ step)) + m * (s_ step - t0))
          / 2 * (t_pk_m - s_ step)
          + - m * (t_pk_m - t1) / 2 * - (t_pk_m - t1))
  else Some 0.

Definition act_one_bin (step : Z) : option Q :=
  if (step =? i0)%Z then Some 1 else Some 0.

Definition act_general (step : Z) : option Q :=
  if (step =? i0)%Z then
    Some (m * (e_ step - t0) / 2 * (e_ step - t0))
  else if ((i0 <? step) && (step <? ip))%Z then
    Some ((m * (s_ step - t0) + (m * (s_ step - t0) + m * ts)) / 2 * ts)
  else if (ip =? step)%Z then
    Some ((m * (s_ step - t0) + (m * (s_ step - t0) + m * (t_pk_m - s_ step)))
          / 2 * (t_pk_m - s_ step)
          + ((- m * (e_ step - t1) + m * (e_ step - t_pk_m))
             + - m * (e_ step - t1)) / 2 * (e_ step - t_pk_m))
  else if ((step <? i1) && (ip <? step))%Z then
    let b := if negb (Qeq_bool (e_ step) t1) then - m * (e_ step - t1) else 0 in
    Some ((b + m * ts + b) / 2 * ts)
  else if (step =? i1)%Z then
    let h := s_ step - t1 in
    let b := if negb (Qeq_bool (s_ step) t1) then - m * h else 0 in
    Some (b / 2 * - h)
  else None.

Definition kernel_act : Z -> option Q :=
  if ((i0 =? ip) && negb (i1 =? i0))%Z then act_peak_first
  else if ((ip =? i1) && negb (i1 =? i0))%Z then act_peak_last
  else if (i0 =? i1)%Z then act_one_bin
  else act_general.

(** The value of [kernels[month, step]] once the month's loop has run on
    a row of zeros. *)
Definition kernel_value (step : Z) : Q := default 0 (kernel_act step).

(** The mass of the triangular pulse before time [t]. *)
Definition pulse_cdf (t : Q) : Q :=
  if Qle_bool t t0 then 0
  else if Qle_bool t t_pk_m then m * (t - t0) * (t - t0) / 2
  else if Qle_bool t t1 then 1 - m * (t1 - t) * (t1 - t) / 2
  else 1.
End PulseVocabulary.

(** ** The objects of [prec_TRIANGLE] on the heap *)

(** The heap [h0] in which [kernels] and [P_return] hold the given values. *)
Definition kp (kernels P_return : loc) (h0 : heap)
    (rows : list (list Q)) (s : list Z * list Q) : heap :=
  <[kernels := Ndarray2 rows]> (<[P_return := Series s.1 s.2]> h0).

(** The series after [P_return[step] = v]. *)
Definition series_set (s : list Z * list Q) (step : Z) (v : Q)
  : list Z * list Q :=
  match index_of s.1 step with
  | Some i => (s.1, <[i := v]> s.2)
  | None => (s.1 ++ [step], s.2 ++ [v])
  end.

(** A loop body seen as the assignment it makes. *)
Definition do_action (kernels P_return : loc) (act : Z -> option Q)
    (month step : Z) : M unit :=
  match act step with
  | Some v => setitem2 kernels month step v
  | None => series_setitem P_return step 0
  end.

(** The row and the series after the loop over [steps]. *)
Fixpoint row_after (act : Z -> option Q) (row : list Q) (steps : list Z)
  : list Q :=
  match steps with
  | [] => row
  | step :: steps' =>
      row_after act
        (match act step with
         | Some v => <[Z.to_nat step := v]> row
         | None => row
         end) steps'
  end.

Fixpoint series_after (act : Z -> option Q) (s : list Z * list Q)
    (steps : list Z) : list Z * list Q :=
  match steps with
  | [] => s
  | step :: steps' =>
      series_after act
        (match act step with
         | Some _ => s
         | None => series_set s step 0
         end) steps'
  end.

(** The row that the loop of a month leaves in [kernels]. *)
Definition kernel_row (ts : Q) (offset steps_per_two_days : Z)
    (dur_m t_pk_m : Q) : list Q :=
  map (kernel_value ts offset dur_m t_pk_m) (seqZ 0 steps_per_two_days).

(** The table after the loops of the first [k] months, begun on zeros. *)
Definition kernel_rows (ts : Q) (offset steps_per_two_days : Z)
    (dur_v t_pk_v : list Q) (n_months k : nat) : list (list Q) :=
  map (fun j => kernel_row ts offset steps_per_two_days
                  (default 0 (dur_v !! j)) (default 0 (t_pk_v !! j)))
      (seq 0 k)
  ++ replicate (n_months - k) (replicate (Z.to_nat steps_per_two_days) 0).

(** The slice of a series that an in-place addition reads and writes. *)
Definition series_window (vals : list Q) (i j : option Z) : nat * list Q :=
  let n := Z.of_nat (length vals) in
  let lo := from_option (slice_bound n) O i in
  let hi := from_option (slice_bound n) (length vals) j in
  (lo, take (hi - lo) (drop lo vals)).

(** The part of a month's kernel that a boundary day uses. *)
Definition in_bounds_kernel (steps_per_day d : Z) (row : list Q) : list Q :=
  if (d =? 0)%Z then slice_from row (py_int (Z2Q (np_ceil (Z2Q steps_per_day / 2))))
  else slice_to row (py_int (Z2Q (np_ceil (Z2Q steps_per_day * (15 # 10))))).

(** ** The arrays of [shortwave] *)

(** The array [tinystep] after its two in-place wraps, and the integer
    indices that [shortwave] makes of it. *)
Definition tinystep_wrapped (pr : params) : list Q :=
  map (fun x => if Qlt_bool (tiny_steps_per_day - 1) x
                then x + - tiny_steps_per_day else x)
    (map (fun x => if Qlt_bool x 0 then x + tiny_steps_per_day else x)
       (map (fun k => Z2Q k - tiny_offset pr)
          (seqZ 0 (np_ceil tiny_steps_per_day)))).

Definition tinystep_indices (pr : params) : list Z :=
  map py_int (tinystep_wrapped pr).
Arguments tinystep_indices : simpl never.

(** [chunk_size] of [shortwave]. *)
Definition chunk_size_of (pr : params) : Z :=
  py_int (Z2Q (time_step pr) * (cnst.SEC_PER_MIN / cnst.SW_RAD_DT)).

(** The weights of the output steps of a day: the radiation shape of its
    day of year, rotated and summed by chunks. *)
Definition day_weights (table : list (list Q)) (day_of_year : list Z)
    (pr : params) (day : Z) : result (list Q) :=
  rbind (getitem day_of_year day) (fun doy =>
  rbind (getitem table (doy - 1)) (fun rad =>
  rbind (take_indices rad (tinystep_indices pr)) (fun rad_chunk =>
  chunk_sum (chunk_size_of pr) rad_chunk))).

(** The heap of the day loop of [shortwave]: the caller's objects, then
    [disaggrad] and [tinystep]. *)
Definition sw_heap (h : heap) (a t : list Q) : heap :=
  (h ++ [Ndarray a]) ++ [Ndarray t].

(** The value of the output at step [j] of day [day]. *)
Definition sw_value (table : list (list Q)) (day_of_year : list Z)
    (pr : params) (tmp_rad : list Q) (day : Z) (j : nat) : Q :=
  default 0 (match day_weights table day_of_year pr day with
             | Ok w => w !! j
             | Raise _ => None
             end)
  * default 0 (tmp_rad !! Z.to_nat day).

(** [disaggrad] after the turns of the first [k] days. *)
Definition sw_filled (table : list (list Q)) (day_of_year : list Z)
    (pr : params) (steps n_days : Z) (tmp_rad : list Q) (k : Z)
    (a : list Q) : Prop :=
  Z.of_nat (length a) = (n_days * steps)%Z
  /\ forall (day : Z) (j : nat),
       (0 <= day < k)%Z -> (Z.of_nat j < steps)%Z ->
       a !! (Z.to_nat (day * steps) + j)%nat
       = Some (sw_value table day_of_year pr tmp_rad day j).

(** ** Sunrise and sunset steps *)

(** The steps at which [set_min_max_hour] detects a sunrise (a step with no
    radiation followed by one with radiation) and a sunset. *)
Definition sunrises (disagg_rad : list cell) : list Z :=
  np_where (fun x => 0 <? x)%Z (np_diff (rad_mask disagg_rad)).
Definition sunsets (disagg_rad : list cell) : list Z :=
  np_where (fun x => x <? 0)%Z (np_diff (rad_mask disagg_rad)).

(** Radiation is positive at a step. *)
Definition lit (disagg_rad : list cell) (i : Z) : bool :=
  match disagg_rad !! Z.to_nat i with
  | Some (Some x) => Qlt_bool 0 x
  | _ => false
  end.

(** ** An instance for running examples *)

(** A saturation curve that is positive and increasing over the range the
    examples use, and polynomial stand-ins for the other functions; the
    statements proved for every instance do not depend on it. *)
Definition example_physics : Transcendental := {|
  svp := fun t => 611 + 44 * t;
  np_exp := fun x => 1 + x;
  np_sqrt := fun x => x;
  np_power := fun x _ => x
|}.

(** ** Invariants of the heap *)

(** [hoare I m Q]: run from a heap that satisfies [I], [m] leaves a heap
    that satisfies [I], also when it raises, and a value that satisfies [Q]
    in that heap when it returns. *)
Definition hoare {A} (I : heap -> Prop) (m : M A) (Q : A -> heap -> Prop)
  : Prop :=
  forall h, I h -> I (m h).2 /\ forall a, (m h).1 = Ok a -> Q a (m h).2.

(** A postcondition on the value alone, and the trivial one. *)
Definition on_value {A} (P : A -> Prop) : A -> heap -> Prop := fun a _ => P a.
Abbreviation any := (on_value (fun _ => True)).

(** An invariant that depends on the objects below [n] only: it survives
    every allocation and every update of an object at [n] or above. *)
Record local (n : nat) (I : heap -> Prop) : Prop := {
  local_length : forall h, I h -> (n <= length h)%nat;
  local_alloc : forall h o, I h -> I (h ++ [o]);
  local_store : forall h (l : loc) o, I h -> (n <= l)%nat -> I (<[l := o]> h)
}.

(** The invariant of a run of [disaggregate] from the heap [h0]: the
    caller's objects are as they were, and the output table, the first
    object after them, is indexed by [dates] with whole columns. *)
Definition whole_columns (dates : list Z) (cols : list (string * list cell))
  : Prop :=
  Forall (fun c => length c.2 = length dates) cols.

Definition disagg_inv (h0 : heap) (dates : list Z) (h : heap) : Prop :=
  take (length h0) h = h0
  /\ exists cols, h !! length h0 = Some (DataFrame dates cols)
                  /\ whole_columns dates cols.

(** A column whose undefined cells all come first. *)
Definition leading_gap (c : list cell) : Prop :=
  exists (k : nat) (vs : list Q), c = replicate k None ++ map Some vs.

(** ** A two-day record for running examples *)

(** The shape of a day at the fine step: daylight from 06:00 to 18:00. *)
Definition example_shape : list Q :=
  replicate 720 0 ++ replicate 1440 1 ++ replicate 720 0.

(** The caller's objects: the columns [shortwave], [dayl], [t_min],
    [t_max], [vapor_pressure], [tskc], [prec] and [wind] of the daily
    table, the solar-geometry table, and the monthly [dur] and [t_pk]. *)
Definition example_heap : heap :=
  [ Ndarray [100; 120]; Ndarray [43200; 43200];
    Ndarray [5; 7]; Ndarray [15; 18];
    Ndarray [1000; 900]; Ndarray [1 # 2; 1 # 4];
    Ndarray [0; 10]; Ndarray [3; 4];
    Ndarray2 [example_shape; example_shape];
    Ndarray (replicate 12 240); Ndarray (replicate 12 720) ].

Definition example_daily : DailyFrame := {|
  daily_index := [0; 1440]%Z;
  daily_dayofyear := [1; 2]%Z;
  daily_month := [1; 1]%Z;
  daily_columns :=
    list_to_map [("shortwave", 0%nat); ("dayl", 1%nat); ("t_min", 2%nat);
                 ("t_max", 3%nat); ("vapor_pressure", 4%nat); ("tskc", 5%nat);
                 ("prec", 6%nat); ("wind", 7%nat)]
|}.

Definition example_solar_geom : gmap string loc :=
  list_to_map [("tiny_rad_fract", 8%nat)].

Definition example_kwargs : gmap string loc :=
  list_to_map [("dur", 9%nat); ("t_pk", 10%nat)].

Definition example_params (prec_type lw_type lw_cloud : string) : params := {|
  time_step := 360; prec_type := prec_type; lw_type := lw_type;
  lw_cloud := lw_cloud; tmax_daylength_fraction := 67 # 100;
  theta_l := None; theta_s := None
|}.

(** ** Method names *)

(** A computation that raises from every heap. *)
Definition fails {A} (m : M A) : Prop := forall h, is_ok (m h).1 = false.

(** The precipitation name is a key of [prec_function]. *)
Definition known_prec (name : string) : bool :=
  String.eqb (upper name) "UNIFORM" || String.eqb (upper name) "TRIANGLE".

(** ** The day loop of [prec_TRIANGLE] *)

(** The values of a series after [P_return[i:j] += v] when the operands have
    one length. *)
Definition series_added (vals : list Q) (i j : option Z) (v : list Q)
  : list Q :=
  let w := series_window vals i j in
  take w.1 vals ++ zip_with Qplus w.2 v ++ drop (w.1 + length w.2) vals.

(** The slice of the output that the turn of day [d] updates. *)
Definition day_slice (steps_per_day n_days d : Z) : option Z * option Z :=
  let i0 := py_int (Z2Q (np_floor ((Z2Q d - (1 # 2)) * Z2Q steps_per_day))) in
  if (d =? 0)%Z then
    (None, Some (py_int (Z2Q (np_ceil (Z2Q steps_per_day * (15 # 10))))))
  else if (d =? n_days - 1)%Z then (Some i0, None)
  else (Some i0, Some (i0 + 2 * steps_per_day)%Z).

(** What the turn of day [d] adds there: the month's kernel scaled by the
    day's total, renormalised over its part inside the record on the first
    and on the last day. *)
Definition day_addend (steps_per_day n_days d : Z) (p_d : Q) (row : list Q)
  : list Q :=
  if ((d =? 0) || (d =? n_days - 1))%Z then
    let k := in_bounds_kernel steps_per_day d row in
    map (fun x => 1 / qsum k * p_d * x) k
  else map (fun x => p_d * x) row.

(** ** Evenly spaced time stamps *)

(** [m] stamps from [first] on, [step] minutes apart. *)
Definition stamps (first step m : Z) : list Z :=
  map (fun k => (first + k * step)%Z) (seqZ 0 m).

(** ** Sunrises and sunsets in turn *)

(** [turns b lo rs ss e]: from a step that is lit or not ([b]), the steps [rs]
    and [ss], none below [lo], come in turn, a step of [rs] first when [b] is
    false and a step of [ss] first when it is true; [e] is what the last of
    them leaves. *)
Inductive turns : bool -> Z -> list Z -> list Z -> bool -> Prop :=
| turns_end (b : bool) (lo : Z) : turns b lo [] [] b
| turns_rise (lo i : Z) (rs ss : list Z) (e : bool) :
    (lo <= i)%Z -> turns true (i + 1) rs ss e -> turns false lo (i :: rs) ss e
| turns_set (lo j : Z) (rs ss : list Z) (e : bool) :
    (lo <= j)%Z -> turns false (j + 1) rs ss e -> turns true lo rs (j :: ss) e.

(** Radiation is positive in a cell. *)
Definition lit_cell (c : cell) : bool :=
  match c with Some x => Qlt_bool 0 x | None => false end.

(** ** The values of a run of [disaggregate] *)

(** The cells that [df[name] = value] stores in a table indexed by
    [idx]. *)
Definition column_cells (idx : list Z) (value : column) : list cell :=
  match value with
  | ColArray v => map Some v
  | ColSeries sidx svals => reindex sidx svals idx
  end.

(** The heap [h'] holds every object of [h], and the table [DataFrame
    dates cols] right after them. *)
Definition kept (h : heap) (dates : list Z) (cols : list (string * list cell))
    (h' : heap) : Prop :=
  take (S (length h)) h' = h ++ [DataFrame dates cols].

(** [col] holds the array [x] in a heap that extends [h]. *)
Definition reads (h : heap) (col : loc) (x : list Q) : Prop :=
  exists h', take (length h) h' = h /\ h' !! col = Some (Ndarray x).

(** ** Days of one daylight *)

(** A list of steps in increasing order. *)
Definition increasing (l : list Z) : Prop :=
  forall (i j : nat) (x y : Z),
    (i < j)%nat -> l !! i = Some x -> l !! j = Some y -> (x < y)%Z.

(** Step [i] of a record of [steps] steps a day falls in the daylight of
    its day, which lasts from step [a] of the day to before step [b],
    for the [a] and [b] that [first_lit] and [first_dark] give for the
    day. *)
Definition in_daylight (steps : Z) (first_lit first_dark : list Z) (i : Z)
  : Prop :=
  exists (day : nat) (a b : Z),
    first_lit !! day = Some a /\ first_dark !! day = Some b
    /\ (Z.of_nat day * steps + a <= i < Z.of_nat day * steps + b)%Z.

(** * Properties *)

(** ** Arithmetic of floats and bins *)
Lemma Qlt_bool_iff x y : Qlt_bool x y = true <-> x < y.
Proof.
  unfold Qlt_bool. rewrite negb_true_iff. split.
  - intros Hb. apply Qnot_le_lt. intros Hle. apply Qle_bool_iff in Hle. congruence.
  - intros Hlt. destruct (Qle_bool y x) eqn:E; [|reflexivity].
    apply Qle_bool_iff in E. lra.
Qed.

Lemma Z2Q_plus a b : Z2Q (a + b) == Z2Q a + Z2Q b.
Proof. unfold Z2Q. rewrite inject_Z_plus. reflexivity. Qed.
Lemma Z2Q_le a b : (a <= b)%Z -> Z2Q a <= Z2Q b.
Proof. unfold Z2Q. rewrite <- Zle_Qle. auto. Qed.

Section Bins.
Variables (ts : Q) (offset : Z).
Hypothesis ts_pos : 0 < ts.

Local Abbreviation bin_of := (bin_of ts offset).

Lemma t_step_end_next step :
  t_step_end ts offset step == t_step_start ts offset (step + 1).
Proof.
  unfold t_step_end, t_step_start.
  replace (step + 1 - offset)%Z with ((step - offset) + 1)%Z by lia.
  rewrite Z2Q_plus. unfold Z2Q at 3. simpl. ring.
Qed.

Lemma t_step_start_mono j k :
  (j <= k)%Z -> t_step_start ts offset j <= t_step_start ts offset k.
Proof using ts_pos.
  intros Hjk. unfold t_step_start.
  assert (Z2Q (j - offset) <= Z2Q (k - offset)) by (apply Z2Q_le; lia).
  nra.
Qed.


Lemma bin_of_bounds x :
  t_step_start ts offset (bin_of x) <= x < t_step_end ts offset (bin_of x).
Proof using ts_pos.
  unfold t_step_end, t_step_start, bin_of, np_floor.
  replace (Qfloor (x / ts) + offset - offset)%Z with (Qfloor (x / ts)) by lia.
  pose proof (Qfloor_le (x / ts)) as Hlo.
  pose proof (Qlt_floor (x / ts)) as Hhi.
  rewrite inject_Z_plus in Hhi. change (inject_Z 1) with 1 in Hhi.
  assert (Hx : x == x / ts * ts) by (field; lra).
  unfold Z2Q. split; [ nra | nra ].
Qed.

Lemma step_before x step :
  (step < bin_of x)%Z -> t_step_end ts offset step <= x.
Proof using ts_pos.
  intros Hlt. rewrite t_step_end_next.
  pose proof (bin_of_bounds x) as [Hlo _].
  pose proof (t_step_start_mono (step + 1) (bin_of x) ltac:(lia)). lra.
Qed.

Lemma step_after x step :
  (bin_of x < step)%Z -> x < t_step_start ts offset step.
Proof using ts_pos.
  intros Hlt.
  pose proof (bin_of_bounds x) as [_ Hhi]. rewrite t_step_end_next in Hhi.
  pose proof (t_step_start_mono (bin_of x + 1) step ltac:(lia)). lra.
Qed.

Lemma bin_of_mono x y : x <= y -> (bin_of x <= bin_of y)%Z.
Proof using ts_pos.
  intros Hxy. destruct (Z_le_gt_dec (bin_of x) (bin_of y)) as [|Hgt]; [done|].
  pose proof (step_after y (bin_of x) ltac:(lia)).
  pose proof (bin_of_bounds x) as [? _]. lra.
Qed.
End Bins.
Lemma qsum_app l1 l2 : qsum (l1 ++ l2) == qsum l1 + qsum l2.
Proof. induction l1 as [|x l1 IH]; simpl; [ring | rewrite IH; ring]. Qed.

Section PulseMass.
Variables (ts : Q) (offset : Z) (dur_m t_pk_m : Q).

Local Abbreviation m := (m_slope dur_m).
Local Abbreviation t0 := (t_start dur_m t_pk_m).
Local Abbreviation t1 := (t_end dur_m t_pk_m).
Local Abbreviation i0 := (i_start ts offset dur_m t_pk_m).
Local Abbreviation i1 := (i_end ts offset dur_m t_pk_m).
Local Abbreviation ip := (i_t_pk ts offset t_pk_m).
Local Abbreviation s_ := (t_step_start ts offset).
Local Abbreviation e_ := (t_step_end ts offset).
Local Abbreviation pulse_cdf := (pulse_cdf dur_m t_pk_m).
Local Abbreviation kernel_value := (kernel_value ts offset dur_m t_pk_m).

Lemma pulse_cdf_ext x y : x == y -> pulse_cdf x == pulse_cdf y.
Proof.
  intros Hxy. unfold pulse_cdf.
  rewrite !(Qleb_comp x y Hxy _ _ (Qeq_refl _)).
  repeat match goal with
  | |- context [Qle_bool ?a ?b] => destruct (Qle_bool a b)
  end; rewrite ?Hxy; reflexivity.
Qed.

Hypothesis ts_pos : 0 < ts.
Hypothesis dur_pos : 0 < dur_m.

Lemma guarded_slope (k x y : Q) :
  (if negb (Qeq_bool x y) then - k * (x - y) else 0) == - k * (x - y).
Proof.
  destruct (Qeq_bool x y) eqn:E; simpl; [|reflexivity].
  apply Qeq_bool_iff in E. rewrite E. ring.
Qed.


Ltac cdf_cases :=
  unfold pulse_cdf;
  repeat match goal with
  | |- context [Qle_bool ?a ?b] =>
      let E := fresh "E" in
      destruct (Qle_bool a b) eqn:E;
      [ apply Qle_bool_iff in E
      | assert (b < a) by (apply Qlt_bool_iff; unfold Qlt_bool; rewrite E; reflexivity);
        clear E ];
      try (exfalso; lra)
  end.

(** Where a step lies with respect to the bin of a time. *)
Lemma step_vs_bin x step :
  let S := s_ (bin_of ts offset x) in
  S <= x < S + ts /\
  ((step < bin_of ts offset x)%Z /\ s_ step + ts <= S
   \/ step = bin_of ts offset x /\ s_ step == S
   \/ (bin_of ts offset x < step)%Z /\ S + ts <= s_ step).
Proof using ts_pos.
  intros S. split; [apply (bin_of_bounds ts offset ts_pos x)|].
  destruct (Z.lt_trichotomy step (bin_of ts offset x)) as [Hc | [Hc | Hc]].
  - left. split; [done|].
    pose proof (t_step_start_mono ts offset ts_pos (step + 1) (bin_of ts offset x) ltac:(lia)).
    pose proof (t_step_end_next ts offset step) as Hn. unfold t_step_end in Hn.
    subst S. lra.
  - right; left. split; [done|]. subst S. rewrite Hc. reflexivity.
  - right; right. split; [done|].
    pose proof (t_step_start_mono ts offset ts_pos (bin_of ts offset x + 1) step ltac:(lia)).
    pose proof (t_step_end_next ts offset (bin_of ts offset x)) as Hn. unfold t_step_end in Hn.
    subst S. lra.
Qed.

Ltac decide_tests :=
  repeat match goal with
  | |- context [(?a =? ?b)%Z] => destruct (Z.eqb_spec a b); try lia
  | |- context [(?a <? ?b)%Z] => destruct (Z.ltb_spec a b); try lia
  end; simpl.

Lemma kernel_value_cdf step :
  kernel_value step == pulse_cdf (e_ step) - pulse_cdf (s_ step).
Proof using ts_pos dur_pos.
  assert (Hh : 0 < dur_m / 2) by (apply Qlt_shift_div_l; lra).
  assert (Hm : m == 1 / (dur_m / 2 * (dur_m / 2)))
    by (unfold m_slope, I_pk; field; lra).
  assert (M1 : (bin_of ts offset t0 <= bin_of ts offset t_pk_m)%Z).
  { apply (bin_of_mono ts offset ts_pos). unfold t_start. lra. }
  assert (M2 : (bin_of ts offset t_pk_m <= bin_of ts offset t1)%Z).
  { apply (bin_of_mono ts offset ts_pos). unfold t_end. lra. }
  destruct (step_vs_bin t0 step) as [B0 C0].
  destruct (step_vs_bin t_pk_m step) as [Bp Cp].
  destruct (step_vs_bin t1 step) as [B1 C1].
  assert (E01 : bin_of ts offset t0 = bin_of ts offset t_pk_m ->
                s_ (bin_of ts offset t0) == s_ (bin_of ts offset t_pk_m))
    by (intros ->; reflexivity).
  assert (Ep1 : bin_of ts offset t_pk_m = bin_of ts offset t1 ->
                s_ (bin_of ts offset t_pk_m) == s_ (bin_of ts offset t1))
    by (intros ->; reflexivity).
  unfold kernel_value, kernel_act, pulse_cdf.
  change i0 with (bin_of ts offset t0).
  change ip with (bin_of ts offset t_pk_m).
  change i1 with (bin_of ts offset t1).
  unfold t_step_end.
  set (S0 := s_ (bin_of ts offset t0)) in *.
  set (Sp := s_ (bin_of ts offset t_pk_m)) in *.
  set (S1 := s_ (bin_of ts offset t1)) in *.
  repeat match goal with
  | |- context [if ?c then ?f else ?g] =>
      match type of f with
      | Z -> option Q => destruct c eqn:?
      end
  end;
  unfold act_peak_first, act_peak_last, act_one_bin, act_general;
  change i0 with (bin_of ts offset t0);
  change ip with (bin_of ts offset t_pk_m);
  change i1 with (bin_of ts offset t1);
  unfold t_step_end;
  set (s := s_ step) in *;
  set (b0 := bin_of ts offset t0) in *;
  set (bp := bin_of ts offset t_pk_m) in *;
  set (b1 := bin_of ts offset t1) in *;
  clearbody S0 Sp S1 s b0 bp b1;
  unfold t_start, t_end in *;
  set (h := dur_m / 2) in *;
  set (mm := m_slope dur_m) in *;
  clearbody h mm;
  cbv zeta;
  repeat match goal with
  | Hb : _ = true |- _ =>
      first [ apply andb_true_iff in Hb; destruct Hb
            | apply negb_true_iff in Hb
            | apply Z.eqb_eq in Hb ]
  | Hb : _ = false |- _ =>
      first [ apply andb_false_iff in Hb; destruct Hb
            | apply negb_false_iff in Hb
            | apply Z.eqb_neq in Hb ]
  end;
  destruct C0 as [[? ?] | [[? ?] | [? ?]]];
  destruct Cp as [[? ?] | [[? ?] | [? ?]]];
  destruct C1 as [[? ?] | [[? ?] | [? ?]]];
  try (exfalso; lia);
  try (specialize (E01 ltac:(lia)));
  try (specialize (Ep1 ltac:(lia)));
  decide_tests;
  try (exfalso; lra);
  cdf_cases;
  rewrite ?guarded_slope;
  first [ rewrite Hm; field; lra | ring ].
Qed.

Lemma pulse_cdf_before t : t <= t0 -> pulse_cdf t == 0.
Proof.
  intros Ht. unfold pulse_cdf.
  destruct (Qle_bool t t0) eqn:E; [reflexivity|].
  apply Qle_bool_iff in Ht. congruence.
Qed.

Lemma pulse_cdf_after t : t1 <= t -> pulse_cdf t == 1.
Proof using dur_pos.
  assert (Hh : 0 < dur_m / 2) by (apply Qlt_shift_div_l; lra).
  intros Ht. unfold pulse_cdf, t_start, t_end in *.
  set (h := dur_m / 2) in *. clearbody h.
  cdf_cases; try reflexivity.
  assert (Ht1 : t == t_pk_m + h) by lra. rewrite Ht1. field.
Qed.

(** The bins of the window add up to the mass of the pulse between the
    two ends of the window. *)
Lemma kernel_values_telescope (n : nat) :
  qsum (map kernel_value (seqZ 0 (Z.of_nat n)))
  == pulse_cdf (s_ (Z.of_nat n)) - pulse_cdf (s_ 0).
Proof using ts_pos dur_pos.
  induction n as [|n IH].
  - rewrite seqZ_nil by lia. change (Z.of_nat 0) with 0%Z. simpl. ring.
  - rewrite seqZ_S, map_app, qsum_app, IH. simpl.
    rewrite kernel_value_cdf.
    rewrite (pulse_cdf_ext _ _ (t_step_end_next ts offset _)).
    replace (0 + Z.of_nat n + 1)%Z with (Z.of_nat (S n)) by lia.
    replace (0 + Z.of_nat n)%Z with (Z.of_nat n) by lia. ring.
Qed.
End PulseMass.

(** ** Running the monad *)

Lemma bind_ok {A B} (m : M A) (k : A -> M B) h a h' :
  m h = (Ok a, h') -> bind m k h = k a h'.
Proof. intros E. unfold bind. rewrite E. reflexivity. Qed.

Lemma bind_raise {A B} (m : M A) (k : A -> M B) h e h' :
  m h = (Raise e, h') -> bind m k h = (Raise e, h').
Proof. intros E. unfold bind. rewrite E. reflexivity. Qed.

Lemma load_ok h l o : h !! l = Some o -> load l h = (Ok o, h).
Proof. intros E. unfold load. rewrite E. reflexivity. Qed.

Lemma store_ok h l o o' :
  h !! l = Some o' -> store l o h = (Ok tt, <[l := o]> h).
Proof. intros E. unfold store. rewrite E. reflexivity. Qed.

Lemma load_ndarray_ok h l a :
  h !! l = Some (Ndarray a) -> load_ndarray l h = (Ok a, h).
Proof. intros E. unfold load_ndarray. rewrite (bind_ok _ _ _ _ _ (load_ok _ _ _ E)). reflexivity. Qed.

Lemma load_ndarray2_ok h l a :
  h !! l = Some (Ndarray2 a) -> load_ndarray2 l h = (Ok a, h).
Proof. intros E. unfold load_ndarray2. rewrite (bind_ok _ _ _ _ _ (load_ok _ _ _ E)). reflexivity. Qed.

Lemma load_series_ok h l i v :
  h !! l = Some (Series i v) -> load_series l h = (Ok (i, v), h).
Proof. intros E. unfold load_series. rewrite (bind_ok _ _ _ _ _ (load_ok _ _ _ E)). reflexivity. Qed.

Lemma getitem_ok {A} (a : list A) (i : Z) x :
  (0 <= i)%Z -> a !! Z.to_nat i = Some x -> getitem a i = Ok x.
Proof.
  intros Hi E. unfold getitem.
  destruct (Z.ltb_spec i 0); [lia|]. simpl.
  destruct (Z.ltb_spec i 0); [lia|]. rewrite E. reflexivity.
Qed.

Lemma for_app {A} (xs ys : list A) (body : A -> M unit) h h' :
  for_ xs body h = (Ok tt, h') ->
  for_ (xs ++ ys) body h = for_ ys body h'.
Proof.
  revert h. induction xs as [|x xs IH]; intros h; simpl.
  - unfold ret. intros [= ->]. reflexivity.
  - unfold bind. destruct (body x h) as [[[]|e] h1]; [|discriminate].
    apply IH.
Qed.

(** ** The kernels of [prec_TRIANGLE] on the heap *)




Lemma length_row_after act row steps :
  length (row_after act row steps) = length row.
Proof.
  revert row. induction steps as [|x steps IH]; intros row; simpl; [done|].
  rewrite IH. destruct (act x); [apply length_insert | done].
Qed.

Lemma row_after_app act row l1 l2 :
  row_after act row (l1 ++ l2) = row_after act (row_after act row l1) l2.
Proof. revert row. induction l1 as [|x l1 IH]; intros row; simpl; [done | apply IH]. Qed.

(** On a row of zeros the loop over all steps leaves, at each step, the
    value the body assigns there, and zero where it assigns none. *)
Lemma row_after_zeros act (N n : nat) :
  (n <= N)%nat ->
  row_after act (replicate N 0) (seqZ 0 (Z.of_nat n))
  = map (fun step => default 0 (act step)) (seqZ 0 (Z.of_nat n))
    ++ replicate (N - n) 0.
Proof.
  induction n as [|n IH]; intros Hn.
  - rewrite seqZ_nil by lia. simpl. rewrite Nat.sub_0_r. done.
  - rewrite seqZ_S, row_after_app, IH by lia. simpl.
    rewrite map_app, <- app_assoc. simpl.
    replace (N - n)%nat with (S (N - S n)) by lia. simpl.
    replace (0 + Z.of_nat n)%Z with (Z.of_nat n) by lia.
    destruct (act (Z.of_nat n)) as [v|]; simpl; [|done].
    rewrite Nat2Z.id.
    rewrite insert_app_r_alt by (rewrite length_map, length_seqZ; lia).
    rewrite length_map, length_seqZ.
    replace (n - Z.to_nat (Z.of_nat n))%nat with 0%nat by lia. done.
Qed.

Section KernelHeap.
Variables (kernels P_return : loc) (h0 : heap).
Hypothesis kernels_valid : (kernels < length h0)%nat.
Hypothesis P_return_valid : (P_return < length h0)%nat.
Hypothesis kernels_not_P_return : kernels <> P_return.

Local Abbreviation kp := (kp kernels P_return h0).
Local Abbreviation do_action := (do_action kernels P_return).


Lemma kp_kernels rows s : kp rows s !! kernels = Some (Ndarray2 rows).
Proof using kernels_valid P_return_valid kernels_not_P_return. unfold kp. apply list_lookup_insert_eq. rewrite length_insert. done. Qed.

Lemma kp_P_return rows s : kp rows s !! P_return = Some (Series s.1 s.2).
Proof using kernels_valid P_return_valid kernels_not_P_return.
  unfold kp. rewrite list_lookup_insert_ne by done.
  apply list_lookup_insert_eq. done.
Qed.

Lemma kp_other rows s l :
  l <> kernels -> l <> P_return -> kp rows s !! l = h0 !! l.
Proof using kernels_valid P_return_valid kernels_not_P_return. intros. unfold kp. rewrite !list_lookup_insert_ne by done. done. Qed.

Lemma kp_store_kernels rows rows' s :
  <[kernels := Ndarray2 rows']> (kp rows s) = kp rows' s.
Proof using kernels_valid P_return_valid kernels_not_P_return. unfold kp. apply list_insert_insert_eq. Qed.

Lemma kp_store_P_return rows s s' :
  <[P_return := Series s'.1 s'.2]> (kp rows s) = kp rows s'.
Proof using kernels_valid P_return_valid kernels_not_P_return.
  unfold kp. rewrite list_insert_insert_ne by done.
  rewrite list_insert_insert_eq. done.
Qed.

Lemma setitem2_kp rows s (month step : Z) row v :
  (0 <= month)%Z -> rows !! Z.to_nat month = Some row ->
  (0 <= step < Z.of_nat (length row))%Z ->
  setitem2 kernels month step v (kp rows s)
  = (Ok tt, kp (<[Z.to_nat month := <[Z.to_nat step := v]> row]> rows) s).
Proof using kernels_valid P_return_valid kernels_not_P_return.
  intros Hm Hrow Hstep. unfold setitem2.
  rewrite (bind_ok _ _ _ _ _ (load_ndarray2_ok _ _ _ (kp_kernels rows s))).
  unfold lift at 1. rewrite (getitem_ok _ _ _ Hm Hrow).
  erewrite bind_ok by reflexivity.
  destruct (lookup_lt_is_Some_2 row (Z.to_nat step) ltac:(lia)) as [x Hx].
  unfold lift. rewrite (getitem_ok _ _ _ (proj1 Hstep) Hx).
  erewrite bind_ok by reflexivity.
  rewrite (store_ok _ _ _ _ (kp_kernels rows s)), kp_store_kernels. reflexivity.
Qed.


Lemma series_setitem_kp rows s step v :
  series_setitem P_return step v (kp rows s)
  = (Ok tt, kp rows (series_set s step v)).
Proof using kernels_valid P_return_valid kernels_not_P_return.
  unfold series_setitem.
  rewrite (bind_ok _ _ _ _ _ (load_series_ok _ _ _ _ (kp_P_return rows s))).
  unfold series_set. simpl.
  destruct (index_of s.1 step) as [i|];
    rewrite (store_ok _ _ _ _ (kp_P_return rows s)); f_equal.
  - apply (kp_store_P_return rows s (s.1, <[i:=v]> s.2)).
  - apply (kp_store_P_return rows s (s.1 ++ [step], s.2 ++ [v])).
Qed.





Lemma for_do_action act (month : Z) steps rows row s :
  (0 <= month)%Z -> rows !! Z.to_nat month = Some row ->
  Forall (fun step => 0 <= step < Z.of_nat (length row))%Z steps ->
  for_ steps (do_action act month) (kp rows s)
  = (Ok tt, kp (<[Z.to_nat month := row_after act row steps]> rows)
              (series_after act s steps)).
Proof using kernels_valid P_return_valid kernels_not_P_return.
  intros Hm. revert rows row s.
  induction steps as [|step steps IH]; intros rows row s Hrow Hall; simpl.
  - rewrite list_insert_id by done. reflexivity.
  - inversion Hall as [|? ? Hstep Hall']; subst.
    unfold do_action at 1. destruct (act step) as [v|].
    + rewrite (bind_ok _ _ _ _ _ (setitem2_kp rows s month step row v Hm Hrow Hstep)).
      rewrite (IH _ (<[Z.to_nat step := v]> row) s).
      * rewrite list_insert_insert_eq. reflexivity.
      * apply list_lookup_insert_eq. eapply lookup_lt_Some; eauto.
      * rewrite length_insert. done.
    + rewrite (bind_ok _ _ _ _ _ (series_setitem_kp rows s step 0)).
      rewrite (IH _ row _ Hrow Hall'). reflexivity.
Qed.


End KernelHeap.

Lemma for_ext {A} (xs : list A) (f g : A -> M unit) :
  (forall x, f x = g x) -> for_ xs f = for_ xs g.
Proof.
  intros Hfg. induction xs as [|x xs IH]; simpl; [done|].
  rewrite Hfg, IH. done.
Qed.

Section KernelMonth.
Variables (ts : Q) (offset steps_per_two_days : Z).
Variables (kernels P_return : loc).

Lemma kernel_month_actions (month : Z) (dur_m t_pk_m : Q) :
  kernel_month ts offset steps_per_two_days kernels P_return month dur_m t_pk_m
  = for_ (seqZ 0 steps_per_two_days)
      (do_action kernels P_return (kernel_act ts offset dur_m t_pk_m) month).
Proof.
  unfold kernel_month, kernel_act.
  repeat match goal with
  | |- context [if ?c then for_ _ _ else _] => destruct c
  end;
  apply for_ext; intros step;
  unfold do_action, body_peak_first, body_peak_last, body_one_bin, body_general,
    act_peak_first, act_peak_last, act_one_bin, act_general;
  repeat match goal with
  | |- context [if ?c then _ else _] => destruct c
  end; reflexivity.
Qed.

Variable (h0 : heap).
Hypothesis kernels_valid : (kernels < length h0)%nat.
Hypothesis P_return_valid : (P_return < length h0)%nat.
Hypothesis kernels_not_P_return : kernels <> P_return.
Hypothesis window_nonneg : (0 <= steps_per_two_days)%Z.

Local Abbreviation KP := (kp kernels P_return h0).
Local Abbreviation zeros := (replicate (Z.to_nat steps_per_two_days) (0 : Q)).


Lemma kernel_month_kp (month : Z) (dur_m t_pk_m : Q) rows s :
  (0 <= month)%Z -> rows !! Z.to_nat month = Some zeros ->
  kernel_month ts offset steps_per_two_days kernels P_return month dur_m t_pk_m
    (KP rows s)
  = (Ok tt, KP (<[Z.to_nat month := kernel_row ts offset steps_per_two_days dur_m t_pk_m]> rows)
               (series_after (kernel_act ts offset dur_m t_pk_m) s
                  (seqZ 0 steps_per_two_days))).
Proof using kernels_valid P_return_valid kernels_not_P_return window_nonneg.
  intros Hm Hrow. rewrite kernel_month_actions.
  rewrite (for_do_action kernels P_return h0 kernels_valid P_return_valid
             kernels_not_P_return _ month _ rows zeros s Hm Hrow).
  - f_equal. f_equal. f_equal. unfold kernel_row, kernel_value.
    pose proof (row_after_zeros (kernel_act ts offset dur_m t_pk_m)
                  (Z.to_nat steps_per_two_days) (Z.to_nat steps_per_two_days)
                  ltac:(lia)) as E.
    rewrite Z2Nat.id in E by lia. rewrite E, Nat.sub_diag. simpl.
    apply app_nil_r.
  - apply Forall_seqZ. intros step Hs. rewrite length_replicate. lia.
Qed.
End KernelMonth.

Section KernelRows.
Variables (ts : Q) (offset steps_per_two_days : Z).
Variables (dur_v t_pk_v : list Q).


Lemma lookup_kernel_rows (month : nat) :
  (month < 12)%nat ->
  kernel_rows ts offset steps_per_two_days dur_v t_pk_v 12 12 !! month
  = Some (kernel_row ts offset steps_per_two_days
            (default 0 (dur_v !! month)) (default 0 (t_pk_v !! month))).
Proof.
  intros Hm. unfold kernel_rows. rewrite lookup_app_l by (rewrite length_map, length_seq; lia).
  rewrite list_lookup_fmap, lookup_seq_lt by lia. reflexivity.
Qed.
End KernelRows.

Section BuildKernels.
Variables (ts : Q) (offset steps_per_two_days : Z).
Variables (kernels P_return dur t_pk : loc).
Variables (h0 : heap) (dur_v t_pk_v : list Q).
Hypothesis kernels_valid : (kernels < length h0)%nat.
Hypothesis P_return_valid : (P_return < length h0)%nat.
Hypothesis kernels_not_P_return : kernels <> P_return.
Hypothesis window_nonneg : (0 <= steps_per_two_days)%Z.
Hypothesis dur_array : h0 !! dur = Some (Ndarray dur_v).
Hypothesis t_pk_array : h0 !! t_pk = Some (Ndarray t_pk_v).
Hypothesis dur_apart : dur <> kernels /\ dur <> P_return.
Hypothesis t_pk_apart : t_pk <> kernels /\ t_pk <> P_return.

Local Abbreviation KP := (kp kernels P_return h0).
Local Abbreviation zeros := (replicate (Z.to_nat steps_per_two_days) (0 : Q)).


Lemma build_kernels_prefix (n_months k : nat) s :
  (k <= n_months)%nat -> (k <= length dur_v)%nat -> (k <= length t_pk_v)%nat ->
  exists s',
    for_ (seqZ 0 (Z.of_nat k)) (fun month =>
      dur_v <- load_ndarray dur ;;
      dur_m <- lift (getitem dur_v month) ;;
      t_pk_v <- load_ndarray t_pk ;;
      t_pk_m <- lift (getitem t_pk_v month) ;;
      kernel_month ts offset steps_per_two_days kernels P_return month
        dur_m t_pk_m)%py (KP (replicate n_months zeros) s)
    = (Ok tt, KP (kernel_rows ts offset steps_per_two_days dur_v t_pk_v n_months k) s').
Proof using All.
  induction k as [|k IH]; intros Hk Hd Ht.
  - exists s. rewrite seqZ_nil by lia. unfold kernel_rows. simpl.
    rewrite Nat.sub_0_r. reflexivity.
  - destruct (IH ltac:(lia) ltac:(lia) ltac:(lia)) as [s1 E1].
    rewrite seqZ_S, (for_app _ _ _ _ _ E1). simpl.
    replace (0 + Z.of_nat k)%Z with (Z.of_nat k) by lia.
    destruct (lookup_lt_is_Some_2 dur_v k ltac:(lia)) as [d Hd'].
    destruct (lookup_lt_is_Some_2 t_pk_v k ltac:(lia)) as [t Ht'].
    destruct dur_apart, t_pk_apart.
    erewrite bind_ok; cycle 1.
    { erewrite bind_ok; cycle 1.
      { apply load_ndarray_ok. rewrite kp_other by done. apply dur_array. }
      erewrite bind_ok; cycle 1.
      { unfold lift. rewrite (getitem_ok dur_v (Z.of_nat k) d) by (rewrite ?Nat2Z.id; done || lia).
        reflexivity. }
      erewrite bind_ok; cycle 1.
      { apply load_ndarray_ok. rewrite kp_other by done. apply t_pk_array. }
      erewrite bind_ok; cycle 1.
      { unfold lift. rewrite (getitem_ok t_pk_v (Z.of_nat k) t) by (rewrite ?Nat2Z.id; done || lia).
        reflexivity. }
      apply kernel_month_kp; try done; try lia.
      rewrite Nat2Z.id. unfold kernel_rows.
      rewrite lookup_app_r by (rewrite length_map, length_seq; lia).
      rewrite length_map, length_seq, Nat.sub_diag.
      apply lookup_replicate_2. lia. }
    eexists. unfold ret. f_equal. f_equal.
    rewrite Nat2Z.id. unfold kernel_rows.
    rewrite seq_S, map_app, <- app_assoc.
    rewrite insert_app_r_alt by (rewrite length_map, length_seq; lia).
    rewrite length_map, length_seq, Nat.sub_diag.
    replace (n_months - k)%nat with (S (n_months - S k)) by lia.
    cbn [replicate map app Nat.add list_insert insert]. 
    rewrite Hd', Ht'. reflexivity.
Qed.

Lemma build_kernels_run s :
  h0 !! kernels = Some (Ndarray2 (replicate 12 zeros)) ->
  h0 !! P_return = Some (Series s.1 s.2) ->
  (12 <= length dur_v)%nat -> (12 <= length t_pk_v)%nat ->
  exists s',
    build_kernels ts offset steps_per_two_days kernels P_return dur t_pk h0
    = (Ok tt, KP (kernel_rows ts offset steps_per_two_days dur_v t_pk_v 12 12) s').
Proof using All.
  intros Hk Hp Hd Ht.
  destruct (build_kernels_prefix 12 12 s ltac:(lia) Hd Ht) as [s' E].
  exists s'. unfold build_kernels. rewrite <- E. f_equal.
  unfold kp. rewrite (list_insert_id _ _ _ Hp), (list_insert_id _ _ _ Hk).
  reflexivity.
Qed.

End BuildKernels.

Lemma qsum_ext (l1 l2 : list Q) : Forall2 Qeq l1 l2 -> qsum l1 == qsum l2.
Proof. induction 1 as [|x y l1 l2 Hxy _ IH]; simpl; [reflexivity | rewrite Hxy, IH; reflexivity]. Qed.

(** The pulse lies in one bin when its duration is zero. *)
Lemma zero_duration_one_bin (ts : Q) (offset : Z) (dur_m t_pk_m : Q) :
  dur_m == 0 ->
  i_start ts offset dur_m t_pk_m = i_t_pk ts offset t_pk_m
  /\ i_end ts offset dur_m t_pk_m = i_t_pk ts offset t_pk_m.
Proof.
  intros Hd. unfold i_start, i_end, i_t_pk, np_floor, t_start, t_end.
  assert (E0 : (t_pk_m - dur_m / 2) / ts == t_pk_m / ts) by (rewrite Hd; unfold Qdiv; ring).
  assert (E1 : (t_pk_m + dur_m / 2) / ts == t_pk_m / ts) by (rewrite Hd; unfold Qdiv; ring).
  rewrite (Qfloor_comp _ _ E0), (Qfloor_comp _ _ E1). done.
Qed.

Lemma kernel_value_one_bin (ts : Q) (offset : Z) (dur_m t_pk_m : Q) (step : Z) :
  0 < ts ->
  dur_m == 0
  \/ 0 < dur_m /\ i_start ts offset dur_m t_pk_m = i_end ts offset dur_m t_pk_m ->
  kernel_value ts offset dur_m t_pk_m step
  = if (step =? i_t_pk ts offset t_pk_m)%Z then 1 else 0.
Proof.
  intros Hts Hsame.
  assert (E : i_start ts offset dur_m t_pk_m = i_t_pk ts offset t_pk_m
              /\ i_end ts offset dur_m t_pk_m = i_t_pk ts offset t_pk_m).
  { destruct Hsame as [Hd | [Hd Hse]]; [by apply zero_duration_one_bin|].
    assert (Hh : 0 < dur_m / 2) by (apply Qlt_shift_div_l; lra).
    pose proof (bin_of_mono ts offset Hts (t_start dur_m t_pk_m) t_pk_m
                  ltac:(unfold t_start; lra)) as M1.
    pose proof (bin_of_mono ts offset Hts t_pk_m (t_end dur_m t_pk_m)
                  ltac:(unfold t_end; lra)) as M2.
    unfold bin_of in M1, M2. unfold i_start, i_end, i_t_pk in *. lia. }
  destruct E as [E0 E1].
  unfold kernel_value, kernel_act. rewrite E0, E1.
  rewrite Z.eqb_refl. simpl.
  unfold act_one_bin. rewrite E0.
  destruct (step =? _)%Z; reflexivity.
Qed.

Section KernelClaims.
Variables (ts : Q) (offset steps_per_two_days : Z).
Variables (kernels P_return dur t_pk : loc).
Variables (h : heap) (s : list Z * list Q) (dur_v t_pk_v : list Q).
Hypothesis ts_pos : 0 < ts.
Hypothesis window_nonneg : (0 <= steps_per_two_days)%Z.
Hypothesis kernels_zero :
  h !! kernels
  = Some (Ndarray2 (replicate 12 (replicate (Z.to_nat steps_per_two_days) 0))).
Hypothesis P_return_series : h !! P_return = Some (Series s.1 s.2).
Hypothesis dur_array : h !! dur = Some (Ndarray dur_v).
Hypothesis t_pk_array : h !! t_pk = Some (Ndarray t_pk_v).
Hypothesis dur_months : length dur_v = 12%nat.
Hypothesis t_pk_months : length t_pk_v = 12%nat.

(** The month loop of [prec_TRIANGLE] runs to its end and leaves in
    [kernels] the twelve rows of [kernel_rows]. *)
Lemma build_kernels_table :
  exists h',
    build_kernels ts offset steps_per_two_days kernels P_return dur t_pk h
    = (Ok tt, h')
    /\ h' !! kernels
       = Some (Ndarray2 (kernel_rows ts offset steps_per_two_days dur_v t_pk_v 12 12)).
Proof using All.
  assert (Hk : (kernels < length h)%nat) by (eapply lookup_lt_Some; eauto).
  assert (Hp : (P_return < length h)%nat) by (eapply lookup_lt_Some; eauto).
  assert (Hkp : kernels <> P_return) by congruence.
  assert (Hd : dur <> kernels /\ dur <> P_return) by (split; congruence).
  assert (Ht : t_pk <> kernels /\ t_pk <> P_return) by (split; congruence).
  destruct (build_kernels_run ts offset steps_per_two_days kernels P_return
              dur t_pk h dur_v t_pk_v Hk Hp Hkp window_nonneg dur_array
              t_pk_array Hd Ht s kernels_zero P_return_series
              ltac:(lia) ltac:(lia)) as [s' E].
  eexists. split; [exact E|]. apply kp_kernels; assumption.
Qed.
End KernelClaims.

(** C1 (amended): in exact arithmetic, the month loop of [prec_TRIANGLE]
    leaves in the kernel table, for every month whose duration is positive
    and whose pulse [t_pk - dur/2, t_pk + dur/2] lies inside the two-day
    window of the table, a row that sums to 1. *)
Theorem kernel_unit_mass (ts : Q) (offset steps_per_two_days : Z)
    (kernels P_return dur t_pk : loc) (h : heap) (s : list Z * list Q)
    (dur_v t_pk_v : list Q) :
  0 < ts -> (0 <= steps_per_two_days)%Z ->
  h !! kernels
  = Some (Ndarray2 (replicate 12 (replicate (Z.to_nat steps_per_two_days) 0))) ->
  h !! P_return = Some (Series s.1 s.2) ->
  h !! dur = Some (Ndarray dur_v) -> h !! t_pk = Some (Ndarray t_pk_v) ->
  length dur_v = 12%nat -> length t_pk_v = 12%nat ->
  exists h' rows,
    build_kernels ts offset steps_per_two_days kernels P_return dur t_pk h
    = (Ok tt, h')
    /\ h' !! kernels = Some (Ndarray2 rows)
    /\ forall (month : nat) (dur_m t_pk_m : Q),
         dur_v !! month = Some dur_m -> t_pk_v !! month = Some t_pk_m ->
         0 < dur_m ->
         t_step_start ts offset 0 <= t_start dur_m t_pk_m ->
         t_end dur_m t_pk_m <= t_step_start ts offset steps_per_two_days ->
         exists row, rows !! month = Some row /\ qsum row == 1.
Proof.
  intros Hts HN Hk Hp Hd Ht Hld Hlt.
  destruct (build_kernels_table ts offset steps_per_two_days kernels P_return
              dur t_pk h s dur_v t_pk_v Hts HN Hk Hp Hd Ht Hld Hlt) as (h' & E & Hrows).
  exists h', (kernel_rows ts offset steps_per_two_days dur_v t_pk_v 12 12).
  split; [exact E|]. split; [exact Hrows|].
  intros month dur_m t_pk_m Hdm Htm Hpos Hlo Hhi.
  assert (Hmonth : (month < 12)%nat) by (rewrite <- Hld; eapply lookup_lt_Some; eauto).
  eexists. split; [apply lookup_kernel_rows; exact Hmonth|].
  rewrite Hdm, Htm. simpl. unfold kernel_row.
  replace steps_per_two_days with (Z.of_nat (Z.to_nat steps_per_two_days)) at 1 by lia.
  rewrite (kernel_values_telescope ts offset dur_m t_pk_m Hts Hpos).
  rewrite Z2Nat.id by lia.
  rewrite (pulse_cdf_after dur_m t_pk_m Hpos _ Hhi).
  rewrite (pulse_cdf_before dur_m t_pk_m _ Hlo). ring.
Qed.

(** An hourly table (offset 12, 48 bins) built from a four-hour storm
    peaking at noon. *)
Lemma kernel_unit_mass_witness :
  exists h' rows,
    build_kernels 60 12 48 3%nat 2%nat 0%nat 1%nat
      [Ndarray (replicate 12 240); Ndarray (replicate 12 720);
       Series (seqZ 0 48) (replicate 48 0);
       Ndarray2 (replicate 12 (replicate 48 0))]
    = (Ok tt, h')
    /\ h' !! 3%nat = Some (Ndarray2 rows)
    /\ exists row, rows !! 0%nat = Some row /\ qsum row == 1.
Proof.
  destruct (kernel_unit_mass 60 12 48 3%nat 2%nat 0%nat 1%nat
              [Ndarray (replicate 12 240); Ndarray (replicate 12 720);
               Series (seqZ 0 48) (replicate 48 0);
               Ndarray2 (replicate 12 (replicate 48 0))]
              (seqZ 0 48, replicate 48 0) (replicate 12 240) (replicate 12 720)
              ltac:(reflexivity) ltac:(lia) ltac:(reflexivity) ltac:(reflexivity)
              ltac:(reflexivity) ltac:(reflexivity) ltac:(reflexivity)
              ltac:(reflexivity))
    as (h' & rows & E & Hk & Hrow).
  exists h', rows. split; [exact E|]. split; [exact Hk|].
  apply (Hrow 0%nat 240 720); [reflexivity | reflexivity | reflexivity | | ];
    vm_compute; discriminate.
Defined.

(** C1 as stated fails: a storm of 25 hours peaking at midnight starts 750
    minutes before the day, 30 minutes before the window of the table does;
    at an hourly step the row of the table that [prec_TRIANGLE] builds sums
    to 1249/1250. *)
Lemma kernel_mass_outside_window :
  exists rows row,
    (prec_TRIANGLE 0%nat 60 1%nat 2%nat [1; 1]%Z
       [Ndarray [0; 0]; Ndarray (replicate 12 1500); Ndarray (replicate 12 0)]).2
      !! 4%nat = Some (Ndarray2 rows)
    /\ rows !! 0%nat = Some row
    /\ qsum row == 1249 # 1250
    /\ qsum row < 1.
Proof.
  eexists _, _. split; [vm_compute; reflexivity|].
  split; [reflexivity|]. split; vm_compute; reflexivity.
Qed.




(** ** Applying the kernels: the first and the last day *)

Lemma py_int_Z2Q z : py_int (Z2Q z) = z.
Proof. unfold py_int, Z2Q. simpl. apply Z.quot_1_r. Qed.

Lemma ceil_half (n : Z) : np_ceil (Z2Q n / 2) = ((n + 1) / 2)%Z.
Proof.
  unfold np_ceil, Qceiling, Qfloor, Z2Q. cbn.
  Z.div_mod_to_equations. lia.
Qed.

Lemma ceil_three_halves (n : Z) :
  np_ceil (Z2Q n * (15 # 10)) = (n + (n + 1) / 2)%Z.
Proof.
  unfold np_ceil, Qceiling, Qfloor, Z2Q. cbn.
  Z.div_mod_to_equations. lia.
Qed.

Lemma floor_day_start (d n : Z) :
  np_floor ((Z2Q d - (1 # 2)) * Z2Q n) = (d * n - (n + 1) / 2)%Z.
Proof.
  unfold np_floor, Qfloor, Z2Q. cbn.
  Z.div_mod_to_equations. nia.
Qed.

Lemma qsum_zip_plus (a b : list Q) :
  length a = length b -> qsum (zip_with Qplus a b) == qsum a + qsum b.
Proof.
  revert b. induction a as [|x a IH]; intros [|y b] Hl; simpl in *; try discriminate.
  - ring.
  - rewrite IH by lia. ring.
Qed.

Lemma qsum_scale (c : Q) (k : list Q) :
  qsum (map (fun x => c * x) k) == c * qsum k.
Proof. induction k as [|x k IH]; simpl; [ring | rewrite IH; ring]. Qed.

Lemma take_drop_length {A} (n : nat) (l : list A) :
  take n l ++ drop (length (take n l)) l = l.
Proof.
  rewrite length_take. destruct (Nat.le_gt_cases n (length l)).
  - rewrite Nat.min_l by done. apply take_drop.
  - rewrite Nat.min_r by lia. rewrite take_ge, drop_all by lia. apply app_nil_r.
Qed.


Lemma series_iadd_ok (P_return : loc) (h : heap) idx vals i j v :
  h !! P_return = Some (Series idx vals) ->
  length (series_window vals i j).2 = length v ->
  exists vals',
    series_iadd P_return i j v h = (Ok tt, <[P_return := Series idx vals']> h)
    /\ qsum vals' == qsum vals + qsum v.
Proof.
  intros HP Hlen. unfold series_iadd.
  rewrite (bind_ok _ _ _ _ _ (load_series_ok _ _ _ _ HP)).
  unfold series_window in Hlen. cbn [fst snd] in *.
  set (lo := from_option _ _ i) in *.
  set (cur := take _ (drop lo vals)) in *.
  rewrite Hlen, Nat.eqb_refl.
  rewrite (store_ok _ _ _ _ HP).
  eexists. split; [reflexivity|].
  rewrite !qsum_app, qsum_zip_plus by done.
  rewrite <- drop_drop.
  transitivity (qsum (take lo vals ++ (cur ++ drop (length cur) (drop lo vals))) + qsum v).
  - rewrite !qsum_app, <- Hlen. ring.
  - unfold cur at 1 2. rewrite take_drop_length, take_drop. reflexivity.
Qed.


Lemma boundary_lengths (steps_per_day n_days d : Z) (vals row : list Q) :
  (1 <= steps_per_day)%Z -> (2 <= n_days)%Z -> d = 0%Z \/ d = (n_days - 1)%Z ->
  length vals = Z.to_nat (steps_per_day * n_days) ->
  length row
  = Z.to_nat (2 * np_ceil (Z2Q steps_per_day / 2) + steps_per_day) ->
  length (series_window vals
            (if (d =? 0)%Z then None
             else Some (py_int (Z2Q (np_floor ((Z2Q d - (1 # 2)) * Z2Q steps_per_day)))))
            (if (d =? 0)%Z
             then Some (py_int (Z2Q (np_ceil (Z2Q steps_per_day * (15 # 10)))))
             else None)).2
  = length (in_bounds_kernel steps_per_day d row).
Proof.
  intros Hspd Hn Hd Hvals Hrow.
  unfold series_window, in_bounds_kernel, slice_from, slice_to, slice_bound.
  rewrite ?py_int_Z2Q, ?ceil_three_halves, ?floor_day_start, ?ceil_half in *.
  assert (Hoff : (1 <= (steps_per_day + 1) / 2 <= steps_per_day)%Z)
    by (Z.div_mod_to_equations; lia).
  set (off := ((steps_per_day + 1) / 2)%Z) in *. clearbody off.
  assert (Hnm : (2 * steps_per_day <= steps_per_day * n_days)%Z) by nia.
  assert (Hlast : ((n_days - 1) * steps_per_day
                   = steps_per_day * n_days - steps_per_day)%Z) by nia.
  set (L := (steps_per_day * n_days)%Z) in *. clearbody L.
  destruct Hd as [-> | ->].
  - simpl. repeat rewrite ?length_take, ?length_drop, ?Hvals, ?Hrow.
    destruct (Z.ltb_spec (steps_per_day + off) 0); [lia|].
    destruct (Z.ltb_spec off 0); lia.
  - destruct (Z.eqb_spec (n_days - 1) 0); [lia|]. simpl.
    rewrite Hlast.
    repeat rewrite ?length_take, ?length_drop, ?Hvals, ?Hrow.
    destruct (Z.ltb_spec (L - steps_per_day - off) 0); [lia|].
    destruct (Z.ltb_spec (steps_per_day + off) 0); lia.
Qed.

(** Boundary mass conservation: on a record of at least two days, the turn of
    the day loop of [prec_TRIANGLE] for the first or for the last day adds to
    the output series values that sum to the day's precipitation total,
    provided the part of the month's kernel inside the record has a nonzero
    sum (before the final rounding, in exact arithmetic). *)
Theorem boundary_day_mass (kernels P_return prec : loc)
    (month_of_year : list Z) (steps_per_day n_days : Z) (h : heap)
    (rows : list (list Q)) (idx : list Z) (vals p row : list Q)
    (d mo : Z) (p_d : Q) :
  (1 <= steps_per_day)%Z -> (2 <= n_days)%Z ->
  d = 0%Z \/ d = (n_days - 1)%Z ->
  h !! kernels = Some (Ndarray2 rows) ->
  h !! P_return = Some (Series idx vals) ->
  h !! prec = Some (Ndarray p) ->
  length vals = Z.to_nat (steps_per_day * n_days) ->
  month_of_year !! Z.to_nat d = Some mo -> (1 <= mo)%Z ->
  rows !! Z.to_nat (mo - 1) = Some row ->
  length row
  = Z.to_nat (2 * np_ceil (Z2Q steps_per_day / 2) + steps_per_day) ->
  p !! Z.to_nat d = Some p_d ->
  ~ qsum (in_bounds_kernel steps_per_day d row) == 0 ->
  exists vals',
    apply_day kernels P_return prec month_of_year steps_per_day n_days d h
    = (Ok tt, <[P_return := Series idx vals']> h)
    /\ qsum vals' == qsum vals + p_d.
Proof.
  intros Hspd Hn Hd Hk HP Hp Hvals Hmo Hmo1 Hrow Hlrow Hpd Hsum.
  assert (Hd0 : (0 <= d)%Z) by lia.
  pose proof (boundary_lengths steps_per_day n_days d vals row Hspd Hn Hd
                Hvals Hlrow) as Hlen.
  assert (Hne : in_bounds_kernel steps_per_day d row <> [])
    by (intros E; apply Hsum; rewrite E; reflexivity).
  set (k := in_bounds_kernel steps_per_day d row) in *.
  assert (Hrecip : recip_sum k = Ok (1 / qsum k))
    by (unfold recip_sum; destruct k; [done | reflexivity]).
  assert (Hmass : qsum (map (fun x => 1 / qsum k * p_d * x) k) == p_d)
    by (rewrite qsum_scale; field; exact Hsum).
  unfold apply_day.
  destruct (Z.eqb_spec d 0) as [Hz | Hz].
  - rewrite (bind_ok _ _ _ _ _ (load_ndarray2_ok _ _ _ Hk)).
    unfold lift at 1. rewrite (getitem_ok _ _ _ Hd0 Hmo). erewrite bind_ok by reflexivity.
    unfold lift at 1. rewrite (getitem_ok rows (mo - 1) row ltac:(lia) Hrow).
    erewrite bind_ok by reflexivity.
    assert (Ek : slice_from row (py_int (Z2Q (np_ceil (Z2Q steps_per_day / 2)))) = k)
      by (unfold k, in_bounds_kernel; rewrite (proj2 (Z.eqb_eq d 0) Hz); reflexivity).
    cbv zeta. rewrite Ek. unfold lift at 1. rewrite Hrecip. erewrite bind_ok by reflexivity.
    rewrite (bind_ok _ _ _ _ _ (load_ndarray_ok _ _ _ Hp)).
    unfold lift at 1. rewrite (getitem_ok _ _ _ Hd0 Hpd). erewrite bind_ok by reflexivity.
    destruct (series_iadd_ok P_return h idx vals None
                (Some (py_int (Z2Q (np_ceil (Z2Q steps_per_day * (15 # 10))))))
                (map (fun x => 1 / qsum k * p_d * x) k) HP
                ltac:(rewrite length_map; exact Hlen)) as (vals' & E & Hs).
    exists vals'. split; [exact E|]. rewrite Hs, Hmass. reflexivity.
  - destruct Hd as [Hd | Hd]; [done|].
    rewrite (proj2 (Z.eqb_eq d (n_days - 1)) Hd).
    rewrite (bind_ok _ _ _ _ _ (load_ndarray2_ok _ _ _ Hk)).
    unfold lift at 1. rewrite (getitem_ok _ _ _ Hd0 Hmo). erewrite bind_ok by reflexivity.
    unfold lift at 1. rewrite (getitem_ok rows (mo - 1) row ltac:(lia) Hrow).
    erewrite bind_ok by reflexivity.
    assert (Ek : slice_to row (py_int (Z2Q (np_ceil (Z2Q steps_per_day * (15 # 10))))) = k)
      by (unfold k, in_bounds_kernel; rewrite (proj2 (Z.eqb_neq d 0) Hz); reflexivity).
    cbv zeta. rewrite Ek. unfold lift at 1. rewrite Hrecip. erewrite bind_ok by reflexivity.
    rewrite (bind_ok _ _ _ _ _ (load_ndarray_ok _ _ _ Hp)).
    unfold lift at 1. rewrite (getitem_ok _ _ _ Hd0 Hpd). erewrite bind_ok by reflexivity.
    destruct (series_iadd_ok P_return h idx vals
                (Some (py_int (Z2Q (np_floor ((Z2Q d - (1 # 2)) * Z2Q steps_per_day)))))
                None
                (map (fun x => 1 / qsum k * p_d * x) k) HP
                ltac:(rewrite length_map; exact Hlen)) as (vals' & E & Hs).
    exists vals'. split; [exact E|]. rewrite Hs, Hmass. reflexivity.
Qed.

(** The first day of a two-day record at a twelve-hour step, with a kernel
    of four bins. *)
Lemma boundary_day_mass_witness :
  exists vals',
    apply_day 0%nat 1%nat 2%nat [1; 1]%Z 2 2 0
      [Ndarray2 (replicate 12 [0; 1 # 2; 1 # 2; 0]);
       Series [0; 1; 2; 3]%Z [0; 0; 0; 0]; Ndarray [5; 7]]
    = (Ok tt,
       <[1%nat := Series [0; 1; 2; 3]%Z vals']>
         [Ndarray2 (replicate 12 [0; 1 # 2; 1 # 2; 0]);
          Series [0; 1; 2; 3]%Z [0; 0; 0; 0]; Ndarray [5; 7]])
    /\ qsum vals' == qsum [0; 0; 0; 0] + 5.
Proof.
  apply (boundary_day_mass 0%nat 1%nat 2%nat [1; 1]%Z 2 2
           [Ndarray2 (replicate 12 [0; 1 # 2; 1 # 2; 0]);
            Series [0; 1; 2; 3]%Z [0; 0; 0; 0]; Ndarray [5; 7]]
           (replicate 12 [0; 1 # 2; 1 # 2; 0]) [0; 1; 2; 3]%Z [0; 0; 0; 0]
           [5; 7] [0; 1 # 2; 1 # 2; 0] 0 1 5);
    try reflexivity; try lia.
  vm_compute. discriminate.
Defined.

(** C2 on a record of one day, with a storm of half an hour around noon at
    an hourly step: the day is the first one, its kernel from the middle on
    has 36 bins, the output has 24, and the in-place addition raises. *)
Lemma single_day_record_raises :
  (prec_TRIANGLE 0%nat 60 1%nat 2%nat [1%Z]
     [Ndarray [5]; Ndarray (replicate 12 30); Ndarray (replicate 12 720)]).1
  = Raise ValueError.
Proof. vm_compute. reflexivity. Qed.

(** ** Shortwave *)

(** [int(day * ts_per_day)] and [int((day + 1) * ts_per_day)] when the time
    step divides the day into [steps] steps. *)
Lemma day_offset (time_step steps day : Z) :
  (0 < time_step)%Z -> (1440 = steps * time_step)%Z ->
  py_int (Z2Q day * (cnst.HOURS_PER_DAY * cnst.MIN_PER_HOUR / Z2Q time_step))
  = (day * steps)%Z.
Proof.
  intros Hts Hdiv. destruct time_step as [|p|p]; try lia.
  unfold py_int, Z2Q, cnst.HOURS_PER_DAY, cnst.MIN_PER_HOUR. cbn.
  rewrite !Pos.mul_1_l.
  replace (24 * 60 * 1)%Z with (steps * Z.pos p)%Z by lia.
  rewrite Z.mul_assoc. apply Z.quot_mul. lia.
Qed.

Lemma day_offset_next (time_step steps day : Z) :
  (0 < time_step)%Z -> (1440 = steps * time_step)%Z ->
  py_int ((Z2Q day + 1)
          * (cnst.HOURS_PER_DAY * cnst.MIN_PER_HOUR / Z2Q time_step))
  = ((day + 1) * steps)%Z.
Proof.
  intros Hts Hdiv. destruct time_step as [|p|p]; try lia.
  unfold py_int, Z2Q, cnst.HOURS_PER_DAY, cnst.MIN_PER_HOUR. cbn.
  rewrite !Pos.mul_1_l.
  replace (24 * 60 * 1)%Z with (steps * Z.pos p)%Z by lia.
  replace (day * 1 + 1 * 1)%Z with (day + 1)%Z by lia.
  rewrite Z.mul_assoc. apply Z.quot_mul. lia.
Qed.



Lemma length_tinystep_indices pr :
  Z.of_nat (length (tinystep_indices pr)) = 2880%Z.
Proof. unfold tinystep_indices, tinystep_wrapped. rewrite !length_map, length_seqZ. reflexivity. Qed.


Lemma chunk_size_of_eq pr : chunk_size_of pr = (2 * time_step pr)%Z.
Proof.
  unfold chunk_size_of, py_int, Z2Q, cnst.SEC_PER_MIN, cnst.SW_RAD_DT. cbn.
  replace (time_step pr * (60 * 1))%Z with (2 * time_step pr * 30)%Z by lia.
  apply Z.quot_mul. lia.
Qed.

Lemma length_chunks rows c x : length (chunks rows c x) = rows.
Proof. revert x. induction rows as [|rows IH]; intros x; simpl; [done | by rewrite IH]. Qed.

Lemma chunk_sum_length (pr : params) (steps : Z) (x w : list Q) :
  (0 < time_step pr)%Z -> (1440 = steps * time_step pr)%Z ->
  Z.of_nat (length x) = 2880%Z ->
  chunk_sum (chunk_size_of pr) x = Ok w -> length w = Z.to_nat steps.
Proof.
  intros Hts Hdiv Hx. unfold chunk_sum, np_reshape. rewrite chunk_size_of_eq, Hx.
  destruct (Z.eqb_spec (2 * time_step pr) 0); [lia|].
  set (rows := py_int _).
  destruct (Z.leb_spec 0 rows); [|discriminate].
  destruct (Z.leb_spec 0 (2 * time_step pr)); [|discriminate].
  destruct (Z.eqb_spec (rows * (2 * time_step pr)) 2880) as [E|]; [|discriminate].
  cbn [andb rbind]. intros [= <-]. rewrite length_map, length_chunks.
  f_equal. nia.
Qed.


Lemma take_indices_length rad idx x :
  take_indices rad idx = Ok x -> length x = length idx.
Proof.
  revert x. induction idx as [|i idx IH]; intros x; simpl.
  - intros [= <-]. done.
  - destruct (getitem rad i); [|discriminate]. simpl.
    destruct (take_indices rad idx); [|discriminate]. simpl.
    intros [= <-]. simpl. f_equal. by apply IH.
Qed.

Lemma day_weights_length table day_of_year pr steps day w :
  (0 < time_step pr)%Z -> (1440 = steps * time_step pr)%Z ->
  day_weights table day_of_year pr day = Ok w -> length w = Z.to_nat steps.
Proof.
  intros Hts Hdiv. unfold day_weights.
  destruct (getitem day_of_year day); [|discriminate]. cbn [rbind].
  destruct (getitem table _); [|discriminate]. cbn [rbind].
  destruct (take_indices _ _) as [x|] eqn:E; [|discriminate]. cbn [rbind].
  apply chunk_sum_length; try done.
  rewrite (take_indices_length _ _ _ E). apply length_tinystep_indices.
Qed.

Lemma ndarray_iadd_where_ok h l a test c :
  h !! l = Some (Ndarray a) ->
  ndarray_iadd_where l test c h
  = (Ok tt, <[l := Ndarray (map (fun x => if test x then x + c else x) a)]> h).
Proof.
  intros E. unfold ndarray_iadd_where.
  rewrite (bind_ok _ _ _ _ _ (load_ndarray_ok _ _ _ E)).
  apply (store_ok _ _ _ _ E).
Qed.

Lemma ndarray_setslice_ok h l a (i j : Z) v :
  h !! l = Some (Ndarray a) ->
  (0 <= i <= j)%Z -> (j <= Z.of_nat (length a))%Z ->
  length v = Z.to_nat (j - i) ->
  ndarray_setslice l i j v h
  = (Ok tt, <[l := Ndarray (take (Z.to_nat i) a ++ v ++ drop (Z.to_nat j) a)]> h).
Proof.
  intros E Hij Hj Hv. unfold ndarray_setslice.
  rewrite (bind_ok _ _ _ _ _ (load_ndarray_ok _ _ _ E)).
  unfold slice_bound.
  destruct (Z.ltb_spec i 0); [lia|]. destruct (Z.ltb_spec j 0); [lia|].
  rewrite !Z.min_r by lia.
  replace (Z.to_nat j - Z.to_nat i)%nat with (length v) by lia.
  rewrite Nat.eqb_refl.
  replace (Z.to_nat i + length v)%nat with (Z.to_nat j) by lia.
  apply (store_ok _ _ _ _ E).
Qed.

Section ShortwaveHeap.
Variable (h : heap).

Local Abbreviation sw_heap := (sw_heap h).


Lemma sw_heap_old a t l :
  (l < length h)%nat -> sw_heap a t !! l = h !! l.
Proof.
  intros Hl. unfold sw_heap.
  rewrite lookup_app_l by (rewrite length_app; simpl; lia).
  apply lookup_app_l. done.
Qed.

Lemma sw_heap_disaggrad a t : sw_heap a t !! length h = Some (Ndarray a).
Proof.
  unfold sw_heap.
  rewrite lookup_app_l by (rewrite length_app; simpl; lia).
  rewrite lookup_app_r by lia. by rewrite Nat.sub_diag.
Qed.

Lemma sw_heap_store a a' t :
  <[length h := Ndarray a']> (sw_heap a t) = sw_heap a' t.
Proof.
  unfold sw_heap.
  rewrite insert_app_l by (rewrite length_app; simpl; lia).
  rewrite insert_app_r_alt by lia. by rewrite Nat.sub_diag.
Qed.
End ShortwaveHeap.

Section ShortwaveLoop.
Variables (h : heap) (tiny_rad_fract : loc) (table : list (list Q)).
Variables (day_of_year : list Z) (pr : params) (steps n_days : Z).
Variables (tmp_rad : list Q).
Hypothesis table_in_heap : h !! tiny_rad_fract = Some (Ndarray2 table).
Hypothesis step_pos : (0 < time_step pr)%Z.
Hypothesis step_divides : (1440 = steps * time_step pr)%Z.
Hypothesis tmp_rad_days : Z.of_nat (length tmp_rad) = n_days.

Local Abbreviation sw_filled := (sw_filled table day_of_year pr steps n_days tmp_rad).
Local Abbreviation sw_value := (sw_value table day_of_year pr tmp_rad).




Lemma shortwave_day_run (a t : list Q) (k : Z) :
  (0 <= k < n_days)%Z -> sw_filled k a ->
  is_ok (day_weights table day_of_year pr k) = true ->
  exists a',
    shortwave_day day_of_year tiny_rad_fract (length h) (tinystep_indices pr)
      tmp_rad (cnst.HOURS_PER_DAY * cnst.MIN_PER_HOUR / Z2Q (time_step pr))
      (chunk_size_of pr) k (sw_heap h a t)
    = (Ok tt, sw_heap h a' t)
    /\ sw_filled (k + 1) a'.
Proof using All.
  intros Hk [Hlen Hfill] Hw.
  assert (Hsteps : (0 < steps)%Z) by nia.
  assert (Htab : (tiny_rad_fract < length h)%nat) by (eapply lookup_lt_Some; eauto).
  destruct (day_weights table day_of_year pr k) as [w|] eqn:Ew; [|discriminate].
  pose proof (day_weights_length _ _ _ _ _ _ step_pos step_divides Ew) as Hlw.
  destruct (lookup_lt_is_Some_2 tmp_rad (Z.to_nat k) ltac:(lia)) as [tk Htk].
  unfold day_weights in Ew.
  destruct (getitem day_of_year k) as [doy|] eqn:E1; [|discriminate]. cbn [rbind] in Ew.
  destruct (getitem table (doy - 1)) as [rad|] eqn:E2; [|discriminate]. cbn [rbind] in Ew.
  destruct (take_indices rad _) as [rc|] eqn:E3; [|discriminate]. cbn [rbind] in Ew.
  unfold shortwave_day.
  erewrite bind_ok; cycle 1.
  { apply load_ndarray2_ok. rewrite sw_heap_old by done. exact table_in_heap. }
  unfold lift. rewrite E1. erewrite bind_ok by reflexivity.
  rewrite E2. erewrite bind_ok by reflexivity.
  rewrite E3. erewrite bind_ok by reflexivity.
  rewrite Ew. erewrite bind_ok by reflexivity.
  rewrite (getitem_ok tmp_rad k tk ltac:(lia) Htk). erewrite bind_ok by reflexivity.
  rewrite (day_offset _ steps k step_pos step_divides).
  rewrite (day_offset_next _ steps k step_pos step_divides).
  rewrite (ndarray_setslice_ok _ _ a _ _ _ (sw_heap_disaggrad h a t));
    [ | nia | nia | rewrite length_map, Hlw; f_equal; lia ].
  rewrite sw_heap_store. eexists. split; [reflexivity|].
  assert (Hk0 : (Z.to_nat ((k + 1) * steps) = Z.to_nat (k * steps) + Z.to_nat steps)%nat) by nia.
  split.
  - rewrite !length_app, length_take, length_drop, length_map. nia.
  - intros day j Hday Hj.
    destruct (Z.eq_dec day k) as [-> | Hne].
    + rewrite lookup_app_r by (rewrite length_take; nia).
      rewrite length_take, Nat.min_l by nia.
      replace (Z.to_nat (k * steps) + j - Z.to_nat (k * steps))%nat with j by lia.
      rewrite lookup_app_l by (rewrite length_map; lia).
      rewrite list_lookup_fmap.
      destruct (lookup_lt_is_Some_2 w j ltac:(lia)) as [x Hx].
      rewrite Hx. simpl. unfold sw_value.
      unfold day_weights. rewrite E1. cbn [rbind]. rewrite E2. cbn [rbind].
      rewrite E3. cbn [rbind]. rewrite Ew, Hx, Htk. reflexivity.
    + rewrite lookup_app_l by (rewrite length_take; nia).
      rewrite lookup_take_lt by nia. apply Hfill; lia.
Qed.

Lemma shortwave_days_run (a t : list Q) (k : nat) :
  (Z.of_nat k <= n_days)%Z -> sw_filled 0 a ->
  (forall day, (0 <= day < n_days)%Z ->
               is_ok (day_weights table day_of_year pr day) = true) ->
  exists a',
    for_ (seqZ 0 (Z.of_nat k))
      (shortwave_day day_of_year tiny_rad_fract (length h) (tinystep_indices pr)
         tmp_rad (cnst.HOURS_PER_DAY * cnst.MIN_PER_HOUR / Z2Q (time_step pr))
         (chunk_size_of pr)) (sw_heap h a t)
    = (Ok tt, sw_heap h a' t)
    /\ sw_filled (Z.of_nat k) a'.
Proof using All.
  intros Hk H0 Hw. induction k as [|k IH].
  - exists a. rewrite seqZ_nil by lia. split; [reflexivity | exact H0].
  - destruct (IH ltac:(lia)) as (a1 & E1 & F1).
    destruct (shortwave_day_run a1 t (Z.of_nat k) ltac:(lia) F1 (Hw (Z.of_nat k) ltac:(lia)))
      as (a2 & E2 & F2).
    exists a2. rewrite seqZ_S, (for_app _ _ _ _ _ E1). simpl.
    replace (0 + Z.of_nat k)%Z with (Z.of_nat k) by lia.
    rewrite (bind_ok _ _ _ _ _ E2). split; [reflexivity|].
    replace (Z.of_nat (S k)) with (Z.of_nat k + 1)%Z by lia. exact F2.
Qed.
End ShortwaveLoop.

(** C3 (amended): for every day, [shortwave] multiplies the day's
    output-step weights (the chunk sums of the rotated radiation shape) by
    [shortwave_total[day] * daylength[day] / SEC_PER_HOUR] -- the seconds
    of an hour, not of a day -- and stores the products at the day's steps
    of a new array. *)
Theorem shortwave_scaling (sw_rad daylength tiny_rad_fract : loc)
    (day_of_year : list Z) (pr : params) (h : heap) (sw dl : list Q)
    (table : list (list Q)) (steps : Z) :
  (0 < time_step pr)%Z -> (1440 = steps * time_step pr)%Z ->
  h !! sw_rad = Some (Ndarray sw) -> h !! daylength = Some (Ndarray dl) ->
  length sw = length dl ->
  h !! tiny_rad_fract = Some (Ndarray2 table) ->
  (forall day : Z, (0 <= day < Z.of_nat (length sw))%Z ->
                   is_ok (day_weights table day_of_year pr day) = true) ->
  exists h' out,
    shortwave sw_rad daylength day_of_year tiny_rad_fract pr h
    = (Ok (length h), h')
    /\ h' !! length h = Some (Ndarray out)
    /\ Z.of_nat (length out) = (Z.of_nat (length sw) * steps)%Z
    /\ forall (day j : nat) (w : list Q) (s d : Q),
         day_weights table day_of_year pr (Z.of_nat day) = Ok w ->
         sw !! day = Some s -> dl !! day = Some d ->
         (Z.of_nat j < steps)%Z ->
         exists x,
           w !! j = Some x
           /\ out !! (day * Z.to_nat steps + j)%nat
              = Some (x * (s * d / cnst.SEC_PER_HOUR)).
Proof.
  intros Hts Hdiv Hsw Hdl Hlen Htab Hw.
  set (tmp_rad := map (fun x => x / cnst.SEC_PER_HOUR) (zip_with Qmult sw dl)).
  assert (Hn : Z.of_nat (length tmp_rad) = Z.of_nat (length sw)).
  { unfold tmp_rad. rewrite length_map, length_zip_with. lia. }
  assert (Hsteps : (0 < steps)%Z) by nia.
  set (zeros := replicate (Z.to_nat (Z.of_nat (length sw) * steps)) (0 : Q)).
  assert (H0 : sw_filled table day_of_year pr steps (Z.of_nat (length sw)) tmp_rad 0 zeros).
  { split; [unfold zeros; rewrite length_replicate; nia | intros; lia]. }
  destruct (shortwave_days_run h tiny_rad_fract table day_of_year pr steps
              (Z.of_nat (length sw)) tmp_rad Htab Hts Hdiv Hn zeros
              (tinystep_wrapped pr)
              (length sw) ltac:(lia) H0 Hw) as (out & Erun & [Hlo Hfill]).
  exists (sw_heap h out (tinystep_wrapped pr)), out.
  split; [| split; [apply sw_heap_disaggrad | split; [exact Hlo|]]].
  - unfold shortwave.
    rewrite (bind_ok _ _ _ _ _ (load_ndarray_ok _ _ _ Hsw)).
    rewrite (bind_ok _ _ _ _ _ (load_ndarray_ok _ _ _ Hdl)).
    unfold lift, np_binop. rewrite Hlen, Nat.eqb_refl.
    erewrite bind_ok by reflexivity.
    destruct (Z.eqb_spec (time_step pr) 0); [lia|].
    fold tmp_rad. rewrite Hn.
    rewrite (day_offset _ steps _ Hts Hdiv). fold zeros.
    unfold alloc at 1. erewrite bind_ok by reflexivity.
    unfold alloc at 1. erewrite bind_ok by reflexivity.
    assert (Ht : forall t, ((h ++ [Ndarray zeros]) ++ [Ndarray t])
                           !! length (h ++ [Ndarray zeros]) = Some (Ndarray t)).
    { intros t. rewrite lookup_app_r by lia. by rewrite Nat.sub_diag. }
    assert (Hs : forall t t', <[length (h ++ [Ndarray zeros]) := Ndarray t']>
                                ((h ++ [Ndarray zeros]) ++ [Ndarray t])
                              = (h ++ [Ndarray zeros]) ++ [Ndarray t']).
    { intros t t'. rewrite insert_app_r_alt by lia. by rewrite Nat.sub_diag. }
    rewrite (bind_ok _ _ _ _ _ (ndarray_iadd_where_ok _ _ _ _ _ (Ht _))), Hs.
    rewrite (bind_ok _ _ _ _ _ (ndarray_iadd_where_ok _ _ _ _ _ (Ht _))), Hs.
    rewrite (bind_ok _ _ _ _ _ (load_ndarray_ok _ _ _ (Ht _))).
    change (map py_int _) with (tinystep_indices pr).
    change (map _ (map _ (map _ (seqZ 0 _)))) with (tinystep_wrapped pr).
    change (py_int (Z2Q (time_step pr) * _)) with (chunk_size_of pr).
    erewrite bind_ok by exact Erun. reflexivity.
  - intros day j w s d Ew Hs Hd Hj.
    assert (Hday : (day < length sw)%nat) by (eapply lookup_lt_Some; eauto).
    pose proof (day_weights_length _ _ _ _ _ _ Hts Hdiv Ew) as Hlw.
    destruct (lookup_lt_is_Some_2 w j ltac:(lia)) as [x Hx].
    exists x. split; [exact Hx|].
    replace (day * Z.to_nat steps)%nat with (Z.to_nat (Z.of_nat day * steps)) by nia.
    rewrite (Hfill (Z.of_nat day) j ltac:(lia) Hj).
    unfold sw_value. rewrite Ew, Hx, Nat2Z.id. unfold tmp_rad.
    rewrite list_lookup_fmap, lookup_zip_with, Hs. simpl. rewrite Hd. reflexivity.
Qed.

(** A one-day record at a twelve-hour step, with daylight from 06:00 to
    18:00. *)
Lemma shortwave_scaling_witness :
  exists h' out,
    shortwave 0%nat 1%nat [1%Z] 2%nat
      {| time_step := 720; prec_type := "uniform"; lw_type := "default";
         lw_cloud := "default"; tmax_daylength_fraction := 67 # 100;
         theta_l := None; theta_s := None |}
      [Ndarray [100]; Ndarray [43200];
       Ndarray2 [replicate 720 0 ++ replicate 1440 1 ++ replicate 720 0]]
    = (Ok 3%nat, h')
    /\ h' !! 3%nat = Some (Ndarray out)
    /\ Z.of_nat (length out) = 2%Z.
Proof.
  destruct (shortwave_scaling 0%nat 1%nat 2%nat [1%Z]
              {| time_step := 720; prec_type := "uniform"; lw_type := "default";
                 lw_cloud := "default"; tmax_daylength_fraction := 67 # 100;
                 theta_l := None; theta_s := None |}
              [Ndarray [100]; Ndarray [43200];
               Ndarray2 [replicate 720 0 ++ replicate 1440 1 ++ replicate 720 0]]
              [100] [43200]
              [replicate 720 0 ++ replicate 1440 1 ++ replicate 720 0] 2
              ltac:(reflexivity) ltac:(reflexivity) ltac:(reflexivity)
              ltac:(reflexivity) ltac:(reflexivity) ltac:(reflexivity))
    as (h' & out & E & Hout & Hlen & _).
  - intros day Hday. assert (day = 0%Z) as -> by (simpl in Hday; lia).
    vm_compute. reflexivity.
  - exists h', out. split; [exact E|]. split; [exact Hout | exact Hlen].
Defined.

(** C3 as stated fails: on a one-day record at a six-hour step the second
    output step has weight 720, the day's total is 100 and its daylength
    43200 s; [shortwave] stores 720 * (100 * 43200 / 3600) = 864000 there,
    where the division by the seconds of a day would give 36000. *)
Lemma shortwave_not_per_day :
  exists out w x v,
    (shortwave 0%nat 1%nat [1%Z] 2%nat
       {| time_step := 360; prec_type := "uniform"; lw_type := "default";
          lw_cloud := "default"; tmax_daylength_fraction := 67 # 100;
          theta_l := None; theta_s := None |}
       [Ndarray [100]; Ndarray [43200];
        Ndarray2 [replicate 720 0 ++ replicate 1440 1 ++ replicate 720 0]]).2
      !! 3%nat = Some (Ndarray out)
    /\ day_weights [replicate 720 0 ++ replicate 1440 1 ++ replicate 720 0]
         [1%Z]
         {| time_step := 360; prec_type := "uniform"; lw_type := "default";
            lw_cloud := "default"; tmax_daylength_fraction := 67 # 100;
            theta_l := None; theta_s := None |} 0 = Ok w
    /\ w !! 1%nat = Some x
    /\ out !! 1%nat = Some v
    /\ v == 864000
    /\ x * (100 * 43200 / (cnst.HOURS_PER_DAY * cnst.SEC_PER_HOUR)) == 36000.
Proof.
  eexists _, _, _, _.
  split; [vm_compute; reflexivity|].
  split; [vm_compute; reflexivity|].
  split; [reflexivity|]. split; [reflexivity|].
  split; vm_compute; reflexivity.
Qed.

(** ** Times of the extrema *)

Lemma np_where_from_spec (test : Z -> bool) (a : list Z) (start i : Z) :
  i ∈ np_where_from start test a
  <-> (start <= i)%Z /\ exists x, a !! Z.to_nat (i - start) = Some x /\ test x = true.
Proof.
  revert start. induction a as [|y a IH]; intros start; simpl.
  - split; [by intros ?%elem_of_nil | by intros (_ & x & ? & _)].
  - assert (Hrec : i ∈ np_where_from (start + 1) test a
                   <-> (start < i)%Z /\ exists x, a !! Z.to_nat (i - start - 1) = Some x
                                                 /\ test x = true).
    { rewrite IH. replace (i - (start + 1))%Z with (i - start - 1)%Z by lia.
      split; intros [? ?]; (split; [lia | done]). }
    destruct (test y) eqn:Ey; rewrite ?elem_of_cons, Hrec.
    + split.
      * intros [-> | [Hlt (x & Hx & Hxt)]].
        -- split; [lia|]. exists y. replace (start - start)%Z with 0%Z by lia. done.
        -- split; [lia|]. exists x. split; [|done].
           replace (Z.to_nat (i - start)) with (S (Z.to_nat (i - start - 1))) by lia.
           done.
      * intros [Hle (x & Hx & Hxt)].
        destruct (Z.eq_dec i start) as [-> | Hne]; [by left | right].
        split; [lia|]. exists x. split; [|done].
        replace (Z.to_nat (i - start)) with (S (Z.to_nat (i - start - 1))) in Hx by lia.
        done.
    + split.
      * intros [Hlt (x & Hx & Hxt)]. split; [lia|]. exists x. split; [|done].
        replace (Z.to_nat (i - start)) with (S (Z.to_nat (i - start - 1))) by lia.
        done.
      * intros [Hle (x & Hx & Hxt)].
        destruct (Z.eq_dec i start) as [-> | Hne].
        -- replace (start - start)%Z with 0%Z in Hx by lia. simpl in Hx. congruence.
        -- split; [lia|]. exists x. split; [|done].
           replace (Z.to_nat (i - start)) with (S (Z.to_nat (i - start - 1))) in Hx by lia.
           done.
Qed.

Lemma lookup_np_diff (a : list Z) (i : nat) (d : Z) :
  np_diff a !! i = Some d
  <-> exists x y, a !! i = Some x /\ a !! S i = Some y /\ d = (y - x)%Z.
Proof.
  unfold np_diff. rewrite lookup_zip_with_Some. rewrite lookup_tail.
  split; intros (x & y & H1 & H2 & H3); exists x, y; auto.
Qed.

Lemma lookup_rad_mask (rad : list cell) (i : nat) (x : Z) :
  rad_mask rad !! i = Some x
  <-> (i < length rad)%nat /\ x = if lit rad (Z.of_nat i) then 1%Z else 0%Z.
Proof.
  unfold rad_mask, lit. rewrite list_lookup_fmap, Nat2Z.id.
  destruct (rad !! i) as [c|] eqn:E; simpl.
  - apply lookup_lt_Some in E as Hlt. destruct c as [q|]; [destruct (Qlt_bool 0 q)|];
      split; try (intros [= <-]; done); intros [_ ->]; done.
  - apply lookup_ge_None in E. split; [done | lia].
Qed.

(** A detected sunrise is a dark step followed by a lit one, a detected
    sunset a lit step followed by a dark one. *)
Lemma sunrise_spec (rad : list cell) (i : Z) :
  i ∈ sunrises rad ->
  (0 <= i)%Z /\ lit rad i = false /\ lit rad (i + 1) = true.
Proof.
  unfold sunrises, np_where. rewrite np_where_from_spec.
  intros (Hi & d & Hd & Hpos). split; [done|].
  replace (i - 0)%Z with i in Hd by lia.
  apply lookup_np_diff in Hd as (x & y & Hx & Hy & ->).
  apply lookup_rad_mask in Hx as [_ ->]. apply lookup_rad_mask in Hy as [_ ->].
  rewrite Z2Nat.id in * by lia.
  replace (Z.of_nat (S (Z.to_nat i))) with (i + 1)%Z in Hpos by lia.
  destruct (lit rad i), (lit rad (i + 1)); try done; simpl in Hpos; lia.
Qed.

Lemma sunset_spec (rad : list cell) (j : Z) :
  j ∈ sunsets rad ->
  (0 <= j)%Z /\ lit rad j = true /\ lit rad (j + 1) = false.
Proof.
  unfold sunsets, np_where. rewrite np_where_from_spec.
  intros (Hi & d & Hd & Hneg). split; [done|].
  replace (j - 0)%Z with j in Hd by lia.
  apply lookup_np_diff in Hd as (x & y & Hx & Hy & ->).
  apply lookup_rad_mask in Hx as [_ ->]. apply lookup_rad_mask in Hy as [_ ->].
  rewrite Z2Nat.id in * by lia.
  replace (Z.of_nat (S (Z.to_nat j))) with (j + 1)%Z in Hneg by lia.
  destruct (lit rad j), (lit rad (j + 1)); try done; simpl in Hneg; lia.
Qed.

(** C4 (amended): when as many sunrises as sunsets are detected, the
    estimator returns, for the k-th sunrise (at step i) and the k-th sunset
    (at step j), the time of minimum temperature i * ts and the time of
    maximum temperature i * ts + tmax_daylength_fraction * (j * ts - i * ts).
    Both are minutes from the start of the record: a sunrise at step r of
    day d, at steps_per_day steps a day, is reported as
    d * (steps_per_day * ts) + r * ts. *)
Theorem extrema_times (disagg_rad : list cell) (n_days : Z) (ts : Q)
    (pr : params) (k : nat) (i j : Z) :
  length (sunrises disagg_rad) = length (sunsets disagg_rad) ->
  sunrises disagg_rad !! k = Some i -> sunsets disagg_rad !! k = Some j ->
  exists t_t_min t_t_max,
    set_min_max_hour disagg_rad n_days ts pr = Ok (t_t_min, t_t_max)
    /\ t_t_min !! k = Some (Z2Q i * ts)
    /\ t_t_max !! k
       = Some (tmax_daylength_fraction pr * (Z2Q j * ts - Z2Q i * ts)
               + Z2Q i * ts)
    /\ (lit disagg_rad i = false /\ lit disagg_rad (i + 1) = true)
    /\ (lit disagg_rad j = true /\ lit disagg_rad (j + 1) = false)
    /\ forall d steps_per_day : Z,
         Z2Q i * ts
         == Z2Q d * (Z2Q steps_per_day * ts) + Z2Q (i - d * steps_per_day) * ts.
Proof.
  intros Hlen Hi Hj. unfold set_min_max_hour.
  fold (sunrises disagg_rad). fold (sunsets disagg_rad).
  unfold np_binop at 1. rewrite !length_map, <- Hlen, Nat.eqb_refl. cbn [rbind].
  unfold np_binop. rewrite !length_map, length_zip_with, !length_map, <- Hlen.
  rewrite Nat.min_id, Nat.eqb_refl. cbn [rbind].
  eexists _, _. split; [reflexivity|].
  split; [by rewrite list_lookup_fmap, Hi|].
  split.
  { apply lookup_zip_with_Some. eexists _, _. split; [reflexivity|].
    split; [|by rewrite list_lookup_fmap, Hi].
    rewrite list_lookup_fmap.
    erewrite (proj2 (lookup_zip_with_Some _ _ _ _ _)); [reflexivity|].
    eexists _, _. split; [reflexivity|].
    split; [by rewrite list_lookup_fmap, Hj | by rewrite list_lookup_fmap, Hi]. }
  split; [apply sunrise_spec; eapply list_elem_of_lookup_2; eauto|].
  split; [apply sunset_spec; eapply list_elem_of_lookup_2; eauto|].
  intros d spd. unfold Z2Q, Z.sub.
  rewrite inject_Z_plus, inject_Z_opp, inject_Z_mult. ring.
Qed.

(** Two days at a six-hour step, each dark, lit, lit, dark. *)
Lemma extrema_times_witness :
  exists t_t_min t_t_max,
    set_min_max_hour
      [Some 0; Some 1; Some 1; Some 0; Some 0; Some 1; Some 1; Some 0] 2 360
      {| time_step := 360; prec_type := "uniform"; lw_type := "default";
         lw_cloud := "default"; tmax_daylength_fraction := 1 # 2;
         theta_l := None; theta_s := None |}
    = Ok (t_t_min, t_t_max)
    /\ t_t_min !! 1%nat = Some (Z2Q 4 * 360)
    /\ t_t_max !! 1%nat = Some ((1 # 2) * (Z2Q 6 * 360 - Z2Q 4 * 360) + Z2Q 4 * 360).
Proof.
  destruct (extrema_times
              [Some 0; Some 1; Some 1; Some 0; Some 0; Some 1; Some 1; Some 0]
              2 360
              {| time_step := 360; prec_type := "uniform"; lw_type := "default";
                 lw_cloud := "default"; tmax_daylength_fraction := 1 # 2;
                 theta_l := None; theta_s := None |}
              1%nat 4 6 ltac:(reflexivity) ltac:(reflexivity) ltac:(reflexivity))
    as (tmin & tmax & E & Hmin & Hmax & _).
  exists tmin, tmax. split; [exact E|]. split; [exact Hmin | exact Hmax].
Defined.

(** C4 as stated fails: on that record the sunrise of the second day is
    detected at step 4, the first step of that day, that is 0 minutes from
    the start of that day; the estimator reports 1440. *)
Lemma sunrise_from_record_start :
  exists t_t_min t_t_max t,
    set_min_max_hour
      [Some 0; Some 1; Some 1; Some 0; Some 0; Some 1; Some 1; Some 0] 2 360
      {| time_step := 360; prec_type := "uniform"; lw_type := "default";
         lw_cloud := "default"; tmax_daylength_fraction := 1 # 2;
         theta_l := None; theta_s := None |}
    = Ok (t_t_min, t_t_max)
    /\ sunrises [Some 0; Some 1; Some 1; Some 0; Some 0; Some 1; Some 1; Some 0]
         !! 1%nat = Some 4%Z
    /\ t_t_min !! 1%nat = Some t
    /\ t == 1440
    /\ Z2Q (4 - 1 * 4) * 360 == 0.
Proof.
  eexists _, _, _. split; [vm_compute; reflexivity|].
  split; [reflexivity|]. split; [reflexivity|].
  split; vm_compute; reflexivity.
Qed.

(** ** The temperature interpolant *)

Lemma Qlt_bool_false x y : Qlt_bool x y = false <-> y <= x.
Proof.
  unfold Qlt_bool. rewrite negb_false_iff. apply Qle_bool_iff.
Qed.

Lemma strictly_increasing_tail a x :
  scipy.strictly_increasing (a :: x) = true -> scipy.strictly_increasing x = true.
Proof. simpl. destruct x; [done|]. by intros [_ ?]%andb_true_iff. Qed.

Lemma strictly_increasing_head (x : list Q) (a v : Q) (i : nat) :
  scipy.strictly_increasing (a :: x) = true -> x !! i = Some v -> a < v.
Proof.
  revert a v i. induction x as [|b x IH]; intros a v i Hs Hv; [done|].
  simpl in Hs. apply andb_true_iff in Hs as [Hab Hs]. apply Qlt_bool_iff in Hab.
  destruct i as [|i]; simpl in Hv.
  - assert (b = v) as <- by congruence. done.
  - pose proof (IH b v i Hs Hv). lra.
Qed.

(** At a breakpoint other than the last the piece that evaluates it is the
    one that begins there. *)
Lemma find_interval_knot (x : list Q) (i : nat) (v : Q) :
  scipy.strictly_increasing x = true -> x !! i = Some v ->
  (S i < length x)%nat -> scipy.find_interval x v = i.
Proof.
  revert i. induction x as [|a x IH]; intros i Hs Hv Hi; [done|].
  destruct i as [|i].
  - simpl in Hv. assert (a = v) as <- by congruence. simpl.
    destruct x as [|b [|c x]]; try reflexivity.
    simpl in Hs. apply andb_true_iff in Hs as [Hab _]. by rewrite Hab.
  - simpl in Hv, Hi.
    destruct x as [|b [|c x]]; [done | simpl in Hi; lia |].
    change (scipy.find_interval (a :: b :: c :: x) v)
      with (if Qlt_bool v b then O else S (scipy.find_interval (b :: c :: x) v)).
    assert (Hbv : b <= v).
    { destruct i as [|i]; simpl in Hv.
      - assert (b = v) as <- by congruence. lra.
      - pose proof (strictly_increasing_head _ _ _ _ (strictly_increasing_tail _ _ Hs) Hv).
        lra. }
    rewrite (proj2 (Qlt_bool_false v b) Hbv).
    f_equal. apply IH; [by eapply strictly_increasing_tail | done | simpl in *; lia].
Qed.

(** A piece takes the ordinate of its left breakpoint there, whatever the
    derivatives. *)
Lemma eval_piece_left (x y d : list Q) (i : nat) (v w : Q) :
  x !! i = Some v -> y !! i = Some w -> scipy.eval_piece x y d i v == w.
Proof.
  intros Hx Hy. unfold scipy.eval_piece. rewrite Hx, Hy. simpl. ring.
Qed.

Lemma pchip_through_knot (x y : list Q) (i : nat) (v w : Q) :
  length x = length y -> scipy.strictly_increasing x = true ->
  x !! i = Some v -> y !! i = Some w -> (S i < length x)%nat ->
  exists f, scipy.PchipInterpolator x y = Ok f /\ f v == w.
Proof.
  intros Hl Hs Hx Hy Hi. unfold scipy.PchipInterpolator.
  rewrite Hl, Nat.eqb_refl. simpl.
  destruct (Nat.ltb_spec (length y) 2); [lia|].
  rewrite Hs. simpl. eexists. split; [reflexivity|]. simpl.
  rewrite (find_interval_knot x i v Hs Hx Hi). by apply eval_piece_left.
Qed.

Lemma length_alternate (a b : list Q) :
  length a = length b -> length (alternate a b) = (2 * length a)%nat.
Proof.
  revert b. induction a as [|x a IH]; intros [|y b] Hl; simpl in *; try done.
  rewrite IH by lia. lia.
Qed.

Lemma lookup_alternate (a b : list Q) (d : nat) (u v : Q) :
  a !! d = Some u -> b !! d = Some v ->
  alternate a b !! (2 * d)%nat = Some u
  /\ alternate a b !! (2 * d + 1)%nat = Some v.
Proof.
  revert b d. induction a as [|x a IH]; intros [|y b] [|d] Ha Hb; simpl in *; try done.
  replace (d + S (d + 0))%nat with (S (2 * d)) by lia.
  replace (S (2 * d) + 1)%nat with (S (2 * d + 1)) by lia.
  simpl. by apply IH.
Qed.



(** ** Saturation *)

Lemma np_binop_same_length {A B C} (f : A -> B -> C) a b :
  length a = length b -> np_binop f a b = Ok (zip_with f a b).
Proof.
  intros E. unfold np_binop. by rewrite E, Nat.eqb_refl.
Qed.

Lemma interp1d_ok (x y : list Q) :
  length x = length y -> (2 <= length y)%nat ->
  exists f, scipy.interp1d x y = Ok f.
Proof.
  intros E L. unfold scipy.interp1d.
  rewrite E, Nat.eqb_refl. simpl.
  destruct (length y <? 2)%nat eqn:T; [apply Nat.ltb_lt in T; lia|].
  eauto.
Qed.

Section SaturationBound.
Context `{Transcendental}.

(** What [np.where(vp_sat < vp_disagg, vp_sat, vp_disagg)] leaves at a step
    where the saturation value is defined. *)
Lemma clamp_le (s v : Q) : (if Qlt_bool s v then s else v) <= s.
Proof.
  destruct (Qlt_bool s v) eqn:E; [lra|]. by apply Qlt_bool_false in E.
Qed.

(** C6: on a temperature column of the length of the output, and daily
    vapor pressures stamped one to one by at least two times of minimum,
    [vapor_pressure] and [relative_humidity] return; at every step where the
    temperature is defined the vapor pressure is at most the saturation value
    [svp t / MBAR_PER_BAR], every relative humidity is defined and at most
    100, and it is at least 0 wherever the saturation pressure is positive
    and the vapor pressure is not negative. *)
Theorem saturation_bound (vp_daily : list Q) (temp : list cell)
    (t_t_min : list Q) (n_out : Z) (ts : Q) :
  length t_t_min = length vp_daily -> (2 <= length vp_daily)%nat ->
  length temp = Z.to_nat n_out ->
  exists vp rh,
    vapor_pressure vp_daily temp t_t_min n_out ts = Ok vp
    /\ relative_humidity (map Some vp) temp = Ok rh
    /\ length vp = length temp /\ length rh = length temp
    /\ (forall k t v, temp !! k = Some (Some t) -> vp !! k = Some v ->
          v <= svp t / cnst.MBAR_PER_BAR)
    /\ (forall k c, rh !! k = Some c ->
          exists r, c = Some r /\ r <= cnst.MAX_PERCENT)
    /\ (forall k t v r, temp !! k = Some (Some t) -> vp !! k = Some v ->
          rh !! k = Some (Some r) -> 0 < svp t -> 0 <= v -> 0 <= r).
Proof.
  intros L1 L2 L3.
  destruct (interp1d_ok t_t_min (map (fun v => v / cnst.MBAR_PER_BAR) vp_daily))
    as [interp Ei]; [by rewrite length_map|by rewrite length_map|].
  unfold vapor_pressure. rewrite Ei. cbn [rbind].
  set (vd := map _ (seqZ 0 n_out)).
  set (vs := map _ temp).
  assert (Lvd : length vd = length temp).
  { unfold vd. by rewrite length_map, length_seqZ. }
  assert (Lvs : length vs = length temp) by (unfold vs; by rewrite length_map).
  rewrite np_binop_same_length by congruence.
  set (vp := zip_with _ vs vd).
  assert (Lvp : length vp = length temp).
  { unfold vp. rewrite length_zip_with. lia. }
  exists vp. unfold relative_humidity.
  rewrite np_binop_same_length by (rewrite length_map; congruence).
  cbn [rbind].
  set (raw := zip_with _ (map Some vp) temp).
  assert (Lraw : length raw = length temp).
  { unfold raw. rewrite length_zip_with, length_map. lia. }
  eexists. split; [reflexivity|]. split; [reflexivity|].
  split; [exact Lvp|]. split; [by rewrite length_map|].
  split; [|split].
  - intros k t v Ht Hv. unfold vp in Hv.
    apply lookup_zip_with_Some in Hv as (s & w & -> & Hs & Hw).
    unfold vs in Hs. rewrite list_lookup_fmap, Ht in Hs.
    injection Hs as <-. apply clamp_le.
  - intros k c Hc. rewrite list_lookup_fmap in Hc.
    destruct (raw !! k) as [[r|]|]; simpl in Hc; [| |done].
    + destruct (Qlt_bool r cnst.MAX_PERCENT) eqn:E; injection Hc as <-.
      * exists r. split; [done|]. apply Qlt_bool_iff in E. lra.
      * exists cnst.MAX_PERCENT. split; [done|]. lra.
    + injection Hc as <-. exists cnst.MAX_PERCENT. split; [done|]. lra.
  - intros k t v r Ht Hv Hr Hs Hv0. rewrite list_lookup_fmap in Hr.
    assert (Hraw : raw !! k
                   = Some (Some (cnst.MAX_PERCENT * cnst.MBAR_PER_BAR * (v / svp t)))).
    { unfold raw. apply lookup_zip_with_Some. exists (Some v), (Some t).
      split; [done|]. split; [|done]. by rewrite list_lookup_fmap, Hv. }
    rewrite Hraw in Hr. simpl in Hr.
    assert (0 <= cnst.MAX_PERCENT * cnst.MBAR_PER_BAR * (v / svp t)) as Hpos.
    { apply Qmult_le_0_compat; [unfold cnst.MAX_PERCENT, cnst.MBAR_PER_BAR; lra|].
      apply Qle_shift_div_l; [done|]. lra. }
    destruct (Qlt_bool _ cnst.MAX_PERCENT); injection Hr as <-; [done|].
    unfold cnst.MAX_PERCENT. lra.
Qed.

(** With two daily values that fall from 1000 to 100, the straight line
    through them is at [-1/8] at the last of four half-day steps, whatever
    the (positive) saturation pressure is: the relative humidity there is
    negative. *)
Lemma extrapolated_humidity (temp : list cell) (t : Q) :
  length temp = 4%nat -> temp !! 3%nat = Some (Some t) -> 0 < svp t ->
  exists vp rh r,
    vapor_pressure [1000; 100] temp [360; 1800] 4 720 = Ok vp
    /\ relative_humidity (map Some vp) temp = Ok rh
    /\ rh !! 3%nat = Some (Some r) /\ r < 0.
Proof.
  intros L Ht Hs.
  destruct temp as [|c0 [|c1 [|c2 [|c3 [|]]]]]; try discriminate.
  simpl in Ht. injection Ht as ->.
  unfold vapor_pressure. 
  assert (Ei : exists f, scipy.interp1d [360; 1800]
                 (map (fun v => v / cnst.MBAR_PER_BAR) [1000; 100]) = Ok f
               /\ f (720 * Z2Q 3) == - (1 # 8)).
  { eexists. split; [reflexivity|]. vm_compute. reflexivity. }
  destruct Ei as (f & -> & Ef). cbn [rbind].
  rewrite np_binop_same_length by reflexivity.
  eexists _, _, _. split; [reflexivity|].
  unfold relative_humidity. rewrite np_binop_same_length by reflexivity.
  cbn [rbind].
  set (s := svp t / cnst.MBAR_PER_BAR).
  assert (Hs' : 0 < s).
  { unfold s. apply Qlt_shift_div_l; [unfold cnst.MBAR_PER_BAR; lra|lra]. }
  assert (Hclamp : (if Qlt_bool s (f (720 * Z2Q 3)) then s else f (720 * Z2Q 3))
                   == - (1 # 8)).
  { destruct (Qlt_bool s _) eqn:E; [|exact Ef].
    apply Qlt_bool_iff in E. lra. }
  split; [reflexivity|].
  change (seqZ 0 4) with [0; 1; 2; 3]%Z. cbn [map zip_with fmap option_fmap option_map lookup list_lookup].
  fold s.
  set (v := if Qlt_bool s _ then _ else _) in *.
  assert (Hr : cnst.MAX_PERCENT * cnst.MBAR_PER_BAR * (v / svp t) < 0).
  { assert (v / svp t < 0).
    { apply Qlt_shift_div_r; [done|]. lra. }
    unfold cnst.MAX_PERCENT, cnst.MBAR_PER_BAR. lra. }
  destruct (Qlt_bool _ cnst.MAX_PERCENT) eqn:E.
  - split; [reflexivity|]. exact Hr.
  - apply Qlt_bool_false in E. unfold cnst.MAX_PERCENT in *. lra.
Qed.
End SaturationBound.

(** Two days at noon steps, with the example saturation curve. *)
Lemma saturation_bound_witness :
  exists vp rh,
    vapor_pressure (H := example_physics) [1000; 900] [Some 5; Some 6; None; Some 4]
      [360; 1800] 4 720 = Ok vp
    /\ relative_humidity (H := example_physics) (map Some vp)
         [Some 5; Some 6; None; Some 4] = Ok rh
    /\ length vp = 4%nat /\ length rh = 4%nat
    /\ (forall k t v, [Some 5; Some 6; None; Some 4] !! k = Some (Some t) ->
          vp !! k = Some v ->
          v <= svp (Transcendental := example_physics) t / cnst.MBAR_PER_BAR)
    /\ (forall k c, rh !! k = Some c ->
          exists r, c = Some r /\ r <= cnst.MAX_PERCENT)
    /\ (forall k t v r, [Some 5; Some 6; None; Some 4] !! k = Some (Some t) ->
          vp !! k = Some v -> rh !! k = Some (Some r) ->
          0 < svp (Transcendental := example_physics) t -> 0 <= v -> 0 <= r).
Proof.
  apply (saturation_bound (H := example_physics) [1000; 900]
           [Some 5; Some 6; None; Some 4] [360; 1800] 4 720);
    [reflexivity | simpl; lia | reflexivity].
Defined.

(** C6, the lower bound: daily vapor pressures of 1000 and 100 give a
    negative vapor pressure, and a negative relative humidity, at the last
    half-day step. *)
Lemma humidity_below_zero :
  exists vp rh r,
    vapor_pressure (H := example_physics) [1000; 100] (replicate 4 (Some 10))
      [360; 1800] 4 720 = Ok vp
    /\ relative_humidity (H := example_physics) (map Some vp)
         (replicate 4 (Some 10)) = Ok rh
    /\ rh !! 3%nat = Some (Some r) /\ r < 0.
Proof.
  apply (extrapolated_humidity (H := example_physics) (replicate 4 (Some 10)) 10);
    [reflexivity | reflexivity | vm_compute; reflexivity].
Defined.

(** ** Invariants of the heap through the routines *)

Section HoareRules.
Context {A B : Type} (I : heap -> Prop).

Lemma hoare_bind (m : M A) (k : A -> M B) (P : A -> Prop) R :
  hoare I m (on_value P) -> (forall a, P a -> hoare I (k a) R) ->
  hoare I (bind m k) R.
Proof.
  intros Hm Hk h Hh. destruct (Hm h Hh) as [Hi Hq]. unfold bind.
  destruct (m h) as [[a|e] h1]; simpl in *; [|split; [done|discriminate]].
  exact (Hk a (Hq a eq_refl) h1 Hi).
Qed.

Lemma hoare_weaken (m : M A) (Q Q' : A -> heap -> Prop) :
  hoare I m Q -> (forall a h, Q a h -> Q' a h) -> hoare I m Q'.
Proof.
  intros Hm HQ h Hh. destruct (Hm h Hh) as [Hi Hq]. split; [done|].
  intros a Ea. by apply HQ, Hq.
Qed.

Lemma hoare_any (m : M A) Q : hoare I m Q -> hoare I m any.
Proof. intros Hm. by apply (hoare_weaken m Q). Qed.

Lemma hoare_ret (a : A) (P : A -> Prop) : P a -> hoare I (ret a) (on_value P).
Proof. intros Ha h Hh. split; [done|]. by intros ? [= <-]. Qed.

Lemma hoare_ret_any (a : A) : hoare I (ret a) any.
Proof. by apply hoare_ret. Qed.

Lemma hoare_raise (e : exn) (Q : A -> heap -> Prop) : hoare I (raise e) Q.
Proof. intros h Hh. split; [done|]. discriminate. Qed.

Lemma hoare_lift (r : result A) : hoare I (lift r) any.
Proof. intros h Hh. split; [done|]. done. Qed.

Lemma hoare_lift_ok (r : result A) :
  hoare I (lift r) (on_value (fun a => r = Ok a)).
Proof. intros h Hh. split; [done|]. done. Qed.
End HoareRules.

Section HoareHeap.
Context (n : nat) (I : heap -> Prop) (HI : local n I).

Lemma hoare_alloc_at (o : obj) :
  hoare I (alloc o) (fun l h => (n <= l)%nat /\ h !! l = Some o).
Proof using HI.
  intros h Hh. split; [by apply (local_alloc n I HI)|].
  intros l [= <-]. split; [by apply (local_length n I HI)|].
  simpl. by rewrite lookup_app_r, Nat.sub_diag.
Qed.

Lemma hoare_alloc (o : obj) :
  hoare I (alloc o) (on_value (fun l => (n <= l)%nat)).
Proof using HI.
  eapply hoare_weaken; [apply hoare_alloc_at|]. by intros l h [? _].
Qed.

Lemma hoare_load (l : loc) : hoare I (load l) any.
Proof.
  intros h Hh. unfold load. destruct (h !! l); simpl; by split.
Qed.

Lemma hoare_store (l : loc) (o : obj) :
  (n <= l)%nat -> hoare I (store l o) any.
Proof using HI.
  intros Hl h Hh. unfold store. destruct (h !! l); simpl; [|by split].
  split; [by apply (local_store n I HI)|done].
Qed.

Lemma hoare_for {X} (xs : list X) (body : X -> M unit) :
  (forall x, hoare I (body x) any) -> hoare I (for_ xs body) any.
Proof.
  intros Hb. induction xs as [|x xs IH]; simpl.
  - apply hoare_ret_any.
  - eapply hoare_bind; [apply Hb|]. intros _ _. exact IH.
Qed.
End HoareHeap.

(** One step of a proof that a routine keeps an invariant. *)
Ltac hoare_step :=
  lazymatch goal with
  | |- hoare _ (bind _ _) _ => eapply hoare_bind; [|intros ? ?]
  | |- hoare _ (ret _) any => apply hoare_ret_any
  | |- hoare _ (ret _) (on_value _) => first [apply hoare_ret_any | apply hoare_ret]
  | |- hoare _ (raise _) _ => apply hoare_raise
  | |- hoare _ (lift _) _ => apply hoare_lift
  | |- hoare _ (alloc _) _ => eapply hoare_alloc; eassumption
  | |- hoare _ (load _) _ => apply hoare_load
  | |- hoare _ (store _ _) _ => eapply hoare_store; [eassumption | try lia]
  | |- hoare _ (for_ _ _) _ => apply hoare_for; intros ?
  | |- hoare _ (if ?b then _ else _) _ => destruct b
  | |- hoare _ (match ?x with _ => _ end) _ => destruct x
  | |- hoare _ (let _ := _ in _) _ => cbv zeta
  end.

Section HoareRoutines.
Context (n : nat) (I : heap -> Prop) (HI : local n I).

Lemma hoare_load_ndarray (l : loc) : hoare I (load_ndarray l) any.
Proof. unfold load_ndarray. repeat hoare_step. Qed.

Lemma hoare_load_ndarray2 (l : loc) : hoare I (load_ndarray2 l) any.
Proof. unfold load_ndarray2. repeat hoare_step. Qed.

Lemma hoare_load_series (l : loc) : hoare I (load_series l) any.
Proof. unfold load_series. repeat hoare_step. Qed.

Lemma hoare_load_frame (l : loc) : hoare I (load_frame l) any.
Proof. unfold load_frame. repeat hoare_step. Qed.

Lemma hoare_setitem2 (kernels : loc) (month step : Z) (v : Q) :
  (n <= kernels)%nat -> hoare I (setitem2 kernels month step v) any.
Proof using HI.
  intros Hk. unfold setitem2.
  eapply hoare_bind; [apply hoare_load_ndarray2|]. intros rows _.
  repeat hoare_step.
Qed.

Lemma hoare_series_setitem (P_return : loc) (step : Z) (v : Q) :
  (n <= P_return)%nat -> hoare I (series_setitem P_return step v) any.
Proof using HI.
  intros HP. unfold series_setitem.
  eapply hoare_bind; [apply hoare_load_series|]. intros s _.
  repeat hoare_step.
Qed.

Lemma hoare_series_iadd (P_return : loc) (i j : option Z) (v : list Q) :
  (n <= P_return)%nat -> hoare I (series_iadd P_return i j v) any.
Proof using HI.
  intros HP. unfold series_iadd.
  eapply hoare_bind; [apply hoare_load_series|]. intros s _.
  repeat hoare_step.
Qed.

Lemma hoare_ndarray_setslice (l : loc) (i j : Z) (v : list Q) :
  (n <= l)%nat -> hoare I (ndarray_setslice l i j v) any.
Proof using HI.
  intros Hl. unfold ndarray_setslice.
  eapply hoare_bind; [apply hoare_load_ndarray|]. intros a _.
  repeat hoare_step.
Qed.

Lemma hoare_ndarray_iadd_where (l : loc) (test : Q -> bool) (c : Q) :
  (n <= l)%nat -> hoare I (ndarray_iadd_where l test c) any.
Proof using HI.
  intros Hl. unfold ndarray_iadd_where.
  eapply hoare_bind; [apply hoare_load_ndarray|]. intros a _.
  repeat hoare_step.
Qed.
End HoareRoutines.

Create HintDb hoare.
#[local] Hint Resolve hoare_load_ndarray hoare_load_ndarray2 hoare_load_series
  hoare_load_frame hoare_setitem2 hoare_series_setitem hoare_series_iadd
  hoare_ndarray_setslice hoare_ndarray_iadd_where : hoare.

(** A routine for which the invariant is already known, or a step. *)
Ltac hoare_auto :=
  repeat first [ hoare_step | solve [eauto with hoare] ].

Section HoarePrec.
Context (n : nat) (I : heap -> Prop) (HI : local n I).

Lemma hoare_kernel_month ts offset steps_per_two_days (kernels P_return : loc)
    month dur_m t_pk_m :
  (n <= kernels)%nat -> (n <= P_return)%nat ->
  hoare I (kernel_month ts offset steps_per_two_days kernels P_return month
             dur_m t_pk_m) any.
Proof using HI.
  intros Hk HP. unfold kernel_month. cbv zeta.
  repeat lazymatch goal with
         | |- hoare _ (if ?b then _ else _) _ => destruct b
         end;
    (apply hoare_for; intros step;
     unfold body_peak_first, body_peak_last, body_one_bin, body_general;
     hoare_auto).
Qed.

Lemma hoare_build_kernels ts offset steps_per_two_days
    (kernels P_return dur t_pk : loc) :
  (n <= kernels)%nat -> (n <= P_return)%nat ->
  hoare I (build_kernels ts offset steps_per_two_days kernels P_return dur t_pk)
    any.
Proof using HI.
  intros Hk HP. unfold build_kernels. apply hoare_for. intros month.
  pose proof (hoare_kernel_month ts offset steps_per_two_days kernels P_return)
    as Hm.
  hoare_auto.
Qed.

Lemma hoare_apply_day (kernels P_return prec : loc) month_of_year
    steps_per_day n_days d :
  (n <= P_return)%nat ->
  hoare I (apply_day kernels P_return prec month_of_year steps_per_day n_days d)
    any.
Proof using HI.
  intros HP. unfold apply_day. hoare_auto.
Qed.

Lemma hoare_prec_TRIANGLE (prec : loc) time_step (dur t_pk : loc) month_of_year :
  hoare I (prec_TRIANGLE prec time_step dur t_pk month_of_year) any.
Proof using HI.
  unfold prec_TRIANGLE. cbv zeta.
  pose proof hoare_build_kernels as Hb. pose proof hoare_apply_day as Ha.
  hoare_auto.
Qed.

Lemma hoare_prec_UNIFORM (prec : loc) prec_index time_step :
  hoare I (prec_UNIFORM prec prec_index time_step) any.
Proof using HI.
  unfold prec_UNIFORM. hoare_auto.
Qed.

Lemma hoare_kwarg {X} (name : string) (v : option X) :
  hoare I (kwarg name v) any.
Proof. unfold kwarg. hoare_auto. Qed.

Lemma hoare_prec (prec_col : loc) prec_index pr kwargs :
  hoare I (prec prec_col prec_index pr kwargs) any.
Proof using HI.
  unfold prec. cbv zeta.
  pose proof hoare_prec_UNIFORM as Hu. pose proof hoare_prec_TRIANGLE as Ht.
  pose proof @hoare_kwarg as Hkw.
  destruct kwargs as [[?|] [?|] [?|] [?|]]; hoare_auto.
Qed.

Lemma hoare_wind (wind_col : loc) wind_index time_step :
  hoare I (wind wind_col wind_index time_step) any.
Proof using HI.
  unfold wind. hoare_auto.
Qed.

Lemma hoare_shortwave_day sw_day_of_year (tiny_rad_fract disaggrad : loc)
    tinystep tmp_rad ts_per_day chunk_size day :
  (n <= disaggrad)%nat ->
  hoare I (shortwave_day sw_day_of_year tiny_rad_fract disaggrad tinystep
             tmp_rad ts_per_day chunk_size day) any.
Proof using HI.
  intros Hd. unfold shortwave_day. hoare_auto.
Qed.

Lemma hoare_shortwave (sw_rad daylength : loc) day_of_year
    (tiny_rad_fract : loc) pr :
  hoare I (shortwave sw_rad daylength day_of_year tiny_rad_fract pr)
    (on_value (fun l => (n <= l)%nat)).
Proof using HI.
  unfold shortwave. cbv zeta.
  pose proof hoare_shortwave_day as Hd.
  hoare_auto.
Qed.

Lemma hoare_daily_getitem df name : hoare I (daily_getitem df name) any.
Proof. unfold daily_getitem. hoare_auto. Qed.

Lemma hoare_frame_getitem (df : loc) name : hoare I (frame_getitem df name) any.
Proof. unfold frame_getitem. hoare_auto. Qed.
End HoarePrec.

#[local] Hint Resolve hoare_kernel_month hoare_build_kernels hoare_apply_day
  hoare_prec_TRIANGLE hoare_prec_UNIFORM hoare_prec hoare_wind
  hoare_shortwave_day hoare_shortwave hoare_daily_getitem hoare_frame_getitem
  hoare_kwarg : hoare.

(** ** The output table during a run of [disaggregate] *)

Lemma disagg_inv_local (h0 : heap) (dates : list Z) :
  local (S (length h0)) (disagg_inv h0 dates).
Proof.
  split.
  - intros h (_ & cols & Hd & _). by apply lookup_lt_Some in Hd.
  - intros h o (Ht & cols & Hd & Hc).
    pose proof (lookup_lt_Some _ _ _ Hd) as Hlt. split.
    + rewrite take_app_le by lia. exact Ht.
    + exists cols. split; [|done]. by apply lookup_app_l_Some.
  - intros h l o (Ht & cols & Hd & Hc) Hl. split.
    + rewrite take_insert_ge by lia. exact Ht.
    + exists cols. split; [|done]. rewrite list_lookup_insert_ne by lia. exact Hd.
Qed.

Lemma whole_columns_set (dates : list Z) name (v : list cell) cols :
  length v = length dates -> whole_columns dates cols ->
  whole_columns dates (set_column name v cols).
Proof.
  intros Hv. unfold whole_columns. induction cols as [|[c w] cols IH]; simpl.
  - intros _. by repeat constructor.
  - intros Hc. apply Forall_cons in Hc as [Hw Hc].
    destruct (String.eqb c name); constructor; auto.
Qed.

Lemma load_frame_ok (h : heap) (df : loc) idx cols :
  h !! df = Some (DataFrame idx cols) -> load_frame df h = (Ok (idx, cols), h).
Proof.
  intros E. unfold load_frame. by rewrite (bind_ok _ _ _ _ _ (load_ok _ _ _ E)).
Qed.

Lemma hoare_frame_columns (h0 : heap) (dates : list Z) :
  hoare (disagg_inv h0 dates) (load_frame (length h0))
    (on_value (fun f => f.1 = dates /\ whole_columns dates f.2)).
Proof.
  intros h Hh. pose proof Hh as (Ht & cols & Hd & Hc).
  rewrite (load_frame_ok _ _ _ _ Hd). simpl. split; [done|].
  by intros f [= <-].
Qed.

Lemma disagg_inv_store (h0 : heap) (dates : list Z) cols (h : heap) :
  disagg_inv h0 dates h -> whole_columns dates cols ->
  disagg_inv h0 dates (<[length h0 := DataFrame dates cols]> h).
Proof.
  intros (Ht & cols0 & Hd & _) Hc. split.
  - rewrite take_insert_ge by lia. exact Ht.
  - exists cols. split; [|done]. apply list_lookup_insert_eq.
    by apply lookup_lt_Some in Hd.
Qed.

Lemma hoare_frame_setitem (h0 : heap) (dates : list Z) name (value : column) :
  hoare (disagg_inv h0 dates) (frame_setitem (length h0) name value) any.
Proof.
  intros h Hh. pose proof Hh as (Ht & cols & Hd & Hc).
  unfold frame_setitem. rewrite (bind_ok _ _ _ _ _ (load_frame_ok _ _ _ _ Hd)).
  cbn [fst snd]. destruct value as [v | sidx svals].
  - destruct (Nat.eqb_spec (length v) (length dates)) as [E|E]; [|by split].
    rewrite (store_ok _ _ _ _ Hd). simpl. split; [|done].
    apply disagg_inv_store; [done|].
    apply whole_columns_set; [by rewrite length_map|done].
  - rewrite (store_ok _ _ _ _ Hd). simpl. split; [|done].
    apply disagg_inv_store; [done|].
    apply whole_columns_set; [|done]. unfold reindex. by rewrite length_map.
Qed.

Lemma bind_lift {X Y} (r : result X) (k : X -> M Y) (h : heap) :
  bind (lift r) k h = match r with Ok a => k a h | Raise e => (Raise e, h) end.
Proof. unfold bind, lift. by destruct r. Qed.

Lemma bind_alloc {Y} (o : obj) (k : loc -> M Y) (h : heap) :
  bind (alloc o) k h = k (length h) (h ++ [o]).
Proof. reflexivity. Qed.

Section DisaggregateRun.
Context `{Transcendental}.

(** What a run of [disaggregate] leaves: the heap it started from, and,
    when it returns, a new table on the grid of [date_range] whose columns
    are the forward-filled whole columns of the working table. *)
Lemma disaggregate_run (df_daily : DailyFrame) (pr : params)
    (solar_geom : gmap string loc) (t_begin t_end : option (list Q))
    (kwargs : gmap string loc) (h : heap) :
  take (length h)
    (disaggregate df_daily pr solar_geom t_begin t_end kwargs h).2 = h
  /\ forall l,
      (disaggregate df_daily pr solar_geom t_begin t_end kwargs h).1 = Ok l ->
      exists last_day first_day dates cols,
        getitem (daily_index df_daily) (-1) = Ok last_day
        /\ getitem (daily_index df_daily) 0 = Ok first_day
        /\ date_range first_day (last_day + 1440 - time_step pr) (time_step pr)
           = Ok dates
        /\ (length h < l)%nat
        /\ (disaggregate df_daily pr solar_geom t_begin t_end kwargs h).2 !! l
           = Some (DataFrame dates (map (fun c => (c.1, ffill c.2)) cols))
        /\ whole_columns dates cols.
Proof.
  unfold disaggregate.
  rewrite bind_lift.
  destruct (getitem (daily_index df_daily) (-1)) as [last_day|e] eqn:E1;
    [|simpl; split; [by rewrite take_ge by lia|discriminate]].
  rewrite bind_lift.
  destruct (getitem (daily_index df_daily) 0) as [first_day|e] eqn:E2;
    [|simpl; split; [by rewrite take_ge by lia|discriminate]].
  cbv zeta. rewrite bind_lift.
  destruct (date_range first_day _ _) as [dates|e] eqn:E3;
    [|simpl; split; [by rewrite take_ge by lia|discriminate]].
  rewrite bind_alloc.
  set (h1 := h ++ [DataFrame dates []]).
  assert (Hinv : disagg_inv h dates h1).
  { split; [unfold h1; by rewrite take_app_length|].
    exists []. split; [|constructor].
    unfold h1. by rewrite lookup_app_r, Nat.sub_diag. }
  pose proof (disagg_inv_local h dates) as Hloc.
  pose proof (hoare_frame_setitem h dates) as Hset.
  lazymatch goal with
  | |- take _ (?m h1).2 = _ /\ _ => set (rest := m)
  end.
  assert (Hrest : hoare (disagg_inv h dates) rest
            (fun l h' => (S (length h) <= l)%nat
               /\ exists cols,
                    h' !! l = Some (DataFrame dates
                                      (map (fun c => (c.1, ffill c.2)) cols))
                    /\ whole_columns dates cols)).
  { unfold rest.
    repeat first
      [ lazymatch goal with
        | |- hoare _ (bind (load_frame _) (fun f => alloc _)) _ =>
            eapply hoare_bind; [apply hoare_frame_columns|];
            intros [idx cols] [-> Hc]; cbn [fst snd];
            eapply hoare_weaken; [eapply hoare_alloc_at; exact Hloc|];
            intros l h' [Hl Hl']; split; [exact Hl|]; by exists cols
        | |- hoare _ (frame_setitem _ _ _) _ => apply Hset
        end
      | hoare_step
      | solve [eauto with hoare] ]. }
  destruct (Hrest h1 Hinv) as [[Hframe _] Hres]. split; [exact Hframe|].
  intros l El. destruct (Hres l El) as (Hl & cols & Hat & Hc).
  exists last_day, first_day, dates, cols. repeat split; done.
Qed.
End DisaggregateRun.

(** ** The output table *)

Lemma length_ffill_from (prev : cell) (col : list cell) :
  length (ffill_from prev col) = length col.
Proof.
  revert prev. induction col as [|[x|] col IH]; intros prev; simpl; auto.
Qed.

Lemma ffill_from_defined (x : Q) (col : list cell) :
  exists vs, ffill_from (Some x) col = map Some vs.
Proof.
  revert x. induction col as [|[y|] col IH]; intros x; simpl.
  - by exists [].
  - destruct (IH y) as [vs ->]. by exists (y :: vs).
  - destruct (IH x) as [vs ->]. by exists (x :: vs).
Qed.

Lemma ffill_leading_gap (col : list cell) : leading_gap (ffill col).
Proof.
  unfold ffill. induction col as [|[y|] col IH]; simpl.
  - by exists 0%nat, [].
  - destruct (ffill_from_defined y col) as [vs ->]. by exists 0%nat, (y :: vs).
  - destruct IH as (k & vs & ->). by exists (S k), vs.
Qed.

Lemma date_range_days (first n ts : Z) (dates : list Z) :
  (0 < ts)%Z -> (ts | 1440)%Z -> (0 < n)%Z ->
  date_range first (first + 1440 * (n - 1) + 1440 - ts) ts = Ok dates ->
  Z.of_nat (length dates) = (n * (1440 / ts))%Z.
Proof.
  intros Hts [k Hk] Hn. unfold date_range.
  destruct (Z.leb_spec ts 0) as [?|_]; [lia|]. intros [= <-].
  rewrite length_map, length_seqZ.
  assert (Hk0 : (0 < k)%Z) by nia.
  replace (first + 1440 * (n - 1) + 1440 - ts - first)%Z
    with ((k * n - 1) * ts)%Z by (rewrite Hk; ring).
  rewrite Z.div_mul by lia. rewrite Hk, Z.div_mul by lia.
  assert (0 < k * n)%Z by nia. lia.
Qed.

Lemma getitem_first_day (first n d : Z) :
  getitem (map (fun k => first + 1440 * k)%Z (seqZ 0 n)) 0 = Ok d ->
  (0 < n)%Z /\ d = first.
Proof.
  unfold getitem. change (0 <? 0)%Z with false. cbv iota.
  rewrite list_lookup_fmap.
  destruct (seqZ 0 n !! Z.to_nat 0) as [y|] eqn:Ey; [|discriminate].
  apply lookup_seqZ in Ey as [-> ?]. simpl. intros [= <-]. lia.
Qed.

Lemma getitem_last_day (first n d : Z) :
  getitem (map (fun k => first + 1440 * k)%Z (seqZ 0 n)) (-1) = Ok d ->
  d = (first + 1440 * (n - 1))%Z.
Proof.
  unfold getitem. rewrite length_map, length_seqZ.
  change (-1 <? 0)%Z with true. cbv iota.
  destruct (Z.ltb_spec (Z.of_nat (Z.to_nat n) + -1) 0) as [?|Hn]; [discriminate|].
  rewrite list_lookup_fmap.
  destruct (seqZ 0 n !! _) as [y|] eqn:Ey; [|discriminate].
  apply lookup_seqZ in Ey as [-> ?]. simpl. intros [= <-]. lia.
Qed.

Section OutputTable.
Context `{Transcendental}.


(** C10: whatever [disaggregate] does, the objects that the heap held
    before the call (the columns of the daily table, the solar-geometry
    table, the monthly durations and peak times) are as they were; the
    table it returns is an object that was not there before. *)
Theorem inputs_unchanged (df_daily : DailyFrame) (pr : params)
    (solar_geom : gmap string loc) (t_begin t_end : option (list Q))
    (kwargs : gmap string loc) (h : heap) :
  let run := disaggregate df_daily pr solar_geom t_begin t_end kwargs h in
  take (length h) run.2 = h
  /\ forall l, run.1 = Ok l ->
       (length h <= l)%nat
       /\ exists idx cols, run.2 !! l = Some (DataFrame idx cols).
Proof.
  intros run.
  destruct (disaggregate_run df_daily pr solar_geom t_begin t_end kwargs h)
    as [Hframe Hres].
  split; [exact Hframe|]. intros l Hl.
  destruct (Hres l Hl) as (_ & _ & dates & cols & _ & _ & _ & Hlt & Hat & _).
  split; [lia|]. eauto.
Qed.
End OutputTable.


(** ** Unknown method names *)

Lemma fails_raise {A} (e : exn) : fails (raise (A := A) e).
Proof. by intros h. Qed.

Lemma fails_lift {A} (r : result A) : is_ok r = false -> fails (lift r).
Proof. by intros Hr h. Qed.

Lemma fails_bind_l {A B} (m : M A) (k : A -> M B) : fails m -> fails (bind m k).
Proof.
  intros Hm h. specialize (Hm h). unfold bind.
  by destruct (m h) as [[a|e] h'].
Qed.

Lemma fails_bind_r {A B} (m : M A) (k : A -> M B) :
  (forall a, fails (k a)) -> fails (bind m k).
Proof.
  intros Hk h. unfold bind. destruct (m h) as [[a|e] h']; [apply Hk|done].
Qed.

Lemma prec_unknown_method (prec_col : loc) prec_index pr kwargs (h : heap) :
  known_prec (prec_type pr) = false ->
  prec prec_col prec_index pr kwargs h
  = (Raise (KeyError (upper (prec_type pr))), h).
Proof.
  unfold known_prec, prec. intros [E1 E2]%orb_false_elim. cbv zeta.
  by rewrite E1, E2.
Qed.

Section UnknownMethod.
Context `{Transcendental}.

Lemma longwave_unknown_emissivity idx air_temp vp tskc_idx tskc pr :
  emissivity_calc (upper (lw_type pr)) = None ->
  longwave idx air_temp vp tskc_idx tskc pr
  = Raise (KeyError (upper (lw_type pr))).
Proof.
  intros E. unfold longwave, lookup_method. cbv zeta. by rewrite E.
Qed.

Lemma longwave_unknown_cloud idx air_temp vp tskc_idx tskc pr :
  cloud_calc (upper (lw_cloud pr)) = None ->
  is_ok (longwave idx air_temp vp tskc_idx tskc pr) = false.
Proof.
  intros E. unfold longwave, lookup_method. cbv zeta.
  destruct (emissivity_calc _); [|done]. cbn [rbind].
  destruct (np_binop _ _ _); [|done]. cbn [rbind]. by rewrite E.
Qed.

(** C7 (amended): when the emissivity name, the cloud name or the
    precipitation name is not a key of its table, [disaggregate] raises and
    returns no table.  The look-up of an unknown emissivity name in
    [longwave], and of an unknown precipitation name in [prec], raises the
    KeyError of the upper-cased name. *)
Theorem unknown_method_raises (df_daily : DailyFrame) (pr : params)
    (solar_geom : gmap string loc) (t_begin t_end : option (list Q))
    (kwargs : gmap string loc) (h : heap) :
  emissivity_calc (upper (lw_type pr)) = None
  \/ cloud_calc (upper (lw_cloud pr)) = None
  \/ known_prec (prec_type pr) = false ->
  is_ok (disaggregate df_daily pr solar_geom t_begin t_end kwargs h).1 = false
  /\ (emissivity_calc (upper (lw_type pr)) = None ->
      forall idx air_temp vp tskc_idx tskc,
        longwave idx air_temp vp tskc_idx tskc pr
        = Raise (KeyError (upper (lw_type pr))))
  /\ (known_prec (prec_type pr) = false ->
      forall prec_col prec_index kw h1,
        prec prec_col prec_index pr kw h1
        = (Raise (KeyError (upper (prec_type pr))), h1)).
Proof.
  intros Hunk. split; [|split].
  - revert h. change (fails (disaggregate df_daily pr solar_geom t_begin t_end kwargs)).
    unfold disaggregate. cbv zeta.
    assert (Hlw : forall idx air_temp vp tskc_idx tskc,
               emissivity_calc (upper (lw_type pr)) = None
               \/ cloud_calc (upper (lw_cloud pr)) = None ->
               is_ok (longwave idx air_temp vp tskc_idx tskc pr) = false).
    { intros idx air_temp vp tskc_idx tskc [E|E].
      - by rewrite longwave_unknown_emissivity.
      - by apply longwave_unknown_cloud. }
    destruct Hunk as [E | [E | E]].
    + repeat lazymatch goal with
             | |- fails (bind (lift (longwave _ _ _ _ _ _)) _) => fail
             | |- fails (bind _ _) => apply fails_bind_r; intros ?
             end.
      apply fails_bind_l, fails_lift, Hlw. by left.
    + repeat lazymatch goal with
             | |- fails (bind (lift (longwave _ _ _ _ _ _)) _) => fail
             | |- fails (bind _ _) => apply fails_bind_r; intros ?
             end.
      apply fails_bind_l, fails_lift, Hlw. by right.
    + repeat lazymatch goal with
             | |- fails (bind (if _ then _ else _) _) => fail
             | |- fails (bind _ _) => apply fails_bind_r; intros ?
             end.
      apply fails_bind_l.
      pose proof E as [_ E2]%orb_false_elim. rewrite E2.
      apply fails_bind_r; intros prec_col. apply fails_bind_l.
      intros h1. by rewrite prec_unknown_method.
  - intros E idx air_temp vp tskc_idx tskc. by apply longwave_unknown_emissivity.
  - intros E prec_col prec_index kw h1. by apply prec_unknown_method.
Qed.
End UnknownMethod.

(** The two-day example with the emissivity name ["foo"]. *)
Lemma unknown_method_raises_witness :
  is_ok (disaggregate (H := example_physics) example_daily
           (example_params "uniform" "foo" "default") example_solar_geom
           None None example_kwargs example_heap).1 = false
  /\ (emissivity_calc (H := example_physics) (upper "foo") = None ->
      forall idx air_temp vp tskc_idx tskc,
        longwave (H := example_physics) idx air_temp vp tskc_idx tskc
          (example_params "uniform" "foo" "default")
        = Raise (KeyError (upper "foo")))
  /\ (known_prec "uniform" = false ->
      forall prec_col prec_index kw h1,
        prec prec_col prec_index (example_params "uniform" "foo" "default") kw h1
        = (Raise (KeyError (upper "uniform")), h1)).
Proof.
  apply (unknown_method_raises (H := example_physics) example_daily
           (example_params "uniform" "foo" "default") example_solar_geom
           None None example_kwargs example_heap).
  left. reflexivity.
Defined.

(** C7 as stated fails: with the emissivity name ["foo"] the KeyError comes
    after the shortwave, temperature, vapor pressure and relative humidity
    of the whole record have been computed and stored in the working
    table. *)
Lemma unknown_emissivity_raised_late :
  (disaggregate (H := example_physics) example_daily
     (example_params "uniform" "foo" "default") example_solar_geom
     None None example_kwargs example_heap).1 = Raise (KeyError "FOO")
  /\ exists idx cols,
       (disaggregate (H := example_physics) example_daily
          (example_params "uniform" "foo" "default") example_solar_geom
          None None example_kwargs example_heap).2 !! 11%nat
       = Some (DataFrame idx cols)
       /\ length idx = 8%nat
       /\ cols.*1 = ["shortwave"; "temp"; "vapor_pressure"; "rel_humid"].
Proof.
  split; [vm_compute; reflexivity|].
  eexists _, _. split; [vm_compute; reflexivity|].
  split; reflexivity.
Qed.

(** ** The entries of a kernel *)

Section PulseShape.
Variables (dur_m t_pk_m : Q).
Hypothesis dur_pos : 0 < dur_m.

Local Abbreviation cdf := (pulse_cdf dur_m t_pk_m).

Lemma slope_half_square (a : Q) :
  0 <= a -> a <= dur_m / 2 -> m_slope dur_m * a * a <= 1.
Proof using dur_pos.
  intros Ha Hh.
  assert (Hpos : 0 < dur_m / 2) by (apply Qlt_shift_div_l; lra).
  assert (Hm : m_slope dur_m == 1 / (dur_m / 2 * (dur_m / 2)))
    by (unfold m_slope, I_pk; field; lra).
  set (h := dur_m / 2) in *. clearbody h.
  assert (Hsq : a * a <= h * h) by (apply Qmult_le_compat_nonneg; split; lra).
  assert (Hhh : 0 < h * h) by (apply Qmult_lt_0_compat; lra).
  assert (E : m_slope dur_m * a * a == a * a / (h * h))
    by (rewrite Hm; field; lra).
  rewrite E. apply Qle_shift_div_r; [exact Hhh | lra].
Qed.

Lemma slope_pos : 0 < m_slope dur_m.
Proof using dur_pos.
  assert (Hpos : 0 < dur_m / 2) by (apply Qlt_shift_div_l; lra).
  unfold m_slope, I_pk. apply Qlt_shift_div_l; [exact Hpos|].
  apply Qlt_shift_div_l; lra.
Qed.

Lemma slope_square_mono (a b : Q) :
  0 <= a -> a <= b -> m_slope dur_m * a * a <= m_slope dur_m * b * b.
Proof using dur_pos.
  intros Ha Hab. pose proof slope_pos as Hm.
  assert (Hsq : a * a <= b * b) by (apply Qmult_le_compat_nonneg; split; lra).
  rewrite <- !Qmult_assoc. apply Qmult_le_l; [exact Hm | exact Hsq].
Qed.

Lemma slope_square_nonneg (a : Q) : 0 <= m_slope dur_m * a * a.
Proof using dur_pos.
  pose proof slope_pos as Hm. rewrite <- Qmult_assoc.
  apply Qmult_le_0_compat; [lra|]. nra.
Qed.

(** The mass of the pulse before a time grows with the time. *)
Lemma pulse_cdf_mono (x y : Q) : x <= y -> cdf x <= cdf y.
Proof using dur_pos.
  intros Hxy.
  assert (Hpos : 0 < dur_m / 2) by (apply Qlt_shift_div_l; lra).
  unfold pulse_cdf, t_start, t_end.
  pose proof slope_half_square as Hhalf.
  pose proof slope_square_mono as Hmono.
  pose proof slope_square_nonneg as Hnn.
  set (h := dur_m / 2) in *. set (m := m_slope dur_m) in *. clearbody h m.
  unfold Qdiv. change (/ 2) with (1 # 2).
  pose proof (Hnn (x - (t_pk_m - h))). pose proof (Hnn (y - (t_pk_m - h))).
  pose proof (Hnn (t_pk_m + h - x)). pose proof (Hnn (t_pk_m + h - y)).
  repeat match goal with
  | |- context [Qle_bool ?a ?b] =>
      let E := fresh "E" in
      destruct (Qle_bool a b) eqn:E;
      [ apply Qle_bool_iff in E
      | assert (b < a) by (apply Qlt_bool_iff; unfold Qlt_bool; rewrite E; reflexivity);
        clear E ];
      try (exfalso; lra)
  end; try lra;
  try (assert (m * (x - (t_pk_m - h)) * (x - (t_pk_m - h)) <= 1)
         by (apply Hhalf; lra));
  try (assert (m * (y - (t_pk_m - h)) * (y - (t_pk_m - h)) <= 1)
         by (apply Hhalf; lra));
  try (assert (m * (t_pk_m + h - x) * (t_pk_m + h - x) <= 1)
         by (apply Hhalf; lra));
  try (assert (m * (t_pk_m + h - y) * (t_pk_m + h - y) <= 1)
         by (apply Hhalf; lra));
  try (assert (m * (x - (t_pk_m - h)) * (x - (t_pk_m - h))
               <= m * (y - (t_pk_m - h)) * (y - (t_pk_m - h)))
         by (apply Hmono; lra));
  try (assert (m * (t_pk_m + h - y) * (t_pk_m + h - y)
               <= m * (t_pk_m + h - x) * (t_pk_m + h - x))
         by (apply Hmono; lra));
  lra.
Qed.
End PulseShape.

Lemma kernel_value_nonneg (ts : Q) (offset : Z) (dur_m t_pk_m : Q) (step : Z) :
  0 < ts -> 0 < dur_m -> 0 <= kernel_value ts offset dur_m t_pk_m step.
Proof.
  intros Hts Hdur. rewrite (kernel_value_cdf ts offset dur_m t_pk_m Hts Hdur).
  pose proof (pulse_cdf_mono dur_m t_pk_m Hdur (t_step_start ts offset step)
                (t_step_end ts offset step)) as Hm.
  unfold t_step_end in *. lra.
Qed.

Lemma kernel_value_outside (ts : Q) (offset : Z) (dur_m t_pk_m : Q) (step : Z) :
  0 < ts -> 0 < dur_m ->
  (step < i_start ts offset dur_m t_pk_m)%Z
  \/ (i_end ts offset dur_m t_pk_m < step)%Z ->
  kernel_value ts offset dur_m t_pk_m step == 0.
Proof.
  intros Hts Hdur Hout.
  rewrite (kernel_value_cdf ts offset dur_m t_pk_m Hts Hdur).
  change (i_start ts offset dur_m t_pk_m)
    with (bin_of ts offset (t_start dur_m t_pk_m)) in Hout.
  change (i_end ts offset dur_m t_pk_m)
    with (bin_of ts offset (t_end dur_m t_pk_m)) in Hout.
  destruct (step_vs_bin ts offset Hts (t_start dur_m t_pk_m) step) as [B0 C0].
  destruct (step_vs_bin ts offset Hts (t_end dur_m t_pk_m) step) as [B1 C1].
  unfold t_step_end. destruct Hout as [Hlo | Hhi].
  - destruct C0 as [[_ Hle] | [[? _] | [? _]]]; try lia.
    rewrite !pulse_cdf_before by lra. ring.
  - destruct C1 as [[? _] | [[? _] | [_ Hge]]]; try lia.
    rewrite !(pulse_cdf_after dur_m t_pk_m Hdur) by lra. ring.
Qed.

(** The month loop of [prec_TRIANGLE] leaves, for every month of positive
    duration, a row of the window's length whose entries are not negative,
    and are zero in every bin before the one where the pulse starts and
    after the one where it ends. *)
Theorem kernel_entries (ts : Q) (offset steps_per_two_days : Z)
    (kernels P_return dur t_pk : loc) (h : heap) (s : list Z * list Q)
    (dur_v t_pk_v : list Q) :
  0 < ts -> (0 <= steps_per_two_days)%Z ->
  h !! kernels
  = Some (Ndarray2 (replicate 12 (replicate (Z.to_nat steps_per_two_days) 0))) ->
  h !! P_return = Some (Series s.1 s.2) ->
  h !! dur = Some (Ndarray dur_v) -> h !! t_pk = Some (Ndarray t_pk_v) ->
  length dur_v = 12%nat -> length t_pk_v = 12%nat ->
  exists h' rows,
    build_kernels ts offset steps_per_two_days kernels P_return dur t_pk h
    = (Ok tt, h')
    /\ h' !! kernels = Some (Ndarray2 rows)
    /\ forall (month : nat) (dur_m t_pk_m : Q),
         dur_v !! month = Some dur_m -> t_pk_v !! month = Some t_pk_m ->
         0 < dur_m ->
         exists row,
           rows !! month = Some row
           /\ length row = Z.to_nat steps_per_two_days
           /\ forall step : Z,
                (0 <= step < steps_per_two_days)%Z ->
                exists x,
                  row !! Z.to_nat step = Some x
                  /\ 0 <= x
                  /\ ((step < i_start ts offset dur_m t_pk_m)%Z
                      \/ (i_end ts offset dur_m t_pk_m < step)%Z -> x == 0).
Proof.
  intros Hts HN Hk Hp Hd Ht Hld Hlt.
  destruct (build_kernels_table ts offset steps_per_two_days kernels P_return
              dur t_pk h s dur_v t_pk_v Hts HN Hk Hp Hd Ht Hld Hlt) as (h' & E & Hrows).
  exists h', (kernel_rows ts offset steps_per_two_days dur_v t_pk_v 12 12).
  split; [exact E|]. split; [exact Hrows|].
  intros month dur_m t_pk_m Hdm Htm Hpos.
  assert (Hmonth : (month < 12)%nat) by (rewrite <- Hld; eapply lookup_lt_Some; eauto).
  eexists. split; [apply lookup_kernel_rows; exact Hmonth|].
  rewrite Hdm, Htm. simpl. unfold kernel_row.
  split; [by rewrite length_map, length_seqZ|].
  intros step Hstep. eexists.
  rewrite list_lookup_fmap, lookup_seqZ_lt by lia. simpl.
  replace (0 + Z.of_nat (Z.to_nat step))%Z with step by lia.
  split; [reflexivity|]. split.
  - by apply kernel_value_nonneg.
  - by apply kernel_value_outside.
Qed.

(** An hourly table built from a four-hour storm peaking at noon: the
    pulse starts in bin 22 and ends in bin 26. *)
Lemma kernel_entries_witness :
  exists h' rows,
    build_kernels 60 12 48 3%nat 2%nat 0%nat 1%nat
      [Ndarray (replicate 12 240); Ndarray (replicate 12 720);
       Series (seqZ 0 48) (replicate 48 0);
       Ndarray2 (replicate 12 (replicate 48 0))]
    = (Ok tt, h')
    /\ h' !! 3%nat = Some (Ndarray2 rows)
    /\ exists row,
         rows !! 0%nat = Some row
         /\ length row = 48%nat
         /\ forall step : Z,
              (0 <= step < 48)%Z ->
              exists x,
                row !! Z.to_nat step = Some x
                /\ 0 <= x
                /\ ((step < 22)%Z \/ (26 < step)%Z -> x == 0).
Proof.
  destruct (kernel_entries 60 12 48 3%nat 2%nat 0%nat 1%nat
              [Ndarray (replicate 12 240); Ndarray (replicate 12 720);
               Series (seqZ 0 48) (replicate 48 0);
               Ndarray2 (replicate 12 (replicate 48 0))]
              (seqZ 0 48, replicate 48 0) (replicate 12 240) (replicate 12 720)
              ltac:(reflexivity) ltac:(lia) ltac:(reflexivity) ltac:(reflexivity)
              ltac:(reflexivity) ltac:(reflexivity) ltac:(reflexivity)
              ltac:(reflexivity))
    as (h' & rows & E & Hk & Hrow).
  exists h', rows. split; [exact E|]. split; [exact Hk|].
  apply (Hrow 0%nat 240 720); reflexivity.
Defined.

(** ** The day loop of [prec_TRIANGLE] *)

Lemma series_iadd_added (P_return : loc) (h : heap) idx vals i j v :
  h !! P_return = Some (Series idx vals) ->
  length (series_window vals i j).2 = length v ->
  series_iadd P_return i j v h
  = (Ok tt, <[P_return := Series idx (series_added vals i j v)]> h).
Proof.
  intros HP Hlen. unfold series_iadd, series_added.
  rewrite (bind_ok _ _ _ _ _ (load_series_ok _ _ _ _ HP)).
  unfold series_window in *. cbn [fst snd] in *.
  rewrite Hlen, Nat.eqb_refl. rewrite (store_ok _ _ _ _ HP). reflexivity.
Qed.

Lemma series_iadd_mismatch (P_return : loc) (h : heap) idx vals i j v :
  h !! P_return = Some (Series idx vals) ->
  length (series_window vals i j).2 <> length v -> length v <> 1%nat ->
  series_iadd P_return i j v h = (Raise ValueError, h).
Proof.
  intros HP Hlen Hv. unfold series_iadd.
  rewrite (bind_ok _ _ _ _ _ (load_series_ok _ _ _ _ HP)).
  unfold series_window in *. cbn [fst snd] in *.
  destruct (Nat.eqb_spec (length (take
     (from_option (slice_bound (Z.of_nat (length vals))) (length vals) j
      - from_option (slice_bound (Z.of_nat (length vals))) 0%nat i)
     (drop (from_option (slice_bound (Z.of_nat (length vals))) 0%nat i) vals)))
     (length v)) as [E|_]; [done|].
  destruct v as [|x [|y v]]; simpl in *; done.
Qed.

Lemma slice_bound_le (n : nat) (i : Z) : (slice_bound (Z.of_nat n) i <= n)%nat.
Proof. unfold slice_bound. lia. Qed.

Lemma series_window_bounds (vals : list Q) i j :
  ((series_window vals i j).1 + length (series_window vals i j).2
   <= length vals)%nat.
Proof.
  unfold series_window. cbn [fst snd]. rewrite length_take, length_drop.
  assert (from_option (slice_bound (Z.of_nat (length vals))) 0 i <= length vals)%nat
    by (destruct i; simpl; [apply slice_bound_le | lia]).
  lia.
Qed.

Lemma length_series_added (vals : list Q) i j v :
  length (series_window vals i j).2 = length v ->
  length (series_added vals i j v) = length vals.
Proof.
  intros Hlen. pose proof (series_window_bounds vals i j) as Hb.
  unfold series_added. cbv zeta.
  rewrite !length_app, length_take, length_zip_with, length_drop. lia.
Qed.

Lemma qsum_series_added (vals : list Q) i j v :
  length (series_window vals i j).2 = length v ->
  qsum (series_added vals i j v) == qsum vals + qsum v.
Proof.
  intros Hlen. unfold series_added. cbv zeta.
  unfold series_window in *. cbn [fst snd] in *.
  set (lo := from_option _ _ i) in *.
  set (cur := take _ (drop lo vals)) in *.
  rewrite !qsum_app, qsum_zip_plus by done.
  rewrite <- drop_drop.
  transitivity (qsum (take lo vals ++ (cur ++ drop (length cur) (drop lo vals))) + qsum v).
  - rewrite !qsum_app. ring.
  - unfold cur at 1 2. rewrite take_drop_length, take_drop. reflexivity.
Qed.

Lemma lookup_series_added_before (vals : list Q) i j v (k : nat) :
  (k < (series_window vals i j).1)%nat ->
  series_added vals i j v !! k = vals !! k.
Proof.
  intros Hk. pose proof (series_window_bounds vals i j) as Hb.
  unfold series_added. cbv zeta.
  rewrite lookup_app_l by (rewrite length_take; lia).
  by rewrite lookup_take_lt.
Qed.

Lemma lookup_series_added_after (vals : list Q) i j v (k : nat) :
  length (series_window vals i j).2 = length v ->
  ((series_window vals i j).1 + length v <= k)%nat ->
  series_added vals i j v !! k = vals !! k.
Proof.
  intros Hlen Hk. pose proof (series_window_bounds vals i j) as Hb.
  unfold series_added. cbv zeta.
  set (w := series_window vals i j) in *.
  rewrite lookup_app_r by (rewrite length_take; lia).
  rewrite lookup_app_r by (rewrite length_take, length_zip_with; lia).
  rewrite lookup_drop, length_take, length_zip_with. f_equal. lia.
Qed.

Lemma lookup_series_added_inside (vals : list Q) i j v (k : nat) x a :
  length (series_window vals i j).2 = length v ->
  vals !! ((series_window vals i j).1 + k)%nat = Some x -> v !! k = Some a ->
  series_added vals i j v !! ((series_window vals i j).1 + k)%nat
  = Some (x + a).
Proof.
  intros Hlen Hx Ha. pose proof (series_window_bounds vals i j) as Hb.
  pose proof (lookup_lt_Some _ _ _ Ha) as Hk.
  unfold series_added. cbv zeta.
  assert (Hw : (series_window vals i j).2 !! k = Some x).
  { unfold series_window in *. cbn [fst snd] in *.
    rewrite lookup_take_lt, lookup_drop; [exact Hx|].
    rewrite <- Hlen in Hk. rewrite length_take in Hk. lia. }
  set (w := series_window vals i j) in *.
  rewrite lookup_app_r by (rewrite length_take; lia).
  rewrite length_take. replace (w.1 + k - w.1 `min` length vals)%nat with k by lia.
  rewrite lookup_app_l by (rewrite length_zip_with; lia).
  apply lookup_zip_with_Some. eauto.
Qed.

Section ApplyDay.
Variables (kernels P_return prec : loc) (month_of_year : list Z).
Variables (steps_per_day n_days : Z) (h : heap).
Variables (rows : list (list Q)) (p row : list Q) (d mo : Z) (p_d : Q).
Hypothesis day_nonneg : (0 <= d)%Z.
Hypothesis kernels_table : h !! kernels = Some (Ndarray2 rows).
Hypothesis prec_array : h !! prec = Some (Ndarray p).
Hypothesis day_month : month_of_year !! Z.to_nat d = Some mo.
Hypothesis month_pos : (1 <= mo)%Z.
Hypothesis month_row : rows !! Z.to_nat (mo - 1) = Some row.
Hypothesis day_total : p !! Z.to_nat d = Some p_d.

(** A turn of the day loop is one in-place addition to the output. *)
Lemma apply_day_series :
  (d = 0%Z \/ d = (n_days - 1)%Z ->
   in_bounds_kernel steps_per_day d row <> []) ->
  apply_day kernels P_return prec month_of_year steps_per_day n_days d h
  = series_iadd P_return (day_slice steps_per_day n_days d).1
      (day_slice steps_per_day n_days d).2
      (day_addend steps_per_day n_days d p_d row) h.
Proof using All.
  intros Hne. unfold apply_day, day_slice, day_addend, in_bounds_kernel in *.
  assert (Hrecip : forall k : list Q, k <> [] -> recip_sum k = Ok (1 / qsum k))
    by (intros k Hk; unfold recip_sum; destruct k; [done | reflexivity]).
  destruct (Z.eqb_spec d 0) as [Hz | Hz]; cbn [orb fst snd].
  - rewrite (bind_ok _ _ _ _ _ (load_ndarray2_ok _ _ _ kernels_table)).
    unfold lift at 1. rewrite (getitem_ok _ _ _ day_nonneg day_month).
    erewrite bind_ok by reflexivity.
    unfold lift at 1. rewrite (getitem_ok rows (mo - 1) row ltac:(lia) month_row).
    erewrite bind_ok by reflexivity. cbv zeta.
    unfold lift at 1. rewrite Hrecip by (apply Hne; by left).
    erewrite bind_ok by reflexivity.
    rewrite (bind_ok _ _ _ _ _ (load_ndarray_ok _ _ _ prec_array)).
    unfold lift at 1. rewrite (getitem_ok _ _ _ day_nonneg day_total).
    erewrite bind_ok by reflexivity. reflexivity.
  - destruct (Z.eqb_spec d (n_days - 1)) as [Hl | Hl]; cbn [orb fst snd].
    + rewrite (bind_ok _ _ _ _ _ (load_ndarray2_ok _ _ _ kernels_table)).
      unfold lift at 1. rewrite (getitem_ok _ _ _ day_nonneg day_month).
      erewrite bind_ok by reflexivity.
      unfold lift at 1. rewrite (getitem_ok rows (mo - 1) row ltac:(lia) month_row).
      erewrite bind_ok by reflexivity. cbv zeta.
      unfold lift at 1. rewrite Hrecip by (apply Hne; by right).
      erewrite bind_ok by reflexivity.
      rewrite (bind_ok _ _ _ _ _ (load_ndarray_ok _ _ _ prec_array)).
      unfold lift at 1. rewrite (getitem_ok _ _ _ day_nonneg day_total).
      erewrite bind_ok by reflexivity. reflexivity.
    + cbv zeta.
      rewrite (bind_ok _ _ _ _ _ (load_ndarray_ok _ _ _ prec_array)).
      unfold lift at 1. rewrite (getitem_ok _ _ _ day_nonneg day_total).
      erewrite bind_ok by reflexivity.
      rewrite (bind_ok _ _ _ _ _ (load_ndarray2_ok _ _ _ kernels_table)).
      unfold lift at 1. rewrite (getitem_ok _ _ _ day_nonneg day_month).
      erewrite bind_ok by reflexivity.
      unfold lift at 1. rewrite (getitem_ok rows (mo - 1) row ltac:(lia) month_row).
      erewrite bind_ok by reflexivity. reflexivity.
Qed.
End ApplyDay.

(** Where the slice of an interior day lies in the output. *)
Lemma interior_window (steps_per_day n_days d : Z) (vals : list Q) :
  (1 <= steps_per_day)%Z -> (0 < d < n_days - 1)%Z ->
  length vals = Z.to_nat (steps_per_day * n_days) ->
  let w := series_window vals (day_slice steps_per_day n_days d).1
             (day_slice steps_per_day n_days d).2 in
  w.1 = Z.to_nat (d * steps_per_day - (steps_per_day + 1) / 2)
  /\ length w.2 = Z.to_nat (2 * steps_per_day).
Proof.
  intros Hspd Hd Hvals. unfold day_slice.
  destruct (Z.eqb_spec d 0); [lia|]. destruct (Z.eqb_spec d (n_days - 1)); [lia|].
  unfold series_window, slice_bound. cbn [fst snd from_option].
  rewrite ?py_int_Z2Q, ?floor_day_start.
  assert (Hoff : (1 <= (steps_per_day + 1) / 2 <= steps_per_day)%Z)
    by (Z.div_mod_to_equations; lia).
  set (off := ((steps_per_day + 1) / 2)%Z) in *. clearbody off.
  assert (H1 : (steps_per_day <= d * steps_per_day)%Z) by nia.
  assert (H2 : (d * steps_per_day + 2 * steps_per_day <= steps_per_day * n_days)%Z)
    by nia.
  set (L := (steps_per_day * n_days)%Z) in *.
  set (D := (d * steps_per_day)%Z) in *. clearbody L D.
  rewrite length_take, length_drop, Hvals.
  destruct (Z.ltb_spec (D - off) 0); [lia|].
  destruct (Z.ltb_spec (D - off + 2 * steps_per_day) 0); [lia|].
  split; lia.
Qed.

(** With an even number of steps a day, the turn of an interior day adds the
    day's total times the month's kernel to the two days of the output that
    begin half a day before the day, and leaves every other step as it was:
    the output grows by the day's total times the sum of the kernel. *)
Theorem interior_day_spread (kernels P_return prec : loc)
    (month_of_year : list Z) (steps_per_day n_days : Z) (h : heap)
    (rows : list (list Q)) (idx : list Z) (vals p row : list Q)
    (d mo : Z) (p_d : Q) :
  (1 <= steps_per_day)%Z -> Z.even steps_per_day = true ->
  (0 < d < n_days - 1)%Z ->
  h !! kernels = Some (Ndarray2 rows) ->
  h !! P_return = Some (Series idx vals) ->
  h !! prec = Some (Ndarray p) ->
  length vals = Z.to_nat (steps_per_day * n_days) ->
  month_of_year !! Z.to_nat d = Some mo -> (1 <= mo)%Z ->
  rows !! Z.to_nat (mo - 1) = Some row ->
  length row
  = Z.to_nat (2 * np_ceil (Z2Q steps_per_day / 2) + steps_per_day) ->
  p !! Z.to_nat d = Some p_d ->
  exists vals',
    apply_day kernels P_return prec month_of_year steps_per_day n_days d h
    = (Ok tt, <[P_return := Series idx vals']> h)
    /\ length vals' = length vals
    /\ qsum vals' == qsum vals + p_d * qsum row
    /\ forall (i : nat) (x : Q),
         vals !! i = Some x ->
         let lo := Z.to_nat (d * steps_per_day - steps_per_day / 2) in
         match row !! (i - lo)%nat with
         | Some k => if (lo <=? i)%nat then vals' !! i = Some (x + p_d * k)
                     else vals' !! i = Some x
         | None => vals' !! i = Some x
         end.
Proof.
  intros Hspd Heven Hd Hk HP Hp Hvals Hmo Hmo1 Hrow Hlrow Hpd.
  apply Z.even_spec in Heven as [c Hc].
  assert (Hhalf : ((steps_per_day + 1) / 2 = steps_per_day / 2)%Z)
    by (Z.div_mod_to_equations; lia).
  rewrite ceil_half, Hhalf in Hlrow.
  assert (Hrow2 : length row = Z.to_nat (2 * steps_per_day))
    by (rewrite Hlrow; f_equal; Z.div_mod_to_equations; lia).
  destruct (interior_window steps_per_day n_days d vals Hspd Hd Hvals) as [Hlo Hlen].
  rewrite Hhalf in Hlo.
  set (sl := day_slice steps_per_day n_days d) in *.
  assert (Had : day_addend steps_per_day n_days d p_d row
                = map (fun x => p_d * x) row).
  { unfold day_addend. destruct (Z.eqb_spec d 0); [lia|].
    destruct (Z.eqb_spec d (n_days - 1)); [lia|]. reflexivity. }
  assert (Hlen' : length (series_window vals sl.1 sl.2).2
                  = length (map (fun x => p_d * x) row))
    by (rewrite length_map; congruence).
  exists (series_added vals sl.1 sl.2 (map (fun x => p_d * x) row)).
  split; [|split; [|split]].
  - rewrite (apply_day_series kernels P_return prec month_of_year steps_per_day
               n_days h rows p row d mo p_d ltac:(lia) Hk Hp Hmo Hmo1 Hrow Hpd)
      by (intros [?|?]; lia).
    rewrite Had. by apply series_iadd_added.
  - by apply length_series_added.
  - rewrite qsum_series_added by done. by rewrite qsum_scale.
  - intros i x Hx lo. fold lo in Hlo.
    destruct (row !! (i - lo)%nat) as [k|] eqn:Ek.
    + destruct (Nat.leb_spec lo i) as [Hle|Hlt].
      * replace i with ((series_window vals sl.1 sl.2).1 + (i - lo))%nat at 1
          by (rewrite Hlo; lia).
        apply lookup_series_added_inside; [done| |].
        -- rewrite Hlo. replace (lo + (i - lo))%nat with i by lia. exact Hx.
        -- by rewrite list_lookup_fmap, Ek.
      * rewrite lookup_series_added_before by (rewrite Hlo; lia). exact Hx.
    + apply lookup_ge_None in Ek.
      rewrite lookup_series_added_after; [exact Hx|done|].
      rewrite Hlo, length_map. lia.
Qed.

(** The second of four days at a twelve-hour step, with a kernel of four
    bins. *)
Lemma interior_day_spread_witness :
  exists vals',
    apply_day 0%nat 1%nat 2%nat [1; 1; 1; 1]%Z 2 4 1
      [Ndarray2 (replicate 12 [1 # 4; 1 # 4; 1 # 4; 1 # 4]);
       Series (seqZ 0 8) (replicate 8 0); Ndarray [5; 8; 0; 0]]
    = (Ok tt,
       <[1%nat := Series (seqZ 0 8) vals']>
         [Ndarray2 (replicate 12 [1 # 4; 1 # 4; 1 # 4; 1 # 4]);
          Series (seqZ 0 8) (replicate 8 0); Ndarray [5; 8; 0; 0]])
    /\ length vals' = length (replicate 8 (0 : Q))
    /\ qsum vals' == qsum (replicate 8 0) + 8 * qsum [1 # 4; 1 # 4; 1 # 4; 1 # 4]
    /\ forall (i : nat) (x : Q),
         replicate 8 (0 : Q) !! i = Some x ->
         let lo := Z.to_nat (1 * 2 - 2 / 2) in
         match [1 # 4; 1 # 4; 1 # 4; 1 # 4] !! (i - lo)%nat with
         | Some k => if (lo <=? i)%nat then vals' !! i = Some (x + 8 * k)
                     else vals' !! i = Some x
         | None => vals' !! i = Some x
         end.
Proof.
  apply (interior_day_spread 0%nat 1%nat 2%nat [1; 1; 1; 1]%Z 2 4
           [Ndarray2 (replicate 12 [1 # 4; 1 # 4; 1 # 4; 1 # 4]);
            Series (seqZ 0 8) (replicate 8 0); Ndarray [5; 8; 0; 0]]
           (replicate 12 [1 # 4; 1 # 4; 1 # 4; 1 # 4]) (seqZ 0 8)
           (replicate 8 0) [5; 8; 0; 0] [1 # 4; 1 # 4; 1 # 4; 1 # 4] 1 1 8);
    try reflexivity; lia.
Defined.

(** With an odd number of steps a day the kernel is one bin longer than the
    two days of an interior day: the turn of every interior day raises, and
    leaves the heap as it was. *)
Theorem interior_day_odd_steps (kernels P_return prec : loc)
    (month_of_year : list Z) (steps_per_day n_days : Z) (h : heap)
    (rows : list (list Q)) (idx : list Z) (vals p row : list Q)
    (d mo : Z) (p_d : Q) :
  (1 <= steps_per_day)%Z -> Z.odd steps_per_day = true ->
  (0 < d < n_days - 1)%Z ->
  h !! kernels = Some (Ndarray2 rows) ->
  h !! P_return = Some (Series idx vals) ->
  h !! prec = Some (Ndarray p) ->
  length vals = Z.to_nat (steps_per_day * n_days) ->
  month_of_year !! Z.to_nat d = Some mo -> (1 <= mo)%Z ->
  rows !! Z.to_nat (mo - 1) = Some row ->
  length row
  = Z.to_nat (2 * np_ceil (Z2Q steps_per_day / 2) + steps_per_day) ->
  p !! Z.to_nat d = Some p_d ->
  apply_day kernels P_return prec month_of_year steps_per_day n_days d h
  = (Raise ValueError, h).
Proof.
  intros Hspd Hodd Hd Hk HP Hp Hvals Hmo Hmo1 Hrow Hlrow Hpd.
  apply Z.odd_spec in Hodd as [c Hc].
  rewrite ceil_half in Hlrow.
  assert (Hrow2 : length row = Z.to_nat (2 * steps_per_day + 1))
    by (rewrite Hlrow; f_equal; Z.div_mod_to_equations; lia).
  destruct (interior_window steps_per_day n_days d vals Hspd Hd Hvals) as [_ Hlen].
  assert (Had : day_addend steps_per_day n_days d p_d row
                = map (fun x => p_d * x) row).
  { unfold day_addend. destruct (Z.eqb_spec d 0); [lia|].
    destruct (Z.eqb_spec d (n_days - 1)); [lia|]. reflexivity. }
  rewrite (apply_day_series kernels P_return prec month_of_year steps_per_day
             n_days h rows p row d mo p_d ltac:(lia) Hk Hp Hmo Hmo1 Hrow Hpd)
    by (intros [?|?]; lia).
  rewrite Had. eapply series_iadd_mismatch; [exact HP| |];
    rewrite length_map, ?Hlen, Hrow2; lia.
Qed.

(** The second of three days at an eight-hour step: three steps a day, a
    kernel of seven bins. *)
Lemma interior_day_odd_steps_witness :
  apply_day 0%nat 1%nat 2%nat [1; 1; 1]%Z 3 3 1
    [Ndarray2 (replicate 12 (replicate 7 (1 # 7)));
     Series (seqZ 0 9) (replicate 9 0); Ndarray [5; 8; 0]]
  = (Raise ValueError,
     [Ndarray2 (replicate 12 (replicate 7 (1 # 7)));
      Series (seqZ 0 9) (replicate 9 0); Ndarray [5; 8; 0]]).
Proof.
  apply (interior_day_odd_steps 0%nat 1%nat 2%nat [1; 1; 1]%Z 3 3
           [Ndarray2 (replicate 12 (replicate 7 (1 # 7)));
            Series (seqZ 0 9) (replicate 9 0); Ndarray [5; 8; 0]]
           (replicate 12 (replicate 7 (1 # 7))) (seqZ 0 9)
           (replicate 9 0) [5; 8; 0] (replicate 7 (1 # 7)) 1 1 8);
    try reflexivity; lia.
Defined.

(** ** The whole of [prec_TRIANGLE] *)

Lemma index_of_seqZ (L step : Z) :
  (0 <= step < L)%Z -> index_of (seqZ 0 L) step = Some (Z.to_nat step).
Proof.
  intros Hs.
  assert (G : forall (n : nat) (start : Z),
             (start <= step < start + Z.of_nat n)%Z ->
             index_of (seqZ start (Z.of_nat n)) step = Some (Z.to_nat (step - start))).
  { induction n as [|n IH]; intros start Hr; [lia|].
    rewrite seqZ_cons by lia. simpl.
    destruct (Z.eqb_spec start step) as [->|Hne].
    - by rewrite Z.sub_diag.
    - replace (Z.pred (Z.of_nat (S n))) with (Z.of_nat n) by lia.
      rewrite (IH (Z.succ start)) by lia. simpl. f_equal. lia. }
  specialize (G (Z.to_nat L) 0%Z). rewrite Z2Nat.id in G by lia.
  rewrite G by lia. f_equal. lia.
Qed.

Lemma series_set_zero (L step : Z) :
  (0 <= step < L)%Z ->
  series_set (seqZ 0 L, replicate (Z.to_nat L) 0) step 0
  = (seqZ 0 L, replicate (Z.to_nat L) 0).
Proof.
  intros Hs. unfold series_set. cbn [fst snd]. rewrite index_of_seqZ by done.
  f_equal. apply list_insert_id. apply lookup_replicate_2. lia.
Qed.

Lemma series_after_zero act (L : Z) (steps : list Z) :
  Forall (fun step => 0 <= step < L)%Z steps ->
  series_after act (seqZ 0 L, replicate (Z.to_nat L) 0) steps
  = (seqZ 0 L, replicate (Z.to_nat L) 0).
Proof.
  induction 1 as [|step steps Hs _ IH]; simpl; [done|].
  destruct (act step); [done|]. by rewrite series_set_zero.
Qed.

Section BuildKernelsSeries.
Variables (ts : Q) (offset steps_per_two_days : Z).
Variables (kernels P_return dur t_pk : loc).
Variables (h0 : heap) (dur_v t_pk_v : list Q) (L : Z).
Hypothesis kernels_valid : (kernels < length h0)%nat.
Hypothesis P_return_valid : (P_return < length h0)%nat.
Hypothesis kernels_not_P_return : kernels <> P_return.
Hypothesis window_nonneg : (0 <= steps_per_two_days)%Z.
Hypothesis window_in_output : (steps_per_two_days <= L)%Z.
Hypothesis dur_array : h0 !! dur = Some (Ndarray dur_v).
Hypothesis t_pk_array : h0 !! t_pk = Some (Ndarray t_pk_v).
Hypothesis dur_apart : dur <> kernels /\ dur <> P_return.
Hypothesis t_pk_apart : t_pk <> kernels /\ t_pk <> P_return.

Local Abbreviation KP := (kp kernels P_return h0).
Local Abbreviation zeros := (replicate (Z.to_nat steps_per_two_days) (0 : Q)).
Local Abbreviation s0 := (seqZ 0 L, replicate (Z.to_nat L) (0 : Q)).

(** When the output holds the whole window, the month loop leaves the
    output series as it was: a series of zeros. *)
Lemma build_kernels_series_prefix (n_months k : nat) :
  (k <= n_months)%nat -> (k <= length dur_v)%nat -> (k <= length t_pk_v)%nat ->
  for_ (seqZ 0 (Z.of_nat k)) (fun month =>
    dur_v <- load_ndarray dur ;;
    dur_m <- lift (getitem dur_v month) ;;
    t_pk_v <- load_ndarray t_pk ;;
    t_pk_m <- lift (getitem t_pk_v month) ;;
    kernel_month ts offset steps_per_two_days kernels P_return month
      dur_m t_pk_m)%py (KP (replicate n_months zeros) s0)
  = (Ok tt, KP (kernel_rows ts offset steps_per_two_days dur_v t_pk_v n_months k) s0).
Proof using All.
  induction k as [|k IH]; intros Hk Hd Ht.
  - rewrite seqZ_nil by lia. unfold kernel_rows. simpl.
    rewrite Nat.sub_0_r. reflexivity.
  - pose proof (IH ltac:(lia) ltac:(lia) ltac:(lia)) as E1.
    rewrite seqZ_S, (for_app _ _ _ _ _ E1). simpl.
    replace (0 + Z.of_nat k)%Z with (Z.of_nat k) by lia.
    destruct (lookup_lt_is_Some_2 dur_v k ltac:(lia)) as [d Hd'].
    destruct (lookup_lt_is_Some_2 t_pk_v k ltac:(lia)) as [t Ht'].
    destruct dur_apart, t_pk_apart.
    erewrite bind_ok; cycle 1.
    { erewrite bind_ok; cycle 1.
      { apply load_ndarray_ok. rewrite kp_other by done. apply dur_array. }
      erewrite bind_ok; cycle 1.
      { unfold lift. rewrite (getitem_ok dur_v (Z.of_nat k) d) by (rewrite ?Nat2Z.id; done || lia).
        reflexivity. }
      erewrite bind_ok; cycle 1.
      { apply load_ndarray_ok. rewrite kp_other by done. apply t_pk_array. }
      erewrite bind_ok; cycle 1.
      { unfold lift. rewrite (getitem_ok t_pk_v (Z.of_nat k) t) by (rewrite ?Nat2Z.id; done || lia).
        reflexivity. }
      apply kernel_month_kp; try done; try lia.
      rewrite Nat2Z.id. unfold kernel_rows.
      rewrite lookup_app_r by (rewrite length_map, length_seq; lia).
      rewrite length_map, length_seq, Nat.sub_diag.
      apply lookup_replicate_2. lia. }
    rewrite series_after_zero by (apply Forall_seqZ; intros; lia).
    unfold ret. f_equal. f_equal.
    rewrite Nat2Z.id. unfold kernel_rows.
    rewrite seq_S, map_app, <- app_assoc.
    rewrite insert_app_r_alt by (rewrite length_map, length_seq; lia).
    rewrite length_map, length_seq, Nat.sub_diag.
    replace (n_months - k)%nat with (S (n_months - S k)) by lia.
    cbn [replicate map app Nat.add list_insert insert].
    rewrite Hd', Ht'. reflexivity.
Qed.
End BuildKernelsSeries.

Section PulseEnds.
Variables (dur_m t_pk_m : Q).
Hypothesis dur_pos : 0 < dur_m.

Local Abbreviation cdf := (pulse_cdf dur_m t_pk_m).

Lemma slope_square_pos (a : Q) : 0 < a -> 0 < m_slope dur_m * a * a.
Proof using dur_pos.
  intros Ha. pose proof (slope_pos dur_m dur_pos) as Hm.
  rewrite <- Qmult_assoc. apply Qmult_lt_0_compat; [lra|].
  apply Qmult_lt_0_compat; lra.
Qed.

(** Some of the pulse lies after every time before its end, and before
    every time after its start. *)
Lemma pulse_cdf_lt_1 (t : Q) : t < t_end dur_m t_pk_m -> cdf t < 1.
Proof using dur_pos.
  intros Ht.
  assert (Hpos : 0 < dur_m / 2) by (apply Qlt_shift_div_l; lra).
  unfold pulse_cdf, t_start, t_end in *.
  pose proof (slope_half_square dur_m dur_pos) as Hhalf.
  pose proof slope_square_pos as Hsp.
  set (h := dur_m / 2) in *. set (m := m_slope dur_m) in *. clearbody h m.
  unfold Qdiv. change (/ 2) with (1 # 2).
  repeat match goal with
  | |- context [Qle_bool ?a ?b] =>
      let E := fresh "E" in
      destruct (Qle_bool a b) eqn:E;
      [ apply Qle_bool_iff in E
      | assert (b < a) by (apply Qlt_bool_iff; unfold Qlt_bool; rewrite E; reflexivity);
        clear E ];
      try (exfalso; lra)
  end; try lra.
  - pose proof (Hhalf (t - (t_pk_m - h)) ltac:(lra) ltac:(lra)). lra.
  - pose proof (Hsp (t_pk_m + h - t) ltac:(lra)). lra.
Qed.

Lemma pulse_cdf_gt_0 (t : Q) : t_start dur_m t_pk_m < t -> 0 < cdf t.
Proof using dur_pos.
  intros Ht.
  assert (Hpos : 0 < dur_m / 2) by (apply Qlt_shift_div_l; lra).
  unfold pulse_cdf, t_start, t_end in *.
  pose proof (slope_half_square dur_m dur_pos) as Hhalf.
  pose proof slope_square_pos as Hsp.
  set (h := dur_m / 2) in *. set (m := m_slope dur_m) in *. clearbody h m.
  unfold Qdiv. change (/ 2) with (1 # 2).
  repeat match goal with
  | |- context [Qle_bool ?a ?b] =>
      let E := fresh "E" in
      destruct (Qle_bool a b) eqn:E;
      [ apply Qle_bool_iff in E
      | assert (b < a) by (apply Qlt_bool_iff; unfold Qlt_bool; rewrite E; reflexivity);
        clear E ];
      try (exfalso; lra)
  end; try lra.
  - pose proof (Hsp (t - (t_pk_m - h)) ltac:(lra)). lra.
  - pose proof (Hhalf (t_pk_m + h - t) ltac:(lra) ltac:(lra)). lra.
Qed.
End PulseEnds.

Section KernelParts.
Variables (ts : Q) (offset : Z) (dur_m t_pk_m : Q).
Hypothesis ts_pos : 0 < ts.
Hypothesis dur_pos : 0 < dur_m.

Local Abbreviation K := (kernel_value ts offset dur_m t_pk_m).
Local Abbreviation cdf := (pulse_cdf dur_m t_pk_m).
Local Abbreviation s_ := (t_step_start ts offset).

(** The bins from [a] on add up to the mass of the pulse between their
    ends. *)
Lemma kernel_values_range (a n : nat) :
  qsum (map K (seqZ (Z.of_nat a) (Z.of_nat n)))
  == cdf (s_ (Z.of_nat (a + n))) - cdf (s_ (Z.of_nat a)).
Proof using ts_pos dur_pos.
  pose proof (kernel_values_telescope ts offset dur_m t_pk_m ts_pos dur_pos (a + n))
    as Hall.
  pose proof (kernel_values_telescope ts offset dur_m t_pk_m ts_pos dur_pos a)
    as Hpre.
  assert (E : seqZ 0 (Z.of_nat (a + n))
              = seqZ 0 (Z.of_nat a) ++ seqZ (Z.of_nat a) (Z.of_nat n))
    by (rewrite Nat2Z.inj_add, seqZ_app by lia; reflexivity).
  rewrite E, map_app, qsum_app, Hpre in Hall. lra.
Qed.

Lemma take_kernel_row (N k : nat) :
  (k <= N)%nat ->
  take k (kernel_row ts offset (Z.of_nat N) dur_m t_pk_m)
  = map K (seqZ 0 (Z.of_nat k)).
Proof.
  intros Hk. unfold kernel_row.
  replace (Z.of_nat N) with (Z.of_nat k + Z.of_nat (N - k))%Z by lia.
  rewrite seqZ_app, map_app by lia.
  rewrite take_app_length'; [done|]. by rewrite length_map, length_seqZ, Nat2Z.id.
Qed.

Lemma drop_kernel_row (N k : nat) :
  (k <= N)%nat ->
  drop k (kernel_row ts offset (Z.of_nat N) dur_m t_pk_m)
  = map K (seqZ (Z.of_nat k) (Z.of_nat (N - k))).
Proof.
  intros Hk. unfold kernel_row.
  replace (Z.of_nat N) with (Z.of_nat k + Z.of_nat (N - k))%Z at 1 by lia.
  rewrite seqZ_app, map_app by lia.
  rewrite drop_app_length'; [done|]. by rewrite length_map, length_seqZ, Nat2Z.id.
Qed.

Lemma kernel_row_nonneg (N : Z) :
  Forall (fun x => 0 <= x) (kernel_row ts offset N dur_m t_pk_m).
Proof using ts_pos dur_pos.
  unfold kernel_row. apply Forall_fmap, Forall_forall. intros step _.
  by apply kernel_value_nonneg.
Qed.
End KernelParts.

Section DayKernel.
Variables (time_step steps_per_day c : Z) (dur_m t_pk_m : Q).
Hypothesis step_pos : (0 < time_step)%Z.
Hypothesis steps_a_day : (1440 = steps_per_day * time_step)%Z.
Hypothesis steps_even : steps_per_day = (2 * c)%Z.
Hypothesis dur_range : 0 < dur_m <= 1440.
Hypothesis t_pk_range : 0 <= t_pk_m < 1440.

Local Abbreviation ts := (Z2Q time_step).
Local Abbreviation row :=
  (kernel_row ts c (2 * steps_per_day) dur_m t_pk_m).
Local Abbreviation cdf := (pulse_cdf dur_m t_pk_m).

Lemma ts_positive : 0 < ts.
Proof using step_pos.
  unfold Z2Q. change 0 with (inject_Z 0). rewrite <- Zlt_Qlt. done.
Qed.

Lemma step_start_minutes (k : Z) :
  t_step_start ts c k == Z2Q ((k - c) * time_step).
Proof. unfold t_step_start, Z2Q. by rewrite inject_Z_mult. Qed.

Lemma half_day_pos : (1 <= c)%Z.
Proof using step_pos steps_a_day steps_even. nia. Qed.

Lemma window_ends :
  t_step_start ts c 0 == - (720)
  /\ t_step_start ts c c == 0
  /\ t_step_start ts c (3 * c) == 1440
  /\ t_step_start ts c (4 * c) == 2160.
Proof using step_pos steps_a_day steps_even.
  rewrite !step_start_minutes.
  assert (Hc : (c * time_step = 720)%Z) by lia.
  replace ((0 - c) * time_step)%Z with (-720)%Z by lia.
  replace ((c - c) * time_step)%Z with 0%Z by lia.
  replace ((3 * c - c) * time_step)%Z with 1440%Z by lia.
  replace ((4 * c - c) * time_step)%Z with 2160%Z by lia.
  done.
Qed.

Lemma length_day_row : length row = Z.to_nat (4 * c).
Proof using steps_even.
  unfold kernel_row. rewrite length_map, length_seqZ. f_equal. lia.
Qed.

(** A pulse of at most a day that peaks inside the day lies inside the
    window: the month's kernel sums to 1. *)
Lemma day_row_sum : qsum row == 1.
Proof using All.
  pose proof ts_positive as Hts. pose proof half_day_pos as Hc.
  destruct window_ends as (E0 & _ & _ & E4). destruct dur_range, t_pk_range.
  assert (Hh : dur_m / 2 <= 720) by (apply Qle_shift_div_r; lra).
  assert (Hh0 : 0 < dur_m / 2) by (apply Qlt_shift_div_l; lra).
  unfold kernel_row.
  replace (2 * steps_per_day)%Z with (Z.of_nat (Z.to_nat (4 * c))) by lia.
  rewrite (kernel_values_telescope ts c dur_m t_pk_m Hts ltac:(lra)).
  rewrite Z2Nat.id by lia.
  pose proof (pulse_cdf_after dur_m t_pk_m ltac:(lra) (t_step_start ts c (4 * c))
                ltac:(rewrite E4; unfold t_end; lra)).
  pose proof (pulse_cdf_before dur_m t_pk_m (t_step_start ts c 0)
                ltac:(rewrite E0; unfold t_start; lra)).
  lra.
Qed.

Lemma first_day_kernel :
  in_bounds_kernel steps_per_day 0 row = drop (Z.to_nat c) row.
Proof using step_pos steps_a_day steps_even.
  pose proof half_day_pos as Hc.
  unfold in_bounds_kernel. simpl. unfold slice_from, slice_bound.
  rewrite py_int_Z2Q, ceil_half, length_day_row.
  replace ((steps_per_day + 1) / 2)%Z with c by (Z.div_mod_to_equations; lia).
  destruct (Z.ltb_spec c 0); [lia|]. f_equal. lia.
Qed.

Lemma last_day_kernel (d : Z) :
  d <> 0%Z -> in_bounds_kernel steps_per_day d row = take (Z.to_nat (3 * c)) row.
Proof using step_pos steps_a_day steps_even.
  intros Hd. pose proof half_day_pos as Hc.
  unfold in_bounds_kernel. destruct (Z.eqb_spec d 0); [done|].
  unfold slice_to, slice_bound.
  rewrite py_int_Z2Q, ceil_three_halves, length_day_row.
  replace (steps_per_day + (steps_per_day + 1) / 2)%Z with (3 * c)%Z
    by (Z.div_mod_to_equations; lia).
  destruct (Z.ltb_spec (3 * c) 0); [lia|]. f_equal. lia.
Qed.

(** The part of the kernel that the first day uses is the mass of the pulse
    after the start of the day, the part that the last day uses the mass
    before the end of the day; neither is zero. *)
Lemma first_day_kernel_sum :
  0 < qsum (in_bounds_kernel steps_per_day 0 row).
Proof using All.
  pose proof ts_positive as Hts. pose proof half_day_pos as Hc.
  destruct window_ends as (_ & Ec & _ & E4). destruct dur_range, t_pk_range.
  assert (Hh : dur_m / 2 <= 720) by (apply Qle_shift_div_r; lra).
  assert (Hh0 : 0 < dur_m / 2) by (apply Qlt_shift_div_l; lra).
  rewrite first_day_kernel.
  replace (2 * steps_per_day)%Z with (Z.of_nat (Z.to_nat (4 * c))) by lia.
  rewrite drop_kernel_row by lia.
  rewrite (kernel_values_range ts c dur_m t_pk_m Hts ltac:(lra)).
  replace (Z.to_nat c + (Z.to_nat (4 * c) - Z.to_nat c))%nat
    with (Z.to_nat (4 * c)) by lia.
  rewrite !Z2Nat.id by lia.
  pose proof (pulse_cdf_after dur_m t_pk_m ltac:(lra) (t_step_start ts c (4 * c))
                ltac:(rewrite E4; unfold t_end; lra)).
  pose proof (pulse_cdf_lt_1 dur_m t_pk_m ltac:(lra) 0 ltac:(unfold t_end; lra)).
  rewrite (pulse_cdf_ext dur_m t_pk_m _ _ Ec). lra.
Qed.

Lemma last_day_kernel_sum (d : Z) :
  d <> 0%Z -> 0 < qsum (in_bounds_kernel steps_per_day d row).
Proof using All.
  intros Hd. pose proof ts_positive as Hts. pose proof half_day_pos as Hc.
  destruct window_ends as (E0 & _ & E3 & _). destruct dur_range, t_pk_range.
  assert (Hh : dur_m / 2 <= 720) by (apply Qle_shift_div_r; lra).
  assert (Hh0 : 0 < dur_m / 2) by (apply Qlt_shift_div_l; lra).
  rewrite last_day_kernel by done.
  replace (2 * steps_per_day)%Z with (Z.of_nat (Z.to_nat (4 * c))) by lia.
  rewrite take_kernel_row by lia.
  rewrite (kernel_values_telescope ts c dur_m t_pk_m Hts ltac:(lra)).
  rewrite !Z2Nat.id by lia.
  pose proof (pulse_cdf_before dur_m t_pk_m (t_step_start ts c 0)
                ltac:(rewrite E0; unfold t_start; lra)).
  pose proof (pulse_cdf_gt_0 dur_m t_pk_m ltac:(lra) 1440
                ltac:(unfold t_start; lra)).
  rewrite (pulse_cdf_ext dur_m t_pk_m _ _ E3). lra.
Qed.

Lemma in_bounds_kernel_sum (d : Z) :
  0 < qsum (in_bounds_kernel steps_per_day d row).
Proof using All.
  destruct (Z.eq_dec d 0%Z) as [->|Hd];
    [apply first_day_kernel_sum | by apply last_day_kernel_sum].
Qed.

Lemma in_bounds_kernel_nonneg (d : Z) :
  Forall (fun x => 0 <= x) (in_bounds_kernel steps_per_day d row).
Proof using All.
  pose proof (kernel_row_nonneg ts c dur_m t_pk_m ts_positive
                ltac:(destruct dur_range; lra) (2 * steps_per_day)) as Hnn.
  destruct (Z.eq_dec d 0%Z) as [->|Hd].
  - rewrite first_day_kernel. by apply Forall_drop.
  - rewrite last_day_kernel by done. by apply Forall_take.
Qed.

(** What a day adds sums to the day's total, and is not negative when the
    total is not. *)
Lemma day_addend_sum (n_days d : Z) (p_d : Q) :
  qsum (day_addend steps_per_day n_days d p_d row) == p_d.
Proof using All.
  unfold day_addend. destruct ((d =? 0)%Z || (d =? n_days - 1)%Z).
  - cbv zeta. pose proof (in_bounds_kernel_sum d) as Hpos.
    rewrite qsum_scale. field. lra.
  - rewrite qsum_scale, day_row_sum. ring.
Qed.

Lemma day_addend_nonneg (n_days d : Z) (p_d : Q) :
  0 <= p_d ->
  Forall (fun x => 0 <= x) (day_addend steps_per_day n_days d p_d row).
Proof using All.
  intros Hp. unfold day_addend. destruct ((d =? 0)%Z || (d =? n_days - 1)%Z).
  - cbv zeta. pose proof (in_bounds_kernel_sum d) as Hpos.
    apply Forall_fmap. eapply Forall_impl; [apply (in_bounds_kernel_nonneg d)|].
    intros x Hx. cbn beta.
    assert (0 < 1 / qsum (in_bounds_kernel steps_per_day d row))
      by (apply Qlt_shift_div_l; lra).
    apply Qmult_le_0_compat; [apply Qmult_le_0_compat|];
      first [assumption | by apply Qlt_le_weak].
  - apply Forall_fmap.
    eapply Forall_impl;
      [apply (kernel_row_nonneg ts c dur_m t_pk_m ts_positive
                ltac:(destruct dur_range; lra))|].
    intros x Hx. cbn beta. apply Qmult_le_0_compat; assumption.
Qed.
End DayKernel.

Lemma series_added_nonneg (vals : list Q) i j v :
  Forall (fun x => 0 <= x) vals -> Forall (fun x => 0 <= x) v ->
  Forall (fun x => 0 <= x) (series_added vals i j v).
Proof.
  intros Hvals Hv. unfold series_added. cbv zeta.
  apply Forall_app. split; [by apply Forall_take|].
  apply Forall_app. split; [|by apply Forall_drop].
  assert (Hw : Forall (fun x => 0 <= x) (series_window vals i j).2)
    by (unfold series_window; cbn [snd]; by apply Forall_take, Forall_drop).
  revert Hw Hv. generalize (series_window vals i j).2 as a. clear.
  intros a Ha. revert v. induction Ha as [|x a Hx _ IH]; intros [|y v] Hv; simpl;
    try constructor.
  - apply Forall_cons in Hv as [Hy _]. cbn beta in *. lra.
  - apply Forall_cons in Hv as [_ Hv]. by apply IH.
Qed.

Lemma day_window_length (steps_per_day n_days d : Z) (p_d : Q)
    (vals row : list Q) :
  (1 <= steps_per_day)%Z -> Z.even steps_per_day = true -> (2 <= n_days)%Z ->
  (0 <= d < n_days)%Z ->
  length vals = Z.to_nat (steps_per_day * n_days) ->
  length row
  = Z.to_nat (2 * np_ceil (Z2Q steps_per_day / 2) + steps_per_day) ->
  length (series_window vals (day_slice steps_per_day n_days d).1
            (day_slice steps_per_day n_days d).2).2
  = length (day_addend steps_per_day n_days d p_d row).
Proof.
  intros Hspd Heven Hn Hd Hvals Hrow.
  destruct (Z.eq_dec d 0%Z) as [Hz | Hz];
    [|destruct (Z.eq_dec d (n_days - 1)%Z) as [Hl | Hl]].
  - pose proof (boundary_lengths steps_per_day n_days d vals row Hspd Hn
                  ltac:(by left) Hvals Hrow) as Hb.
    unfold day_slice, day_addend.
    rewrite (proj2 (Z.eqb_eq d 0) Hz) in *. cbn [orb fst snd]. cbv zeta.
    by rewrite length_map.
  - pose proof (boundary_lengths steps_per_day n_days d vals row Hspd Hn
                  ltac:(by right) Hvals Hrow) as Hb.
    unfold day_slice, day_addend.
    rewrite (proj2 (Z.eqb_neq d 0) Hz) in *.
    rewrite (proj2 (Z.eqb_eq d (n_days - 1)) Hl). cbn [orb fst snd]. cbv zeta.
    by rewrite length_map.
  - destruct (interior_window steps_per_day n_days d vals Hspd ltac:(lia) Hvals)
      as [_ Hlen].
    rewrite Hlen. unfold day_addend.
    rewrite (proj2 (Z.eqb_neq d 0) Hz), (proj2 (Z.eqb_neq d (n_days - 1)) Hl).
    cbn [orb]. rewrite length_map, Hrow, ceil_half. f_equal.
    apply Z.even_spec in Heven as [c Hc]. Z.div_mod_to_equations. lia.
Qed.

Section DayLoop.
Variables (kernels P_return prec : loc) (month_of_year : list Z).
Variables (time_step steps_per_day c : Z) (h : heap).
Variables (dur_v t_pk_v p : list Q) (idx : list Z).
Hypothesis step_pos : (0 < time_step)%Z.
Hypothesis steps_a_day : (1440 = steps_per_day * time_step)%Z.
Hypothesis steps_even : steps_per_day = (2 * c)%Z.
Hypothesis two_days : (2 <= length p)%nat.
Hypothesis kernels_table :
  h !! kernels
  = Some (Ndarray2 (kernel_rows (Z2Q time_step) c (2 * steps_per_day)
                      dur_v t_pk_v 12 12)).
Hypothesis prec_array : h !! prec = Some (Ndarray p).
Hypothesis P_return_valid : (P_return < length h)%nat.
Hypothesis P_return_apart : P_return <> kernels /\ P_return <> prec.
Hypothesis months : length month_of_year = length p.
Hypothesis months_range : Forall (fun mo => 1 <= mo <= 12)%Z month_of_year.
Hypothesis dur_months : length dur_v = 12%nat.
Hypothesis t_pk_months : length t_pk_v = 12%nat.
Hypothesis dur_range : Forall (fun x => 0 < x <= 1440) dur_v.
Hypothesis t_pk_range : Forall (fun x => 0 <= x < 1440) t_pk_v.

Local Abbreviation n_days := (Z.of_nat (length p)).
Local Abbreviation hP := (fun vals => <[P_return := Series idx vals]> h).

(** One turn of the day loop adds the day's total to the output. *)
Lemma apply_day_turn (d : nat) (vals : list Q) (p_d : Q) :
  p !! d = Some p_d ->
  length vals = Z.to_nat (steps_per_day * n_days) ->
  exists vals',
    apply_day kernels P_return prec month_of_year steps_per_day n_days
      (Z.of_nat d) (hP vals)
    = (Ok tt, hP vals')
    /\ length vals' = length vals
    /\ qsum vals' == qsum vals + p_d
    /\ (Forall (fun x => 0 <= x) vals -> 0 <= p_d ->
        Forall (fun x => 0 <= x) vals').
Proof using All.
  intros Hpd Hvals. pose proof (lookup_lt_Some _ _ _ Hpd) as Hd.
  destruct P_return_apart as [Hk Hp].
  destruct (lookup_lt_is_Some_2 month_of_year d ltac:(lia)) as [mo Hmo].
  pose proof (proj1 (Forall_lookup _ _) months_range d mo Hmo) as Hmo_range.
  cbn beta in Hmo_range.
  destruct (lookup_lt_is_Some_2 dur_v (Z.to_nat (mo - 1)) ltac:(lia)) as [dm Hdm].
  destruct (lookup_lt_is_Some_2 t_pk_v (Z.to_nat (mo - 1)) ltac:(lia)) as [tm Htm].
  pose proof (proj1 (Forall_lookup _ _) dur_range _ _ Hdm) as Hdr.
  pose proof (proj1 (Forall_lookup _ _) t_pk_range _ _ Htm) as Htr.
  cbn beta in Hdr, Htr.
  set (row := kernel_row (Z2Q time_step) c (2 * steps_per_day) dm tm).
  assert (Hrow : kernel_rows (Z2Q time_step) c (2 * steps_per_day) dur_v t_pk_v
                   12 12 !! Z.to_nat (mo - 1) = Some row).
  { rewrite lookup_kernel_rows by lia. by rewrite Hdm, Htm. }
  assert (Hspd : (1 <= steps_per_day)%Z) by nia.
  assert (Heven : Z.even steps_per_day = true)
    by (apply Z.even_spec; by exists c).
  assert (Hlrow : length row
                  = Z.to_nat (2 * np_ceil (Z2Q steps_per_day / 2) + steps_per_day)).
  { unfold row. rewrite (length_day_row time_step steps_per_day c dm tm steps_even).
    rewrite ceil_half. f_equal. Z.div_mod_to_equations. lia. }
  assert (HhP : hP vals !! P_return = Some (Series idx vals))
    by (by apply list_lookup_insert_eq).
  assert (Hhk : hP vals !! kernels = h !! kernels)
    by (by apply list_lookup_insert_ne).
  assert (Hhp : hP vals !! prec = h !! prec)
    by (by apply list_lookup_insert_ne).
  pose proof (day_window_length steps_per_day n_days (Z.of_nat d) p_d vals row
                Hspd Heven ltac:(lia) ltac:(lia) Hvals Hlrow) as Hwin.
  set (sl := day_slice steps_per_day n_days (Z.of_nat d)) in *.
  set (add := day_addend steps_per_day n_days (Z.of_nat d) p_d row) in *.
  exists (series_added vals sl.1 sl.2 add). split; [|split; [|split]].
  - rewrite (apply_day_series kernels P_return prec month_of_year steps_per_day
               n_days (hP vals) _ p row (Z.of_nat d) mo p_d ltac:(lia)
               (eq_trans Hhk kernels_table) (eq_trans Hhp prec_array)
               ltac:(rewrite Nat2Z.id; exact Hmo) ltac:(lia) Hrow
               ltac:(rewrite Nat2Z.id; exact Hpd)).
    + fold sl add. rewrite (series_iadd_added _ _ _ _ _ _ _ HhP Hwin).
      by rewrite list_insert_insert_eq.
    + intros _ E.
      pose proof (in_bounds_kernel_sum time_step steps_per_day c dm tm step_pos
                    steps_a_day steps_even Hdr Htr (Z.of_nat d)) as Hpos.
      fold row in Hpos. rewrite E in Hpos. simpl in Hpos. lra.
  - by apply length_series_added.
  - rewrite qsum_series_added by done. unfold add, row.
    by rewrite (day_addend_sum time_step steps_per_day c dm tm step_pos
                  steps_a_day steps_even Hdr Htr).
  - intros Hnn Hp0. apply series_added_nonneg; [done|]. unfold add, row.
    by apply (day_addend_nonneg time_step steps_per_day c dm tm step_pos
                steps_a_day steps_even Hdr Htr).
Qed.

(** The day loop over the first [k] days adds their totals. *)
Lemma apply_days_run (k : nat) (vals : list Q) :
  (k <= length p)%nat ->
  length vals = Z.to_nat (steps_per_day * n_days) ->
  exists vals',
    for_ (seqZ 0 (Z.of_nat k))
      (apply_day kernels P_return prec month_of_year steps_per_day n_days)
      (hP vals)
    = (Ok tt, hP vals')
    /\ length vals' = length vals
    /\ qsum vals' == qsum vals + qsum (take k p)
    /\ (Forall (fun x => 0 <= x) vals -> Forall (fun x => 0 <= x) p ->
        Forall (fun x => 0 <= x) vals').
Proof using All.
  intros Hk Hvals. induction k as [|k IH].
  - exists vals. rewrite seqZ_nil by lia. simpl.
    split; [|split; [done|split; [ring|done]]].
    unfold ret. f_equal. 
  - destruct (IH ltac:(lia)) as (v1 & E1 & L1 & S1 & N1).
    destruct (lookup_lt_is_Some_2 p k ltac:(lia)) as [p_d Hpd].
    destruct (apply_day_turn k v1 p_d Hpd ltac:(congruence))
      as (v2 & E2 & L2 & S2 & N2).
    exists v2. rewrite seqZ_S, (for_app _ _ _ _ _ E1). simpl.
    replace (0 + Z.of_nat k)%Z with (Z.of_nat k) by lia.
    rewrite (bind_ok _ _ _ _ _ E2).
    split; [reflexivity|]. split; [congruence|]. split.
    + rewrite S2, S1, (take_S_r _ _ _ Hpd), qsum_app. simpl. ring.
    + intros Hv Hp. apply N2; [by apply N1|].
      exact (proj1 (Forall_lookup _ _) Hp _ _ Hpd).
Qed.
End DayLoop.

(** ** Rounding to five decimals *)

Lemma np_rint_error (y : Q) : Qabs (Z2Q (np_rint y) - y) <= 1 # 2.
Proof.
  unfold np_rint. cbv zeta.
  pose proof (Qfloor_le y) as Hlo. pose proof (Qlt_floor y) as Hhi.
  assert (E1 : Z2Q (Qfloor y + 1) == Z2Q (Qfloor y) + 1)
    by (unfold Z2Q; rewrite inject_Z_plus; reflexivity).
  fold (Z2Q (Qfloor y)) in Hlo. fold (Z2Q (Qfloor y + 1)) in Hhi.
  set (f := Qfloor y) in *.
  assert (Hup : Qabs (Z2Q (f + 1) - y) <= 1 # 2 <-> 1 # 2 <= y - Z2Q f).
  { rewrite E1. split.
    - intros Ha. apply Qabs_Qle_condition in Ha. lra.
    - intros Hb. apply Qabs_Qle_condition. lra. }
  assert (Hdown : Qabs (Z2Q f - y) <= 1 # 2 <-> y - Z2Q f <= 1 # 2).
  { split.
    - intros Ha. apply Qabs_Qle_condition in Ha. lra.
    - intros Hb. apply Qabs_Qle_condition. lra. }
  destruct (Qcompare (y - Z2Q f) (1 # 2)) eqn:C.
  - apply Qeq_alt in C. destruct (Z.even f); [apply Hdown | apply Hup]; lra.
  - apply Qlt_alt in C. apply Hdown. lra.
  - apply Qgt_alt in C. apply Hup. lra.
Qed.

Lemma np_rint_nonneg (y : Q) : 0 <= y -> (0 <= np_rint y)%Z.
Proof.
  intros Hy. assert (Hf : (0 <= Qfloor y)%Z).
  { change 0%Z with (Qfloor 0). by apply Qfloor_resp_le. }
  unfold np_rint. cbv zeta.
  destruct (Qcompare _ _); [destruct (Z.even _)| |]; lia.
Qed.

Lemma around5_error (x : Q) : Qabs (around5 x - x) <= 1 # 200000.
Proof.
  pose proof (np_rint_error (x * 100000)) as Hr. unfold around5.
  set (r := Z2Q (np_rint (x * 100000))) in *. clearbody r.
  apply Qabs_Qle_condition in Hr. apply Qabs_Qle_condition.
  unfold Qdiv. change (/ 100000) with (1 # 100000).
  destruct Hr. split; lra.
Qed.

Lemma around5_nonneg (x : Q) : 0 <= x -> 0 <= around5 x.
Proof.
  intros Hx. unfold around5.
  assert (Hr : (0 <= np_rint (x * 100000))%Z) by (apply np_rint_nonneg; lra).
  apply Z2Q_le in Hr. change (Z2Q 0) with 0 in Hr.
  unfold Qdiv. change (/ 100000) with (1 # 100000). lra.
Qed.

Lemma qsum_around5 (v : list Q) :
  Qabs (qsum (map around5 v) - qsum v) <= Z2Q (Z.of_nat (length v)) * (1 # 200000).
Proof.
  induction v as [|x v IH].
  - apply Qabs_Qle_condition. split; vm_compute; discriminate.
  - cbn [map qsum foldr length].
    pose proof (around5_error x) as Hx.
    apply Qabs_Qle_condition in Hx, IH. apply Qabs_Qle_condition.
    assert (E : Z2Q (Z.of_nat (S (length v))) == Z2Q (Z.of_nat (length v)) + 1).
    { unfold Z2Q. rewrite Nat2Z.inj_succ, <- Z.add_1_r, inject_Z_plus. reflexivity. }
    rewrite E. fold (qsum (map around5 v)) (qsum v).
    destruct Hx, IH. split; lra.
Qed.

Lemma steps_per_day_of_ok (time_step steps_per_day : Z) :
  (0 < time_step)%Z -> (1440 = steps_per_day * time_step)%Z ->
  steps_per_day_of time_step = Ok steps_per_day.
Proof.
  intros Hts Hdiv. unfold steps_per_day_of.
  destruct (Z.eqb_spec time_step 0); [lia|]. f_equal.
  destruct time_step as [|q|q]; try lia.
  unfold py_int, Z2Q, cnst.HOURS_PER_DAY, cnst.MIN_PER_HOUR. cbn.
  replace (60 * 24 * 1)%Z with (steps_per_day * Z.pos q)%Z by lia.
  apply Z.quot_mul. lia.
Qed.

Lemma py_int_two_days (a b : Z) : py_int (Z2Q a * 2 + Z2Q b) = (a * 2 + b)%Z.
Proof. unfold py_int, Z2Q. cbn. rewrite Z.quot_1_r. lia. Qed.

(** The run of [prec_TRIANGLE] on such a record. *)
Lemma triangle_run (prec : loc) (time_step : Z) (dur t_pk : loc)
    (month_of_year : list Z) (h : heap) (p dur_v t_pk_v : list Q)
    (steps_per_day : Z) :
  (0 < time_step)%Z -> (1440 = steps_per_day * time_step)%Z ->
  Z.even steps_per_day = true ->
  h !! prec = Some (Ndarray p) -> (2 <= length p)%nat ->
  h !! dur = Some (Ndarray dur_v) -> h !! t_pk = Some (Ndarray t_pk_v) ->
  length dur_v = 12%nat -> length t_pk_v = 12%nat ->
  Forall (fun x => 0 < x <= 1440) dur_v ->
  Forall (fun x => 0 <= x < 1440) t_pk_v ->
  length month_of_year = length p ->
  Forall (fun mo => 1 <= mo <= 12)%Z month_of_year ->
  exists vals,
    (prec_TRIANGLE prec time_step dur t_pk month_of_year h).1
    = Ok (map around5 vals)
    /\ length vals = Z.to_nat (steps_per_day * Z.of_nat (length p))
    /\ qsum vals == qsum p
    /\ Qabs (qsum (map around5 vals) - qsum p)
       <= Z2Q (steps_per_day * Z.of_nat (length p)) * (1 # 200000)
    /\ (Forall (fun x => 0 <= x) p ->
        Forall (fun x => 0 <= x) (map around5 vals)).
Proof.
  intros Hts Hdiv Heven Hp Hn Hd Ht Hld Hlt Hdr Htr Hlm Hmr.
  pose proof Heven as Heven'. apply Z.even_spec in Heven' as [c Hc].
  assert (Hc1 : (1 <= c)%Z) by nia.
  set (n := Z.of_nat (length p)).
  set (L := (steps_per_day * n)%Z).
  assert (HL : (2 * steps_per_day <= L)%Z) by (unfold L, n; nia).
  set (P_return := length h).
  set (kernels := S (length h)).
  set (h2 := (h ++ [Series (seqZ 0 L) (replicate (Z.to_nat L) 0)])
             ++ [Ndarray2 (replicate 12 (replicate (Z.to_nat (2 * steps_per_day)) 0))]).
  assert (Hprec : (prec < length h)%nat) by (eapply lookup_lt_Some; eauto).
  assert (Hdur : (dur < length h)%nat) by (eapply lookup_lt_Some; eauto).
  assert (Htpk : (t_pk < length h)%nat) by (eapply lookup_lt_Some; eauto).
  assert (Hlen2 : length h2 = S (S (length h)))
    by (unfold h2; rewrite !length_app; simpl; lia).
  assert (Hold : forall l o, h !! l = Some o -> h2 !! l = Some o).
  { intros l o Hl. unfold h2. by apply lookup_app_l_Some, lookup_app_l_Some. }
  assert (HP2 : h2 !! P_return = Some (Series (seqZ 0 L) (replicate (Z.to_nat L) 0))).
  { unfold h2, P_return. apply lookup_app_l_Some.
    by rewrite lookup_app_r, Nat.sub_diag. }
  assert (Hk2 : h2 !! kernels
                = Some (Ndarray2 (replicate 12
                          (replicate (Z.to_nat (2 * steps_per_day)) 0)))).
  { unfold h2, kernels. rewrite lookup_app_r by (rewrite length_app; simpl; lia).
    rewrite length_app. simpl.
    by replace (S (length h) - (length h + 1))%nat with 0%nat by lia. }
  set (rows := kernel_rows (Z2Q time_step) c (2 * steps_per_day) dur_v t_pk_v 12 12).
  set (h3 := kp kernels P_return h2 rows (seqZ 0 L, replicate (Z.to_nat L) 0)).
  (* the month loop *)
  assert (Hbuild : build_kernels (Z2Q time_step) c (2 * steps_per_day) kernels
                     P_return dur t_pk h2 = (Ok tt, h3)).
  { unfold build_kernels, h3, rows.
    rewrite <- (build_kernels_series_prefix (Z2Q time_step) c (2 * steps_per_day)
                  kernels P_return dur t_pk h2 dur_v t_pk_v L
                  ltac:(unfold kernels; lia) ltac:(unfold P_return; lia)
                  ltac:(unfold kernels, P_return; lia) ltac:(lia) HL
                  (Hold _ _ Hd) (Hold _ _ Ht)
                  ltac:(unfold kernels, P_return; lia)
                  ltac:(unfold kernels, P_return; lia) 12 12
                  ltac:(lia) ltac:(lia) ltac:(lia)).
    f_equal. unfold kp. cbn [fst snd].
    rewrite (list_insert_id _ _ _ HP2), (list_insert_id _ _ _ Hk2). reflexivity. }
  assert (Hk3 : h3 !! kernels = Some (Ndarray2 rows)).
  { unfold h3. apply kp_kernels; unfold kernels, P_return; lia. }
  assert (Hp3 : h3 !! prec = Some (Ndarray p)).
  { unfold h3. rewrite kp_other by (unfold kernels, P_return; lia). by apply Hold. }
  assert (HP3 : h3 !! P_return = Some (Series (seqZ 0 L) (replicate (Z.to_nat L) 0))).
  { unfold h3. apply (kp_P_return kernels P_return h2); unfold kernels, P_return; lia. }
  assert (Hlen3 : (P_return < length h3)%nat) by (eapply lookup_lt_Some; eauto).
  (* the day loop *)
  destruct (apply_days_run kernels P_return prec month_of_year time_step
              steps_per_day c h3 dur_v t_pk_v p (seqZ 0 L) Hts Hdiv Hc Hn Hk3 Hp3
              Hlen3 ltac:(unfold kernels, P_return; lia) Hlm Hmr Hld Hlt Hdr Htr
              (length p) (replicate (Z.to_nat L) 0) ltac:(lia)
              ltac:(by rewrite length_replicate))
    as (vals & Eloop & Lvals & Svals & Nvals).
  rewrite (list_insert_id _ _ _ HP3) in Eloop.
  exists vals. split; [|split; [|split; [|split]]].
  - unfold prec_TRIANGLE.
    rewrite (bind_ok _ _ _ _ _ (load_ndarray_ok _ _ _ Hp)).
    unfold lift at 1. rewrite (steps_per_day_of_ok _ _ Hts Hdiv).
    erewrite bind_ok by reflexivity. cbv zeta.
    rewrite ceil_half, py_int_Z2Q, py_int_two_days.
    replace ((steps_per_day + 1) / 2)%Z with c by (Z.div_mod_to_equations; lia).
    replace (c * 2 + steps_per_day)%Z with (2 * steps_per_day)%Z by lia.
    fold n L. rewrite bind_alloc, bind_alloc.
    rewrite length_app. simpl length.
    replace (length h + 1)%nat with kernels by (unfold kernels; lia).
    fold P_return h2.
    rewrite (bind_ok _ _ _ _ _ Hbuild).
    rewrite (bind_ok _ _ _ _ _ Eloop).
    assert (HPv : <[P_return := Series (seqZ 0 L) vals]> h3 !! P_return
                  = Some (Series (seqZ 0 L) vals))
      by (by apply list_lookup_insert_eq).
    rewrite (bind_ok _ _ _ _ _ (load_series_ok _ _ _ _ HPv)). reflexivity.
  - rewrite Lvals. by rewrite length_replicate.
  - rewrite Svals, firstn_all.
    assert (E0 : forall k, qsum (replicate k 0) == 0)
      by (induction k as [|k IH]; simpl; [reflexivity | rewrite IH; ring]).
    rewrite E0. ring.
  - assert (Es : qsum vals == qsum p).
    { rewrite Svals, firstn_all.
      assert (E0 : forall k, qsum (replicate k 0) == 0)
        by (induction k as [|k IH]; simpl; [reflexivity | rewrite IH; ring]).
      rewrite E0. ring. }
    rewrite <- Es.
    fold n L. replace L with (Z.of_nat (length vals)).
    + apply qsum_around5.
    + rewrite Lvals, length_replicate. lia.
  - intros Hnn. apply Forall_fmap.
    eapply Forall_impl; [apply Nvals; [|done]|].
    + apply Forall_replicate. lra.
    + intros x Hx. by apply around5_nonneg.
Qed.

(** With an even number of steps a day, on a record of at least two days,
    with storms of at most a day that peak inside the day, [prec_TRIANGLE]
    returns one value for each step of the record; before the rounding the
    values sum to the total precipitation of the record, after it they
    differ from that total by at most 0.000005 a step; and no value is
    negative when no daily total is. *)
Theorem triangle_total (prec : loc) (time_step : Z) (dur t_pk : loc)
    (month_of_year : list Z) (h : heap) (p dur_v t_pk_v : list Q)
    (steps_per_day : Z) :
  (0 < time_step)%Z -> (1440 = steps_per_day * time_step)%Z ->
  Z.even steps_per_day = true ->
  h !! prec = Some (Ndarray p) -> (2 <= length p)%nat ->
  h !! dur = Some (Ndarray dur_v) -> h !! t_pk = Some (Ndarray t_pk_v) ->
  length dur_v = 12%nat -> length t_pk_v = 12%nat ->
  Forall (fun x => 0 < x <= 1440) dur_v ->
  Forall (fun x => 0 <= x < 1440) t_pk_v ->
  length month_of_year = length p ->
  Forall (fun mo => 1 <= mo <= 12)%Z month_of_year ->
  exists vals,
    (prec_TRIANGLE prec time_step dur t_pk month_of_year h).1
    = Ok (map around5 vals)
    /\ length vals = Z.to_nat (steps_per_day * Z.of_nat (length p))
    /\ qsum vals == qsum p
    /\ Qabs (qsum (map around5 vals) - qsum p)
       <= Z2Q (steps_per_day * Z.of_nat (length p)) * (1 # 200000)
    /\ (Forall (fun x => 0 <= x) p ->
        Forall (fun x => 0 <= x) (map around5 vals)).
Proof. apply triangle_run. Qed.

(** Two days at a twelve-hour step with four-hour storms around noon. *)
Lemma triangle_total_witness :
  exists vals,
    (prec_TRIANGLE 0%nat 720 1%nat 2%nat [1; 2]%Z
       [Ndarray [5; 3]; Ndarray (replicate 12 240); Ndarray (replicate 12 720)]).1
    = Ok (map around5 vals)
    /\ length vals = Z.to_nat (2 * Z.of_nat (length [5; 3]))
    /\ qsum vals == qsum [5; 3]
    /\ Qabs (qsum (map around5 vals) - qsum [5; 3])
       <= Z2Q (2 * Z.of_nat (length [5; 3])) * (1 # 200000)
    /\ (Forall (fun x => 0 <= x) [5; 3] ->
        Forall (fun x => 0 <= x) (map around5 vals)).
Proof.
  apply (triangle_total 0%nat 720 1%nat 2%nat [1; 2]%Z
           [Ndarray [5; 3]; Ndarray (replicate 12 240); Ndarray (replicate 12 720)]
           [5; 3] (replicate 12 240) (replicate 12 720) 2);
    try reflexivity; try (simpl; lia).
  - apply Forall_replicate. split; [reflexivity | discriminate].
  - apply Forall_replicate. split; [discriminate | reflexivity].
  - repeat constructor; lia.
Defined.

(** ** Values held over a day: [prec_UNIFORM], [wind] and the cloud cover *)

Lemma length_stamps (first step m : Z) : length (stamps first step m) = Z.to_nat m.
Proof. unfold stamps. by rewrite length_map, length_seqZ. Qed.

Lemma lookup_stamps (first step m : Z) (i : nat) :
  (Z.of_nat i < m)%Z ->
  stamps first step m !! i = Some (first + Z.of_nat i * step)%Z.
Proof.
  intros Hi. unfold stamps. by rewrite list_lookup_fmap, lookup_seqZ_lt.
Qed.

Lemma elem_of_stamps (first step m t : Z) :
  t ∈ stamps first step m <-> exists k, (0 <= k < m)%Z /\ t = (first + k * step)%Z.
Proof.
  unfold stamps. rewrite list_elem_of_fmap. split.
  - intros (k & -> & Hk). apply elem_of_seqZ in Hk. exists k. split; [lia|done].
  - intros (k & Hk & ->). exists k. split; [done|]. apply elem_of_seqZ. lia.
Qed.

Lemma series_at_absent {A} (idx : list Z) (vals : list A) (t : Z) :
  t ∉ idx -> series_at idx vals t = None.
Proof.
  revert vals. induction idx as [|i idx IH]; intros [|v vals] Ht; simpl; try done.
  destruct (Z.eqb_spec i t) as [->|_].
  - exfalso. apply Ht. by left.
  - apply IH. intros Hin. apply Ht. by right.
Qed.

Lemma series_at_first {A} (idx : list Z) (vals : list A) (i : nat) (t : Z) :
  idx !! i = Some t -> (forall j s, (j < i)%nat -> idx !! j = Some s -> s <> t) ->
  series_at idx vals t = vals !! i.
Proof.
  revert vals i. induction idx as [|u idx IH]; intros vals i Hi Hfirst; [done|].
  destruct vals as [|v vals]; simpl.
  - by destruct i.
  - destruct i as [|i]; simpl in *.
    + injection Hi as ->. by rewrite Z.eqb_refl.
    + destruct (Z.eqb_spec u t) as [->|_].
      * exfalso. by apply (Hfirst 0%nat t ltac:(lia)).
      * apply IH; [done|]. intros j s Hj Hs. apply (Hfirst (S j) s); [lia|done].
Qed.

Lemma series_at_stamps {A} (first step m : Z) (vals : list A) (i : nat) :
  (0 < step)%Z -> (Z.of_nat i < m)%Z ->
  series_at (stamps first step m) vals (first + Z.of_nat i * step) = vals !! i.
Proof.
  intros Hstep Hi. apply series_at_first; [by apply lookup_stamps|].
  intros j s Hj Hs. rewrite lookup_stamps in Hs by lia. injection Hs as <-. nia.
Qed.

(** Forward filling holds a value over the undefined cells after it. *)
Lemma ffill_from_hold (prev : cell) (col : list cell) (i j : nat) (v : Q) :
  col !! i = Some (Some v) -> (i <= j < length col)%nat ->
  (forall k, (i < k <= j)%nat -> col !! k = Some None) ->
  ffill_from prev col !! j = Some (Some v).
Proof.
  revert prev i j. induction col as [|c col IH]; intros prev i j Hi Hj Hgap; [done|].
  destruct i as [|i]; simpl in Hi.
  - injection Hi as ->. simpl. destruct j as [|j]; [done|]. simpl.
    clear IH. revert j Hj Hgap. induction col as [|c col IH]; intros j Hj Hgap;
      [simpl in Hj; lia|].
    pose proof (Hgap 1%nat ltac:(lia)) as Hc. simpl in Hc. injection Hc as ->.
    simpl. destruct j as [|j]; [done|]. simpl. apply IH; [simpl in *; lia|].
    intros k Hk. destruct k as [|k]; [lia|]. simpl.
    apply (Hgap (S (S k))). lia.
  - destruct j as [|j]; [lia|].
    assert (Hrec : forall prev', ffill_from prev' col !! j = Some (Some v)).
    { intros prev'. apply (IH prev' i j Hi); [simpl in Hj; lia|].
      intros k Hk. apply (Hgap (S k)). lia. }
    simpl. destruct c; simpl; apply Hrec.
Qed.

Lemma ffill_defined (col : list cell) (j : nat) (v : Q) :
  col !! j = Some (Some v) -> ffill col !! j = Some (Some v).
Proof.
  intros Hj. apply (ffill_from_hold None col j j v Hj).
  - split; [done|]. by eapply lookup_lt_Some.
  - intros k Hk. lia.
Qed.

Section Held.
Variables (first ts steps n : Z) (vals : list Q).
Hypothesis step_pos : (0 < ts)%Z.
Hypothesis steps_a_day : (1440 = steps * ts)%Z.
Hypothesis days : n = Z.of_nat (length vals).

Lemma steps_pos : (0 < steps)%Z.
Proof using step_pos steps_a_day. clear - step_pos steps_a_day. nia. Qed.

(** The column that aligning a daily series on a finer grid and forward
    filling it gives: the value of a day at every step of the day. *)
Lemma reindex_daily_held (m : Z) (d r : nat) (v : Q) :
  vals !! d = Some v -> (Z.of_nat r < steps)%Z ->
  (Z.of_nat d * steps + Z.of_nat r < m)%Z ->
  ffill (reindex (stamps first 1440 n) (map Some vals) (stamps first ts m))
    !! (d * Z.to_nat steps + r)%nat
  = Some (Some v).
Proof using All.
  intros Hv Hr Hm. pose proof steps_pos as Hs.
  pose proof (lookup_lt_Some _ _ _ Hv) as Hd.
  assert (Hcol : forall k : nat,
             (Z.of_nat k < m)%Z ->
             reindex (stamps first 1440 n) (map Some vals) (stamps first ts m) !! k
             = Some (mjoin (series_at (stamps first 1440 n) (map Some vals)
                              (first + Z.of_nat k * ts)))).
  { intros k Hk. unfold reindex. by rewrite list_lookup_fmap, lookup_stamps. }
  unfold ffill.
  apply (ffill_from_hold None _ (d * Z.to_nat steps)%nat).
  - rewrite Hcol by lia.
    replace (first + Z.of_nat (d * Z.to_nat steps) * ts)%Z
      with (first + Z.of_nat d * 1440)%Z by nia.
    rewrite series_at_stamps by lia. by rewrite list_lookup_fmap, Hv.
  - unfold reindex. rewrite length_map, length_stamps. lia.
  - intros k Hk. rewrite Hcol by nia. f_equal.
    rewrite series_at_absent; [done|].
    intros (q & Hq & E)%elem_of_stamps. nia.
Qed.
End Held.

Lemma stamps_S (first step : Z) (k : nat) :
  stamps first step (Z.of_nat (S k))
  = stamps first step (Z.of_nat k) ++ [(first + Z.of_nat k * step)%Z].
Proof. unfold stamps. by rewrite seqZ_S, map_app. Qed.

Lemma date_range_stamps (first ts steps n : Z) :
  (0 < ts)%Z -> (1440 = steps * ts)%Z -> (1 <= n)%Z ->
  date_range first (first + (n - 1) * 1440) ts
  = Ok (stamps first ts ((n - 1) * steps + 1)).
Proof.
  intros Hts Hdiv Hn. unfold date_range, stamps.
  destruct (Z.leb_spec ts 0); [lia|]. do 3 f_equal.
  replace (first + (n - 1) * 1440 - first)%Z with ((n - 1) * steps * ts)%Z
    by (rewrite Hdiv; ring).
  rewrite Z.div_mul by lia. reflexivity.
Qed.

Section Resample.
Variables (first ts steps : Z) (vals : list Q).
Hypothesis step_pos : (0 < ts)%Z.
Hypothesis steps_a_day : (1440 = steps * ts)%Z.
Hypothesis one_day : (1 <= length vals)%nat.

Local Abbreviation n := (Z.of_nat (length vals)).
Local Abbreviation daily := (stamps first 1440 n).
Local Abbreviation grid := (stamps first ts ((n - 1) * steps + 1)).
Local Abbreviation held := (ffill (reindex daily (map Some vals) grid)).

(** Resampling a daily series: a grid from the first day to the start of
    the last one. *)
Lemma resample_daily : resample_ffill daily vals ts = Ok (grid, held).
Proof using All.
  unfold resample_ffill.
  destruct (length vals) as [|k] eqn:Ek; [lia|].
  assert (Elast : List.last (stamps first 1440 (Z.of_nat (S k))) first
                  = (first + (Z.of_nat (S k) - 1) * 1440)%Z).
  { rewrite stamps_S, last_last. f_equal. lia. }
  destruct (stamps first 1440 (Z.of_nat (S k))) as [|u idx] eqn:Es.
  - apply (f_equal length) in Es. rewrite length_stamps in Es. simpl in Es. lia.
  - assert (u = first) as ->.
    { assert (Hu : stamps first 1440 (Z.of_nat (S k)) !! 0%nat = Some u)
        by (by rewrite Es).
      rewrite lookup_stamps in Hu by lia. injection Hu as <-. lia. }
    rewrite Elast, (date_range_stamps first ts steps) by lia. reflexivity.
Qed.

Lemma held_lookup (d r : nat) (v : Q) :
  vals !! d = Some v -> (Z.of_nat r < steps)%Z ->
  (Z.of_nat d * steps + Z.of_nat r <= (n - 1) * steps)%Z ->
  held !! (d * Z.to_nat steps + r)%nat = Some (Some v).
Proof using All.
  intros Hv Hr Hin.
  apply (reindex_daily_held first ts steps n vals step_pos steps_a_day eq_refl);
    [done | done | lia].
Qed.

(** The resampled series aligned on the grid of the whole record and
    forward filled: the value of a day at every step of the day, the last
    day included. *)
Lemma aligned_held (d r : nat) (v : Q) :
  vals !! d = Some v -> (Z.of_nat r < steps)%Z ->
  ffill (reindex grid held (stamps first ts (n * steps)))
    !! (d * Z.to_nat steps + r)%nat
  = Some (Some v).
Proof using All.
  intros Hv Hr. pose proof (steps_pos ts steps step_pos steps_a_day) as Hs.
  pose proof (lookup_lt_Some _ _ _ Hv) as Hd.
  assert (Hcol : forall k : nat,
             (Z.of_nat k < n * steps)%Z ->
             reindex grid held (stamps first ts (n * steps)) !! k
             = Some (if (Z.of_nat k <? (n - 1) * steps + 1)%Z then mjoin (held !! k) else None)).
  { intros k Hk. unfold reindex at 1.
    rewrite list_lookup_fmap, lookup_stamps by done. simpl. f_equal.
    destruct (Z.ltb_spec (Z.of_nat k) ((n - 1) * steps + 1)) as [Hlt|Hge].
    - by rewrite series_at_stamps by (done || lia).
    - rewrite series_at_absent; [done|].
      intros (q & Hq & E)%elem_of_stamps. nia. }
  assert (Hlen : length (reindex grid held (stamps first ts (n * steps)))
                 = Z.to_nat (n * steps))
    by (unfold reindex at 1; by rewrite length_map, length_stamps).
  destruct (Z.le_gt_cases (Z.of_nat d * steps + Z.of_nat r) ((n - 1) * steps))
    as [Hin|Hout].
  - apply ffill_defined. rewrite Hcol by nia.
    destruct (Z.ltb_spec (Z.of_nat (d * Z.to_nat steps + r)) ((n - 1) * steps + 1)); [|nia].
    by rewrite (held_lookup d r v Hv Hr Hin).
  - assert (d = (length vals - 1)%nat) as -> by nia.
    unfold ffill at 1.
    apply (ffill_from_hold None _ ((length vals - 1) * Z.to_nat steps)%nat).
    + rewrite Hcol by nia.
      destruct (Z.ltb_spec (Z.of_nat ((length vals - 1) * Z.to_nat steps))
                  ((n - 1) * steps + 1)); [|nia].
      replace ((length vals - 1) * Z.to_nat steps)%nat
        with ((length vals - 1) * Z.to_nat steps + 0)%nat by lia.
      rewrite (held_lookup (length vals - 1) 0 v Hv) by lia. done.
    + rewrite Hlen. nia.
    + intros k Hk. rewrite Hcol by nia.
      destruct (Z.ltb_spec (Z.of_nat k) ((n - 1) * steps + 1)); [nia|done].
Qed.
End Resample.

Lemma uniform_scale (ts steps : Z) :
  (0 < ts)%Z -> (1440 = steps * ts)%Z ->
  Z2Q steps * (Z2Q ts / (cnst.MIN_PER_HOUR * cnst.HOURS_PER_DAY)) == 1.
Proof.
  intros Hts Hdiv. unfold cnst.MIN_PER_HOUR, cnst.HOURS_PER_DAY.
  assert (E : Z2Q steps * Z2Q ts == 1440).
  { unfold Z2Q. rewrite <- inject_Z_mult, <- Hdiv. reflexivity. }
  unfold Qdiv. rewrite Qmult_assoc, E. reflexivity.
Qed.

(** [prec_UNIFORM] on a record of consecutive days, at a time step that
    divides the day into [steps] steps: the series it returns runs from the
    first day to the start of the last one and holds, at every step of a
    day, the day's total times [ts / 1440]; aligned on the grid of the
    whole record and forward filled, as [disaggregate] does, it holds that
    value at every step of every day, so that the steps of a day sum to the
    day's total. *)
Theorem uniform_even_spread (prec : loc) (h : heap) (p : list Q)
    (first ts steps : Z) :
  h !! prec = Some (Ndarray p) -> (1 <= length p)%nat ->
  (0 < ts)%Z -> (1440 = steps * ts)%Z ->
  let n := Z.of_nat (length p) in
  let scale := Z2Q ts / (cnst.MIN_PER_HOUR * cnst.HOURS_PER_DAY) in
  let grid := stamps first ts ((n - 1) * steps + 1) in
  exists vals,
    prec_UNIFORM prec (stamps first 1440 n) ts h = (Ok (ColSeries grid vals), h)
    /\ (forall (d r : nat) (p_d : Q),
          p !! d = Some p_d -> (Z.of_nat r < steps)%Z ->
          (Z.of_nat d * steps + Z.of_nat r <= (n - 1) * steps)%Z ->
          vals !! (d * Z.to_nat steps + r)%nat = Some (Some (p_d * scale)))
    /\ (forall (d r : nat) (p_d : Q),
          p !! d = Some p_d -> (Z.of_nat r < steps)%Z ->
          ffill (reindex grid vals (stamps first ts (n * steps)))
            !! (d * Z.to_nat steps + r)%nat
          = Some (Some (p_d * scale)))
    /\ Z2Q steps * scale == 1.
Proof.
  intros Hp Hn Hts Hdiv n scale grid.
  set (scaled := map (fun x => x * scale) p).
  assert (Hls : length scaled = length p) by (unfold scaled; by rewrite length_map).
  pose proof (resample_daily first ts steps scaled Hts Hdiv ltac:(lia)) as Er.
  rewrite Hls in Er. fold n grid in Er.
  eexists. split; [|split; [|split]].
  - unfold prec_UNIFORM. rewrite (bind_ok _ _ _ _ _ (load_ndarray_ok _ _ _ Hp)).
    cbv zeta. fold scale scaled. unfold lift at 1. rewrite Er.
    erewrite bind_ok by reflexivity. reflexivity.
  - intros d r p_d Hd Hr Hin.
    pose proof (held_lookup first ts steps scaled Hts Hdiv ltac:(lia) d r
                  (p_d * scale)) as Hh.
    rewrite Hls in Hh. apply Hh; [|done|done].
    unfold scaled. by rewrite list_lookup_fmap, Hd.
  - intros d r p_d Hd Hr.
    pose proof (aligned_held first ts steps scaled Hts Hdiv ltac:(lia) d r
                  (p_d * scale)) as Hh.
    rewrite Hls in Hh. apply Hh; [|done].
    unfold scaled. by rewrite list_lookup_fmap, Hd.
  - by apply uniform_scale.
Qed.

(** Three days with totals 0, 10 and 0 at an hourly step. *)
Lemma uniform_even_spread_witness :
  exists vals,
    prec_UNIFORM 0%nat (stamps 0 1440 (Z.of_nat (length [0; 10; 0]))) 60
      [Ndarray [0; 10; 0]]
    = (Ok (ColSeries (stamps 0 60 ((Z.of_nat (length [0; 10; 0]) - 1) * 24 + 1))
             vals), [Ndarray [0; 10; 0]])
    /\ (forall (d r : nat) (p_d : Q),
          [0; 10; 0] !! d = Some p_d -> (Z.of_nat r < 24)%Z ->
          (Z.of_nat d * 24 + Z.of_nat r
           <= (Z.of_nat (length [0; 10; 0]) - 1) * 24)%Z ->
          vals !! (d * Z.to_nat 24 + r)%nat
          = Some (Some (p_d * (Z2Q 60 / (cnst.MIN_PER_HOUR * cnst.HOURS_PER_DAY)))))
    /\ (forall (d r : nat) (p_d : Q),
          [0; 10; 0] !! d = Some p_d -> (Z.of_nat r < 24)%Z ->
          ffill (reindex
                   (stamps 0 60 ((Z.of_nat (length [0; 10; 0]) - 1) * 24 + 1))
                   vals (stamps 0 60 (Z.of_nat (length [0; 10; 0]) * 24)))
            !! (d * Z.to_nat 24 + r)%nat
          = Some (Some (p_d * (Z2Q 60 / (cnst.MIN_PER_HOUR * cnst.HOURS_PER_DAY)))))
    /\ Z2Q 24 * (Z2Q 60 / (cnst.MIN_PER_HOUR * cnst.HOURS_PER_DAY)) == 1.
Proof.
  apply (uniform_even_spread 0%nat [Ndarray [0; 10; 0]] [0; 10; 0] 0 60 24);
    [reflexivity | simpl; lia | lia | lia].
Defined.

(** [wind] on a record of consecutive days: the series it returns, aligned
    on the grid of the whole record and forward filled, holds the wind of a
    day at every step of the day. *)
Theorem wind_held (wind_col : loc) (h : heap) (w : list Q)
    (first ts steps : Z) :
  h !! wind_col = Some (Ndarray w) -> (1 <= length w)%nat ->
  (0 < ts)%Z -> (1440 = steps * ts)%Z ->
  let n := Z.of_nat (length w) in
  let grid := stamps first ts ((n - 1) * steps + 1) in
  exists vals,
    wind wind_col (stamps first 1440 n) ts h = (Ok (ColSeries grid vals), h)
    /\ (forall (d r : nat) (w_d : Q),
          w !! d = Some w_d -> (Z.of_nat r < steps)%Z ->
          (Z.of_nat d * steps + Z.of_nat r <= (n - 1) * steps)%Z ->
          vals !! (d * Z.to_nat steps + r)%nat = Some (Some w_d))
    /\ (forall (d r : nat) (w_d : Q),
          w !! d = Some w_d -> (Z.of_nat r < steps)%Z ->
          ffill (reindex grid vals (stamps first ts (n * steps)))
            !! (d * Z.to_nat steps + r)%nat
          = Some (Some w_d)).
Proof.
  intros Hw Hn Hts Hdiv n grid.
  pose proof (resample_daily first ts steps w Hts Hdiv Hn) as Er.
  fold n grid in Er.
  eexists. split; [|split].
  - unfold wind. rewrite (bind_ok _ _ _ _ _ (load_ndarray_ok _ _ _ Hw)).
    unfold lift at 1. rewrite Er.
    erewrite bind_ok by reflexivity. reflexivity.
  - intros d r w_d Hd Hr Hin.
    by apply (held_lookup first ts steps w Hts Hdiv Hn d r w_d).
  - intros d r w_d Hd Hr.
    by apply (aligned_held first ts steps w Hts Hdiv Hn d r w_d).
Qed.

(** Two days of wind at a six-hour step. *)
Lemma wind_held_witness :
  exists vals,
    wind 0%nat (stamps 0 1440 (Z.of_nat (length [3; 4]))) 360 [Ndarray [3; 4]]
    = (Ok (ColSeries (stamps 0 360 ((Z.of_nat (length [3; 4]) - 1) * 4 + 1)) vals),
       [Ndarray [3; 4]])
    /\ (forall (d r : nat) (w_d : Q),
          [3; 4] !! d = Some w_d -> (Z.of_nat r < 4)%Z ->
          (Z.of_nat d * 4 + Z.of_nat r <= (Z.of_nat (length [3; 4]) - 1) * 4)%Z ->
          vals !! (d * Z.to_nat 4 + r)%nat = Some (Some w_d))
    /\ (forall (d r : nat) (w_d : Q),
          [3; 4] !! d = Some w_d -> (Z.of_nat r < 4)%Z ->
          ffill (reindex (stamps 0 360 ((Z.of_nat (length [3; 4]) - 1) * 4 + 1))
                   vals (stamps 0 360 (Z.of_nat (length [3; 4]) * 4)))
            !! (d * Z.to_nat 4 + r)%nat
          = Some (Some w_d)).
Proof.
  apply (wind_held 0%nat [Ndarray [3; 4]] [3; 4] 0 360 4);
    [reflexivity | simpl; lia | lia | lia].
Defined.

(** ** Longwave radiation *)

Section LongwaveSteps.
Context `{Transcendental}.

(** With names that the two tables hold and columns of the length of the
    grid, [longwave] returns; the cloud cover it returns is the daily value
    held over the steps of the day; the radiation is defined at the steps
    where the temperature, the vapor pressure and the cloud cover are, and
    is there the cloud-adjusted emissivity of the clear-sky emissivity,
    times the Stefan-Boltzmann constant, times the fourth power of the
    temperature in Kelvin. *)
Theorem longwave_steps (air_temp vp : list cell) (tskc : list Q)
    (pr : params) (first ts steps m : Z) (clear cloud : Q -> Q -> Q) :
  emissivity_calc (upper (lw_type pr)) = Some clear ->
  cloud_calc (upper (lw_cloud pr)) = Some cloud ->
  (0 < ts)%Z -> (1440 = steps * ts)%Z ->
  length air_temp = Z.to_nat m -> length vp = Z.to_nat m ->
  exists lwrad cover,
    longwave (stamps first ts m) air_temp vp
      (stamps first 1440 (Z.of_nat (length tskc))) tskc pr
    = Ok (lwrad, cover)
    /\ length lwrad = Z.to_nat m /\ length cover = Z.to_nat m
    /\ (forall (d r : nat) (c : Q),
          tskc !! d = Some c -> (Z.of_nat r < steps)%Z ->
          (Z.of_nat d * steps + Z.of_nat r < m)%Z ->
          cover !! (d * Z.to_nat steps + r)%nat = Some (Some c))
    /\ (forall (k : nat) (t v c : Q),
          air_temp !! k = Some (Some t) -> vp !! k = Some (Some v) ->
          cover !! k = Some (Some c) ->
          lwrad !! k
          = Some (Some (cloud c (clear (t + cnst.KELVIN) (v * 10))
                        * cnst.STEFAN_B * (t + cnst.KELVIN) ^ 4)))
    /\ (forall k : nat,
          air_temp !! k = Some None \/ vp !! k = Some None
          \/ cover !! k = Some None ->
          lwrad !! k = Some None).
Proof.
  intros Hclear Hcloud Hts Hdiv Lt Lv.
  unfold longwave, lookup_method. cbv zeta. rewrite Hclear, Hcloud. cbn [rbind].
  set (cover := ffill (reindex _ (map Some tskc) (stamps first ts m))).
  set (tk := map (fmap (fun t => t + cnst.KELVIN)) air_temp).
  set (v10 := map (fmap (fun v => v * 10)) vp).
  assert (Lc : length cover = Z.to_nat m).
  { unfold cover, ffill, reindex. by rewrite length_ffill_from, length_map, length_stamps. }
  assert (Ltk : length tk = Z.to_nat m) by (unfold tk; by rewrite length_map).
  assert (Lv10 : length v10 = Z.to_nat m) by (unfold v10; by rewrite length_map).
  rewrite (np_binop_same_length (cell2 clear) tk v10) by congruence. cbn [rbind].
  set (e_clear := zip_with (cell2 clear) tk v10).
  assert (Le : length e_clear = Z.to_nat m)
    by (unfold e_clear; rewrite length_zip_with; lia).
  rewrite (np_binop_same_length (cell2 cloud) cover e_clear) by congruence.
  cbn [rbind].
  set (e := zip_with (cell2 cloud) cover e_clear).
  assert (Lee : length e = Z.to_nat m) by (unfold e; rewrite length_zip_with; lia).
  rewrite np_binop_same_length by congruence. cbn [rbind].
  set (lw := zip_with _ e tk).
  exists lw, cover. split; [reflexivity|].
  split; [unfold lw; rewrite length_zip_with; lia|]. split; [exact Lc|].
  assert (Hlw : forall k a b cc,
             air_temp !! k = Some a -> vp !! k = Some b -> cover !! k = Some cc ->
             lw !! k
             = Some (cell2 (fun e t => e * cnst.STEFAN_B * t ^ 4)
                       (cell2 cloud cc
                          (cell2 clear ((fun t => t + cnst.KELVIN) <$> a)
                             ((fun v => v * 10) <$> b)))
                       ((fun t => t + cnst.KELVIN) <$> a))).
  { intros k a b cc Ha Hb Hc.
    assert (Htk : tk !! k = Some ((fun t => t + cnst.KELVIN) <$> a))
      by (unfold tk; by rewrite list_lookup_fmap, Ha).
    assert (Hv10 : v10 !! k = Some ((fun v => v * 10) <$> b))
      by (unfold v10; by rewrite list_lookup_fmap, Hb).
    unfold lw. apply lookup_zip_with_Some. eexists _, _.
    split; [reflexivity|]. split; [|exact Htk].
    unfold e. apply lookup_zip_with_Some. eexists _, _.
    split; [reflexivity|]. split; [exact Hc|].
    unfold e_clear. apply lookup_zip_with_Some. eauto. }
  split; [|split].
  - intros d r c Hd Hr Hin.
    by apply (reindex_daily_held first ts steps (Z.of_nat (length tskc)) tskc
                Hts Hdiv eq_refl m d r c).
  - intros k t v c Ht Hv Hc. by rewrite (Hlw k _ _ _ Ht Hv Hc).
  - intros k Hnone.
    assert (Hk : (k < Z.to_nat m)%nat).
    { destruct Hnone as [E | [E | E]]; apply lookup_lt_Some in E; lia. }
    destruct (lookup_lt_is_Some_2 air_temp k ltac:(lia)) as [a Ha].
    destruct (lookup_lt_is_Some_2 vp k ltac:(lia)) as [b Hb].
    destruct (lookup_lt_is_Some_2 cover k ltac:(lia)) as [cc Hc].
    rewrite (Hlw k _ _ _ Ha Hb Hc). f_equal.
    destruct Hnone as [E | [E | E]].
    + assert (a = None) as -> by congruence. by destruct cc, b.
    + assert (b = None) as -> by congruence. by destruct cc, a.
    + assert (cc = None) as -> by congruence. by destruct a, b.
Qed.
End LongwaveSteps.

(** One day at a twelve-hour step with the TVA emissivity and the cloud
    correction of Deardorff. *)
Lemma longwave_steps_witness :
  exists lwrad cover,
    longwave (H := example_physics) (stamps 0 720 2) [Some 5; None]
      [Some (1 # 2); Some (1 # 3)]
      (stamps 0 1440 (Z.of_nat (length [1 # 4]))) [1 # 4]
      (example_params "uniform" "tva" "cloud_deardorff")
    = Ok (lwrad, cover)
    /\ length lwrad = Z.to_nat 2 /\ length cover = Z.to_nat 2
    /\ (forall (d r : nat) (c : Q),
          [1 # 4] !! d = Some c -> (Z.of_nat r < 2)%Z ->
          (Z.of_nat d * 2 + Z.of_nat r < 2)%Z ->
          cover !! (d * Z.to_nat 2 + r)%nat = Some (Some c))
    /\ (forall (k : nat) (t v c : Q),
          [Some 5; None] !! k = Some (Some t) ->
          [Some (1 # 2); Some (1 # 3)] !! k = Some (Some v) ->
          cover !! k = Some (Some c) ->
          lwrad !! k
          = Some (Some ((fun tskc emis => tskc + (1 - tskc) * emis) c
                          ((fun air_temp vp => (74 # 100) + (49 # 10000) * vp)
                             (t + cnst.KELVIN) (v * 10))
                        * cnst.STEFAN_B * (t + cnst.KELVIN) ^ 4)))
    /\ (forall k : nat,
          [Some 5; None] !! k = Some None
          \/ [Some (1 # 2); Some (1 # 3)] !! k = Some None
          \/ cover !! k = Some None ->
          lwrad !! k = Some None).
Proof.
  apply (longwave_steps (H := example_physics) [Some 5; None]
           [Some (1 # 2); Some (1 # 3)] [1 # 4]
           (example_params "uniform" "tva" "cloud_deardorff") 0 720 2 2);
    try reflexivity; lia.
Defined.

(** ** Sunrises and sunsets in turn *)

Lemma turns_lower (b : bool) (lo lo' : Z) (rs ss : list Z) (e : bool) :
  turns b lo rs ss e -> (lo' <= lo)%Z -> turns b lo' rs ss e.
Proof.
  intros Ht Hle. destruct Ht; constructor; (lia || done).
Qed.

Lemma turns_bound (b : bool) (lo : Z) (rs ss : list Z) (e : bool) :
  turns b lo rs ss e -> Forall (fun x => lo <= x)%Z rs /\ Forall (fun x => lo <= x)%Z ss.
Proof.
  induction 1 as [b lo | lo i rs ss e Hle Ht [IR IS] | lo j rs ss e Hle Ht [IR IS]].
  - by split.
  - split; [constructor; [done|]|];
      (eapply Forall_impl; [eassumption|]); intros x Hx; simpl in *; lia.
  - split; [|constructor; [done|]];
      (eapply Forall_impl; [eassumption|]); intros x Hx; simpl in *; lia.
Qed.

Lemma turns_length (b : bool) (lo : Z) (rs ss : list Z) (e : bool) :
  turns b lo rs ss e ->
  (length rs + (if b then 1 else 0) = length ss + (if e then 1 else 0))%nat.
Proof.
  induction 1 as [b lo | lo i rs ss e Hle Ht IH | lo j rs ss e Hle Ht IH]; simpl in *.
  - done.
  - lia.
  - lia.
Qed.

(** From a dark step the k-th step of [rs] comes before the k-th of [ss],
    which comes before the next of [rs]; from a lit step it is the other
    way round. *)
Lemma turns_order (b : bool) (lo : Z) (rs ss : list Z) (e : bool) :
  turns b lo rs ss e ->
  (b = false ->
   (forall k i j, rs !! k = Some i -> ss !! k = Some j -> (i < j)%Z)
   /\ (forall k i j, ss !! k = Some j -> rs !! S k = Some i -> (j < i)%Z))
  /\ (b = true ->
      (forall k i j, ss !! k = Some j -> rs !! k = Some i -> (j < i)%Z)
      /\ (forall k i j, rs !! k = Some i -> ss !! S k = Some j -> (i < j)%Z)).
Proof.
  induction 1 as [b lo | lo i rs ss e Hle Ht [_ IH] | lo j rs ss e Hle Ht [IH _]].
  - split; intros _; split; intros k i j Hi Hj; by destruct k.
  - split; [intros _ | done]. destruct (IH eq_refl) as [IH1 IH2].
    destruct (turns_bound _ _ _ _ _ Ht) as [_ HS]. split.
    + intros [|k] i' j Hi Hj; simpl in Hi.
      * assert (i' = i) as -> by congruence.
        eapply Forall_lookup_1 in HS; [|exact Hj]. simpl in HS. lia.
      * by eapply IH2.
    + intros k i' j Hj Hi. simpl in Hi. by eapply IH1.
  - split; [done | intros _]. destruct (IH eq_refl) as [IH1 IH2].
    destruct (turns_bound _ _ _ _ _ Ht) as [HR _]. split.
    + intros [|k] i j' Hj Hi; simpl in Hj.
      * assert (j' = j) as -> by congruence.
        eapply Forall_lookup_1 in HR; [|exact Hi]. simpl in HR. lia.
      * by eapply IH2.
    + intros k i j' Hi Hj. simpl in Hj. by eapply IH1.
Qed.

Lemma rad_mask_cells (rad : list cell) :
  rad_mask rad = map (fun c => if lit_cell c then 1%Z else 0%Z) rad.
Proof.
  unfold rad_mask. apply map_ext. intros [x|]; simpl; [|done].
  by destruct (Qlt_bool 0 x).
Qed.

Lemma lit_lookup (rad : list cell) (i : nat) (c : cell) :
  rad !! i = Some c -> lit rad (Z.of_nat i) = lit_cell c.
Proof. intros E. unfold lit. rewrite Nat2Z.id, E. by destruct c. Qed.

(** The sunrise and the sunset steps of a record come in turn. *)
Lemma np_where_turns (c : cell) (rad : list cell) (s : Z) :
  turns (lit_cell c) s
    (np_where_from s (fun x => 0 <? x)%Z (np_diff (rad_mask (c :: rad))))
    (np_where_from s (fun x => x <? 0)%Z (np_diff (rad_mask (c :: rad))))
    (lit_cell (default c (last rad))).
Proof.
  revert c s. induction rad as [|d rad IH]; intros c s.
  - simpl. constructor.
  - specialize (IH d (s + 1)%Z).
    assert (Hlast : default c (last (d :: rad)) = default d (last rad)).
    { rewrite last_cons. by destruct (last rad). }
    rewrite Hlast. rewrite !rad_mask_cells in *.
    change (np_diff (map ?f (c :: d :: rad)))
      with (((f d) - (f c))%Z :: np_diff (map f (d :: rad))).
    cbn [np_where_from].
    destruct (lit_cell c), (lit_cell d); simpl.
    + eapply turns_lower; [exact IH | lia].
    + constructor; [lia | exact IH].
    + constructor; [lia | exact IH].
    + eapply turns_lower; [exact IH | lia].
Qed.

Lemma sunrises_turns (rad : list cell) :
  turns (lit rad 0) 0 (sunrises rad) (sunsets rad)
    (lit rad (Z.of_nat (length rad) - 1)).
Proof.
  destruct rad as [|c rad].
  - unfold sunrises, sunsets, np_where. simpl. constructor.
  - assert (H0 : lit (c :: rad) 0 = lit_cell c) by (by destruct c).
    assert (H1 : lit (c :: rad) (Z.of_nat (length (c :: rad)) - 1)
                 = lit_cell (default c (last rad))).
    { unfold lit. simpl length.
      replace (Z.to_nat (Z.of_nat (S (length rad)) - 1)) with (length rad) by lia.
      destruct (last rad) as [d|] eqn:El.
      - rewrite last_lookup in El. destruct rad as [|x rad]; [done|].
        simpl length in *. simpl pred in El.
        change ((c :: x :: rad) !! S (length rad)) with ((x :: rad) !! length rad).
        rewrite El. by destruct d.
      - apply last_None in El as ->. simpl. by destruct c. }
    rewrite H0, H1. apply np_where_turns.
Qed.

(** ** The order of the times of the extrema *)

Section ExtremaOrder.
Variables (disagg_rad : list cell) (n_days : Z) (ts : Q) (pr : params).

Lemma set_min_max_hour_balanced :
  length (sunrises disagg_rad) = length (sunsets disagg_rad) ->
  set_min_max_hour disagg_rad n_days ts pr
  = Ok (map (fun i => Z2Q i * ts) (sunrises disagg_rad),
        zip_with Qplus
          (map (fun x => tmax_daylength_fraction pr * x)
             (zip_with Qminus (map (fun i => Z2Q i * ts) (sunsets disagg_rad))
                (map (fun i => Z2Q i * ts) (sunrises disagg_rad))))
          (map (fun i => Z2Q i * ts) (sunrises disagg_rad))).
Proof.
  intros Hlen. unfold set_min_max_hour.
  fold (sunrises disagg_rad). fold (sunsets disagg_rad).
  rewrite np_binop_same_length by (by rewrite !length_map).
  cbn [rbind].
  rewrite np_binop_same_length
    by (rewrite !length_map, length_zip_with, !length_map; lia).
  reflexivity.
Qed.

Lemma lookup_t_t_max (k : nat) (v : Q) :
  zip_with Qplus
    (map (fun x => tmax_daylength_fraction pr * x)
       (zip_with Qminus (map (fun i => Z2Q i * ts) (sunsets disagg_rad))
          (map (fun i => Z2Q i * ts) (sunrises disagg_rad))))
    (map (fun i => Z2Q i * ts) (sunrises disagg_rad)) !! k = Some v ->
  exists i j,
    sunrises disagg_rad !! k = Some i /\ sunsets disagg_rad !! k = Some j
    /\ v = tmax_daylength_fraction pr * (Z2Q j * ts - Z2Q i * ts) + Z2Q i * ts.
Proof.
  intros Hv. apply lookup_zip_with_Some in Hv as (a & b & -> & Ha & Hb).
  rewrite list_lookup_fmap in Ha. rewrite list_lookup_fmap in Hb.
  destruct (sunrises disagg_rad !! k) as [i|] eqn:Ei; [|done].
  simpl in Hb. injection Hb as <-.
  destruct (zip_with Qminus _ _ !! k) as [c|] eqn:Ec; [|done].
  simpl in Ha. injection Ha as <-.
  apply lookup_zip_with_Some in Ec as (x & y & -> & Hx & Hy).
  rewrite list_lookup_fmap in Hx. rewrite list_lookup_fmap, Ei in Hy. simpl in Hy.
  injection Hy as <-.
  destruct (sunsets disagg_rad !! k) as [j|] eqn:Ej; [|done].
  simpl in Hx. injection Hx as <-. by exists i, j.
Qed.

Lemma lookup_t_t_min (k : nat) (u : Q) :
  map (fun i => Z2Q i * ts) (sunrises disagg_rad) !! k = Some u ->
  exists i, sunrises disagg_rad !! k = Some i /\ u = Z2Q i * ts.
Proof.
  rewrite list_lookup_fmap.
  destruct (sunrises disagg_rad !! k) as [i|]; [|done].
  intros [= <-]. by exists i.
Qed.
End ExtremaOrder.

Lemma Z2Q_lt (a b : Z) : (a < b)%Z -> Z2Q a < Z2Q b.
Proof. unfold Z2Q. by rewrite <- Zlt_Qlt. Qed.

Lemma Z2Q_nonneg (a : Z) : (0 <= a)%Z -> 0 <= Z2Q a.
Proof. unfold Z2Q. intros Ha. change 0 with (inject_Z 0). by rewrite <- Zle_Qle. Qed.

(** From a dark first step each sunrise is paired with the sunset that
    follows it. *)
Lemma dark_start_order (disagg_rad : list cell) (ts : Q) (pr : params) :
  0 < ts -> 0 <= tmax_daylength_fraction pr <= 1 ->
  lit disagg_rad 0 = false ->
  let t_t_min := map (fun i => Z2Q i * ts) (sunrises disagg_rad) in
  let t_t_max :=
    zip_with Qplus
      (map (fun x => tmax_daylength_fraction pr * x)
         (zip_with Qminus (map (fun i => Z2Q i * ts) (sunsets disagg_rad))
            (map (fun i => Z2Q i * ts) (sunrises disagg_rad))))
      (map (fun i => Z2Q i * ts) (sunrises disagg_rad)) in
  (forall (k : nat) (u v : Q),
     t_t_min !! k = Some u -> t_t_max !! k = Some v ->
     0 <= u /\ u <= v /\ (0 < tmax_daylength_fraction pr -> u < v))
  /\ (forall (k : nat) (u v : Q),
        t_t_max !! k = Some v -> t_t_min !! S k = Some u -> v < u).
Proof.
  intros Hts [Hf0 Hf1] Hfirst. cbv zeta.
  pose proof (sunrises_turns disagg_rad) as Ht. rewrite Hfirst in Ht.
  destruct (turns_order _ _ _ _ _ Ht) as [Ho _].
  destruct (Ho eq_refl) as [Hrs Hsr].
  destruct (turns_bound _ _ _ _ _ Ht) as [Hr0 _].
  split.
  - intros k u v Hu Hv.
    apply lookup_t_t_max in Hv as (i & j & Hi & Hj & ->).
    apply lookup_t_t_min in Hu as (i' & Hi' & ->).
    assert (i' = i) as -> by congruence.
    pose proof (Z2Q_lt _ _ (Hrs k i j Hi Hj)) as Hij.
    pose proof (Z2Q_nonneg i (Forall_lookup_1 _ _ _ _ Hr0 Hi)) as Hi0.
    assert (Hd : 0 < Z2Q j * ts - Z2Q i * ts) by nra.
    split; [nra|]. split; [nra|]. intros Hf. nra.
  - intros k u v Hv Hu.
    apply lookup_t_t_max in Hv as (i & j & Hi & Hj & ->).
    apply lookup_t_t_min in Hu as (i' & Hi' & ->).
    pose proof (Z2Q_lt _ _ (Hrs k i j Hi Hj)) as Hij.
    pose proof (Z2Q_lt _ _ (Hsr k i' j Hj Hi')) as Hji.
    assert (Hd : 0 < Z2Q j * ts - Z2Q i * ts) by nra.
    assert (Hd' : Z2Q j * ts < Z2Q i' * ts) by nra.
    nra.
Qed.

(** A record of radiation that begins and ends with a dark step has as
    many sunrises as sunsets, so that [set_min_max_hour] returns one time of
    minimum and one of maximum for each sunrise; with a fraction of the
    daylight between 0 and 1 the time of maximum of a day is not before its
    time of minimum (after it when the fraction is positive) and before
    the time of minimum of the next day. *)
Theorem extrema_ordered (disagg_rad : list cell) (n_days : Z) (ts : Q)
    (pr : params) :
  0 < ts -> 0 <= tmax_daylength_fraction pr <= 1 ->
  lit disagg_rad 0 = false ->
  lit disagg_rad (Z.of_nat (length disagg_rad) - 1) = false ->
  exists t_t_min t_t_max,
    set_min_max_hour disagg_rad n_days ts pr = Ok (t_t_min, t_t_max)
    /\ length t_t_min = length (sunrises disagg_rad)
    /\ length t_t_max = length (sunrises disagg_rad)
    /\ length (sunsets disagg_rad) = length (sunrises disagg_rad)
    /\ (forall (k : nat) (u v : Q),
          t_t_min !! k = Some u -> t_t_max !! k = Some v ->
          0 <= u /\ u <= v
          /\ (0 < tmax_daylength_fraction pr -> u < v))
    /\ (forall (k : nat) (u v : Q),
          t_t_max !! k = Some v -> t_t_min !! S k = Some u -> v < u).
Proof.
  intros Hts Hf Hfirst Hlast.
  pose proof (sunrises_turns disagg_rad) as Ht. rewrite Hfirst, Hlast in Ht.
  pose proof (turns_length _ _ _ _ _ Ht) as Hlen. simpl in Hlen.
  rewrite set_min_max_hour_balanced by lia.
  eexists _, _. split; [reflexivity|].
  split; [by rewrite length_map|].
  split; [rewrite length_zip_with, !length_map, length_zip_with, !length_map; lia|].
  split; [lia|]. exact (dark_start_order disagg_rad ts pr Hts Hf Hfirst).
Qed.

(** Two days at a six-hour step, each dark, lit, lit, dark. *)
Lemma extrema_ordered_witness :
  exists t_t_min t_t_max,
    set_min_max_hour
      [Some 0; Some 1; Some 1; Some 0; Some 0; Some 1; Some 1; Some 0] 2 360
      (example_params "uniform" "default" "default")
    = Ok (t_t_min, t_t_max)
    /\ length t_t_min = 2%nat /\ length t_t_max = 2%nat
    /\ (forall (k : nat) (u v : Q),
          t_t_max !! k = Some v -> t_t_min !! S k = Some u -> v < u).
Proof.
  destruct (extrema_ordered
              [Some 0; Some 1; Some 1; Some 0; Some 0; Some 1; Some 1; Some 0]
              2 360 (example_params "uniform" "default" "default")
              ltac:(reflexivity) ltac:(split; discriminate)
              ltac:(reflexivity) ltac:(reflexivity))
    as (tmin & tmax & E & L1 & L2 & _ & _ & Hnext).
  exists tmin, tmax. split; [exact E|]. split; [exact L1|]. split; [exact L2|].
  exact Hnext.
Defined.

(** A record that begins and ends with a lit step (a record stamped in
    another time zone than the site's) also has as many sunrises as
    sunsets, but each sunset is paired with the sunrise that follows it:
    every time of maximum that [set_min_max_hour] returns is then at or
    before the time of minimum of the same position. *)
Theorem extrema_daylight_start (disagg_rad : list cell) (n_days : Z) (ts : Q)
    (pr : params) :
  0 < ts -> 0 <= tmax_daylength_fraction pr ->
  lit disagg_rad 0 = true ->
  lit disagg_rad (Z.of_nat (length disagg_rad) - 1) = true ->
  exists t_t_min t_t_max,
    set_min_max_hour disagg_rad n_days ts pr = Ok (t_t_min, t_t_max)
    /\ length t_t_max = length t_t_min
    /\ forall (k : nat) (u v : Q),
         t_t_min !! k = Some u -> t_t_max !! k = Some v ->
         v <= u /\ (0 < tmax_daylength_fraction pr -> v < u).
Proof.
  intros Hts Hf0 Hfirst Hlast.
  pose proof (sunrises_turns disagg_rad) as Ht. rewrite Hfirst, Hlast in Ht.
  pose proof (turns_length _ _ _ _ _ Ht) as Hlen. simpl in Hlen.
  destruct (turns_order _ _ _ _ _ Ht) as [_ Ho].
  destruct (Ho eq_refl) as [Hsr _].
  rewrite set_min_max_hour_balanced by lia.
  eexists _, _. split; [reflexivity|].
  split; [rewrite length_zip_with, !length_map, length_zip_with, !length_map; lia|].
  intros k u v Hu Hv.
  apply lookup_t_t_max in Hv as (i & j & Hi & Hj & ->).
  apply lookup_t_t_min in Hu as (i' & Hi' & ->).
  assert (i' = i) as -> by congruence.
  pose proof (Z2Q_lt _ _ (Hsr k i j Hj Hi)) as Hji.
  assert (Hd : Z2Q j * ts - Z2Q i * ts < 0) by nra.
  split; [nra|]. intros Hf. nra.
Qed.

(** Two days at a six-hour step, each lit, dark, dark, lit. *)
Lemma extrema_daylight_start_witness :
  exists t_t_min t_t_max,
    set_min_max_hour
      [Some 1; Some 0; Some 0; Some 1; Some 1; Some 0; Some 0; Some 1] 2 360
      (example_params "uniform" "default" "default")
    = Ok (t_t_min, t_t_max)
    /\ length t_t_max = length t_t_min
    /\ forall (k : nat) (u v : Q),
         t_t_min !! k = Some u -> t_t_max !! k = Some v ->
         v <= u
         /\ (0 < tmax_daylength_fraction
                   (example_params "uniform" "default" "default") -> v < u).
Proof.
  apply (extrema_daylight_start
           [Some 1; Some 0; Some 0; Some 1; Some 1; Some 0; Some 0; Some 1]
           2 360 (example_params "uniform" "default" "default"));
    (reflexivity || discriminate).
Defined.

(** A record that begins with a lit step and ends with a dark one, or the
    other way round, has one sunrise more or less than it has sunsets; from
    two of each on, [set_min_max_hour] raises ValueError (the two arrays of
    times cannot be subtracted). *)
Theorem extrema_unbalanced (disagg_rad : list cell) (n_days : Z) (ts : Q)
    (pr : params) :
  lit disagg_rad 0 <> lit disagg_rad (Z.of_nat (length disagg_rad) - 1) ->
  (2 <= length (sunrises disagg_rad))%nat ->
  (2 <= length (sunsets disagg_rad))%nat ->
  set_min_max_hour disagg_rad n_days ts pr = Raise ValueError.
Proof.
  intros Hne Hr Hs.
  pose proof (turns_length _ _ _ _ _ (sunrises_turns disagg_rad)) as Hlen.
  assert (Hl : length (sunrises disagg_rad) <> length (sunsets disagg_rad)).
  { destruct (lit disagg_rad 0), (lit disagg_rad _); try done; lia. }
  unfold set_min_max_hour.
  fold (sunrises disagg_rad). fold (sunsets disagg_rad).
  unfold np_binop at 1. rewrite !length_map.
  destruct (Nat.eqb_spec (length (sunsets disagg_rad)) (length (sunrises disagg_rad)));
    [lia|].
  destruct (sunsets disagg_rad) as [|j [|j' ss]]; simpl in Hs; try lia.
  destruct (sunrises disagg_rad) as [|i [|i' rs]]; simpl in Hr; try lia.
  reflexivity.
Qed.

(** Three days at a six-hour step that begin at noon: lit, dark, dark,
    lit, and a last step in the dark. *)
Lemma extrema_unbalanced_witness :
  set_min_max_hour
    [Some 1; Some 0; Some 0; Some 1; Some 1; Some 0; Some 0; Some 1;
     Some 1; Some 0; Some 0; Some 0] 3 360
    (example_params "uniform" "default" "default")
  = Raise ValueError.
Proof.
  apply extrema_unbalanced; [discriminate | vm_compute; lia | vm_compute; lia].
Defined.

(** ** The temperature at the sunrise steps *)

Lemma slice_first_two {A} (l : list A) : slice l 0 2 = take 2 l.
Proof.
  unfold slice, slice_bound. simpl.
  replace (Z.to_nat (Z.min (Z.of_nat (length l)) 0)) with 0%nat by lia.
  rewrite drop_0, Nat.sub_0_r.
  destruct l as [|a [|b l]]; try reflexivity.
  simpl length. by replace (Z.to_nat (Z.min (Z.of_nat (S (S (length l)))) 2)) with 2%nat by lia.
Qed.

Lemma last_two_drop {A} (l : list A) : last_two l = drop (length l - 2) l.
Proof.
  unfold last_two, slice_from, slice_bound. simpl. f_equal. lia.
Qed.

Lemma strictly_increasing_adjacent (x : list Q) :
  (forall (i : nat) (a b : Q), x !! i = Some a -> x !! S i = Some b -> a < b) ->
  scipy.strictly_increasing x = true.
Proof.
  induction x as [|a x IH]; intros Hadj; [done|].
  destruct x as [|b x]; [done|].
  change (Qlt_bool a b && scipy.strictly_increasing (b :: x) = true).
  apply andb_true_iff. split.
  - apply Qlt_bool_iff. by apply (Hadj 0%nat).
  - apply IH. intros i u v Hu Hv. by apply (Hadj (S i)).
Qed.

Lemma alternate_lookup_inv (a b : list Q) (m : nat) (x : Q) :
  length a = length b -> alternate a b !! m = Some x ->
  (exists d, m = (2 * d)%nat /\ a !! d = Some x)
  \/ (exists d, m = (2 * d + 1)%nat /\ b !! d = Some x).
Proof.
  revert b m. induction a as [|u a IH]; intros [|v b] m Hl Hm; simpl in *; try done.
  destruct m as [|[|m]]; simpl in Hm.
  - left. exists 0%nat. split; [lia|]. simpl. congruence.
  - right. exists 0%nat. split; [lia|]. simpl. congruence.
  - destruct (IH b m ltac:(lia) Hm) as [(d & -> & Hd) | (d & -> & Hd)].
    + left. exists (S d). split; [lia|done].
    + right. exists (S d). split; [lia|done].
Qed.

(** The knots [alternate a b] are in increasing order when each element of
    [a] is below the one of [b] at its position, which is below the next
    of [a]. *)
Lemma alternate_adjacent (a b : list Q) (m : nat) (x y : Q) :
  length a = length b ->
  (forall k u v, a !! k = Some u -> b !! k = Some v -> u < v) ->
  (forall k u v, b !! k = Some v -> a !! S k = Some u -> v < u) ->
  alternate a b !! m = Some x -> alternate a b !! S m = Some y -> x < y.
Proof.
  intros Hl Hab Hba Hx Hy.
  destruct (alternate_lookup_inv a b m x Hl Hx) as [(d & -> & Hd) | (d & -> & Hd)];
    destruct (alternate_lookup_inv a b _ y Hl Hy) as [(e & E & He) | (e & E & He)];
    try lia.
  - assert (e = d) as -> by lia. by eapply Hab.
  - assert (e = S d) as -> by lia. by eapply Hba.
Qed.

(** The padded abscissae, position by position. *)
Lemma lookup_padded (time : list Q) (c : Q) (m : nat) :
  (2 <= length time)%nat ->
  (map (fun x => x - c) (slice time 0 2) ++ time
     ++ map (fun x => x + c) (last_two time)) !! m
  = if (m <? 2)%nat then (fun x => x - c) <$> time !! m
    else if (m <? length time + 2)%nat then time !! (m - 2)%nat
         else (fun x => x + c) <$> time !! (m - 4)%nat.
Proof.
  intros Hn. rewrite slice_first_two, last_two_drop.
  assert (L2 : length (map (fun x => x - c) (take 2 time)) = 2%nat)
    by (rewrite length_map, length_take; lia).
  destruct (Nat.ltb_spec m 2).
  - rewrite lookup_app_l by lia. rewrite list_lookup_fmap, lookup_take_lt by lia.
    done.
  - rewrite lookup_app_r by lia. rewrite L2.
    destruct (Nat.ltb_spec m (length time + 2)).
    + by rewrite lookup_app_l by lia.
    + rewrite lookup_app_r by lia. rewrite list_lookup_fmap, lookup_drop.
      do 2 f_equal. lia.
Qed.

Lemma padded_increasing (time : list Q) (c : Q) :
  (2 <= length time)%nat ->
  (forall m x y, time !! m = Some x -> time !! S m = Some y -> x < y) ->
  (forall x y, time !! 0%nat = Some x -> time !! 1%nat = Some y -> y - c < x) ->
  (forall x y, time !! (length time - 2)%nat = Some x ->
               time !! (length time - 1)%nat = Some y -> y < x + c) ->
  scipy.strictly_increasing
    (map (fun x => x - c) (slice time 0 2) ++ time
       ++ map (fun x => x + c) (last_two time)) = true.
Proof.
  intros Hn Hadj Hfirst Hlast. apply strictly_increasing_adjacent.
  intros m a b. rewrite !lookup_padded by done.
  destruct (Nat.ltb_spec m 2) as [M1|M1];
    destruct (Nat.ltb_spec (S m) 2) as [M2|M2]; try lia.
  - assert (m = 0%nat) as -> by lia.
    destruct (time !! 0%nat) as [x|] eqn:Ex; [|done].
    destruct (time !! 1%nat) as [y|] eqn:Ey; [|done].
    simpl. intros [= <-] [= <-]. pose proof (Hadj _ _ _ Ex Ey). lra.
  - assert (m = 1%nat) as -> by lia.
    destruct (Nat.ltb_spec 2 (length time + 2)); [|lia].
    destruct (time !! 1%nat) as [y|] eqn:Ey; [|done].
    simpl. intros [= <-] Hb. by apply Hfirst.
  - destruct (Nat.ltb_spec m (length time + 2)) as [M3|M3];
      destruct (Nat.ltb_spec (S m) (length time + 2)) as [M4|M4]; try lia.
    + replace (S m - 2)%nat with (S (m - 2)) by lia. apply Hadj.
    + assert (m = S (length time)) as -> by lia.
      replace (S (length time) - 2)%nat with (length time - 1)%nat by lia.
      replace (S (S (length time)) - 4)%nat with (length time - 2)%nat by lia.
      intros Ha. destruct (time !! (length time - 2)%nat) as [x|] eqn:Ex; [|done].
      simpl. intros [= <-]. by apply Hlast.
    + replace (S m - 4)%nat with (S (m - 4)) by lia.
      destruct (time !! (m - 4)%nat) as [x|] eqn:Ex; [|done].
      destruct (time !! S (m - 4)) as [y|] eqn:Ey; [|done].
      simpl. intros [= <-] [= <-]. pose proof (Hadj _ _ _ Ex Ey). lra.
Qed.

Lemma find_interval_eq (x : list Q) (v w : Q) :
  v == w -> scipy.find_interval x v = scipy.find_interval x w.
Proof.
  intros E. induction x as [|a x IH]; [done|].
  destruct x as [|b [|c x]]; try reflexivity.
  change (scipy.find_interval (a :: b :: c :: x) ?z)
    with (if Qlt_bool z b then O else S (scipy.find_interval (b :: c :: x) z)).
  rewrite IH. unfold Qlt_bool. by rewrite E.
Qed.

Lemma eval_piece_eq (x y d : list Q) (i : nat) (v w : Q) :
  v == w -> scipy.eval_piece x y d i v == scipy.eval_piece x y d i w.
Proof. intros E. unfold scipy.eval_piece. cbv zeta. by rewrite E. Qed.

(** The interpolant takes an ordinate at every abscissa that equals its
    knot. *)
Lemma pchip_at_knot (x y : list Q) (i : nat) (v v' w : Q) :
  length x = length y -> scipy.strictly_increasing x = true ->
  x !! i = Some v -> y !! i = Some w -> (S i < length x)%nat -> v' == v ->
  exists f, scipy.PchipInterpolator x y = Ok f /\ f v' == w.
Proof.
  intros Hl Hs Hx Hy Hi E. unfold scipy.PchipInterpolator.
  rewrite Hl, Nat.eqb_refl. simpl.
  destruct (Nat.ltb_spec (length y) 2); [lia|].
  rewrite Hs. simpl. eexists. split; [reflexivity|]. simpl.
  rewrite (find_interval_eq x v' v E), (eval_piece_eq _ _ _ _ v' v E).
  rewrite (find_interval_knot x i v Hs Hx Hi). by apply eval_piece_left.
Qed.

(** The times of [set_min_max_hour] as knots of [temp]. *)
Lemma temp_after_extrema (disagg_rad : list cell) (n_days : Z) (ts : Q)
    (pr : params) (t_min t_max : list Q) (t_begin t_end : option (list Q))
    (n_disagg : Z) :
  0 < ts -> 0 < tmax_daylength_fraction pr <= 1 ->
  lit disagg_rad 0 = false ->
  lit disagg_rad (Z.of_nat (length disagg_rad) - 1) = false ->
  length (sunrises disagg_rad) = length t_min ->
  length t_max = length t_min -> (1 <= length t_min)%nat ->
  (forall (k : nat) (i j : Z),
     sunrises disagg_rad !! k = Some i -> sunsets disagg_rad !! k = Some j ->
     Z2Q (j - i) * ts < 1440) ->
  from_option length 2%nat t_begin = 2%nat ->
  from_option length 2%nat t_end = 2%nat ->
  exists t_t_min t_t_max temps,
    set_min_max_hour disagg_rad n_days ts pr = Ok (t_t_min, t_t_max)
    /\ temp t_min t_max n_disagg t_t_min t_t_max ts t_begin t_end = Ok temps
    /\ length temps = Z.to_nat n_disagg
    /\ forall (k : nat) (i : Z) (lo : Q),
         sunrises disagg_rad !! k = Some i -> t_min !! k = Some lo ->
         (i < n_disagg)%Z ->
         exists x, temps !! Z.to_nat i = Some x /\ x == lo.
Proof.
  intros Hts [Hf0 Hf1] Hfirst Hlast Hn Lmax Hone Hday Lb Le.
  pose proof (sunrises_turns disagg_rad) as Ht. rewrite Hfirst, Hlast in Ht.
  pose proof (turns_length _ _ _ _ _ Ht) as Hlen. simpl in Hlen.
  destruct (turns_bound _ _ _ _ _ Ht) as [Hr0 _].
  destruct (turns_order _ _ _ _ _ Ht) as [Ho _].
  destruct (Ho eq_refl) as [Hrs _].
  destruct (dark_start_order disagg_rad ts pr Hts ltac:(split; lra) Hfirst)
    as [Huv Hvu].
  rewrite set_min_max_hour_balanced by lia.
  set (U := map (fun i => Z2Q i * ts) (sunrises disagg_rad)) in *.
  set (V := zip_with Qplus _ U) in *.
  assert (LU : length U = length t_min) by (unfold U; by rewrite length_map).
  assert (LV : length V = length t_min).
  { unfold V, U. rewrite length_zip_with, !length_map, length_zip_with, !length_map.
    lia. }
  assert (Hspan : forall k u v, U !! k = Some u -> V !! k = Some v ->
                                v < u + cnst.MIN_PER_HOUR * cnst.HOURS_PER_DAY).
  { intros k u v Hu Hv.
    apply lookup_t_t_max in Hv as (i & j & Hi & Hj & ->).
    apply lookup_t_t_min in Hu as (i' & Hi' & ->).
    assert (i' = i) as -> by congruence.
    pose proof (Hday k i j Hi Hj) as Hd.
    pose proof (Z2Q_lt _ _ (Hrs k i j Hi Hj)) as Hij.
    unfold Z2Q, Z.sub in Hd. rewrite inject_Z_plus, inject_Z_opp in Hd.
    fold (Z2Q i) in Hd. fold (Z2Q j) in Hd.
    unfold cnst.MIN_PER_HOUR, cnst.HOURS_PER_DAY.
    assert (Hd' : 0 < Z2Q j * ts - Z2Q i * ts) by nra.
    nra. }
  exists U, V.
  pose proof (length_alternate U V ltac:(lia)) as LX.
  pose proof (length_alternate t_min t_max ltac:(lia)) as LY.
  assert (Hinc : scipy.strictly_increasing
                   (temp_knots t_min t_max U V t_begin t_end).1 = true).
  { unfold temp_knots. cbn [fst]. apply padded_increasing.
    - lia.
    - intros m x y. apply alternate_adjacent; [lia | |].
      + intros k u v Hu Hv. apply (Huv k u v Hu Hv). exact Hf0.
      + exact Hvu.
    - intros x y Hx Hy.
      destruct (lookup_lt_is_Some_2 U 0 ltac:(lia)) as [u Hu].
      destruct (lookup_lt_is_Some_2 V 0 ltac:(lia)) as [v Hv].
      destruct (lookup_alternate U V 0 u v Hu Hv) as [X0 X1]. simpl in X0, X1.
      assert (x = u) as -> by congruence. assert (y = v) as -> by congruence.
      pose proof (Hspan _ _ _ Hu Hv). lra.
    - intros x y Hx Hy. rewrite LX in Hx, Hy.
      destruct (lookup_lt_is_Some_2 U (length U - 1) ltac:(lia)) as [u Hu].
      destruct (lookup_lt_is_Some_2 V (length U - 1) ltac:(lia)) as [v Hv].
      destruct (lookup_alternate U V _ u v Hu Hv) as [X0 X1].
      replace (2 * (length U - 1))%nat with (2 * length U - 2)%nat in X0 by lia.
      replace (2 * (length U - 1) + 1)%nat with (2 * length U - 1)%nat in X1 by lia.
      assert (x = u) as -> by congruence. assert (y = v) as -> by congruence.
      exact (Hspan _ _ _ Hu Hv). }
  unfold temp, temp_interp. unfold temp_knots in *. cbn [fst snd] in *.
  set (time := alternate U V) in *.
  set (temps := alternate t_min t_max) in *.
  assert (Hpad : length (slice time 0 2) = 2%nat)
    by (rewrite slice_first_two, length_take; lia).
  assert (Hpad' : length (last_two time) = 2%nat)
    by (rewrite last_two_drop, length_drop; lia).
  assert (Hb : length (default (slice temps 0 2) t_begin) = 2%nat).
  { destruct t_begin; simpl in *; [done|]. rewrite slice_first_two, length_take. lia. }
  assert (He : length (default (last_two temps) t_end) = 2%nat).
  { destruct t_end; simpl in *; [done|]. rewrite last_two_drop, length_drop. lia. }
  set (X := _ ++ time ++ _) in *. set (Y := _ ++ temps ++ _).
  assert (HL : length X = length Y).
  { unfold X, Y. rewrite !length_app, !length_map, Hpad, Hpad', Hb, He. lia. }
  assert (HLX : length X = (2 * length U + 4)%nat).
  { unfold X. rewrite !length_app, !length_map, Hpad, Hpad'. lia. }
  assert (Hf : exists f, scipy.PchipInterpolator X Y = Ok f).
  { unfold scipy.PchipInterpolator. rewrite HL, Nat.eqb_refl. simpl.
    destruct (Nat.ltb_spec (length Y) 2); [lia|]. rewrite Hinc. simpl. eauto. }
  destruct Hf as [f Ef]. rewrite Ef. cbn [rbind].
  eexists. split; [reflexivity|]. split; [reflexivity|].
  split; [by rewrite length_map, length_seqZ|].
  intros k i lo Hi Hlo Hin.
  pose proof (Forall_lookup_1 _ _ _ _ Hr0 Hi) as Hi0. simpl in Hi0.
  assert (Hu : U !! k = Some (Z2Q i * ts))
    by (unfold U; by rewrite list_lookup_fmap, Hi).
  destruct (lookup_lt_is_Some_2 V k) as [v Hv];
    [apply lookup_lt_Some in Hu; lia|].
  destruct (lookup_lt_is_Some_2 t_max k) as [hi Hhi];
    [apply lookup_lt_Some in Hlo; lia|].
  destruct (lookup_alternate U V k _ v Hu Hv) as [Xu _].
  destruct (lookup_alternate t_min t_max k lo hi Hlo Hhi) as [Ylo _].
  assert (HX : X !! (2 + 2 * k)%nat = Some (Z2Q i * ts)).
  { unfold X. rewrite lookup_app_r by (rewrite length_map; lia).
    rewrite length_map, Hpad. replace (2 + 2 * k - 2)%nat with (2 * k)%nat by lia.
    by apply lookup_app_l_Some. }
  assert (HY : Y !! (2 + 2 * k)%nat = Some lo).
  { unfold Y. rewrite lookup_app_r by lia.
    rewrite Hb. replace (2 + 2 * k - 2)%nat with (2 * k)%nat by lia.
    by apply lookup_app_l_Some. }
  destruct (pchip_at_knot X Y _ (Z2Q i * ts) (ts * Z2Q i) lo HL Hinc HX HY)
    as (g & Eg & Hg).
  { apply lookup_lt_Some in Hu. lia. }
  { ring. }
  rewrite Ef in Eg. injection Eg as <-.
  exists (f (ts * Z2Q i)). split; [|exact Hg].
  rewrite list_lookup_fmap, lookup_seqZ_lt by lia.
  replace (0 + Z.of_nat (Z.to_nat i))%Z with i by lia. reflexivity.
Qed.



(** ** The vapor pressure between two sunrises *)

Lemma sort_points_sorted (x y : list Q) :
  length x = length y -> scipy.strictly_increasing x = true ->
  scipy.sort_points (zip x y) = zip x y.
Proof.
  revert y. induction x as [|a x IH]; intros [|b y] Hl Hs; try done.
  unfold scipy.sort_points in *. simpl.
  rewrite IH; [|simpl in Hl; lia | by eapply strictly_increasing_tail].
  destruct x as [|a' x], y as [|b' y]; try done.
  simpl in Hs. apply andb_true_iff in Hs as [Hab _]. simpl. by rewrite Hab.
Qed.

Lemma searchsorted_first (x : list Q) (a t : Q) :
  x !! 0%nat = Some a -> t <= a -> scipy.searchsorted x t = 0%nat.
Proof.
  destruct x as [|c x]; [done|]. simpl. intros [= ->] Hle.
  by rewrite (proj2 (Qlt_bool_false a t) Hle).
Qed.

(** The number of abscissae below [t], when [t] is above the k-th and not
    above the next. *)
Lemma searchsorted_between (x : list Q) (k : nat) (a t : Q) :
  scipy.strictly_increasing x = true -> x !! k = Some a -> a < t ->
  (forall b, x !! S k = Some b -> t <= b) ->
  scipy.searchsorted x t = S k.
Proof.
  revert k. induction x as [|c x IH]; intros k Hs Ha Hat Hnext; [done|].
  destruct k as [|k]; simpl in Ha.
  - injection Ha as ->. simpl. rewrite (proj2 (Qlt_bool_iff a t) Hat). f_equal.
    destruct x as [|b x]; [done|]. simpl.
    by rewrite (proj2 (Qlt_bool_false b t) (Hnext b eq_refl)).
  - pose proof (strictly_increasing_head _ _ _ _ Hs Ha) as Hca. simpl.
    rewrite (proj2 (Qlt_bool_iff c t)) by lra. f_equal.
    apply IH; [by eapply strictly_increasing_tail | done | done | exact Hnext].
Qed.

(** Between two consecutive abscissae the interpolant is the straight line
    through the two points. *)
Lemma interp1d_between (x y : list Q) (k : nat) (x0 x1 y0 y1 t : Q) :
  length x = length y -> scipy.strictly_increasing x = true ->
  x !! k = Some x0 -> x !! S k = Some x1 ->
  y !! k = Some y0 -> y !! S k = Some y1 ->
  x0 <= t <= x1 ->
  exists f, scipy.interp1d x y = Ok f
            /\ f t == (y1 - y0) / (x1 - x0) * (t - x0) + y0.
Proof.
  intros Hl Hs Hx0 Hx1 Hy0 Hy1 [Ht0 Ht1].
  pose proof (lookup_lt_Some _ _ _ Hx1) as Hk.
  assert (H01 : x0 < x1).
  { clear - Hs Hx0 Hx1. revert k Hx0 Hx1.
    induction x as [|c x IH]; intros k Hx0 Hx1; [done|].
    destruct k as [|k]; simpl in *.
    - injection Hx0 as ->. eapply strictly_increasing_head; [exact Hs | exact Hx1].
    - eapply IH; [by eapply strictly_increasing_tail | exact Hx0 | exact Hx1]. }
  unfold scipy.interp1d. rewrite Hl, Nat.eqb_refl. simpl negb. cbv iota.
  destruct (Nat.ltb_spec (length y) 2); [lia|].
  eexists. split; [reflexivity|]. cbv beta zeta.
  rewrite (sort_points_sorted x y Hl Hs).
  rewrite fst_zip, snd_zip by lia.
  destruct (Qlt_le_dec x0 t) as [Hlt | Hge].
  - rewrite (searchsorted_between x k x0 t Hs Hx0 Hlt)
      by (intros b Hb; assert (b = x1) as -> by congruence; done).
    replace (Nat.min (Nat.max 1 (S k)) (length x - 1)) with (S k) by lia.
    replace (S k - 1)%nat with k by lia.
    rewrite Hx0, Hx1, Hy0, Hy1. simpl. reflexivity.
  - assert (Et : t == x0) by lra.
    destruct k as [|k].
    + rewrite (searchsorted_first x x0 t Hx0 Hge).
      replace (Nat.min (Nat.max 1 0) (length x - 1)) with 1%nat by lia.
      change (1 - 1)%nat with 0%nat.
      rewrite Hx0, Hx1, Hy0, Hy1. simpl. reflexivity.
    + destruct (lookup_lt_is_Some_2 x k ltac:(lia)) as [xm Hxm].
      destruct (lookup_lt_is_Some_2 y k ltac:(lia)) as [ym Hym].
      assert (Hm0 : xm < x0).
      { clear - Hs Hxm Hx0. revert k Hxm Hx0.
        induction x as [|c x IH]; intros k Hxm Hx0; [done|].
        destruct k as [|k]; simpl in *.
        - injection Hxm as ->. eapply strictly_increasing_head; [exact Hs | exact Hx0].
        - eapply IH; [by eapply strictly_increasing_tail | exact Hxm | exact Hx0]. }
      rewrite (searchsorted_between x k xm t Hs Hxm)
        by (try lra; intros b Hb; assert (b = x0) as -> by congruence; done).
      replace (Nat.min (Nat.max 1 (S k)) (length x - 1)) with (S k) by lia.
      replace (S k - 1)%nat with k by lia.
      rewrite Hxm, Hx0, Hym, Hy0. simpl. rewrite Et. field. split; lra.
Qed.

Section VaporPressureLine.
Context `{Transcendental}.

(** Between the sunrises of two consecutive days the vapor pressure is on
    the straight line through the two daily values (in bar over 1000), and
    is cut down to the saturation value of the step's temperature where the
    line is above it. *)
Theorem vapor_pressure_linear (vp_daily : list Q) (temp : list cell)
    (t_t_min : list Q) (n_out : Z) (ts : Q) (k : nat) (s : Z)
    (x0 x1 y0 y1 : Q) :
  scipy.strictly_increasing t_t_min = true ->
  length t_t_min = length vp_daily -> length temp = Z.to_nat n_out ->
  t_t_min !! k = Some x0 -> t_t_min !! S k = Some x1 ->
  vp_daily !! k = Some y0 -> vp_daily !! S k = Some y1 ->
  (0 <= s < n_out)%Z -> x0 <= ts * Z2Q s <= x1 ->
  exists vp w,
    vapor_pressure vp_daily temp t_t_min n_out ts = Ok vp
    /\ length vp = Z.to_nat n_out
    /\ vp !! Z.to_nat s = Some w
    /\ let line := (y1 / cnst.MBAR_PER_BAR - y0 / cnst.MBAR_PER_BAR) / (x1 - x0)
                   * (ts * Z2Q s - x0) + y0 / cnst.MBAR_PER_BAR in
       (temp !! Z.to_nat s = Some None -> w == line)
       /\ forall t, temp !! Z.to_nat s = Some (Some t) ->
                    (line <= svp t / cnst.MBAR_PER_BAR -> w == line)
                    /\ (svp t / cnst.MBAR_PER_BAR < line ->
                        w = svp t / cnst.MBAR_PER_BAR).
Proof.
  intros Hs Hl Lt Hx0 Hx1 Hy0 Hy1 Hin Hbetween.
  destruct (interp1d_between t_t_min (map (fun v => v / cnst.MBAR_PER_BAR) vp_daily)
              k x0 x1 (y0 / cnst.MBAR_PER_BAR) (y1 / cnst.MBAR_PER_BAR)
              (ts * Z2Q s)) as (f & Ef & Hf);
    [by rewrite length_map | done | done | done
     | by rewrite list_lookup_fmap, Hy0 | by rewrite list_lookup_fmap, Hy1
     | done |].
  unfold vapor_pressure. rewrite Ef. cbn [rbind].
  set (vd := map _ (seqZ 0 n_out)).
  set (vs := map _ temp).
  assert (Lvd : length vd = Z.to_nat n_out)
    by (unfold vd; by rewrite length_map, length_seqZ).
  assert (Lvs : length vs = Z.to_nat n_out) by (unfold vs; by rewrite length_map).
  rewrite np_binop_same_length by congruence.
  assert (Hvd : vd !! Z.to_nat s = Some (f (ts * Z2Q s))).
  { unfold vd. rewrite list_lookup_fmap, lookup_seqZ_lt by lia.
    by replace (0 + Z.of_nat (Z.to_nat s))%Z with s by lia. }
  destruct (lookup_lt_is_Some_2 temp (Z.to_nat s) ltac:(lia)) as [c Hc].
  assert (Hvs : vs !! Z.to_nat s
                = Some ((fun t => svp t / cnst.MBAR_PER_BAR) <$> c))
    by (unfold vs; by rewrite list_lookup_fmap, Hc).
  eexists _, _. split; [reflexivity|].
  split; [rewrite length_zip_with; lia|].
  split.
  { apply lookup_zip_with_Some. eexists _, _. split; [reflexivity|].
    split; [exact Hvs | exact Hvd]. }
  cbv zeta. rewrite Hc. split.
  - intros [= ->]. exact Hf.
  - intros t [= ->]. simpl. split.
    + intros Hle. destruct (Qlt_bool _ _) eqn:E; [|exact Hf].
      apply Qlt_bool_iff in E. lra.
    + intros Hlt. destruct (Qlt_bool _ _) eqn:E; [done|].
      apply Qlt_bool_false in E. lra.
Qed.
End VaporPressureLine.

(** Two days with sunrise at 06:00, at a twelve-hour step: the step at
    noon of the first day. *)
Lemma vapor_pressure_linear_witness :
  exists vp w,
    vapor_pressure (H := example_physics) [1000; 900]
      [Some 5; Some 6; None; Some 4] [360; 1800] 4 720 = Ok vp
    /\ length vp = Z.to_nat 4
    /\ vp !! Z.to_nat 1 = Some w
    /\ ([Some 5; Some 6; None; Some 4] !! Z.to_nat 1 = Some None ->
        w == (900 / cnst.MBAR_PER_BAR - 1000 / cnst.MBAR_PER_BAR) / (1800 - 360)
             * (720 * Z2Q 1 - 360) + 1000 / cnst.MBAR_PER_BAR)
    /\ forall t, [Some 5; Some 6; None; Some 4] !! Z.to_nat 1 = Some (Some t) ->
         ((900 / cnst.MBAR_PER_BAR - 1000 / cnst.MBAR_PER_BAR) / (1800 - 360)
          * (720 * Z2Q 1 - 360) + 1000 / cnst.MBAR_PER_BAR
          <= svp (Transcendental := example_physics) t / cnst.MBAR_PER_BAR ->
          w == (900 / cnst.MBAR_PER_BAR - 1000 / cnst.MBAR_PER_BAR) / (1800 - 360)
               * (720 * Z2Q 1 - 360) + 1000 / cnst.MBAR_PER_BAR)
         /\ (svp (Transcendental := example_physics) t / cnst.MBAR_PER_BAR
             < (900 / cnst.MBAR_PER_BAR - 1000 / cnst.MBAR_PER_BAR) / (1800 - 360)
               * (720 * Z2Q 1 - 360) + 1000 / cnst.MBAR_PER_BAR ->
             w = svp (Transcendental := example_physics) t / cnst.MBAR_PER_BAR).
Proof.
  apply (vapor_pressure_linear (H := example_physics) [1000; 900]
           [Some 5; Some 6; None; Some 4] [360; 1800] 4 720 0%nat 1 360 1800
           1000 900);
    try reflexivity; try lia; split; vm_compute; discriminate.
Defined.

(** ** The daily total of the shortwave radiation *)

(** Without [theta_l] and [theta_s] the shape of a day is not rotated. *)
Lemma tinystep_identity (pr : params) :
  theta_l pr = None -> theta_s pr = None -> tinystep_indices pr = seqZ 0 2880.
Proof.
  intros Hl Hs. unfold tinystep_indices, tinystep_wrapped, tiny_offset.
  rewrite Hl, Hs. vm_compute. reflexivity.
Qed.

Lemma take_indices_from (pre rad : list Q) :
  take_indices (pre ++ rad) (seqZ (Z.of_nat (length pre)) (Z.of_nat (length rad)))
  = Ok rad.
Proof.
  revert pre. induction rad as [|x rad IH]; intros pre; [done|].
  simpl length. rewrite seqZ_cons by lia. simpl.
  rewrite (getitem_ok (pre ++ x :: rad) (Z.of_nat (length pre)) x ltac:(lia))
    by (rewrite Nat2Z.id; apply list_lookup_middle; done).
  cbn [rbind].
  replace (Z.succ (Z.of_nat (length pre))) with (Z.of_nat (length (pre ++ [x])))
    by (rewrite length_app; simpl; lia).
  replace (Z.pred (Z.of_nat (S (length rad)))) with (Z.of_nat (length rad)) by lia.
  replace (pre ++ x :: rad) with ((pre ++ [x]) ++ rad) by (by rewrite <- app_assoc).
  by rewrite IH.
Qed.

Lemma take_indices_all (rad : list Q) :
  take_indices rad (seqZ 0 (Z.of_nat (length rad))) = Ok rad.
Proof. exact (take_indices_from [] rad). Qed.

Lemma qsum_chunks (rows c : nat) (x : list Q) :
  length x = (rows * c)%nat -> qsum (map qsum (chunks rows c x)) == qsum x.
Proof.
  revert x. induction rows as [|rows IH]; intros x Hl.
  - destruct x; [reflexivity | done].
  - simpl. rewrite IH by (rewrite length_drop; lia).
    rewrite <- qsum_app, take_drop. reflexivity.
Qed.

Lemma qsum_scale_r (c : Q) (k : list Q) :
  qsum (map (fun x => x * c) k) == qsum k * c.
Proof. induction k as [|x k IH]; simpl; [ring | rewrite IH; ring]. Qed.

(** The weights of the steps of a day add up to the sum of the day's
    shape. *)
Lemma day_weights_total (table : list (list Q)) (day_of_year : list Z)
    (pr : params) (steps day doy : Z) (row : list Q) :
  (0 < time_step pr)%Z -> (1440 = steps * time_step pr)%Z ->
  theta_l pr = None -> theta_s pr = None ->
  getitem day_of_year day = Ok doy -> getitem table (doy - 1) = Ok row ->
  length row = 2880%nat ->
  exists w, day_weights table day_of_year pr day = Ok w /\ qsum w == qsum row.
Proof.
  intros Hts Hdiv Hl Hs Hdoy Hrow Hlen. unfold day_weights.
  rewrite Hdoy. cbn [rbind]. rewrite Hrow. cbn [rbind].
  rewrite (tinystep_identity pr Hl Hs).
  replace 2880%Z with (Z.of_nat (length row)) by lia.
  rewrite take_indices_all. cbn [rbind].
  unfold chunk_sum, np_reshape. rewrite chunk_size_of_eq.
  destruct (Z.eqb_spec (2 * time_step pr) 0); [lia|].
  assert (Hrows : py_int (Z2Q (Z.of_nat (length row)) / Z2Q (2 * time_step pr)) = steps).
  { rewrite Hlen. destruct (time_step pr) as [|p|p]; try lia.
    change (2 * Z.pos p)%Z with (Z.pos (p~0)).
    unfold py_int, Z2Q. cbn. rewrite ?Pos.mul_1_l, ?Z.mul_1_r.
    replace (Z.of_nat 2880) with (steps * Z.pos (p~0))%Z by lia.
    apply Z.quot_mul. lia. }
  rewrite Hrows.
  destruct (Z.leb_spec 0 steps); [|nia].
  destruct (Z.leb_spec 0 (2 * time_step pr)); [|lia].
  destruct (Z.eqb_spec (steps * (2 * time_step pr)) (Z.of_nat (length row)));
    [|lia].
  cbn [andb rbind]. eexists. split; [reflexivity|].
  apply qsum_chunks. nia.
Qed.

(** The run of [shortwave] on whole columns. *)
Lemma shortwave_run (sw_rad daylength tiny_rad_fract : loc)
    (day_of_year : list Z) (pr : params) (h : heap) (sw dl : list Q)
    (table : list (list Q)) (steps : Z) :
  (0 < time_step pr)%Z -> (1440 = steps * time_step pr)%Z ->
  h !! sw_rad = Some (Ndarray sw) -> h !! daylength = Some (Ndarray dl) ->
  length sw = length dl ->
  h !! tiny_rad_fract = Some (Ndarray2 table) ->
  (forall day : Z, (0 <= day < Z.of_nat (length sw))%Z ->
                   is_ok (day_weights table day_of_year pr day) = true) ->
  exists out,
    shortwave sw_rad daylength day_of_year tiny_rad_fract pr h
    = (Ok (length h), sw_heap h out (tinystep_wrapped pr))
    /\ sw_filled table day_of_year pr steps (Z.of_nat (length sw))
         (map (fun x => x / cnst.SEC_PER_HOUR) (zip_with Qmult sw dl))
         (Z.of_nat (length sw)) out.
Proof.
  intros Hts Hdiv Hsw Hdl Hlen Htab Hw.
  set (tmp_rad := map (fun x => x / cnst.SEC_PER_HOUR) (zip_with Qmult sw dl)).
  assert (Hn : Z.of_nat (length tmp_rad) = Z.of_nat (length sw)).
  { unfold tmp_rad. rewrite length_map, length_zip_with. lia. }
  assert (Hsteps : (0 < steps)%Z) by nia.
  assert (H0 : sw_filled table day_of_year pr steps (Z.of_nat (length sw)) tmp_rad 0
                 (replicate (Z.to_nat (Z.of_nat (length sw) * steps)) (0 : Q))).
  { split; [rewrite length_replicate; nia | intros; lia]. }
  destruct (shortwave_days_run h tiny_rad_fract table day_of_year pr steps
              (Z.of_nat (length sw)) tmp_rad Htab Hts Hdiv Hn _
              (tinystep_wrapped pr)
              (length sw) ltac:(lia) H0 Hw) as (out & Erun & Hfill).
  exists out. split; [|exact Hfill].
  unfold shortwave.
  rewrite (bind_ok _ _ _ _ _ (load_ndarray_ok _ _ _ Hsw)).
  rewrite (bind_ok _ _ _ _ _ (load_ndarray_ok _ _ _ Hdl)).
  unfold lift. rewrite np_binop_same_length by done.
  erewrite bind_ok by reflexivity.
  destruct (Z.eqb_spec (time_step pr) 0); [lia|].
  fold tmp_rad. rewrite Hn.
  rewrite (day_offset _ steps _ Hts Hdiv).
  unfold alloc at 1. erewrite bind_ok by reflexivity.
  unfold alloc at 1. erewrite bind_ok by reflexivity.
  match goal with
  | |- context [h ++ [Ndarray ?z]] =>
      assert (Ht : forall t, ((h ++ [Ndarray z]) ++ [Ndarray t])
                             !! length (h ++ [Ndarray z]) = Some (Ndarray t))
        by (intros t; rewrite lookup_app_r by lia; by rewrite Nat.sub_diag);
      assert (Hs : forall t t', <[length (h ++ [Ndarray z]) := Ndarray t']>
                                  ((h ++ [Ndarray z]) ++ [Ndarray t])
                                = (h ++ [Ndarray z]) ++ [Ndarray t'])
        by (intros t t'; rewrite insert_app_r_alt by lia; by rewrite Nat.sub_diag)
  end.
  rewrite (bind_ok _ _ _ _ _ (ndarray_iadd_where_ok _ _ _ _ _ (Ht _))), Hs.
  rewrite (bind_ok _ _ _ _ _ (ndarray_iadd_where_ok _ _ _ _ _ (Ht _))), Hs.
  rewrite (bind_ok _ _ _ _ _ (load_ndarray_ok _ _ _ (Ht _))).
  change (map py_int _) with (tinystep_indices pr).
  change (map _ (map _ (map _ (seqZ 0 _)))) with (tinystep_wrapped pr).
  change (py_int (Z2Q (time_step pr) * _)) with (chunk_size_of pr).
  erewrite bind_ok by exact Erun. reflexivity.
Qed.

(** Without a rotation ([theta_l] and [theta_s] absent) and with shapes of
    2880 fine steps, the steps of each day of the array that [shortwave]
    returns add up to the sum of the day's shape times
    [shortwave_total * daylength / SEC_PER_HOUR]: summing the shape by
    chunks loses nothing. *)
Theorem shortwave_daily_total (sw_rad daylength tiny_rad_fract : loc)
    (day_of_year : list Z) (pr : params) (h : heap) (sw dl : list Q)
    (table : list (list Q)) (steps : Z) :
  (0 < time_step pr)%Z -> (1440 = steps * time_step pr)%Z ->
  theta_l pr = None -> theta_s pr = None ->
  h !! sw_rad = Some (Ndarray sw) -> h !! daylength = Some (Ndarray dl) ->
  length sw = length dl ->
  h !! tiny_rad_fract = Some (Ndarray2 table) ->
  length day_of_year = length sw ->
  Forall (fun doy => exists row, getitem table (doy - 1) = Ok row
                                 /\ length row = 2880%nat) day_of_year ->
  exists h' out,
    shortwave sw_rad daylength day_of_year tiny_rad_fract pr h
    = (Ok (length h), h')
    /\ h' !! length h = Some (Ndarray out)
    /\ Z.of_nat (length out) = (Z.of_nat (length sw) * steps)%Z
    /\ forall (day : nat) (doy : Z) (row : list Q) (s d : Q),
         day_of_year !! day = Some doy -> getitem table (doy - 1) = Ok row ->
         sw !! day = Some s -> dl !! day = Some d ->
         qsum (take (Z.to_nat steps) (drop (day * Z.to_nat steps) out))
         == qsum row * (s * d / cnst.SEC_PER_HOUR).
Proof.
  intros Hts Hdiv Hl Hs Hsw Hdl Hlen Htab Hdoy Hrows.
  assert (Hsteps : (0 < steps)%Z) by nia.
  assert (Hw : forall day : nat, (day < length sw)%nat ->
             exists doy row w,
               day_of_year !! day = Some doy /\ getitem table (doy - 1) = Ok row
               /\ day_weights table day_of_year pr (Z.of_nat day) = Ok w
               /\ qsum w == qsum row).
  { intros day Hday.
    destruct (lookup_lt_is_Some_2 day_of_year day ltac:(lia)) as [doy Ed].
    destruct (Forall_lookup_1 _ _ _ _ Hrows Ed) as (row & Er & Lr).
    destruct (day_weights_total table day_of_year pr steps (Z.of_nat day) doy row
                Hts Hdiv Hl Hs) as (w & Ew & Sw); [|done|done|].
    { apply getitem_ok; [lia|]. by rewrite Nat2Z.id. }
    by exists doy, row, w. }
  destruct (shortwave_run sw_rad daylength tiny_rad_fract day_of_year pr h sw dl
              table steps Hts Hdiv Hsw Hdl Hlen Htab) as (out & Erun & Hlo & Hfill).
  { intros day Hday.
    destruct (Hw (Z.to_nat day) ltac:(lia)) as (doy & row & w & _ & _ & Ew & _).
    rewrite Z2Nat.id in Ew by lia. by rewrite Ew. }
  exists (sw_heap h out (tinystep_wrapped pr)), out.
  split; [exact Erun|]. split; [apply sw_heap_disaggrad|]. split; [exact Hlo|].
  intros day doy row s d Ed Er Es Edl.
  assert (Hday : (day < length sw)%nat) by (eapply lookup_lt_Some; eauto).
  destruct (Hw day Hday) as (doy' & row' & w & Ed' & Er' & Ew & Sw).
  assert (doy' = doy) as -> by congruence.
  assert (row' = row) as -> by congruence.
  pose proof (day_weights_length _ _ _ _ _ _ Hts Hdiv Ew) as Lw.
  assert (Hslice : take (Z.to_nat steps) (drop (day * Z.to_nat steps) out)
                   = map (fun x => x * (s * d / cnst.SEC_PER_HOUR)) w).
  { apply list_eq. intros j. rewrite list_lookup_fmap.
    destruct (Nat.lt_ge_cases j (Z.to_nat steps)) as [Hj | Hj].
    - rewrite lookup_take_lt, lookup_drop by done.
      replace (day * Z.to_nat steps)%nat with (Z.to_nat (Z.of_nat day * steps)) by nia.
      rewrite (Hfill (Z.of_nat day) j ltac:(lia) ltac:(lia)).
      unfold sw_value. rewrite Ew, Nat2Z.id.
      destruct (lookup_lt_is_Some_2 w j ltac:(lia)) as [x Hx]. rewrite Hx.
      rewrite list_lookup_fmap, lookup_zip_with, Es. simpl. rewrite Edl.
      reflexivity.
    - rewrite lookup_take_ge by done. rewrite lookup_ge_None_2 by lia. done. }
  rewrite Hslice, qsum_scale_r, Sw. reflexivity.
Qed.

(** A one-day record at a twelve-hour step, with daylight from 06:00 to
    18:00: the two steps of the day add up to 1440 fine steps of
    100 * 43200 / 3600. *)
Lemma shortwave_daily_total_witness :
  exists h' out,
    shortwave 0%nat 1%nat [1%Z] 2%nat
      (example_params "uniform" "default" "default")
      [Ndarray [100]; Ndarray [43200];
       Ndarray2 [replicate 720 0 ++ replicate 1440 1 ++ replicate 720 0]]
    = (Ok 3%nat, h')
    /\ h' !! 3%nat = Some (Ndarray out)
    /\ Z.of_nat (length out) = 4%Z
    /\ qsum (take 4 out) == 1440 * (100 * 43200 / cnst.SEC_PER_HOUR).
Proof.
  destruct (shortwave_daily_total 0%nat 1%nat 2%nat [1%Z]
              (example_params "uniform" "default" "default")
              [Ndarray [100]; Ndarray [43200];
               Ndarray2 [replicate 720 0 ++ replicate 1440 1 ++ replicate 720 0]]
              [100] [43200]
              [replicate 720 0 ++ replicate 1440 1 ++ replicate 720 0] 4
              ltac:(reflexivity) ltac:(reflexivity) ltac:(reflexivity)
              ltac:(reflexivity) ltac:(reflexivity) ltac:(reflexivity)
              ltac:(reflexivity) ltac:(reflexivity) ltac:(reflexivity))
    as (h' & out & E & Hout & Hlen & Hsum).
  - constructor; [|constructor]. eexists. split; reflexivity.
  - exists h', out. split; [exact E|]. split; [exact Hout|]. split; [exact Hlen|].
    exact (Hsum 0%nat 1%Z _ 100 43200 eq_refl eq_refl eq_refl eq_refl).
Defined.

(** ** The indices of the rotated shape *)

(** Python's [int] of a number above -1 and below [n]. *)
Lemma py_int_range (x : Q) (n : Z) :
  (0 < n)%Z -> - (1) < x -> x < Z2Q n -> (0 <= py_int x < n)%Z.
Proof.
  destruct x as [a b]. unfold py_int, Z2Q, Qlt. simpl. intros Hn Hlo Hhi.
  destruct (Z.le_gt_cases 0 a) as [Ha | Ha].
  - rewrite Z.quot_div_nonneg by lia. split; [apply Z.div_pos; lia|].
    apply Z.div_lt_upper_bound; lia.
  - replace a with (- (- a))%Z by lia. rewrite Z.quot_opp_l by lia.
    rewrite Z.quot_small by lia. lia.
Qed.

(** For a rotation of at most a day either way, the indices that
    [shortwave] makes of [tinystep] are positions of a shape of 2880 fine
    steps. *)
Lemma tinystep_in_range (pr : params) :
  - (2880) <= tiny_offset pr <= 2880 ->
  Forall (fun i => (0 <= i < 2880)%Z) (tinystep_indices pr).
Proof.
  intros [Hlo Hhi]. unfold tinystep_indices, tinystep_wrapped.
  assert (HT : tiny_steps_per_day == 2880) by reflexivity.
  assert (HC : np_ceil tiny_steps_per_day = 2880%Z) by reflexivity.
  rewrite HC. generalize dependent tiny_steps_per_day. intros T HT _.
  apply Forall_fmap, Forall_fmap, Forall_fmap, Forall_fmap, Forall_forall.
  intros k Hk. apply elem_of_seqZ in Hk. simpl.
  assert (Hk0 : 0 <= Z2Q k) by (apply Z2Q_nonneg; lia).
  assert (Hk1 : Z2Q k <= 2879).
  { change 2879 with (Z2Q 2879). unfold Z2Q. rewrite <- Zle_Qle. lia. }
  apply (py_int_range _ 2880); [lia| |].
  - destruct (Qlt_bool (Z2Q k - tiny_offset pr) 0) eqn:E1.
    + apply Qlt_bool_iff in E1.
      destruct (Qlt_bool (T - 1) _) eqn:E2.
      * apply Qlt_bool_iff in E2. lra.
      * apply Qlt_bool_false in E2. lra.
    + apply Qlt_bool_false in E1.
      destruct (Qlt_bool (T - 1) _) eqn:E2.
      * apply Qlt_bool_iff in E2. lra.
      * apply Qlt_bool_false in E2. lra.
  - change (Z2Q 2880) with 2880.
    destruct (Qlt_bool (Z2Q k - tiny_offset pr) 0) eqn:E1.
    + apply Qlt_bool_iff in E1.
      destruct (Qlt_bool (T - 1) _) eqn:E2.
      * apply Qlt_bool_iff in E2. lra.
      * apply Qlt_bool_false in E2. lra.
    + apply Qlt_bool_false in E1.
      destruct (Qlt_bool (T - 1) _) eqn:E2.
      * apply Qlt_bool_iff in E2. lra.
      * apply Qlt_bool_false in E2. lra.
Qed.

Lemma take_indices_in_range (rad : list Q) (idx : list Z) :
  Forall (fun i => (0 <= i < Z.of_nat (length rad))%Z) idx ->
  exists x, take_indices rad idx = Ok x.
Proof.
  induction idx as [|i idx IH]; intros Hidx; [by exists []|].
  apply Forall_cons in Hidx as [Hi Hidx]. destruct (IH Hidx) as [xs Exs].
  destruct (lookup_lt_is_Some_2 rad (Z.to_nat i) ltac:(lia)) as [x Hx].
  exists (x :: xs). simpl. rewrite (getitem_ok rad i x ltac:(lia) Hx).
  cbn [rbind]. by rewrite Exs.
Qed.

(** The weights of a day exist for every such rotation. *)
Lemma day_weights_ok (table : list (list Q)) (day_of_year : list Z)
    (pr : params) (steps day doy : Z) (row : list Q) :
  (0 < time_step pr)%Z -> (1440 = steps * time_step pr)%Z ->
  - (2880) <= tiny_offset pr <= 2880 ->
  getitem day_of_year day = Ok doy -> getitem table (doy - 1) = Ok row ->
  length row = 2880%nat ->
  is_ok (day_weights table day_of_year pr day) = true.
Proof.
  intros Hts Hdiv Hoff Hdoy Hrow Hlen. unfold day_weights.
  rewrite Hdoy. cbn [rbind]. rewrite Hrow. cbn [rbind].
  destruct (take_indices_in_range row (tinystep_indices pr)) as [x Ex].
  { eapply Forall_impl; [exact (tinystep_in_range pr Hoff)|].
    intros i Hi. simpl in Hi. lia. }
  rewrite Ex. cbn [rbind].
  pose proof (take_indices_length _ _ _ Ex) as Lx.
  pose proof (length_tinystep_indices pr) as Lt.
  unfold chunk_sum, np_reshape. rewrite chunk_size_of_eq.
  destruct (Z.eqb_spec (2 * time_step pr) 0); [lia|].
  assert (Hrows : py_int (Z2Q (Z.of_nat (length x)) / Z2Q (2 * time_step pr)) = steps).
  { rewrite Lx, Lt. destruct (time_step pr) as [|p|p]; try lia.
    change (2 * Z.pos p)%Z with (Z.pos (p~0)).
    unfold py_int, Z2Q. cbn. rewrite ?Pos.mul_1_l, ?Z.mul_1_r.
    replace 2880%Z with (steps * Z.pos (p~0))%Z by lia.
    apply Z.quot_mul. lia. }
  rewrite Hrows.
  destruct (Z.leb_spec 0 steps); [|nia].
  destruct (Z.leb_spec 0 (2 * time_step pr)); [|lia].
  destruct (Z.eqb_spec (steps * (2 * time_step pr)) (Z.of_nat (length x)));
    [|lia].
  reflexivity.
Qed.

(** With a time step that divides the day, shapes of 2880 fine steps and a
    rotation of at most a day either way, [shortwave] returns: a new array
    of [steps] cells for each day, and the caller's objects as they
    were. *)
Theorem shortwave_returns (sw_rad daylength tiny_rad_fract : loc)
    (day_of_year : list Z) (pr : params) (h : heap) (sw dl : list Q)
    (table : list (list Q)) (steps : Z) :
  (0 < time_step pr)%Z -> (1440 = steps * time_step pr)%Z ->
  - (2880) <= tiny_offset pr <= 2880 ->
  h !! sw_rad = Some (Ndarray sw) -> h !! daylength = Some (Ndarray dl) ->
  length sw = length dl ->
  h !! tiny_rad_fract = Some (Ndarray2 table) ->
  length day_of_year = length sw ->
  Forall (fun doy => exists row, getitem table (doy - 1) = Ok row
                                 /\ length row = 2880%nat) day_of_year ->
  exists h' out,
    shortwave sw_rad daylength day_of_year tiny_rad_fract pr h
    = (Ok (length h), h')
    /\ take (length h) h' = h
    /\ h' !! length h = Some (Ndarray out)
    /\ Z.of_nat (length out) = (Z.of_nat (length sw) * steps)%Z.
Proof.
  intros Hts Hdiv Hoff Hsw Hdl Hlen Htab Hdoy Hrows.
  destruct (shortwave_run sw_rad daylength tiny_rad_fract day_of_year pr h sw dl
              table steps Hts Hdiv Hsw Hdl Hlen Htab) as (out & Erun & Hlo & _).
  { intros day Hday.
    destruct (lookup_lt_is_Some_2 day_of_year (Z.to_nat day) ltac:(lia))
      as [doy Ed].
    destruct (Forall_lookup_1 _ _ _ _ Hrows Ed) as (row & Er & Lr).
    apply (day_weights_ok table day_of_year pr steps day doy row); try done.
    apply getitem_ok; [lia | exact Ed]. }
  exists (sw_heap h out (tinystep_wrapped pr)), out.
  split; [exact Erun|]. split.
  { unfold sw_heap. rewrite <- app_assoc. by rewrite take_app_length. }
  split; [apply sw_heap_disaggrad | exact Hlo].
Qed.

(** A one-day record at a six-hour step, rotated by a quarter of a day. *)
Lemma shortwave_returns_witness :
  exists h' out,
    shortwave 0%nat 1%nat [1%Z] 2%nat
      {| time_step := 360; prec_type := "uniform"; lw_type := "default";
         lw_cloud := "default"; tmax_daylength_fraction := 67 # 100;
         theta_l := Some 720; theta_s := None |}
      [Ndarray [100]; Ndarray [43200];
       Ndarray2 [replicate 720 0 ++ replicate 1440 1 ++ replicate 720 0]]
    = (Ok 3%nat, h')
    /\ take 3 h' = [Ndarray [100]; Ndarray [43200];
                    Ndarray2 [replicate 720 0 ++ replicate 1440 1 ++ replicate 720 0]]
    /\ h' !! 3%nat = Some (Ndarray out)
    /\ Z.of_nat (length out) = 4%Z.
Proof.
  apply (shortwave_returns 0%nat 1%nat 2%nat [1%Z]
           {| time_step := 360; prec_type := "uniform"; lw_type := "default";
              lw_cloud := "default"; tmax_daylength_fraction := 67 # 100;
              theta_l := Some 720; theta_s := None |}
           [Ndarray [100]; Ndarray [43200];
            Ndarray2 [replicate 720 0 ++ replicate 1440 1 ++ replicate 720 0]]
           [100] [43200]
           [replicate 720 0 ++ replicate 1440 1 ++ replicate 720 0] 4);
    [reflexivity | reflexivity | split; vm_compute; discriminate | reflexivity
     | reflexivity | reflexivity | reflexivity | reflexivity |].
  constructor; [|constructor]. eexists. split; reflexivity.
Defined.

(** ** The values of a run of [disaggregate] *)

Lemma bind_inv {A B} (m : M A) (k : A -> M B) (h : heap) (b : B) (hf : heap) :
  bind m k h = (Ok b, hf) ->
  exists a h', m h = (Ok a, h') /\ k a h' = (Ok b, hf).
Proof. unfold bind. destruct (m h) as [[a|e] h']; [eauto | discriminate]. Qed.

Lemma lift_inv {A} (r : result A) (h : heap) (a : A) (h' : heap) :
  lift r h = (Ok a, h') -> r = Ok a /\ h' = h.
Proof. unfold lift. by intros [= -> ->]. Qed.

Lemma kwarg_inv {A} (name : string) (v : option A) (h : heap) (a : A) (h' : heap) :
  kwarg name v h = (Ok a, h') -> v = Some a /\ h' = h.
Proof. destruct v; simpl; [by intros [= -> ->] | discriminate]. Qed.

Lemma daily_getitem_inv (df : DailyFrame) (name : string) (h : heap) (a : loc)
    (h' : heap) :
  daily_getitem df name h = (Ok a, h') ->
  daily_columns df !! name = Some a /\ h' = h.
Proof.
  unfold daily_getitem. destruct (daily_columns df !! name); simpl;
    [by intros [= -> ->] | discriminate].
Qed.

Lemma load_inv (l : loc) (h : heap) (o : obj) (h' : heap) :
  load l h = (Ok o, h') -> h !! l = Some o /\ h' = h.
Proof.
  unfold load. destruct (h !! l); simpl; [by intros [= -> ->] | discriminate].
Qed.

Lemma load_ndarray_inv (l : loc) (h : heap) (a : list Q) (h' : heap) :
  load_ndarray l h = (Ok a, h') -> h !! l = Some (Ndarray a) /\ h' = h.
Proof.
  unfold load_ndarray. intros (o & h1 & E1 & E2)%bind_inv.
  apply load_inv in E1 as [E1 ->]. destruct o; try discriminate.
  by injection E2 as -> ->.
Qed.

Lemma load_frame_inv (l : loc) (h : heap) (f : list Z * list (string * list cell))
    (h' : heap) :
  load_frame l h = (Ok f, h') -> h !! l = Some (DataFrame f.1 f.2) /\ h' = h.
Proof.
  unfold load_frame. intros (o & h1 & E1 & E2)%bind_inv.
  apply load_inv in E1 as [E1 ->]. destruct o; try discriminate.
  by injection E2 as <- ->.
Qed.

Lemma store_inv (l : loc) (o : obj) (h : heap) (u : unit) (h' : heap) :
  store l o h = (Ok u, h') -> h' = <[l := o]> h.
Proof.
  unfold store. destruct (h !! l); simpl; [by intros [= _ <-] | discriminate].
Qed.

Lemma frame_setitem_inv (df : loc) (name : string) (value : column) (h : heap)
    (u : unit) (h' : heap) (idx : list Z) (cols : list (string * list cell)) :
  h !! df = Some (DataFrame idx cols) ->
  frame_setitem df name value h = (Ok u, h') ->
  h' = <[df := DataFrame idx (set_column name (column_cells idx value) cols)]> h
  /\ length (column_cells idx value) = length idx.
Proof.
  intros Hdf. unfold frame_setitem. rewrite (bind_ok _ _ _ _ _ (load_frame_ok _ _ _ _ Hdf)).
  cbn [fst snd]. destruct value as [v | sidx svals]; simpl.
  - destruct (Nat.eqb_spec (length v) (length idx)); [|discriminate].
    intros ->%store_inv. by rewrite length_map.
  - intros ->%store_inv. unfold reindex. by rewrite length_map.
Qed.

Lemma frame_getitem_inv (df : loc) (name : string) (h : heap) (c : list cell)
    (h' : heap) (idx : list Z) (cols : list (string * list cell)) :
  h !! df = Some (DataFrame idx cols) ->
  frame_getitem df name h = (Ok c, h') ->
  get_column name cols = Some c /\ h' = h.
Proof.
  intros Hdf. unfold frame_getitem.
  rewrite (bind_ok _ _ _ _ _ (load_frame_ok _ _ _ _ Hdf)). cbn [fst snd].
  destruct (get_column name cols); simpl; [by intros [= -> ->] | discriminate].
Qed.

Section Kept.
Variables (h0 : heap) (dates : list Z).

Lemma kept_length (cols : list (string * list cell)) (h : heap) :
  kept h0 dates cols h -> (S (length h0) <= length h)%nat.
Proof.
  unfold kept. intros Hh. apply (f_equal length) in Hh.
  rewrite length_take, length_app in Hh. cbn [length] in Hh. lia.
Qed.

Lemma kept_local (cols : list (string * list cell)) :
  local (S (length h0)) (kept h0 dates cols).
Proof.
  split.
  - apply kept_length.
  - intros h o Hh. pose proof (kept_length _ _ Hh). unfold kept in *.
    by rewrite take_app_le.
  - intros h l o Hh Hl. unfold kept in *. by rewrite take_insert_ge by lia.
Qed.

Lemma kept_frame (cols : list (string * list cell)) (h : heap) :
  kept h0 dates cols h -> h !! length h0 = Some (DataFrame dates cols).
Proof.
  intros Hh. unfold kept in Hh.
  rewrite <- (lookup_take_lt h (S (length h0))) by lia.
  rewrite Hh, lookup_app_r by lia. by rewrite Nat.sub_diag.
Qed.

Lemma kept_old (cols : list (string * list cell)) (h : heap) :
  kept h0 dates cols h -> take (length h0) h = h0.
Proof.
  unfold kept. intros Hh.
  replace (take (length h0) h) with (take (length h0) (take (S (length h0)) h))
    by (rewrite take_take; f_equal; lia).
  rewrite Hh. by rewrite take_app_length.
Qed.

Lemma kept_set (cols cols' : list (string * list cell)) (h : heap) :
  kept h0 dates cols h ->
  kept h0 dates cols' (<[length h0 := DataFrame dates cols']> h).
Proof.
  intros Hh. pose proof (kept_length _ _ Hh). unfold kept in *.
  rewrite take_insert_lt by lia. rewrite Hh.
  rewrite insert_app_r_alt by lia. by rewrite Nat.sub_diag.
Qed.

(** A routine that keeps every invariant of the objects below a bound
    keeps the caller's objects and the table. *)
Lemma kept_through {A} (m : M A) (cols : list (string * list cell)) (h : heap)
    (a : A) (h' : heap) (Q : A -> heap -> Prop) :
  hoare (kept h0 dates cols) m Q -> kept h0 dates cols h ->
  m h = (Ok a, h') -> kept h0 dates cols h' /\ Q a h'.
Proof.
  intros Hm Hh E. destruct (Hm h Hh) as [Hi Hq]. rewrite E in Hi, Hq.
  split; [exact Hi | by apply Hq].
Qed.
End Kept.

Lemma reads_old (h : heap) (col : loc) (x y : list Q) :
  reads h col x -> h !! col = Some (Ndarray y) -> x = y.
Proof.
  intros (h' & Ht & Hx) Hy.
  assert (h' !! col = Some (Ndarray y)).
  { rewrite <- Ht in Hy. apply lookup_take_Some in Hy as [Hy _]. exact Hy. }
  congruence.
Qed.

(** One step of a run: [df[name] = value], and [df[name]]. *)
Ltac frame_set E K L :=
  let Eset := fresh "Eset" in
  let hn := fresh "h" in
  apply bind_inv in E as ([] & hn & Eset & E);
  apply (frame_setitem_inv _ _ _ _ _ _ _ _ (kept_frame _ _ _ _ K)) in Eset
    as [-> L];
  eapply (kept_set _ _) in K;
  cbn [set_column column_cells String.eqb Ascii.eqb Bool.eqb] in K, L.
Ltac frame_get E K c :=
  let Eg := fresh "Eg" in
  let hn := fresh "h" in
  apply bind_inv in E as (c & hn & Eg & E);
  apply (frame_getitem_inv _ _ _ _ _ _ _ (kept_frame _ _ _ _ K)) in Eg as [Eg ->];
  cbn [get_column String.eqb Ascii.eqb Bool.eqb] in Eg;
  injection Eg as <-.

Section Trace.
Context `{Transcendental}.
Variables (df_daily : DailyFrame) (pr : params) (solar_geom : gmap string loc).
Variables (t_begin t_end : option (list Q)) (kwargs : gmap string loc).
Variable h : heap.

(** The values that a run of [disaggregate] computes on its way, and the
    table it returns: each column is what its routine returned on the
    columns before it. *)
Lemma disaggregate_trace (l : loc) (hf : heap) :
  disaggregate df_daily pr solar_geom t_begin t_end kwargs h = (Ok l, hf) ->
  exists (last_day first_day : Z) (dates : list Z) (v_sw v_temp v_vp : list Q)
         (times : list Q * list Q) (rh : list cell)
         (lw : list cell * list cell) (c_prec : column)
         (wind_part : list (string * list cell)),
    getitem (daily_index df_daily) (-1) = Ok last_day
    /\ getitem (daily_index df_daily) 0 = Ok first_day
    /\ date_range first_day (last_day + 1440 - time_step pr) (time_step pr)
       = Ok dates
    /\ (exists sw_col dayl_col trf disaggrad h2,
          daily_columns df_daily !! "shortwave" = Some sw_col
          /\ daily_columns df_daily !! "dayl" = Some dayl_col
          /\ solar_geom !! "tiny_rad_fract" = Some trf
          /\ shortwave sw_col dayl_col (daily_dayofyear df_daily) trf pr
               (h ++ [DataFrame dates []]) = (Ok disaggrad, h2)
          /\ h2 !! disaggrad = Some (Ndarray v_sw))
    /\ length v_sw = length dates
    /\ set_min_max_hour (map Some v_sw)
         (Z.of_nat (length (daily_index df_daily))) (Z2Q (time_step pr)) pr
       = Ok times
    /\ (exists c1 c2 t_min t_max,
          daily_columns df_daily !! "t_min" = Some c1 /\ reads h c1 t_min
          /\ daily_columns df_daily !! "t_max" = Some c2 /\ reads h c2 t_max
          /\ temp t_min t_max (Z.of_nat (length dates)) times.1 times.2
               (Z2Q (time_step pr)) t_begin t_end = Ok v_temp)
    /\ length v_temp = length dates
    /\ (exists c vp_daily,
          daily_columns df_daily !! "vapor_pressure" = Some c
          /\ reads h c vp_daily
          /\ vapor_pressure vp_daily (map Some v_temp) times.1
               (Z.of_nat (length dates)) (Z2Q (time_step pr)) = Ok v_vp)
    /\ length v_vp = length dates
    /\ relative_humidity (map Some v_vp) (map Some v_temp) = Ok rh
    /\ (exists c tskc,
          daily_columns df_daily !! "tskc" = Some c /\ reads h c tskc
          /\ longwave dates (map Some v_temp) (map Some v_vp)
               (daily_index df_daily) tskc pr = Ok lw)
    /\ (exists pc kw hk hk',
          daily_columns df_daily !! "prec" = Some pc
          /\ take (length h) hk = h
          /\ prec pc (daily_index df_daily) pr kw hk = (Ok c_prec, hk')
          /\ if String.eqb (upper (prec_type pr)) "TRIANGLE"
             then exists dur t_pk,
                 kwargs !! "dur" = Some dur /\ kwargs !! "t_pk" = Some t_pk
                 /\ kw = {| kw_dur := Some dur; kw_t_pk := Some t_pk;
                            kw_day_of_year := Some (daily_dayofyear df_daily);
                            kw_month_of_year := Some (daily_month df_daily) |}
             else kw = no_kwargs)
    /\ match daily_columns df_daily !! "wind" with
       | Some wc =>
           exists hk hk' c,
             take (length h) hk = h
             /\ wind wc (daily_index df_daily) (time_step pr) hk = (Ok c, hk')
             /\ wind_part = [("wind", column_cells dates c)]
       | None => wind_part = []
       end
    /\ take (length h) hf = h
    /\ hf !! l
       = Some (DataFrame dates
                 (map (fun c => (c.1, ffill c.2))
                    ([("shortwave", map Some v_sw); ("temp", map Some v_temp);
                      ("vapor_pressure", map Some v_vp);
                      ("rel_humid", reindex dates rh dates);
                      ("longwave", reindex dates lw.1 dates);
                      ("tskc", reindex dates lw.2 dates);
                      ("prec", column_cells dates c_prec)] ++ wind_part))).
Proof.
  unfold disaggregate. intros E.
  apply bind_inv in E as (last_day & h' & [E1 ->]%lift_inv & E).
  apply bind_inv in E as (first_day & h' & [E2 ->]%lift_inv & E).
  cbv zeta in E.
  apply bind_inv in E as (dates & h' & [E3 ->]%lift_inv & E).
  rewrite bind_alloc in E.
  assert (K : kept h dates [] (h ++ [DataFrame dates []])).
  { unfold kept. rewrite take_ge; [done|]. rewrite length_app. simpl. lia. }
  (* shortwave *)
  apply bind_inv in E as (sw_col & h' & [Esw ->]%daily_getitem_inv & E).
  apply bind_inv in E as (dayl_col & h' & [Edl ->]%daily_getitem_inv & E).
  apply bind_inv in E as (trf & h' & [Etr ->]%kwarg_inv & E).
  apply bind_inv in E as (disaggrad & h2 & Eshort & E).
  destruct (kept_through h dates _ _ _ _ _ _
              (hoare_shortwave _ _ (kept_local h dates []) _ _ _ _ _) K Eshort)
    as [K1 _]. clear K.
  apply bind_inv in E as (v_sw & h' & [Evsw ->]%load_ndarray_inv & E).
  frame_set E K1 Lsw.
  frame_get E K1 sw.
  apply bind_inv in E as (times & h' & [Etimes ->]%lift_inv & E).
  (* temp *)
  apply bind_inv in E as (c1 & h' & [Ec1 ->]%daily_getitem_inv & E).
  apply bind_inv in E as (t_min & h' & [Etmin ->]%load_ndarray_inv & E).
  apply bind_inv in E as (c2 & h' & [Ec2 ->]%daily_getitem_inv & E).
  apply bind_inv in E as (t_max & h' & [Etmax ->]%load_ndarray_inv & E).
  apply bind_inv in E as ([idx cols] & h' & [Eidx ->]%load_frame_inv & E).
  rewrite (kept_frame _ _ _ _ K1) in Eidx. cbn [fst snd] in Eidx, E.
  injection Eidx as <- <-.
  apply bind_inv in E as (v_temp & h' & [Etemp ->]%lift_inv & E).
  assert (R1 : reads h c1 t_min) by (eexists; split; [eapply kept_old; exact K1 | done]).
  assert (R2 : reads h c2 t_max) by (eexists; split; [eapply kept_old; exact K1 | done]).
  frame_set E K1 Ltemp.
  (* vapor pressure *)
  apply bind_inv in E as (c3 & h' & [Ec3 ->]%daily_getitem_inv & E).
  frame_get E K1 tmp.
  apply bind_inv in E as (vp_daily & h' & [Evpd ->]%load_ndarray_inv & E).
  assert (R3 : reads h c3 vp_daily) by (eexists; split; [eapply kept_old; exact K1 | done]).
  apply bind_inv in E as (v_vp & h' & [Evp ->]%lift_inv & E).
  frame_set E K1 Lvp.
  (* relative humidity *)
  frame_get E K1 vp.
  frame_get E K1 tmp.
  apply bind_inv in E as (rh & h' & [Erh ->]%lift_inv & E).
  frame_set E K1 Lrh.
  (* longwave *)
  frame_get E K1 tmp.
  frame_get E K1 vp.
  apply bind_inv in E as (c4 & h' & [Ec4 ->]%daily_getitem_inv & E).
  apply bind_inv in E as (tskc & h' & [Etskc ->]%load_ndarray_inv & E).
  assert (R4 : reads h c4 tskc) by (eexists; split; [eapply kept_old; exact K1 | done]).
  apply bind_inv in E as (lw & h' & [Elw ->]%lift_inv & E).
  frame_set E K1 Llw.
  frame_set E K1 Ltskc.
  (* precipitation *)
  apply bind_inv in E as ([] & hp & Eprec & E).
  assert (Hprec : exists c_prec pc kw hk hk',
             daily_columns df_daily !! "prec" = Some pc
             /\ take (length h) hk = h
             /\ prec pc (daily_index df_daily) pr kw hk = (Ok c_prec, hk')
             /\ (if String.eqb (upper (prec_type pr)) "TRIANGLE"
                 then exists dur t_pk,
                     kwargs !! "dur" = Some dur /\ kwargs !! "t_pk" = Some t_pk
                     /\ kw = {| kw_dur := Some dur; kw_t_pk := Some t_pk;
                                kw_day_of_year := Some (daily_dayofyear df_daily);
                                kw_month_of_year := Some (daily_month df_daily) |}
                 else kw = no_kwargs)
             /\ kept h dates
                  [("shortwave", map Some v_sw); ("temp", map Some v_temp);
                   ("vapor_pressure", map Some v_vp);
                   ("rel_humid", reindex dates rh dates);
                   ("longwave", reindex dates lw.1 dates);
                   ("tskc", reindex dates lw.2 dates);
                   ("prec", column_cells dates c_prec)] hp).
  { destruct (String.eqb (upper (prec_type pr)) "TRIANGLE").
    - apply bind_inv in Eprec as (dur & h' & [Edur ->]%kwarg_inv & Eprec).
      apply bind_inv in Eprec as (t_pk & h' & [Etpk ->]%kwarg_inv & Eprec).
      apply bind_inv in Eprec as (pc & h' & [Epc ->]%daily_getitem_inv & Eprec).
      apply bind_inv in Eprec as (c_prec & hk' & Erun & Eprec).
      pose proof (kept_old _ _ _ _ K1) as Hold.
      destruct (kept_through h dates _ _ _ _ _ _
                  (hoare_prec _ _ (kept_local h dates _) _ _ _ _) K1 Erun)
        as [K2 _].
      apply (frame_setitem_inv _ _ _ _ _ _ _ _ (kept_frame _ _ _ _ K2)) in Eprec
        as [-> _].
      eapply (kept_set h dates) in K2. cbn [set_column String.eqb Ascii.eqb Bool.eqb] in K2.
      eexists c_prec, pc, _, _, _. split; [done|]. split; [exact Hold|].
      split; [exact Erun|]. split; [by eexists _, _|]. exact K2.
    - apply bind_inv in Eprec as (pc & h' & [Epc ->]%daily_getitem_inv & Eprec).
      apply bind_inv in Eprec as (c_prec & hk' & Erun & Eprec).
      pose proof (kept_old _ _ _ _ K1) as Hold.
      destruct (kept_through h dates _ _ _ _ _ _
                  (hoare_prec _ _ (kept_local h dates _) _ _ _ _) K1 Erun)
        as [K2 _].
      apply (frame_setitem_inv _ _ _ _ _ _ _ _ (kept_frame _ _ _ _ K2)) in Eprec
        as [-> _].
      eapply (kept_set h dates) in K2. cbn [set_column String.eqb Ascii.eqb Bool.eqb] in K2.
      eexists c_prec, pc, _, _, _. split; [done|]. split; [exact Hold|].
      split; [exact Erun|]. split; [done|]. exact K2. }
  destruct Hprec as (c_prec & pc & kw & hk & hk' & Epc & Hold & Erun & Hkw & K2).
  clear K1 Eprec.
  (* wind *)
  apply bind_inv in E as ([] & hw & Ewind & E).
  assert (Hwind : exists wind_part,
             match daily_columns df_daily !! "wind" with
             | Some wc =>
                 exists hk hk' c,
                   take (length h) hk = h
                   /\ wind wc (daily_index df_daily) (time_step pr) hk = (Ok c, hk')
                   /\ wind_part = [("wind", column_cells dates c)]
             | None => wind_part = []
             end
             /\ kept h dates
                  ([("shortwave", map Some v_sw); ("temp", map Some v_temp);
                    ("vapor_pressure", map Some v_vp);
                    ("rel_humid", reindex dates rh dates);
                    ("longwave", reindex dates lw.1 dates);
                    ("tskc", reindex dates lw.2 dates);
                    ("prec", column_cells dates c_prec)] ++ wind_part) hw).
  { destruct (daily_columns df_daily !! "wind") as [wc|].
    - apply bind_inv in Ewind as (c & hw' & Ew & Ewind).
      pose proof (kept_old _ _ _ _ K2) as Hold2.
      destruct (kept_through h dates _ _ _ _ _ _
                  (hoare_wind _ _ (kept_local h dates _) _ _ _) K2 Ew)
        as [K3 _].
      apply (frame_setitem_inv _ _ _ _ _ _ _ _ (kept_frame _ _ _ _ K3)) in Ewind
        as [-> _].
      eapply (kept_set h dates) in K3. cbn [set_column String.eqb Ascii.eqb Bool.eqb] in K3.
      eexists. split; [eexists _, _, _; split; [exact Hold2|]; split; [exact Ew | reflexivity]|].
      exact K3.
    - injection Ewind as <-. exists []. split; [done|]. by rewrite app_nil_r. }
  destruct Hwind as (wind_part & Hwind & K3). clear K2 Ewind.
  (* the table returned *)
  apply bind_inv in E as ([idx cols] & h' & [Eidx ->]%load_frame_inv & E).
  rewrite (kept_frame _ _ _ _ K3) in Eidx. cbn [fst snd] in Eidx, E.
  injection Eidx as <- <-.
  unfold alloc in E. injection E as <- <-.
  pose proof (kept_length _ _ _ _ K3) as Hlen.
  exists last_day, first_day, dates, v_sw, v_temp, v_vp, times, rh, lw, c_prec,
    wind_part.
  split; [exact E1|]. split; [exact E2|]. split; [exact E3|].
  split; [by exists sw_col, dayl_col, trf, disaggrad, h2|].
  split; [by rewrite length_map in Lsw|].
  split; [exact Etimes|].
  split; [by exists c1, c2, t_min, t_max|].
  split; [by rewrite length_map in Ltemp|].
  split; [by exists c3, vp_daily|].
  split; [by rewrite length_map in Lvp|].
  split; [exact Erh|].
  split; [by exists c4, tskc|].
  split; [by exists pc, kw, hk, hk'|].
  split; [exact Hwind|].
  split.
  - rewrite take_app_le by lia. by eapply kept_old.
  - rewrite lookup_app_r by lia. by rewrite Nat.sub_diag.
Qed.
End Trace.

(** ** The table that [disaggregate] returns *)

Lemma date_range_inv (start stop freq : Z) (dates : list Z) :
  date_range start stop freq = Ok dates ->
  (0 < freq)%Z /\ dates = stamps start freq ((stop - start) `div` freq + 1).
Proof.
  unfold date_range, stamps. destruct (Z.leb_spec freq 0); [discriminate|].
  by intros [= <-].
Qed.

(** The grid of the output table for a record of [n] consecutive days. *)
Lemma run_dates (first ts steps n last_day first_day : Z) (dates : list Z) :
  (0 < ts)%Z -> (1440 = steps * ts)%Z ->
  getitem (stamps first 1440 n) (-1) = Ok last_day ->
  getitem (stamps first 1440 n) 0 = Ok first_day ->
  date_range first_day (last_day + 1440 - ts) ts = Ok dates ->
  (1 <= n)%Z /\ dates = stamps first ts (n * steps).
Proof.
  intros Hts Hdiv Hlast Hfirst Hdates.
  unfold getitem in Hfirst, Hlast. rewrite length_stamps in Hlast.
  change (0 <? 0)%Z with false in Hfirst.
  change (-1 <? 0)%Z with true in Hlast. cbv iota in Hfirst, Hlast.
  change (Z.to_nat 0) with 0%nat in Hfirst.
  assert (Hn : (1 <= n)%Z).
  { destruct (stamps first 1440 n !! 0%nat) eqn:E; [|discriminate].
    apply lookup_lt_Some in E. rewrite length_stamps in E. lia. }
  split; [exact Hn|].
  destruct (Z.ltb_spec (Z.of_nat (Z.to_nat n) + -1) 0); [lia|].
  rewrite lookup_stamps in Hfirst by lia. rewrite lookup_stamps in Hlast by lia.
  injection Hfirst as <-. injection Hlast as <-.
  apply date_range_inv in Hdates as [_ ->]. f_equal; [lia|].
  match goal with
  | |- (?a `div` ts + 1)%Z = _ =>
      replace a with ((n * steps - 1) * ts)%Z by (rewrite Hdiv; nia)
  end.
  rewrite Z.div_mul by lia. lia.
Qed.

Lemma reindex_same (first step m : Z) (vals : list cell) :
  (0 < step)%Z -> length vals = Z.to_nat m ->
  reindex (stamps first step m) vals (stamps first step m) = vals.
Proof.
  intros Hstep Hlen. apply list_eq. intros i. unfold reindex.
  rewrite list_lookup_fmap.
  destruct (Nat.lt_ge_cases i (Z.to_nat m)) as [Hi | Hi].
  - rewrite lookup_stamps by lia. simpl. rewrite series_at_stamps by lia.
    destruct (lookup_lt_is_Some_2 vals i ltac:(lia)) as [c ->]. done.
  - rewrite (lookup_ge_None_2 (stamps first step m)) by (rewrite length_stamps; lia).
    by rewrite lookup_ge_None_2 by lia.
Qed.

Lemma ffill_from_whole (prev : cell) (v : list Q) :
  ffill_from prev (map Some v) = map Some v.
Proof.
  revert prev. induction v as [|x v IH]; intros prev; simpl; [done|].
  by rewrite IH.
Qed.

Lemma ffill_from_twice (prev : cell) (col : list cell) :
  ffill_from prev (ffill_from prev col) = ffill_from prev col.
Proof.
  revert prev. induction col as [|[x|] col IH]; intros prev; simpl; [done| |].
  - by rewrite IH.
  - destruct prev as [y|]; simpl; by rewrite IH.
Qed.

(** An aligned series holds, at a stamp of the series, one of its values. *)
Lemma series_at_found {A} (idx : list Z) (vals : list A) (t : Z) :
  length vals = length idx -> t ∈ idx ->
  exists v, series_at idx vals t = Some v /\ v ∈ vals.
Proof.
  revert vals. induction idx as [|i idx IH]; intros [|v vals] Hl Ht;
    try (simpl in Hl; lia).
  - by apply elem_of_nil in Ht.
  - simpl. destruct (Z.eqb_spec i t) as [->|Hne].
    + exists v. split; [done | by left].
    + apply elem_of_cons in Ht as [->|Ht]; [done|].
      destruct (IH vals ltac:(simpl in Hl; lia) Ht) as (w & Hw & Hin).
      exists w. split; [done | by right].
Qed.

Section LongwaveWhole.
Context `{Transcendental}.

(** What [longwave] returns on whole columns. *)
Lemma longwave_whole (idx : list Z) (air vp : list cell) (tidx : list Z)
    (tskc : list Q) (pr : params) (lw : list cell * list cell) :
  longwave idx air vp tidx tskc pr = Ok lw ->
  length air = length idx -> length vp = length idx ->
  exists clear cloud,
    emissivity_calc (upper (lw_type pr)) = Some clear
    /\ cloud_calc (upper (lw_cloud pr)) = Some cloud
    /\ lw.2 = ffill (reindex tidx (map Some tskc) idx)
    /\ lw.1 = zip_with (cell2 (fun e t => e * cnst.STEFAN_B * t ^ 4))
                (zip_with (cell2 cloud) lw.2
                   (zip_with (cell2 clear)
                      (map (fmap (fun t => t + cnst.KELVIN)) air)
                      (map (fmap (fun v => v * 10)) vp)))
                (map (fmap (fun t => t + cnst.KELVIN)) air).
Proof.
  intros E La Lv. unfold longwave, lookup_method in E. cbv zeta in E.
  destruct (emissivity_calc _) as [clear|] eqn:Eclear; [|discriminate].
  cbn [rbind] in E.
  assert (Lc : length (ffill (reindex tidx (map Some tskc) idx)) = length idx).
  { unfold ffill, reindex. by rewrite length_ffill_from, length_map. }
  rewrite np_binop_same_length in E by (rewrite !length_map; lia).
  cbn [rbind] in E.
  destruct (cloud_calc _) as [cloud|] eqn:Ecloud; [|discriminate].
  cbn [rbind] in E.
  rewrite np_binop_same_length in E
    by (rewrite length_zip_with, !length_map; lia).
  cbn [rbind] in E.
  rewrite np_binop_same_length in E
    by (rewrite !length_zip_with, !length_map; lia).
  cbn [rbind] in E. injection E as <-. by exists clear, cloud.
Qed.
End LongwaveWhole.

Lemma prec_UNIFORM_run (prec : loc) (h : heap) (p : list Q) (first ts steps : Z) :
  h !! prec = Some (Ndarray p) -> (1 <= length p)%nat ->
  (0 < ts)%Z -> (1440 = steps * ts)%Z ->
  prec_UNIFORM prec (stamps first 1440 (Z.of_nat (length p))) ts h
  = (Ok (ColSeries
           (stamps first ts ((Z.of_nat (length p) - 1) * steps + 1))
           (ffill (reindex (stamps first 1440 (Z.of_nat (length p)))
                     (map Some (map (fun x => x * (Z2Q ts / (cnst.MIN_PER_HOUR * cnst.HOURS_PER_DAY))) p))
                     (stamps first ts ((Z.of_nat (length p) - 1) * steps + 1))))),
     h).
Proof.
  intros Hp Hn Hts Hdiv.
  pose proof (resample_daily first ts steps
                (map (fun x => x * (Z2Q ts / (cnst.MIN_PER_HOUR * cnst.HOURS_PER_DAY))) p)
                Hts Hdiv ltac:(rewrite length_map; lia)) as Er.
  rewrite length_map in Er.
  unfold prec_UNIFORM. rewrite (bind_ok _ _ _ _ _ (load_ndarray_ok _ _ _ Hp)).
  cbv zeta. unfold lift at 1. rewrite Er.
  erewrite bind_ok by reflexivity. reflexivity.
Qed.

Lemma wind_run (wind_col : loc) (h : heap) (w : list Q) (first ts steps : Z) :
  h !! wind_col = Some (Ndarray w) -> (1 <= length w)%nat ->
  (0 < ts)%Z -> (1440 = steps * ts)%Z ->
  wind wind_col (stamps first 1440 (Z.of_nat (length w))) ts h
  = (Ok (ColSeries
           (stamps first ts ((Z.of_nat (length w) - 1) * steps + 1))
           (ffill (reindex (stamps first 1440 (Z.of_nat (length w))) (map Some w)
                     (stamps first ts ((Z.of_nat (length w) - 1) * steps + 1))))),
     h).
Proof.
  intros Hw Hn Hts Hdiv.
  pose proof (resample_daily first ts steps w Hts Hdiv Hn) as Er.
  unfold wind. rewrite (bind_ok _ _ _ _ _ (load_ndarray_ok _ _ _ Hw)).
  unfold lift at 1. rewrite Er.
  erewrite bind_ok by reflexivity. reflexivity.
Qed.

Lemma ffill_from_defined_all (prev : cell) (col : list cell) :
  Forall is_Some col -> ffill_from prev col = col.
Proof.
  revert prev. induction col as [|c col IH]; intros prev Hc; [done|].
  apply Forall_cons in Hc as [[x ->] Hc]. simpl. by rewrite IH.
Qed.

Lemma take_lookup_old (h hk : heap) (l : loc) (o : obj) :
  take (length h) hk = h -> h !! l = Some o -> hk !! l = Some o.
Proof.
  intros Ht Hl. rewrite <- Ht in Hl.
  by apply lookup_take_Some in Hl as [Hl _].
Qed.

Section OutputTable2.
Context `{Transcendental}.
Variables (df_daily : DailyFrame) (pr : params) (solar_geom : gmap string loc).
Variables (t_begin t_end : option (list Q)) (kwargs : gmap string loc).
Variable h : heap.

(** The table that [disaggregate] returns has the columns [shortwave],
    [temp], [vapor_pressure], [rel_humid], [longwave], [tskc] and [prec],
    in this order, followed by [wind] when the daily table has a [wind]
    column, and no other. *)
Theorem output_columns (l : loc) :
  (disaggregate df_daily pr solar_geom t_begin t_end kwargs h).1 = Ok l ->
  exists idx cols,
    (disaggregate df_daily pr solar_geom t_begin t_end kwargs h).2 !! l
    = Some (DataFrame idx cols)
    /\ map fst cols
       = ["shortwave"; "temp"; "vapor_pressure"; "rel_humid"; "longwave";
          "tskc"; "prec"]
         ++ match daily_columns df_daily !! "wind" with
            | Some _ => ["wind"]
            | None => []
            end.
Proof.
  intros Hrun. destruct (disaggregate df_daily pr solar_geom t_begin t_end kwargs h)
    as [r hf] eqn:E. simpl in Hrun. subst r.
  apply disaggregate_trace in E
    as (last_day & first_day & dates & v_sw & v_temp & v_vp & times & rh & lw
        & c_prec & wind_part & _ & _ & _ & _ & _ & _ & _ & _ & _ & _ & _ & _ & _
        & Hwind & _ & Hat).
  eexists _, _. split; [exact Hat|].
  rewrite map_map, map_app. cbn [map fst app]. do 7 f_equal.
  destruct (daily_columns df_daily !! "wind").
  - destruct Hwind as (_ & _ & c & _ & _ & ->). reflexivity.
  - by subst wind_part.
Qed.

(** With the uniform method, on a record of consecutive days and a time
    step that divides the day into [steps] steps, the column [prec] of
    the table that [disaggregate] returns holds, at every step of every
    day, the day's total times [time_step / 1440]. *)
Theorem output_prec_uniform (l : loc) (first steps : Z) (pc : loc)
    (p : list Q) :
  (disaggregate df_daily pr solar_geom t_begin t_end kwargs h).1 = Ok l ->
  upper (prec_type pr) = "UNIFORM" ->
  (0 < time_step pr)%Z -> (1440 = steps * time_step pr)%Z ->
  daily_index df_daily = stamps first 1440 (Z.of_nat (length p)) ->
  daily_columns df_daily !! "prec" = Some pc -> h !! pc = Some (Ndarray p) ->
  exists idx cols c,
    (disaggregate df_daily pr solar_geom t_begin t_end kwargs h).2 !! l
    = Some (DataFrame idx cols)
    /\ idx = stamps first (time_step pr) (Z.of_nat (length p) * steps)
    /\ get_column "prec" cols = Some c
    /\ forall (d r : nat) (p_d : Q),
         p !! d = Some p_d -> (Z.of_nat r < steps)%Z ->
         c !! (d * Z.to_nat steps + r)%nat
         = Some (Some (p_d * (Z2Q (time_step pr)
                              / (cnst.MIN_PER_HOUR * cnst.HOURS_PER_DAY)))).
Proof.
  intros Hrun Hname Hts Hdiv Hidx Hpc Hp.
  destruct (disaggregate df_daily pr solar_geom t_begin t_end kwargs h)
    as [r hf] eqn:E. simpl in Hrun. subst r.
  apply disaggregate_trace in E
    as (last_day & first_day & dates & v_sw & v_temp & v_vp & times & rh & lw
        & c_prec & wind_part & E1 & E2 & E3 & _ & _ & _ & _ & _ & _ & _ & _ & _
        & Hprec & _ & _ & Hat).
  rewrite Hidx in E1, E2.
  destruct (run_dates _ _ _ _ _ _ _ Hts Hdiv E1 E2 E3) as [Hn ->].
  destruct Hprec as (pc' & kw & hk & hk' & Epc & Hold & Erun & Hkw).
  assert (pc' = pc) as -> by congruence.
  rewrite Hname in Hkw. simpl in Hkw. subst kw.
  unfold prec in Erun. cbv zeta in Erun. rewrite Hname in Erun.
  simpl in Erun. rewrite Hidx in Erun.
  rewrite (prec_UNIFORM_run pc hk p first (time_step pr) steps
             (take_lookup_old _ _ _ _ Hold Hp) ltac:(lia) Hts Hdiv) in Erun.
  injection Erun as <- _.
  eexists _, _, _. split; [exact Hat|]. split; [reflexivity|].
  split; [reflexivity|].
  intros d r p_d Hd Hr. cbn [column_cells snd].
  pose proof (aligned_held first (time_step pr) steps
                (map (fun x => x * (Z2Q (time_step pr)
                                    / (cnst.MIN_PER_HOUR * cnst.HOURS_PER_DAY))) p)
                Hts Hdiv ltac:(rewrite length_map; lia) d r
                (p_d * (Z2Q (time_step pr)
                        / (cnst.MIN_PER_HOUR * cnst.HOURS_PER_DAY)))) as Hh.
  rewrite length_map in Hh. apply Hh; [|done].
  by rewrite list_lookup_fmap, Hd.
Qed.

(** On a record of consecutive days with a [wind] column, the column
    [wind] of the table that [disaggregate] returns holds the wind of a
    day at every step of the day. *)
Theorem output_wind_held (l : loc) (first steps : Z) (wc : loc) (w : list Q) :
  (disaggregate df_daily pr solar_geom t_begin t_end kwargs h).1 = Ok l ->
  (0 < time_step pr)%Z -> (1440 = steps * time_step pr)%Z ->
  daily_index df_daily = stamps first 1440 (Z.of_nat (length w)) ->
  daily_columns df_daily !! "wind" = Some wc -> h !! wc = Some (Ndarray w) ->
  exists idx cols c,
    (disaggregate df_daily pr solar_geom t_begin t_end kwargs h).2 !! l
    = Some (DataFrame idx cols)
    /\ idx = stamps first (time_step pr) (Z.of_nat (length w) * steps)
    /\ get_column "wind" cols = Some c
    /\ forall (d r : nat) (w_d : Q),
         w !! d = Some w_d -> (Z.of_nat r < steps)%Z ->
         c !! (d * Z.to_nat steps + r)%nat = Some (Some w_d).
Proof.
  intros Hrun Hts Hdiv Hidx Hwc Hw.
  destruct (disaggregate df_daily pr solar_geom t_begin t_end kwargs h)
    as [r hf] eqn:E. simpl in Hrun. subst r.
  apply disaggregate_trace in E
    as (last_day & first_day & dates & v_sw & v_temp & v_vp & times & rh & lw
        & c_prec & wind_part & E1 & E2 & E3 & _ & _ & _ & _ & _ & _ & _ & _ & _
        & _ & Hwind & _ & Hat).
  rewrite Hidx in E1, E2.
  destruct (run_dates _ _ _ _ _ _ _ Hts Hdiv E1 E2 E3) as [Hn ->].
  rewrite Hwc in Hwind. destruct Hwind as (hk & hk' & c & Hold & Erun & ->).
  rewrite Hidx in Erun.
  rewrite (wind_run wc hk w first (time_step pr) steps
             (take_lookup_old _ _ _ _ Hold Hw) ltac:(lia) Hts Hdiv) in Erun.
  injection Erun as <- _.
  eexists _, _, _. split; [exact Hat|]. split; [reflexivity|].
  split; [reflexivity|].
  intros d r w_d Hd Hr. cbn [column_cells snd].
  by apply (aligned_held first (time_step pr) steps w Hts Hdiv ltac:(lia)).
Qed.

(** On a record of consecutive days, the column [tskc] of the table that
    [disaggregate] returns holds the cloud fraction of a day at every step
    of the day. *)
Theorem output_cloud_held (l : loc) (first steps : Z) (tc : loc)
    (tskc : list Q) :
  (disaggregate df_daily pr solar_geom t_begin t_end kwargs h).1 = Ok l ->
  (0 < time_step pr)%Z -> (1440 = steps * time_step pr)%Z ->
  daily_index df_daily = stamps first 1440 (Z.of_nat (length tskc)) ->
  daily_columns df_daily !! "tskc" = Some tc -> h !! tc = Some (Ndarray tskc) ->
  exists idx cols c,
    (disaggregate df_daily pr solar_geom t_begin t_end kwargs h).2 !! l
    = Some (DataFrame idx cols)
    /\ get_column "tskc" cols = Some c
    /\ forall (d r : nat) (c_d : Q),
         tskc !! d = Some c_d -> (Z.of_nat r < steps)%Z ->
         c !! (d * Z.to_nat steps + r)%nat = Some (Some c_d).
Proof.
  intros Hrun Hts Hdiv Hidx Htc Htskc.
  destruct (disaggregate df_daily pr solar_geom t_begin t_end kwargs h)
    as [r hf] eqn:E. simpl in Hrun. subst r.
  apply disaggregate_trace in E
    as (last_day & first_day & dates & v_sw & v_temp & v_vp & times & rh & lw
        & c_prec & wind_part & E1 & E2 & E3 & _ & _ & _ & _ & Ltemp & _ & Lvp
        & _ & Hlw & _ & _ & _ & Hat).
  rewrite Hidx in E1, E2.
  destruct (run_dates _ _ _ _ _ _ _ Hts Hdiv E1 E2 E3) as [Hn ->].
  destruct Hlw as (tc' & tskc' & Etc & Hreads & Elw).
  assert (tc' = tc) as -> by congruence.
  pose proof (reads_old _ _ _ _ Hreads Htskc) as ->.
  apply longwave_whole in Elw as (clear & cloud & _ & _ & Ecover & _);
    [|by rewrite length_map..].
  rewrite Hidx in Ecover.
  eexists _, _, _. split; [exact Hat|]. split; [reflexivity|].
  intros d r c_d Hd Hr. cbn [snd]. rewrite Ecover.
  rewrite reindex_same;
    [|done|unfold ffill, reindex; by rewrite length_ffill_from, length_map, length_stamps].
  unfold ffill at 1. unfold ffill at 1. rewrite ffill_from_twice.
  apply (reindex_daily_held first (time_step pr) steps (Z.of_nat (length tskc))
           tskc Hts Hdiv eq_refl); [done | done |].
  pose proof (lookup_lt_Some _ _ _ Hd). nia.
Qed.

(** Every cell of the column [rel_humid] of the table that [disaggregate]
    returns is defined and at most 100. *)
Theorem output_humidity_range (l : loc) :
  (disaggregate df_daily pr solar_geom t_begin t_end kwargs h).1 = Ok l ->
  exists idx cols c,
    (disaggregate df_daily pr solar_geom t_begin t_end kwargs h).2 !! l
    = Some (DataFrame idx cols)
    /\ get_column "rel_humid" cols = Some c
    /\ length c = length idx
    /\ Forall (fun x : cell => exists r, x = Some r /\ r <= cnst.MAX_PERCENT) c.
Proof.
  intros Hrun. destruct (disaggregate df_daily pr solar_geom t_begin t_end kwargs h)
    as [r hf] eqn:E. simpl in Hrun. subst r.
  apply disaggregate_trace in E
    as (last_day & first_day & dates & v_sw & v_temp & v_vp & times & rh & lw
        & c_prec & wind_part & _ & _ & _ & _ & _ & _ & _ & Ltemp & _ & Lvp
        & Erh & _ & _ & _ & _ & Hat).
  unfold relative_humidity in Erh.
  rewrite np_binop_same_length in Erh by (rewrite !length_map; lia).
  cbn [rbind] in Erh. injection Erh as <-.
  set (rh := map _ (zip_with _ _ _)) in *.
  assert (Lrh : length rh = length dates).
  { unfold rh. rewrite length_map, length_zip_with, !length_map. lia. }
  assert (Hrh : Forall (fun x : cell => exists r, x = Some r /\ r <= cnst.MAX_PERCENT) rh).
  { unfold rh. apply Forall_fmap, Forall_forall. intros [x|] _; simpl.
    - destruct (Qlt_bool x cnst.MAX_PERCENT) eqn:Ex.
      + exists x. split; [done|]. apply Qlt_bool_iff in Ex. lra.
      + exists cnst.MAX_PERCENT. split; [done|]. lra.
    - exists cnst.MAX_PERCENT. split; [done|]. lra. }
  assert (Hre : Forall (fun x : cell => exists r, x = Some r /\ r <= cnst.MAX_PERCENT)
                  (reindex dates rh dates)).
  { unfold reindex. apply Forall_fmap, Forall_forall. intros t Ht. simpl.
    destruct (series_at_found dates rh t Lrh Ht) as (v & -> & Hv).
    simpl. exact (proj1 (Forall_forall _ _) Hrh v Hv). }
  assert (Hcol : ffill (reindex dates rh dates) = reindex dates rh dates).
  { apply ffill_from_defined_all.
    eapply Forall_impl; [exact Hre|]. intros x (y & -> & _). by eexists. }
  eexists _, _, _. split; [exact Hat|]. split; [reflexivity|].
  cbn [snd]. rewrite Hcol. split; [|exact Hre].
  unfold reindex. by rewrite length_map.
Qed.

(** The table that [disaggregate] returns holds no supersaturated step:
    its vapor pressure is at most the saturation pressure
    [svp t / MBAR_PER_BAR] of the temperature [t] of the same row. *)
Theorem output_below_saturation (l : loc) :
  (disaggregate df_daily pr solar_geom t_begin t_end kwargs h).1 = Ok l ->
  exists idx cols ct cv,
    (disaggregate df_daily pr solar_geom t_begin t_end kwargs h).2 !! l
    = Some (DataFrame idx cols)
    /\ get_column "temp" cols = Some ct
    /\ get_column "vapor_pressure" cols = Some cv
    /\ length ct = length idx /\ length cv = length idx
    /\ forall (k : nat) (t v : Q),
         ct !! k = Some (Some t) -> cv !! k = Some (Some v) ->
         v <= svp t / cnst.MBAR_PER_BAR.
Proof.
  intros Hrun. destruct (disaggregate df_daily pr solar_geom t_begin t_end kwargs h)
    as [r hf] eqn:E. simpl in Hrun. subst r.
  apply disaggregate_trace in E
    as (last_day & first_day & dates & v_sw & v_temp & v_vp & times & rh & lw
        & c_prec & wind_part & _ & _ & _ & _ & _ & _ & _ & Ltemp & Hvp & Lvp
        & _ & _ & _ & _ & _ & Hat).
  destruct Hvp as (c3 & vp_daily & _ & _ & Evp).
  unfold vapor_pressure in Evp.
  destruct (scipy.interp1d _ _) as [interp|]; [|discriminate].
  cbn [rbind] in Evp.
  rewrite np_binop_same_length in Evp
    by (rewrite !length_map, length_seqZ; lia).
  injection Evp as <-.
  eexists _, _, _, _. split; [exact Hat|]. split; [reflexivity|].
  split; [reflexivity|]. cbn [snd]. unfold ffill. rewrite !ffill_from_whole.
  split; [by rewrite length_map|].
  split; [rewrite length_map, length_zip_with, !length_map, length_seqZ; lia|].
  intros k t v Ht Hv. rewrite list_lookup_fmap in Ht, Hv.
  destruct (v_temp !! k) as [t'|] eqn:Et; [|done]. injection Ht as ->.
  destruct (zip_with _ _ _ !! k) as [v'|] eqn:Ev; [|done]. injection Hv as ->.
  apply lookup_zip_with_Some in Ev as (s & w & -> & Hs & Hw).
  rewrite !list_lookup_fmap, Et in Hs. injection Hs as <-. apply clamp_le.
Qed.

(** In the table that [disaggregate] returns, the longwave radiation of
    a row is computed from the temperature [t], the vapor pressure [v]
    and the cloud fraction [c] of the same row: the clear-sky emissivity
    of [t + KELVIN] and [10 v], adjusted for the cloud fraction, times the
    Stefan-Boltzmann constant and the fourth power of [t + KELVIN]. *)
Theorem output_longwave (l : loc) (clear cloud : Q -> Q -> Q) :
  (disaggregate df_daily pr solar_geom t_begin t_end kwargs h).1 = Ok l ->
  emissivity_calc (upper (lw_type pr)) = Some clear ->
  cloud_calc (upper (lw_cloud pr)) = Some cloud ->
  exists idx cols ct cv cc cl,
    (disaggregate df_daily pr solar_geom t_begin t_end kwargs h).2 !! l
    = Some (DataFrame idx cols)
    /\ get_column "temp" cols = Some ct
    /\ get_column "vapor_pressure" cols = Some cv
    /\ get_column "tskc" cols = Some cc
    /\ get_column "longwave" cols = Some cl
    /\ forall (k : nat) (t v c : Q),
         ct !! k = Some (Some t) -> cv !! k = Some (Some v) ->
         cc !! k = Some (Some c) ->
         cl !! k
         = Some (Some (cloud c (clear (t + cnst.KELVIN) (v * 10))
                       * cnst.STEFAN_B * (t + cnst.KELVIN) ^ 4)).
Proof.
  intros Hrun Hclear Hcloud.
  destruct (disaggregate df_daily pr solar_geom t_begin t_end kwargs h)
    as [r hf] eqn:E. simpl in Hrun. subst r.
  apply disaggregate_trace in E
    as (last_day & first_day & dates & v_sw & v_temp & v_vp & times & rh & lw
        & c_prec & wind_part & _ & _ & E3 & _ & _ & _ & _ & Ltemp & _ & Lvp
        & _ & Hlw & _ & _ & _ & Hat).
  apply date_range_inv in E3 as [Hts Edates].
  destruct Hlw as (tc & tskc & _ & _ & Elw).
  apply longwave_whole in Elw as (clear' & cloud' & Eclear & Ecloud & Ecover & Elw);
    [|by rewrite length_map..].
  assert (clear' = clear) as -> by congruence.
  assert (cloud' = cloud) as -> by congruence.
  assert (Lcover : length lw.2 = length dates).
  { rewrite Ecover. unfold ffill, reindex. by rewrite length_ffill_from, length_map. }
  assert (Llw : length lw.1 = length dates).
  { rewrite Elw. rewrite !length_zip_with, !length_map. lia. }
  assert (Hc2 : ffill (reindex dates lw.2 dates) = lw.2).
  { rewrite Edates in Lcover |- *. rewrite length_stamps in Lcover.
    rewrite reindex_same by done. rewrite Ecover. unfold ffill.
    apply ffill_from_twice. }
  assert (Hc1 : reindex dates lw.1 dates = lw.1).
  { rewrite Edates in Llw |- *. rewrite length_stamps in Llw.
    by rewrite reindex_same. }
  eexists _, _, _, _, _, _. split; [exact Hat|]. split; [reflexivity|].
  split; [reflexivity|]. split; [reflexivity|]. split; [reflexivity|].
  cbn [snd]. rewrite Hc1, Hc2. unfold ffill at 1 2. rewrite !ffill_from_whole.
  intros k t v c Ht Hv Hc. rewrite list_lookup_fmap in Ht, Hv.
  destruct (v_temp !! k) as [t'|] eqn:Et; [|done]. injection Ht as ->.
  destruct (v_vp !! k) as [v'|] eqn:Ev; [|done]. injection Hv as ->.
  apply ffill_defined. rewrite Elw.
  apply lookup_zip_with_Some.
  exists (Some (cloud c (clear (t + cnst.KELVIN) (v * 10)))), (Some (t + cnst.KELVIN)).
  split; [reflexivity|].
  split; [|by rewrite !list_lookup_fmap, Et].
  apply lookup_zip_with_Some.
  exists (Some c), (Some (clear (t + cnst.KELVIN) (v * 10))).
  split; [reflexivity|]. split; [exact Hc|].
  apply lookup_zip_with_Some.
  exists (Some (t + cnst.KELVIN)), (Some (v * 10)).
  split; [reflexivity|]. by rewrite !list_lookup_fmap, Et, Ev.
Qed.
End OutputTable2.

(** The two-day example at a six-hour step returns a table, the fifteenth
    object of the heap. *)
Lemma example_run_returns :
  (disaggregate (H := example_physics) example_daily
     (example_params "uniform" "default" "default") example_solar_geom
     None None example_kwargs example_heap).1 = Ok 14%nat.
Proof. vm_compute. reflexivity. Qed.

(** The two-day example at a six-hour step. *)
Lemma output_columns_witness :
  exists idx cols,
    (disaggregate (H := example_physics) example_daily
       (example_params "uniform" "default" "default") example_solar_geom
       None None example_kwargs example_heap).2 !! 14%nat
    = Some (DataFrame idx cols)
    /\ map fst cols
       = ["shortwave"; "temp"; "vapor_pressure"; "rel_humid"; "longwave";
          "tskc"; "prec"]
         ++ match daily_columns example_daily !! "wind" with
            | Some _ => ["wind"]
            | None => []
            end.
Proof.
  apply (output_columns (H := example_physics) example_daily
           (example_params "uniform" "default" "default") example_solar_geom
           None None example_kwargs example_heap 14%nat).
  exact example_run_returns.
Defined.

(** The two-day example at a six-hour step: totals 0 and 10. *)
Lemma output_prec_uniform_witness :
  exists idx cols c,
    (disaggregate (H := example_physics) example_daily
       (example_params "uniform" "default" "default") example_solar_geom
       None None example_kwargs example_heap).2 !! 14%nat
    = Some (DataFrame idx cols)
    /\ idx = stamps 0 360 (Z.of_nat (length [0; 10]) * 4)
    /\ get_column "prec" cols = Some c
    /\ forall (d r : nat) (p_d : Q),
         [0; 10] !! d = Some p_d -> (Z.of_nat r < 4)%Z ->
         c !! (d * Z.to_nat 4 + r)%nat
         = Some (Some (p_d * (Z2Q 360 / (cnst.MIN_PER_HOUR * cnst.HOURS_PER_DAY)))).
Proof.
  apply (output_prec_uniform (H := example_physics) example_daily
           (example_params "uniform" "default" "default") example_solar_geom
           None None example_kwargs example_heap 14%nat 0 4 6%nat [0; 10]);
    [exact example_run_returns | reflexivity | reflexivity | reflexivity
     | reflexivity | vm_compute; reflexivity | reflexivity].
Defined.

(** The two-day example at a six-hour step: winds 3 and 4. *)
Lemma output_wind_held_witness :
  exists idx cols c,
    (disaggregate (H := example_physics) example_daily
       (example_params "uniform" "default" "default") example_solar_geom
       None None example_kwargs example_heap).2 !! 14%nat
    = Some (DataFrame idx cols)
    /\ idx = stamps 0 360 (Z.of_nat (length [3; 4]) * 4)
    /\ get_column "wind" cols = Some c
    /\ forall (d r : nat) (w_d : Q),
         [3; 4] !! d = Some w_d -> (Z.of_nat r < 4)%Z ->
         c !! (d * Z.to_nat 4 + r)%nat = Some (Some w_d).
Proof.
  apply (output_wind_held (H := example_physics) example_daily
           (example_params "uniform" "default" "default") example_solar_geom
           None None example_kwargs example_heap 14%nat 0 4 7%nat [3; 4]);
    [exact example_run_returns | reflexivity | reflexivity | reflexivity
     | vm_compute; reflexivity | reflexivity].
Defined.

(** The two-day example at a six-hour step: cloud fractions 1/2 and
    1/4. *)
Lemma output_cloud_held_witness :
  exists idx cols c,
    (disaggregate (H := example_physics) example_daily
       (example_params "uniform" "default" "default") example_solar_geom
       None None example_kwargs example_heap).2 !! 14%nat
    = Some (DataFrame idx cols)
    /\ get_column "tskc" cols = Some c
    /\ forall (d r : nat) (c_d : Q),
         [1 # 2; 1 # 4] !! d = Some c_d -> (Z.of_nat r < 4)%Z ->
         c !! (d * Z.to_nat 4 + r)%nat = Some (Some c_d).
Proof.
  apply (output_cloud_held (H := example_physics) example_daily
           (example_params "uniform" "default" "default") example_solar_geom
           None None example_kwargs example_heap 14%nat 0 4 5%nat
           [1 # 2; 1 # 4]);
    [exact example_run_returns | reflexivity | reflexivity | reflexivity
     | vm_compute; reflexivity | reflexivity].
Defined.

(** The two-day example at a six-hour step. *)
Lemma output_humidity_range_witness :
  exists idx cols c,
    (disaggregate (H := example_physics) example_daily
       (example_params "uniform" "default" "default") example_solar_geom
       None None example_kwargs example_heap).2 !! 14%nat
    = Some (DataFrame idx cols)
    /\ get_column "rel_humid" cols = Some c
    /\ length c = length idx
    /\ Forall (fun x : cell => exists r, x = Some r /\ r <= cnst.MAX_PERCENT) c.
Proof.
  apply (output_humidity_range (H := example_physics) example_daily
           (example_params "uniform" "default" "default") example_solar_geom
           None None example_kwargs example_heap 14%nat).
  exact example_run_returns.
Defined.

(** The two-day example at a six-hour step, with the example saturation
    curve. *)
Lemma output_below_saturation_witness :
  exists idx cols ct cv,
    (disaggregate (H := example_physics) example_daily
       (example_params "uniform" "default" "default") example_solar_geom
       None None example_kwargs example_heap).2 !! 14%nat
    = Some (DataFrame idx cols)
    /\ get_column "temp" cols = Some ct
    /\ get_column "vapor_pressure" cols = Some cv
    /\ length ct = length idx /\ length cv = length idx
    /\ forall (k : nat) (t v : Q),
         ct !! k = Some (Some t) -> cv !! k = Some (Some v) ->
         v <= svp (Transcendental := example_physics) t / cnst.MBAR_PER_BAR.
Proof.
  apply (output_below_saturation (H := example_physics) example_daily
           (example_params "uniform" "default" "default") example_solar_geom
           None None example_kwargs example_heap 14%nat).
  exact example_run_returns.
Defined.

(** The two-day example at a six-hour step, with the default emissivity
    and cloud correction. *)
Lemma output_longwave_witness :
  exists idx cols ct cv cc cl,
    (disaggregate (H := example_physics) example_daily
       (example_params "uniform" "default" "default") example_solar_geom
       None None example_kwargs example_heap).2 !! 14%nat
    = Some (DataFrame idx cols)
    /\ get_column "temp" cols = Some ct
    /\ get_column "vapor_pressure" cols = Some cv
    /\ get_column "tskc" cols = Some cc
    /\ get_column "longwave" cols = Some cl
    /\ forall (k : nat) (t v c : Q),
         ct !! k = Some (Some t) -> cv !! k = Some (Some v) ->
         cc !! k = Some (Some c) ->
         cl !! k
         = Some (Some ((fun tskc emis => (1 + (17 # 100) * tskc ^ 2) * emis) c
                         ((fun air_temp vp => vp) (t + cnst.KELVIN) (v * 10))
                       * cnst.STEFAN_B * (t + cnst.KELVIN) ^ 4)).
Proof.
  apply (output_longwave (H := example_physics) example_daily
           (example_params "uniform" "default" "default") example_solar_geom
           None None example_kwargs example_heap 14%nat);
    [exact example_run_returns | reflexivity | reflexivity].
Defined.

Section OutputTable3.
Context `{Transcendental}.
Variables (df_daily : DailyFrame) (pr : params) (solar_geom : gmap string loc).
Variables (t_begin t_end : option (list Q)) (kwargs : gmap string loc).
Variable h : heap.

(** [disaggregate] returns a table only for a daily table that is not
    empty and has the columns [shortwave], [dayl], [t_min], [t_max],
    [vapor_pressure], [tskc] and [prec], a [tiny_rad_fract] entry of the
    solar geometry, known names of the two longwave methods, and the
    uniform method of precipitation or the triangle method with its [dur]
    and [t_pk] arguments. *)
Theorem required_inputs (l : loc) :
  (disaggregate df_daily pr solar_geom t_begin t_end kwargs h).1 = Ok l ->
  daily_index df_daily <> []
  /\ Forall (fun name => is_Some (daily_columns df_daily !! name))
       ["shortwave"; "dayl"; "t_min"; "t_max"; "vapor_pressure"; "tskc"; "prec"]
  /\ is_Some (solar_geom !! "tiny_rad_fract")
  /\ is_Some (emissivity_calc (upper (lw_type pr)))
  /\ is_Some (cloud_calc (upper (lw_cloud pr)))
  /\ (upper (prec_type pr) = "UNIFORM"
      \/ upper (prec_type pr) = "TRIANGLE"
         /\ is_Some (kwargs !! "dur") /\ is_Some (kwargs !! "t_pk")).
Proof.
  intros Hrun. destruct (disaggregate df_daily pr solar_geom t_begin t_end kwargs h)
    as [r hf] eqn:E. simpl in Hrun. subst r.
  apply disaggregate_trace in E
    as (last_day & first_day & dates & v_sw & v_temp & v_vp & times & rh & lw
        & c_prec & wind_part & E1 & _ & _ & Hsw & _ & _ & Htemp & Ltemp & Hvp
        & Lvp & _ & Hlw & Hprec & _ & _ & _).
  destruct Hsw as (sw_col & dayl_col & trf & _ & _ & Esw & Edl & Etr & _).
  destruct Htemp as (c1 & c2 & _ & _ & Ec1 & _ & Ec2 & _).
  destruct Hvp as (c3 & _ & Ec3 & _).
  destruct Hlw as (c4 & tskc & Ec4 & _ & Elw).
  destruct Hprec as (pc & kw & hk & hk' & Epc & _ & Erun & Hkw).
  apply longwave_whole in Elw as (clear & cloud & Eclear & Ecloud & _);
    [|by rewrite length_map..].
  split; [intros Hnil; by rewrite Hnil in E1|].
  split; [repeat constructor; by eexists|].
  split; [by eexists|]. split; [by eexists|]. split; [by eexists|].
  unfold prec in Erun. cbv zeta in Erun.
  destruct (String.eqb_spec (upper (prec_type pr)) "UNIFORM") as [Eu|_];
    [by left|].
  destruct (String.eqb_spec (upper (prec_type pr)) "TRIANGLE") as [Et|_];
    [|discriminate].
  right. split; [done|]. destruct Hkw as (dur & t_pk & Ed & Etp & _).
  split; by eexists.
Qed.

(** With the triangle method, on a record of at least two days whose
    time step divides the day into an even number of steps, with storms of
    at most a day that peak inside the day, the column [prec] of the table
    that [disaggregate] returns is defined at every step; its values differ
    from the total precipitation of the record by at most 0.000005 a step,
    and none is negative when no daily total is. *)
Theorem output_prec_triangle (l : loc) (steps : Z) (pc dur t_pk : loc)
    (p dur_v t_pk_v : list Q) :
  (disaggregate df_daily pr solar_geom t_begin t_end kwargs h).1 = Ok l ->
  upper (prec_type pr) = "TRIANGLE" ->
  (0 < time_step pr)%Z -> (1440 = steps * time_step pr)%Z ->
  Z.even steps = true ->
  daily_columns df_daily !! "prec" = Some pc ->
  h !! pc = Some (Ndarray p) -> (2 <= length p)%nat ->
  kwargs !! "dur" = Some dur -> kwargs !! "t_pk" = Some t_pk ->
  h !! dur = Some (Ndarray dur_v) -> h !! t_pk = Some (Ndarray t_pk_v) ->
  length dur_v = 12%nat -> length t_pk_v = 12%nat ->
  Forall (fun x => 0 < x <= 1440) dur_v ->
  Forall (fun x => 0 <= x < 1440) t_pk_v ->
  length (daily_month df_daily) = length p ->
  Forall (fun mo => 1 <= mo <= 12)%Z (daily_month df_daily) ->
  exists idx cols vals,
    (disaggregate df_daily pr solar_geom t_begin t_end kwargs h).2 !! l
    = Some (DataFrame idx cols)
    /\ get_column "prec" cols = Some (map Some vals)
    /\ length vals = Z.to_nat (steps * Z.of_nat (length p))
    /\ Qabs (qsum vals - qsum p)
       <= Z2Q (steps * Z.of_nat (length p)) * (1 # 200000)
    /\ (Forall (fun x => 0 <= x) p -> Forall (fun x => 0 <= x) vals).
Proof.
  intros Hrun Hname Hts Hdiv Heven Hpc Hp Hn Hdur Htpk Hd Ht Hld Hlt Hdr Htr
    Hlm Hmr.
  destruct (disaggregate df_daily pr solar_geom t_begin t_end kwargs h)
    as [r hf] eqn:E. simpl in Hrun. subst r.
  apply disaggregate_trace in E
    as (last_day & first_day & dates & v_sw & v_temp & v_vp & times & rh & lw
        & c_prec & wind_part & _ & _ & _ & _ & _ & _ & _ & _ & _ & _ & _ & _
        & Hprec & _ & _ & Hat).
  destruct Hprec as (pc' & kw & hk & hk' & Epc & Hold & Erun & Hkw).
  assert (pc' = pc) as -> by congruence.
  rewrite Hname in Hkw. simpl in Hkw.
  destruct Hkw as (dur' & t_pk' & Ed & Etp & ->).
  assert (dur' = dur) as -> by congruence.
  assert (t_pk' = t_pk) as -> by congruence.
  destruct (triangle_run pc (time_step pr) dur t_pk (daily_month df_daily) hk
              p dur_v t_pk_v steps Hts Hdiv Heven
              (take_lookup_old _ _ _ _ Hold Hp) Hn
              (take_lookup_old _ _ _ _ Hold Hd)
              (take_lookup_old _ _ _ _ Hold Ht) Hld Hlt Hdr Htr Hlm Hmr)
    as (vals & Etri & Lvals & _ & Hsum & Hnn).
  unfold prec in Erun. cbv zeta in Erun. rewrite Hname in Erun.
  cbn [String.eqb Ascii.eqb Bool.eqb kw_dur kw_t_pk kw_day_of_year
       kw_month_of_year] in Erun.
  apply bind_inv in Erun as (x1 & h1 & [[= <-] ->]%kwarg_inv & Erun).
  apply bind_inv in Erun as (x2 & h1 & [[= <-] ->]%kwarg_inv & Erun).
  apply bind_inv in Erun as (x3 & h1 & [_ ->]%kwarg_inv & Erun).
  apply bind_inv in Erun as (x4 & h1 & [[= <-] ->]%kwarg_inv & Erun).
  apply bind_inv in Erun as (v & hv & Ev & Erun).
  rewrite Ev in Etri. simpl in Etri. injection Etri as ->.
  injection Erun as <- _.
  eexists _, _, (map around5 vals). split; [exact Hat|].
  split.
  { cbn. unfold ffill. by rewrite ffill_from_whole. }
  split; [by rewrite length_map|]. split; [exact Hsum | exact Hnn].
Qed.
End OutputTable3.

(** The two-day example at a six-hour step. *)
Lemma required_inputs_witness :
  daily_index example_daily <> []
  /\ Forall (fun name => is_Some (daily_columns example_daily !! name))
       ["shortwave"; "dayl"; "t_min"; "t_max"; "vapor_pressure"; "tskc"; "prec"]
  /\ is_Some (example_solar_geom !! "tiny_rad_fract")
  /\ is_Some (emissivity_calc (H := example_physics)
                (upper (lw_type (example_params "uniform" "default" "default"))))
  /\ is_Some (cloud_calc
                (upper (lw_cloud (example_params "uniform" "default" "default"))))
  /\ (upper (prec_type (example_params "uniform" "default" "default")) = "UNIFORM"
      \/ upper (prec_type (example_params "uniform" "default" "default")) = "TRIANGLE"
         /\ is_Some (example_kwargs !! "dur") /\ is_Some (example_kwargs !! "t_pk")).
Proof.
  apply (required_inputs (H := example_physics) example_daily
           (example_params "uniform" "default" "default") example_solar_geom
           None None example_kwargs example_heap 14%nat).
  exact example_run_returns.
Defined.

(** The two-day example at a six-hour step, with four-hour storms around
    noon. *)
Lemma output_prec_triangle_witness :
  exists idx cols vals,
    (disaggregate (H := example_physics) example_daily
       (example_params "triangle" "default" "default") example_solar_geom
       None None example_kwargs example_heap).2 !! 16%nat
    = Some (DataFrame idx cols)
    /\ get_column "prec" cols = Some (map Some vals)
    /\ length vals = Z.to_nat (4 * Z.of_nat (length [0; 10]))
    /\ Qabs (qsum vals - qsum [0; 10])
       <= Z2Q (4 * Z.of_nat (length [0; 10])) * (1 # 200000)
    /\ (Forall (fun x => 0 <= x) [0; 10] -> Forall (fun x => 0 <= x) vals).
Proof.
  apply (output_prec_triangle (H := example_physics) example_daily
           (example_params "triangle" "default" "default") example_solar_geom
           None None example_kwargs example_heap 16%nat 4 6%nat 9%nat 10%nat
           [0; 10] (replicate 12 240) (replicate 12 720));
    [vm_compute; reflexivity | reflexivity | reflexivity | reflexivity
     | reflexivity | vm_compute; reflexivity | reflexivity | simpl; lia
     | vm_compute; reflexivity | vm_compute; reflexivity | reflexivity
     | reflexivity | reflexivity | reflexivity
     | apply Forall_replicate; split; [reflexivity | discriminate]
     | apply Forall_replicate; split; [discriminate | reflexivity]
     | reflexivity | repeat constructor; lia].
Defined.

(** ** Days of one daylight *)

Lemma increasing_tail (x : Z) (l : list Z) : increasing (x :: l) -> increasing l.
Proof. intros Hl i j u v Hij Hu Hv. apply (Hl (S i) (S j) u v); (lia || done). Qed.

Lemma increasing_head (x y : Z) (l : list Z) :
  increasing (x :: l) -> y ∈ l -> (x < y)%Z.
Proof.
  intros Hl [j Hj]%list_elem_of_lookup_1. apply (Hl 0%nat (S j) x y); (lia || done).
Qed.

(** Two increasing lists with the same elements are the same list. *)
Lemma increasing_unique (l k : list Z) :
  increasing l -> increasing k -> (forall x, x ∈ l <-> x ∈ k) -> l = k.
Proof.
  revert k. induction l as [|x l IH]; intros [|y k] Hl Hk Hmem.
  - done.
  - exfalso. apply (elem_of_nil y). apply Hmem. by left.
  - exfalso. apply (elem_of_nil x). apply Hmem. by left.
  - assert (x = y) as ->.
    { assert (Hx : x ∈ y :: k) by (apply Hmem; by left).
      assert (Hy : y ∈ x :: l) by (apply Hmem; by left).
      apply elem_of_cons in Hx as [->|Hx]; [done|].
      apply elem_of_cons in Hy as [->|Hy]; [done|].
      pose proof (increasing_head _ _ _ Hk Hx).
      pose proof (increasing_head _ _ _ Hl Hy). lia. }
    f_equal. apply IH; [by eapply increasing_tail | by eapply increasing_tail|].
    intros z. split; intros Hz.
    + assert (Hz' : z ∈ y :: k) by (apply Hmem; by right).
      apply elem_of_cons in Hz' as [->|Hz']; [|done].
      pose proof (increasing_head _ _ _ Hl Hz). lia.
    + assert (Hz' : z ∈ y :: l) by (apply Hmem; by right).
      apply elem_of_cons in Hz' as [->|Hz']; [|done].
      pose proof (increasing_head _ _ _ Hk Hz). lia.
Qed.

Lemma np_where_from_increasing (s : Z) (test : Z -> bool) (a : list Z) :
  increasing (np_where_from s test a).
Proof.
  revert s. induction a as [|x a IH]; intros s; simpl.
  - intros i j u v _ Hu. done.
  - destruct (test x); [|apply IH].
    intros [|i] [|j] u v Hij Hu Hv; simpl in *; try lia.
    + injection Hu as <-.
      apply list_elem_of_lookup_2 in Hv. apply np_where_from_spec in Hv. lia.
    + apply (IH (s + 1)%Z i j u v); (lia || done).
Qed.

(** The converse of [sunrise_spec] and [sunset_spec]. *)
Lemma sunrise_found (rad : list cell) (i : Z) :
  (0 <= i)%Z -> (i + 1 < Z.of_nat (length rad))%Z ->
  lit rad i = false -> lit rad (i + 1) = true -> i ∈ sunrises rad.
Proof.
  intros Hi Hlen H0 H1. unfold sunrises, np_where. apply np_where_from_spec.
  split; [done|]. exists 1%Z. split; [|done].
  replace (i - 0)%Z with i by lia. apply lookup_np_diff.
  exists 0%Z, 1%Z. split; [|split; [|done]].
  - apply lookup_rad_mask. split; [lia|]. by rewrite Z2Nat.id, H0 by lia.
  - apply lookup_rad_mask. split; [lia|].
    replace (Z.of_nat (S (Z.to_nat i))) with (i + 1)%Z by lia. by rewrite H1.
Qed.

Lemma sunset_found (rad : list cell) (j : Z) :
  (0 <= j)%Z -> (j + 1 < Z.of_nat (length rad))%Z ->
  lit rad j = true -> lit rad (j + 1) = false -> j ∈ sunsets rad.
Proof.
  intros Hj Hlen H1 H0. unfold sunsets, np_where. apply np_where_from_spec.
  split; [done|]. exists (-1)%Z. split; [|done].
  replace (j - 0)%Z with j by lia. apply lookup_np_diff.
  exists 1%Z, 0%Z. split; [|split; [|done]].
  - apply lookup_rad_mask. split; [lia|]. by rewrite Z2Nat.id, H1 by lia.
  - apply lookup_rad_mask. split; [lia|].
    replace (Z.of_nat (S (Z.to_nat j))) with (j + 1)%Z by lia. by rewrite H0.
Qed.

Lemma lit_inside (rad : list cell) (i : Z) :
  lit rad i = true -> (Z.to_nat i < length rad)%nat.
Proof.
  unfold lit. destruct (rad !! Z.to_nat i) eqn:E; [|done].
  intros _. by eapply lookup_lt_Some.
Qed.

Section OneDaylight.
Variables (steps : Z) (first_lit first_dark : list Z) (rad : list cell).
Hypothesis steps_pos : (0 < steps)%Z.
Hypothesis same_days : length first_dark = length first_lit.
Hypothesis whole_days :
  Z.of_nat (length rad) = (Z.of_nat (length first_lit) * steps)%Z.
Hypothesis inside_day :
  forall (day : nat) (a b : Z),
    first_lit !! day = Some a -> first_dark !! day = Some b ->
    (1 <= a < b)%Z /\ (b < steps)%Z.
Hypothesis lit_daylight :
  forall i : Z,
    (0 <= i < Z.of_nat (length rad))%Z ->
    (lit rad i = true <-> in_daylight steps first_lit first_dark i).

Local Abbreviation n := (length first_lit).

(** The day and the step of the day of a step of the record. *)
Lemma day_of_step (i : Z) :
  (0 <= i < Z.of_nat (length rad))%Z ->
  exists (day : nat) (a b : Z),
    first_lit !! day = Some a /\ first_dark !! day = Some b
    /\ (Z.of_nat day * steps <= i < Z.of_nat day * steps + steps)%Z.
Proof using steps_pos same_days whole_days.
  intros Hi.
  assert (Hd : (Z.to_nat (i / steps) < n)%nat).
  { assert (i / steps < Z.of_nat n)%Z by (apply Z.div_lt_upper_bound; lia).
    assert (0 <= i / steps)%Z by (apply Z.div_pos; lia). lia. }
  destruct (lookup_lt_is_Some_2 first_lit _ Hd) as [a Ha].
  destruct (lookup_lt_is_Some_2 first_dark (Z.to_nat (i / steps)) ltac:(lia))
    as [b Hb].
  exists (Z.to_nat (i / steps)), a, b. split; [done|]. split; [done|].
  rewrite Z2Nat.id by (apply Z.div_pos; lia).
  pose proof (Z.div_mod i steps ltac:(lia)).
  pose proof (Z.mod_pos_bound i steps ltac:(lia)). lia.
Qed.

(** A step is lit exactly between its day's first lit step and its first
    dark step after it. *)
Lemma lit_in_day (day : nat) (a b j : Z) :
  first_lit !! day = Some a -> first_dark !! day = Some b ->
  (0 <= j < steps)%Z ->
  lit rad (Z.of_nat day * steps + j) = true <-> (a <= j < b)%Z.
Proof using All.
  intros Ha Hb Hj.
  pose proof (lookup_lt_Some _ _ _ Ha) as Hday.
  assert (Hin : (0 <= Z.of_nat day * steps + j < Z.of_nat (length rad))%Z) by nia.
  rewrite (lit_daylight _ Hin). split.
  - intros (day' & a' & b' & Ha' & Hb' & Hr).
    destruct (inside_day _ _ _ Ha' Hb') as [? ?].
    assert (day' = day) as -> by nia.
    assert (a' = a) as -> by congruence. assert (b' = b) as -> by congruence.
    lia.
  - intros Hr. exists day, a, b. split; [done|]. split; [done|]. lia.
Qed.

Lemma dark_first_step : lit rad 0 = false.
Proof using All.
  destruct (lit rad 0) eqn:E; [|done]. exfalso.
  pose proof (lit_inside _ _ E) as Hlen.
  apply lit_daylight in E as (day & a & b & Ha & Hb & Hr); [|lia].
  destruct (inside_day _ _ _ Ha Hb) as [? ?]. nia.
Qed.

Lemma dark_last_step : lit rad (Z.of_nat (length rad) - 1) = false.
Proof using All.
  destruct (lit rad _) eqn:E; [|done]. exfalso.
  pose proof (lit_inside _ _ E) as Hlen.
  destruct (Z.le_gt_cases (Z.of_nat (length rad)) 0) as [H0|H0]; [lia|].
  apply lit_daylight in E as (day & a & b & Ha & Hb & Hr); [|lia].
  destruct (inside_day _ _ _ Ha Hb) as [? ?].
  pose proof (lookup_lt_Some _ _ _ Ha) as Hday. nia.
Qed.

(** The sunrises: for each day, the step before its first lit step. *)
Lemma sunrises_of_days :
  sunrises rad
  = imap (fun day a => (Z.of_nat day * steps + a - 1)%Z) first_lit.
Proof using All.
  apply increasing_unique.
  - apply np_where_from_increasing.
  - intros i j x y Hij Hx Hy. rewrite list_lookup_imap in Hx, Hy.
    destruct (first_lit !! i) as [a|] eqn:Ea; [|done].
    destruct (first_lit !! j) as [a'|] eqn:Ea'; [|done].
    simpl in Hx, Hy. injection Hx as <-. injection Hy as <-.
    destruct (lookup_lt_is_Some_2 first_dark i) as [b Hb];
      [apply lookup_lt_Some in Ea; lia|].
    destruct (lookup_lt_is_Some_2 first_dark j) as [b' Hb'];
      [apply lookup_lt_Some in Ea'; lia|].
    destruct (inside_day _ _ _ Ea Hb) as [? ?].
    destruct (inside_day _ _ _ Ea' Hb') as [? ?]. nia.
  - intros i. split.
    + intros Hi. pose proof (sunrise_spec _ _ Hi) as (Hi0 & Hdark & Hlit).
      pose proof (lit_inside _ _ Hlit) as Hlen.
      destruct (day_of_step (i + 1) ltac:(lia)) as (day & a & b & Ha & Hb & Hr).
      destruct (inside_day _ _ _ Ha Hb) as [? ?].
      replace (i + 1)%Z with (Z.of_nat day * steps + (i + 1 - Z.of_nat day * steps))%Z
        in Hlit by lia.
      apply (lit_in_day day a b) in Hlit; [|done|done|lia].
      assert (Hstep : (i + 1 - Z.of_nat day * steps = a)%Z).
      { destruct (Z.eq_dec (i + 1 - Z.of_nat day * steps)%Z a) as [|Hne]; [done|].
        exfalso.
        assert (Hl : lit rad (Z.of_nat day * steps + (i - Z.of_nat day * steps)) = true)
          by (apply (lit_in_day day a b); [done|done|lia|lia]).
        replace (Z.of_nat day * steps + (i - Z.of_nat day * steps))%Z with i in Hl
          by lia.
        congruence. }
      apply elem_of_lookup_imap. exists day, a. split; [lia | done].
    + intros (day & a & -> & Ha)%elem_of_lookup_imap.
      pose proof (lookup_lt_Some _ _ _ Ha) as Hday.
      destruct (lookup_lt_is_Some_2 first_dark day ltac:(lia)) as [b Hb].
      destruct (inside_day _ _ _ Ha Hb) as [? ?].
      apply sunrise_found; [nia | nia | |].
      * destruct (lit rad _) eqn:E; [|done]. exfalso.
        replace (Z.of_nat day * steps + a - 1)%Z
          with (Z.of_nat day * steps + (a - 1))%Z in E by lia.
        apply (lit_in_day day a b) in E; [lia|done|done|lia].
      * replace (Z.of_nat day * steps + a - 1 + 1)%Z
          with (Z.of_nat day * steps + a)%Z by lia.
        apply (lit_in_day day a b); [done|done|lia|lia].
Qed.

(** The sunsets: for each day, the step before its first dark step. *)
Lemma sunsets_of_days :
  sunsets rad
  = imap (fun day b => (Z.of_nat day * steps + b - 1)%Z) first_dark.
Proof using All.
  apply increasing_unique.
  - apply np_where_from_increasing.
  - intros i j x y Hij Hx Hy. rewrite list_lookup_imap in Hx, Hy.
    destruct (first_dark !! i) as [b|] eqn:Eb; [|done].
    destruct (first_dark !! j) as [b'|] eqn:Eb'; [|done].
    simpl in Hx, Hy. injection Hx as <-. injection Hy as <-.
    destruct (lookup_lt_is_Some_2 first_lit i) as [a Ha];
      [apply lookup_lt_Some in Eb; lia|].
    destruct (lookup_lt_is_Some_2 first_lit j) as [a' Ha'];
      [apply lookup_lt_Some in Eb'; lia|].
    destruct (inside_day _ _ _ Ha Eb) as [? ?].
    destruct (inside_day _ _ _ Ha' Eb') as [? ?]. nia.
  - intros i. split.
    + intros Hi. pose proof (sunset_spec _ _ Hi) as (Hi0 & Hlit & Hdark).
      pose proof (lit_inside _ _ Hlit) as Hlen.
      destruct (day_of_step i ltac:(lia)) as (day & a & b & Ha & Hb & Hr).
      destruct (inside_day _ _ _ Ha Hb) as [? ?].
      replace i with (Z.of_nat day * steps + (i - Z.of_nat day * steps))%Z
        in Hlit by lia.
      apply (lit_in_day day a b) in Hlit; [|done|done|lia].
      assert (Hstep : (i + 1 - Z.of_nat day * steps = b)%Z).
      { destruct (Z.eq_dec (i + 1 - Z.of_nat day * steps)%Z b) as [|Hne]; [done|].
        exfalso.
        assert (Hl : lit rad (Z.of_nat day * steps + (i + 1 - Z.of_nat day * steps)) = true)
          by (apply (lit_in_day day a b); [done|done|lia|lia]).
        replace (Z.of_nat day * steps + (i + 1 - Z.of_nat day * steps))%Z
          with (i + 1)%Z in Hl by lia.
        congruence. }
      apply elem_of_lookup_imap. exists day, b. split; [lia | done].
    + intros (day & b & -> & Hb)%elem_of_lookup_imap.
      pose proof (lookup_lt_Some _ _ _ Hb) as Hday.
      destruct (lookup_lt_is_Some_2 first_lit day ltac:(lia)) as [a Ha].
      destruct (inside_day _ _ _ Ha Hb) as [? ?].
      apply sunset_found; [nia | nia | |].
      * replace (Z.of_nat day * steps + b - 1)%Z
          with (Z.of_nat day * steps + (b - 1))%Z by lia.
        apply (lit_in_day day a b); [done|done|lia|lia].
      * destruct (lit rad _) eqn:E; [|done]. exfalso.
        replace (Z.of_nat day * steps + b - 1 + 1)%Z
          with (Z.of_nat day * steps + b)%Z in E by lia.
        apply (lit_in_day day a b) in E; [lia|done|done|lia].
Qed.
End OneDaylight.

(** ** A run of [disaggregate] that returns *)

Lemma frame_setitem_ok (h0 : heap) (dates : list Z)
    (cols : list (string * list cell)) (hk : heap) (name : string)
    (value : column) :
  kept h0 dates cols hk ->
  length (column_cells dates value) = length dates ->
  frame_setitem (length h0) name value hk
  = (Ok tt, <[length h0 := DataFrame dates
                             (set_column name (column_cells dates value) cols)]> hk).
Proof.
  intros K L. pose proof (kept_frame _ _ _ _ K) as Hdf. unfold frame_setitem.
  rewrite (bind_ok _ _ _ _ _ (load_frame_ok _ _ _ _ Hdf)). cbn [fst snd].
  destruct value as [v | sidx svals]; simpl in *.
  - rewrite length_map in L. rewrite L, Nat.eqb_refl.
    by rewrite (store_ok _ _ _ _ Hdf).
  - by rewrite (store_ok _ _ _ _ Hdf).
Qed.

Lemma frame_getitem_ok (h0 : heap) (dates : list Z)
    (cols : list (string * list cell)) (hk : heap) (name : string)
    (c : list cell) :
  kept h0 dates cols hk -> get_column name cols = Some c ->
  frame_getitem (length h0) name hk = (Ok c, hk).
Proof.
  intros K E. pose proof (kept_frame _ _ _ _ K) as Hdf. unfold frame_getitem.
  rewrite (bind_ok _ _ _ _ _ (load_frame_ok _ _ _ _ Hdf)). cbn [fst snd].
  by rewrite E.
Qed.

Lemma daily_getitem_ok (df : DailyFrame) (name : string) (l : loc) (h : heap) :
  daily_columns df !! name = Some l -> daily_getitem df name h = (Ok l, h).
Proof. intros E. unfold daily_getitem. by rewrite E. Qed.

Lemma load_kept (h0 : heap) (dates : list Z) (cols : list (string * list cell))
    (hk : heap) (l : loc) (x : list Q) :
  kept h0 dates cols hk -> h0 !! l = Some (Ndarray x) ->
  load_ndarray l hk = (Ok x, hk).
Proof.
  intros K E. apply load_ndarray_ok.
  eapply take_lookup_old; [eapply kept_old; exact K | exact E].
Qed.

Section ShortwaveDaylight.
Variables (table : list (list Q)) (day_of_year : list Z) (pr : params).
Variables (steps : Z) (sw dl out : list Q) (first_lit first_dark : list Z).
Hypothesis steps_pos : (0 < steps)%Z.
Hypothesis lit_days : length first_lit = length sw.
Hypothesis dark_days : length first_dark = length sw.
Hypothesis same_length : length sw = length dl.
Hypothesis energy : Forall (fun x => 0 < x) (zip_with Qmult sw dl).
Hypothesis weights :
  forall (day : nat) (a b : Z),
    first_lit !! day = Some a -> first_dark !! day = Some b ->
    (1 <= a < b)%Z /\ (b < steps)%Z
    /\ exists w,
        day_weights table day_of_year pr (Z.of_nat day) = Ok w
        /\ forall (j : nat) (x : Q),
             w !! j = Some x -> (0 < x <-> (a <= Z.of_nat j < b)%Z).
Hypothesis filled :
  sw_filled table day_of_year pr steps (Z.of_nat (length sw))
    (map (fun x => x / cnst.SEC_PER_HOUR) (zip_with Qmult sw dl))
    (Z.of_nat (length sw)) out.
Hypothesis weights_length :
  forall (day : Z) (w : list Q),
    day_weights table day_of_year pr day = Ok w -> length w = Z.to_nat steps.

(** The array that [shortwave] returns is lit exactly in the daylight of
    each day. *)
Lemma shortwave_daylight (i : Z) :
  (0 <= i < Z.of_nat (length (map Some out)))%Z ->
  lit (map Some out) i = true <-> in_daylight steps first_lit first_dark i.
Proof using All.
  destruct filled as [Hlen Hfill]. rewrite length_map. intros Hi.
  assert (Hd : (Z.to_nat (i / steps) < length sw)%nat).
  { assert (i / steps < Z.of_nat (length sw))%Z by (apply Z.div_lt_upper_bound; lia).
    assert (0 <= i / steps)%Z by (apply Z.div_pos; lia). lia. }
  set (day := Z.to_nat (i / steps)) in *.
  assert (Hday : Z.of_nat day = (i / steps)%Z)
    by (unfold day; rewrite Z2Nat.id; [done | apply Z.div_pos; lia]).
  pose proof (Z.div_mod i steps ltac:(lia)) as Hdm.
  pose proof (Z.mod_pos_bound i steps ltac:(lia)) as Hmod.
  set (j := Z.to_nat (i mod steps)) in *.
  assert (Hj : Z.of_nat j = (i mod steps)%Z) by (unfold j; lia).
  destruct (lookup_lt_is_Some_2 first_lit day ltac:(lia)) as [a Ha].
  destruct (lookup_lt_is_Some_2 first_dark day ltac:(lia)) as [b Hb].
  destruct (weights day a b Ha Hb) as (Hab & Hbs & w & Ew & Hw).
  pose proof (weights_length _ _ Ew) as Lw.
  destruct (lookup_lt_is_Some_2 w j ltac:(lia)) as [x Hx].
  destruct (lookup_lt_is_Some_2 (zip_with Qmult sw dl) day) as [e He];
    [rewrite length_zip_with; lia|].
  pose proof (Forall_lookup_1 _ _ _ _ energy He) as Hpos. simpl in Hpos.
  assert (Hout : out !! Z.to_nat i = Some (x * (e / cnst.SEC_PER_HOUR))).
  { replace (Z.to_nat i) with (Z.to_nat (Z.of_nat day * steps) + j)%nat by nia.
    rewrite (Hfill (Z.of_nat day) j ltac:(lia) ltac:(lia)).
    unfold sw_value. rewrite Ew, Hx, Nat2Z.id, list_lookup_fmap, He. reflexivity. }
  assert (Hq : 0 < e / cnst.SEC_PER_HOUR).
  { apply Qlt_shift_div_l; [reflexivity | lra]. }
  assert (Hlit : lit (map Some out) i = true <-> (a <= Z.of_nat j < b)%Z).
  { unfold lit. rewrite list_lookup_fmap, Hout. simpl.
    rewrite Qlt_bool_iff, <- (Hw j x Hx). split; intros Hx0; nra. }
  rewrite Hlit. split.
  - intros Hr. exists day, a, b. split; [done|]. split; [done|]. lia.
  - intros (day' & a' & b' & Ha' & Hb' & Hr).
    destruct (weights day' a' b' Ha' Hb') as (? & ? & _).
    assert (day' = day) as -> by nia.
    assert (a' = a) as -> by congruence. assert (b' = b) as -> by congruence.
    lia.
Qed.
End ShortwaveDaylight.

Lemma getitem_stamps_first (first step n : Z) :
  (1 <= n)%Z -> getitem (stamps first step n) 0 = Ok first.
Proof.
  intros Hn. apply getitem_ok; [lia|].
  rewrite lookup_stamps by lia. f_equal. lia.
Qed.

Lemma getitem_stamps_last (first step n : Z) :
  (1 <= n)%Z ->
  getitem (stamps first step n) (-1) = Ok (first + (n - 1) * step)%Z.
Proof.
  intros Hn. unfold getitem. rewrite length_stamps.
  change (-1 <? 0)%Z with true. cbv iota.
  destruct (Z.ltb_spec (Z.of_nat (Z.to_nat n) + -1) 0); [lia|].
  rewrite lookup_stamps by lia. do 3 f_equal. lia.
Qed.

Lemma date_range_record (first ts steps n : Z) :
  (0 < ts)%Z -> (1440 = steps * ts)%Z -> (1 <= n)%Z ->
  date_range first (first + (n - 1) * 1440 + 1440 - ts) ts
  = Ok (stamps first ts (n * steps)).
Proof.
  intros Hts Hdiv Hn. unfold date_range, stamps.
  destruct (Z.leb_spec ts 0); [lia|]. do 3 f_equal.
  replace (first + (n - 1) * 1440 + 1440 - ts - first)%Z
    with ((n * steps - 1) * ts)%Z by (rewrite Hdiv; ring).
  rewrite Z.div_mul by lia. lia.
Qed.

Lemma bind_assoc {A B C} (m : M A) (k1 : A -> M B) (k2 : B -> M C) (h : heap) :
  bind (bind m k1) k2 h = bind m (fun x => bind (k1 x) k2) h.
Proof. unfold bind. by destruct (m h) as [[a|e] h']. Qed.

Section RoutinesReturn.
Context `{Transcendental}.

Lemma vapor_pressure_ok (vp_daily : list Q) (temp : list cell)
    (t_t_min : list Q) (n_out : Z) (ts : Q) :
  length t_t_min = length vp_daily -> (2 <= length vp_daily)%nat ->
  length temp = Z.to_nat n_out ->
  exists v, vapor_pressure vp_daily temp t_t_min n_out ts = Ok v
            /\ length v = length temp.
Proof.
  intros L1 L2 L3.
  destruct (interp1d_ok t_t_min (map (fun v => v / cnst.MBAR_PER_BAR) vp_daily))
    as [interp Ei]; [by rewrite length_map | by rewrite length_map|].
  unfold vapor_pressure. rewrite Ei. cbn [rbind].
  rewrite np_binop_same_length by (rewrite !length_map, length_seqZ; lia).
  eexists. split; [reflexivity|].
  rewrite length_zip_with, !length_map, length_seqZ. lia.
Qed.

Lemma relative_humidity_ok (vp temp : list cell) :
  length vp = length temp ->
  exists rh, relative_humidity vp temp = Ok rh.
Proof.
  intros L. unfold relative_humidity. rewrite np_binop_same_length by done.
  cbn [rbind]. by eexists.
Qed.

Lemma longwave_ok (idx : list Z) (air vp : list cell) (tidx : list Z)
    (tskc : list Q) (pr : params) (clear cloud : Q -> Q -> Q) :
  emissivity_calc (upper (lw_type pr)) = Some clear ->
  cloud_calc (upper (lw_cloud pr)) = Some cloud ->
  length air = length idx -> length vp = length idx ->
  exists lw, longwave idx air vp tidx tskc pr = Ok lw.
Proof.
  intros Eclear Ecloud La Lv. unfold longwave, lookup_method. cbv zeta.
  rewrite Eclear, Ecloud. cbn [rbind].
  assert (Lc : length (ffill (reindex tidx (map Some tskc) idx)) = length idx).
  { unfold ffill, reindex. by rewrite length_ffill_from, length_map. }
  rewrite np_binop_same_length by (rewrite !length_map; lia).
  cbn [rbind].
  rewrite np_binop_same_length by (rewrite length_zip_with, !length_map; lia).
  cbn [rbind].
  rewrite np_binop_same_length by (rewrite !length_zip_with, !length_map; lia).
  cbn [rbind]. by eexists.
Qed.

End RoutinesReturn.

